(** * cjdns: the session manager (net/SessionManager.c) and the pathfinder
      event loop (dht/Pathfinder.c), embedded as Rocq functions.

    Conventions of the embedding.
    - Every C integer is a [Z]; where the source relies on a width (the
      32-bit handle arithmetic) the wrap-around is written out.  The fields of
      [struct SessionManager_Session] and [struct SessionManager] are declared
      in net/SessionManager.h, which is not part of the sources at hand: the
      time stamps are taken to be [uint64_t] and the timeouts [int64_t], so
      the two time tests of [checkTimedOutSessions] subtract and compare
      modulo 2^64.  The age of a buffered message is a signed difference
      ([int64_t lag]) and is the difference of the numbers; the byte counters
      are plain integers.
    - A field whose name ends in [_be] is represented by the number its bytes
      spell in network order.  [Endian_hostToBigEndian*] and
      [Endian_bigEndianToHost*] are then the identity, and
      [Bits_bitReverse64], which commutes with a byte swap, is the 64-bit
      reversal of that number.  The one place where the source reads a [_be]
      field without converting it goes through [Endian_raw32].
    - A [struct Message] is a buffer together with the position of
      [msg->bytes] in it and [msg->length]; pointers into the message are
      positions in the buffer.
    - [Assert_true], [Assert_failure] and [Er_assert] abort the process: the
      computation ends in [Fatal].
    - The interfaces are synchronous calls in C; here every message handed to
      [Iface_send]/[Iface_next] is appended to the list of outputs of the
      handler.
    - Logging is left out. *)

From Stdlib Require Import ZArith List Bool Lia.
From Stdlib Require String Ascii.
Import ListNotations.
Open Scope Z_scope.

Set Implicit Arguments.

(** ** Bytes and memory *)

Fixpoint be_bytes (n : nat) (v : Z) : list Z :=
  match n with
  | O => []
  | S k => (Z.shiftr v (8 * Z.of_nat k)) mod 256 :: be_bytes k v
  end.

Definition be_value (l : list Z) : Z :=
  fold_left (fun a b => a * 256 + b) l 0.

Fixpoint bitReverse (n : nat) (v acc : Z) : Z :=
  match n with
  | O => acc
  | S k => bitReverse k (Z.shiftr v 1) (Z.lor (Z.shiftl acc 1) (Z.land v 1))
  end.

Definition Bits_bitReverse64 (v : Z) : Z := bitReverse 64 v 0.

Definition bswap32 (v : Z) : Z := be_value (rev (be_bytes 4 v)).

Fixpoint bytes_eqb (a b : list Z) : bool :=
  match a, b with
  | [], [] => true
  | x :: a', y :: b' => (x =? y) && bytes_eqb a' b'
  | _, _ => false
  end.

Definition Bits_isZero (l : list Z) : bool := forallb (fun b => b =? 0) l.

Definition zeros (n : Z) : list Z := repeat 0 (Z.to_nat n).

Definition mem_read (b : list Z) (p n : Z) : list Z :=
  firstn (Z.to_nat n) (skipn (Z.to_nat p) b).

Definition mem_write (b : list Z) (p : Z) (data : list Z) : list Z :=
  firstn (Z.to_nat p) b ++ data ++ skipn (Z.to_nat p + length data) b.

(** ** Results *)

Inductive res (A : Type) : Type :=
| Ok (a : A)
| Fatal.
Arguments Fatal {A}.

(** ** Messages

    Modelled from the spec: wire/Message.h is not in src/.  A frame is a byte
    buffer with head-room reserved for pushes.  [off] is the position of
    [msg->bytes] (the head-room, [msg->padding]); [len] is [msg->length]. *)

Record Message : Type := mkMessage {
  buf : list Z;
  off : Z;
  len : Z
}.

Definition Message_bytes (m : Message) : list Z := mem_read (buf m) (off m) (len m).

Definition Message_new (messageLength amountOfPadding : Z) : Message :=
  mkMessage (zeros (amountOfPadding + messageLength)) amountOfPadding messageLength.

Definition Message_eshift (m : Message) (amount : Z) : res Message :=
  if (0 <? amount) && (off m <? amount) then Fatal
  else if len m <? - amount then Fatal
  else Ok (mkMessage (buf m) (off m - amount) (len m + amount)).

Definition Message_epush (m : Message) (object : list Z) : res Message :=
  match Message_eshift m (Z.of_nat (length object)) with
  | Ok m' => Ok (mkMessage (mem_write (buf m') (off m') object) (off m') (len m'))
  | Fatal => Fatal
  end.

Definition Message_epop (m : Message) (size : Z) : res (list Z * Message) :=
  match Message_eshift m (- size) with
  | Ok m' => Ok (mem_read (buf m) (off m) size, m')
  | Fatal => Fatal
  end.

Definition Message_epush32be (m : Message) (v : Z) : res Message :=
  Message_epush m (be_bytes 4 v).

Definition Message_epush16be (m : Message) (v : Z) : res Message :=
  Message_epush m (be_bytes 2 v).

Definition Message_epop32be (m : Message) : res (Z * Message) :=
  match Message_epop m 4 with
  | Ok (b, m') => Ok (be_value b, m')
  | Fatal => Fatal
  end.

Definition Message_epop16be (m : Message) : res (Z * Message) :=
  match Message_epop m 2 with
  | Ok (b, m') => Ok (be_value b, m')
  | Fatal => Fatal
  end.

Definition Message_setLength (m : Message) (l : Z) : Message :=
  mkMessage (buf m) (off m) l.

(** A struct that lives in the message buffer at position [p], read and
    written through a pointer. *)
Definition Message_struct (m : Message) (p size : Z) : list Z :=
  mem_read (buf m) p size.

Definition Message_setStruct (m : Message) (p : Z) (s : list Z) : Message :=
  mkMessage (mem_write (buf m) p s) (off m) (len m).

(** A message whose bytes lie inside its buffer. *)
Definition Message_ok (m : Message) : Prop :=
  0 <= off m /\ 0 <= len m /\ off m + len m <= Z.of_nat (length (buf m)).


(** ** The slotted map

    Modelled from the spec: util/Map.h is not in src/.  The map is an array of
    slots in insertion order; [indexForKey] answers with the slot of a key,
    [put] overwrites the value of a key that is present and otherwise appends
    a slot, which gets the next integer of a monotone counter as its handle;
    [remove] deletes a slot and closes the gap.  A lookup that finds nothing
    (-1 in C) is [None]. *)

Record Map_Entry (V : Type) : Type := mkEntry {
  Map_key : list Z;
  Map_handle : Z;
  Map_value : V
}.

Record Map (V : Type) : Type := mkMap {
  Map_entries : list (Map_Entry V);
  Map_nextHandle : Z
}.

Definition Map_empty (V : Type) : Map V := mkMap [] 0.

Definition Map_count {V} (m : Map V) : Z := Z.of_nat (length (Map_entries m)).

Fixpoint find_index {A} (p : A -> bool) (l : list A) : option nat :=
  match l with
  | [] => None
  | x :: l' => if p x then Some O
               else match find_index p l' with
                    | Some i => Some (S i)
                    | None => None
                    end
  end.

Definition Map_indexForKey {V} (key : list Z) (m : Map V) : option nat :=
  find_index (fun e => bytes_eqb (Map_key e) key) (Map_entries m).

Definition Map_indexForHandle {V} (handle : Z) (m : Map V) : option nat :=
  find_index (fun e => Map_handle e =? handle) (Map_entries m).

Definition Map_entry {V} (m : Map V) (i : nat) : option (Map_Entry V) :=
  nth_error (Map_entries m) i.

Fixpoint list_update {A} (l : list A) (i : nat) (f : A -> A) : list A :=
  match l, i with
  | [], _ => []
  | x :: l', O => f x :: l'
  | x :: l', S j => x :: list_update l' j f
  end.

Fixpoint list_delete {A} (l : list A) (i : nat) : list A :=
  match l, i with
  | [], _ => []
  | _ :: l', O => l'
  | x :: l', S j => x :: list_delete l' j
  end.

Definition Map_update {V} (m : Map V) (i : nat) (f : V -> V) : Map V :=
  mkMap (list_update (Map_entries m) i
           (fun e => mkEntry (Map_key e) (Map_handle e) (f (Map_value e))))
        (Map_nextHandle m).

Definition Map_put {V} (key : list Z) (value : V) (m : Map V) : nat * Map V :=
  match Map_indexForKey key m with
  | Some i => (i, Map_update m i (fun _ => value))
  | None => (length (Map_entries m),
             mkMap (Map_entries m ++ [mkEntry key (Map_nextHandle m) value])
                   (Map_nextHandle m + 1))
  end.

Definition Map_remove {V} (i : nat) (m : Map V) : Map V :=
  mkMap (list_delete (Map_entries m) i) (Map_nextHandle m).

(** ** What the two files take from the rest of the repository

    [struct PFChan_Node] as the source fills it in (wire/PFChan.h). *)

Record PFChan_Node : Type := mkNode {
  path_be : Z;
  metric_be : Z;
  version_be : Z;
  node_ip6 : list Z;
  node_publicKey : list Z
}.

(** Constants, struct layouts and the CryptoAuth primitive are declared in
    headers and files that are not in src/.  They are taken as parameters:
    the constants as numbers, a struct field as the function that reads it
    from (or writes it into) the bytes of the struct, the cryptography as
    functions on an abstract session. *)

Class Externals : Type := {
  (* wire/Metric.h *)
  Metric_DEAD_LINK : Z;
  Metric_SM_INCOMING : Z;
  Metric_SM_SEND : Z;
  (* wire/PFChan.h *)
  PFChan_Core_SEARCH_REQ : Z;
  PFChan_Core_SESSION : Z;
  PFChan_Core_SESSION_ENDED : Z;
  PFChan_Core_DISCOVERED_PATH : Z;
  PFChan_Core_UNSETUP_SESSION : Z;
  PFChan_Pathfinder_NODE : Z;
  PFChan_Pathfinder_SESSIONS : Z;
  PFChan_Node_SIZE : Z;
  PFChan_Node_encode : PFChan_Node -> list Z;
  PFChan_Node_decode : list Z -> PFChan_Node;
  (* wire/SwitchHeader.h *)
  SwitchHeader_SIZE : Z;
  SwitchHeader_CURRENT_VERSION : Z;
  SwitchHeader_label_be : list Z -> Z;
  SwitchHeader_set_label_be : Z -> list Z -> list Z;
  SwitchHeader_getSuppressErrors : list Z -> bool;
  SwitchHeader_setSuppressErrors : list Z -> bool -> list Z;
  SwitchHeader_setVersion : list Z -> Z -> list Z;
  (* wire/RouteHeader.h; [RouteHeader_sh] is the offset of the field [sh] *)
  RouteHeader_SIZE : Z;
  RouteHeader_sh : Z;
  RouteHeader_publicKey : list Z -> list Z;
  RouteHeader_ip6 : list Z -> list Z;
  RouteHeader_version_be : list Z -> Z;
  RouteHeader_flags : list Z -> Z;
  RouteHeader_set_publicKey : list Z -> list Z -> list Z;
  RouteHeader_set_ip6 : list Z -> list Z -> list Z;
  RouteHeader_set_version_be : Z -> list Z -> list Z;
  RouteHeader_set_flags : Z -> list Z -> list Z;
  RouteHeader_set_unused : Z -> list Z -> list Z;
  (* wire/DataHeader.h, wire/ContentType.h *)
  DataHeader_SIZE : Z;
  DataHeader_getContentType : list Z -> Z;
  ContentType_CJDHT : Z;
  (* wire/CryptoHeader.h *)
  CryptoHeader_SIZE : Z;
  CryptoHeader_publicKey : list Z -> list Z;
  (* wire/Error.h, wire/Control.h, util/Checksum.h *)
  Error_AUTHENTICATION : Z;
  Control_ERROR : Z;
  Checksum_engine : list Z -> Z;
  (* util/Endian.h: the byte order of the host *)
  Endian_isBigEndian : bool;
  (* crypto/AddressCalc.c: the first 16 bytes of the double SHA-512 of a key *)
  AddressCalc_hash : list Z -> list Z;
  (* crypto/CryptoAuth.h *)
  CryptoAuth_Session : Type;
  CryptoAuth_publicKey : list Z;
  CryptoAuth_State_RECEIVED_KEY : Z;
  herPublicKey : CryptoAuth_Session -> list Z;
  herIp6 : CryptoAuth_Session -> list Z;
  CryptoAuth_newSession : list Z -> CryptoAuth_Session;
  CryptoAuth_resetIfTimeout : Z -> CryptoAuth_Session -> CryptoAuth_Session;
  CryptoAuth_getState : CryptoAuth_Session -> Z;
  CryptoAuth_decrypt : CryptoAuth_Session -> Message -> Z * CryptoAuth_Session * Message;
  CryptoAuth_encrypt : CryptoAuth_Session -> Message -> Z * CryptoAuth_Session * Message;
  (* net/SessionManager.h *)
  SessionManager_SESSION_TIMEOUT_MILLISECONDS_DEFAULT : Z;
  SessionManager_MAX_BUFFERED_MESSAGES_DEFAULT : Z;
  SessionManager_SESSION_SEARCH_AFTER_MILLISECONDS_DEFAULT : Z
}.

(** Modelled from the spec: wire/RouteHeader.h is not in src/; the spec gives
    the flags as INCOMING = 1, CTRLMSG = 2, PATHFINDER = 4. *)
Definition RouteHeader_flags_INCOMING : Z := 1.
Definition RouteHeader_flags_CTRLMSG : Z := 2.
Definition RouteHeader_flags_PATHFINDER : Z := 4.

(** Handle numbers 0-3 are reserved for CryptoAuth nonces. *)
Definition MIN_FIRST_HANDLE : Z := 4.
Definition MAX_FIRST_HANDLE : Z := 100000.

Module SessionManager.

Section WithExternals.

Context {E : Externals}.

(** Modelled from the spec: crypto/AddressCalc.c is not in src/.  An address
    is valid when its first byte is 0xFC; the address of a key is the hash of
    the key, and the function reports whether that address is valid. *)
Definition AddressCalc_validAddress (address : list Z) : bool :=
  match address with
  | b :: _ => b =? 0xfc
  | [] => false
  end.

Definition AddressCalc_addressForPublicKey (key : list Z) : list Z * bool :=
  (AddressCalc_hash key, AddressCalc_validAddress (AddressCalc_hash key)).

(** A [_be] field read as a host integer without conversion. *)
Definition Endian_raw32 (v_be : Z) : Z :=
  if Endian_isBigEndian then v_be else bswap32 v_be.

(** Modelled from the spec: net/SessionManager.h is not in src/.  The time
    stamps of a session are [uint64_t] and the two timeouts of the manager
    are [int64_t]: the difference of a time and a stamp is taken modulo
    2^64, and a timeout is converted to [uint64_t] when the difference is
    compared with it. *)
Definition uint64 (z : Z) : Z := z mod 2 ^ 64.

(** ** State *)

Record BufferedMessage : Type := mkBuffered {
  bm_msg : Message;
  bm_alloc : Z;
  timeSentMilliseconds : Z
}.

(** [struct SessionManager_Session_pvt]: the public part [pub] followed by
    the private fields. *)
Record Session : Type := mkSession {
  caSession : CryptoAuth_Session;
  timeOfLastIn : Z;
  timeOfLastOut : Z;
  bytesOut : Z;
  bytesIn : Z;
  lastSearchTime : Z;
  timeOfKeepAliveIn : Z;
  sendHandle : Z;
  receiveHandle : Z;
  version : Z;
  metric : Z;
  sendSwitchLabel : Z;
  recvSwitchLabel : Z;
  maintainSession : Z;
  sess_alloc : Z;
  foundKey : bool
}.

Definition set_caSession v (s : Session) : Session :=
  mkSession v (timeOfLastIn s) (timeOfLastOut s) (bytesOut s) (bytesIn s)
    (lastSearchTime s) (timeOfKeepAliveIn s) (sendHandle s) (receiveHandle s)
    (version s) (metric s) (sendSwitchLabel s) (recvSwitchLabel s)
    (maintainSession s) (sess_alloc s) (foundKey s).
Definition set_timeOfLastIn v (s : Session) : Session :=
  mkSession (caSession s) v (timeOfLastOut s) (bytesOut s) (bytesIn s)
    (lastSearchTime s) (timeOfKeepAliveIn s) (sendHandle s) (receiveHandle s)
    (version s) (metric s) (sendSwitchLabel s) (recvSwitchLabel s)
    (maintainSession s) (sess_alloc s) (foundKey s).
Definition set_timeOfLastOut v (s : Session) : Session :=
  mkSession (caSession s) (timeOfLastIn s) v (bytesOut s) (bytesIn s)
    (lastSearchTime s) (timeOfKeepAliveIn s) (sendHandle s) (receiveHandle s)
    (version s) (metric s) (sendSwitchLabel s) (recvSwitchLabel s)
    (maintainSession s) (sess_alloc s) (foundKey s).
Definition set_bytesOut v (s : Session) : Session :=
  mkSession (caSession s) (timeOfLastIn s) (timeOfLastOut s) v (bytesIn s)
    (lastSearchTime s) (timeOfKeepAliveIn s) (sendHandle s) (receiveHandle s)
    (version s) (metric s) (sendSwitchLabel s) (recvSwitchLabel s)
    (maintainSession s) (sess_alloc s) (foundKey s).
Definition set_bytesIn v (s : Session) : Session :=
  mkSession (caSession s) (timeOfLastIn s) (timeOfLastOut s) (bytesOut s) v
    (lastSearchTime s) (timeOfKeepAliveIn s) (sendHandle s) (receiveHandle s)
    (version s) (metric s) (sendSwitchLabel s) (recvSwitchLabel s)
    (maintainSession s) (sess_alloc s) (foundKey s).
Definition set_lastSearchTime v (s : Session) : Session :=
  mkSession (caSession s) (timeOfLastIn s) (timeOfLastOut s) (bytesOut s) (bytesIn s)
    v (timeOfKeepAliveIn s) (sendHandle s) (receiveHandle s)
    (version s) (metric s) (sendSwitchLabel s) (recvSwitchLabel s)
    (maintainSession s) (sess_alloc s) (foundKey s).
Definition set_timeOfKeepAliveIn v (s : Session) : Session :=
  mkSession (caSession s) (timeOfLastIn s) (timeOfLastOut s) (bytesOut s) (bytesIn s)
    (lastSearchTime s) v (sendHandle s) (receiveHandle s)
    (version s) (metric s) (sendSwitchLabel s) (recvSwitchLabel s)
    (maintainSession s) (sess_alloc s) (foundKey s).
Definition set_sendHandle v (s : Session) : Session :=
  mkSession (caSession s) (timeOfLastIn s) (timeOfLastOut s) (bytesOut s) (bytesIn s)
    (lastSearchTime s) (timeOfKeepAliveIn s) v (receiveHandle s)
    (version s) (metric s) (sendSwitchLabel s) (recvSwitchLabel s)
    (maintainSession s) (sess_alloc s) (foundKey s).
Definition set_receiveHandle v (s : Session) : Session :=
  mkSession (caSession s) (timeOfLastIn s) (timeOfLastOut s) (bytesOut s) (bytesIn s)
    (lastSearchTime s) (timeOfKeepAliveIn s) (sendHandle s) v
    (version s) (metric s) (sendSwitchLabel s) (recvSwitchLabel s)
    (maintainSession s) (sess_alloc s) (foundKey s).
Definition set_version v (s : Session) : Session :=
  mkSession (caSession s) (timeOfLastIn s) (timeOfLastOut s) (bytesOut s) (bytesIn s)
    (lastSearchTime s) (timeOfKeepAliveIn s) (sendHandle s) (receiveHandle s)
    v (metric s) (sendSwitchLabel s) (recvSwitchLabel s)
    (maintainSession s) (sess_alloc s) (foundKey s).
Definition set_metric v (s : Session) : Session :=
  mkSession (caSession s) (timeOfLastIn s) (timeOfLastOut s) (bytesOut s) (bytesIn s)
    (lastSearchTime s) (timeOfKeepAliveIn s) (sendHandle s) (receiveHandle s)
    (version s) v (sendSwitchLabel s) (recvSwitchLabel s)
    (maintainSession s) (sess_alloc s) (foundKey s).
Definition set_sendSwitchLabel v (s : Session) : Session :=
  mkSession (caSession s) (timeOfLastIn s) (timeOfLastOut s) (bytesOut s) (bytesIn s)
    (lastSearchTime s) (timeOfKeepAliveIn s) (sendHandle s) (receiveHandle s)
    (version s) (metric s) v (recvSwitchLabel s)
    (maintainSession s) (sess_alloc s) (foundKey s).
Definition set_recvSwitchLabel v (s : Session) : Session :=
  mkSession (caSession s) (timeOfLastIn s) (timeOfLastOut s) (bytesOut s) (bytesIn s)
    (lastSearchTime s) (timeOfKeepAliveIn s) (sendHandle s) (receiveHandle s)
    (version s) (metric s) (sendSwitchLabel s) v
    (maintainSession s) (sess_alloc s) (foundKey s).
Definition set_maintainSession v (s : Session) : Session :=
  mkSession (caSession s) (timeOfLastIn s) (timeOfLastOut s) (bytesOut s) (bytesIn s)
    (lastSearchTime s) (timeOfKeepAliveIn s) (sendHandle s) (receiveHandle s)
    (version s) (metric s) (sendSwitchLabel s) (recvSwitchLabel s)
    v (sess_alloc s) (foundKey s).
Definition set_sess_alloc v (s : Session) : Session :=
  mkSession (caSession s) (timeOfLastIn s) (timeOfLastOut s) (bytesOut s) (bytesIn s)
    (lastSearchTime s) (timeOfKeepAliveIn s) (sendHandle s) (receiveHandle s)
    (version s) (metric s) (sendSwitchLabel s) (recvSwitchLabel s)
    (maintainSession s) v (foundKey s).
Definition set_foundKey v (s : Session) : Session :=
  mkSession (caSession s) (timeOfLastIn s) (timeOfLastOut s) (bytesOut s) (bytesIn s)
    (lastSearchTime s) (timeOfKeepAliveIn s) (sendHandle s) (receiveHandle s)
    (version s) (metric s) (sendSwitchLabel s) (recvSwitchLabel s)
    (maintainSession s) (sess_alloc s) v.

(** [struct SessionManager_pvt].  The sessions are owned by the slots of
    [ifaceMap]; a pointer to a session is the index of its slot.
    [eventBase] is the clock of the event loop, which stands still while a
    handler runs.  [liveAllocs] are the child allocators of [sm->alloc] that
    have not been freed (one per session and per buffered message; an
    allocator that a function creates and frees before it returns leaves no
    trace and is not modelled). *)
Record SessionManager_pvt : Type := mkSM {
  maxBufferedMessages : Z;
  sessionTimeoutMilliseconds : Z;
  sessionSearchAfterMilliseconds : Z;
  bufMap : Map BufferedMessage;
  ifaceMap : Map Session;
  firstHandle : Z;
  eventBase : Z;
  liveAllocs : list Z;
  nextAlloc : Z
}.

Definition set_bufMap v (sm : SessionManager_pvt) : SessionManager_pvt :=
  mkSM (maxBufferedMessages sm) (sessionTimeoutMilliseconds sm)
    (sessionSearchAfterMilliseconds sm) v (ifaceMap sm) (firstHandle sm)
    (eventBase sm) (liveAllocs sm) (nextAlloc sm).
Definition set_ifaceMap v (sm : SessionManager_pvt) : SessionManager_pvt :=
  mkSM (maxBufferedMessages sm) (sessionTimeoutMilliseconds sm)
    (sessionSearchAfterMilliseconds sm) (bufMap sm) v (firstHandle sm)
    (eventBase sm) (liveAllocs sm) (nextAlloc sm).
Definition set_eventBase v (sm : SessionManager_pvt) : SessionManager_pvt :=
  mkSM (maxBufferedMessages sm) (sessionTimeoutMilliseconds sm)
    (sessionSearchAfterMilliseconds sm) (bufMap sm) (ifaceMap sm) (firstHandle sm)
    v (liveAllocs sm) (nextAlloc sm).
Definition set_allocs l n (sm : SessionManager_pvt) : SessionManager_pvt :=
  mkSM (maxBufferedMessages sm) (sessionTimeoutMilliseconds sm)
    (sessionSearchAfterMilliseconds sm) (bufMap sm) (ifaceMap sm) (firstHandle sm)
    (eventBase sm) l n.

(** ** The monad of the handlers: state, outputs, fatal assertions *)

Inductive Output : Type :=
| SwitchIf (msg : Message)    (* sm->pub.switchIf *)
| InsideIf (msg : Message)    (* sm->pub.insideIf *)
| EventIf (msg : Message).    (* sm->eventIf *)

Definition M (A : Type) : Type :=
  SessionManager_pvt -> res (A * SessionManager_pvt * list Output).

Definition ret {A} (a : A) : M A := fun sm => Ok (a, sm, []).

Definition bind {A B} (m : M A) (k : A -> M B) : M B :=
  fun sm =>
    match m sm with
    | Ok (a, sm1, o1) =>
        match k a sm1 with
        | Ok (b, sm2, o2) => Ok (b, sm2, o1 ++ o2)
        | Fatal => Fatal
        end
    | Fatal => Fatal
    end.

Definition get : M SessionManager_pvt := fun sm => Ok (sm, sm, []).
Definition modify (f : SessionManager_pvt -> SessionManager_pvt) : M unit :=
  fun sm => Ok (tt, f sm, []).
Definition Iface_send (o : Output) : M unit := fun sm => Ok (tt, sm, [o]).
Definition abort {A} : M A := fun _ => Fatal.
Definition Assert_true (b : bool) : M unit := if b then ret tt else abort.
Definition Er_assert {A} (r : res A) : M A :=
  match r with Ok a => ret a | Fatal => abort end.

Notation "x <- c1 ;; c2" := (bind c1 (fun x => c2))
  (at level 61, c1 at next level, right associativity).
Notation "c1 ;;; c2" := (bind c1 (fun _ => c2))
  (at level 61, right associativity).

Definition Time_currentTimeMilliseconds : M Z :=
  sm <- get ;; ret (eventBase sm).

Definition Allocator_child : M Z :=
  sm <- get ;;
  modify (set_allocs (nextAlloc sm :: liveAllocs sm) (nextAlloc sm + 1)) ;;;
  ret (nextAlloc sm).

Definition Allocator_free (a : Z) : M unit :=
  modify (fun sm => set_allocs (remove Z.eq_dec a (liveAllocs sm)) (nextAlloc sm) sm).

(** [sess->...] read and written through the pointer [sess]. *)
Definition sessionAt (sm : SessionManager_pvt) (sess : nat) : option Session :=
  option_map (@Map_value Session) (Map_entry (ifaceMap sm) sess).

Definition Session_read (sess : nat) : M Session :=
  fun sm => match sessionAt sm sess with
            | Some s => Ok (s, sm, [])
            | None => Fatal
            end.

Definition Session_write (sess : nat) (f : Session -> Session) : M unit :=
  modify (fun sm => set_ifaceMap (Map_update (ifaceMap sm) sess f) sm).

(** ** net/SessionManager.c *)

Definition sendSession (sess : nat) (path destPf ev : Z) : M unit :=
  s <- Session_read sess ;;
  let session := mkNode path (metric s) (version s)
                        (herIp6 (caSession s)) (herPublicKey (caSession s)) in
  let msg := Message_new 0 (PFChan_Node_SIZE + 512) in
  msg <- Er_assert (Message_epush msg (PFChan_Node_encode session)) ;;
  msg <- Er_assert (Message_epush32be msg destPf) ;;
  msg <- Er_assert (Message_epush32be msg ev) ;;
  Iface_send (EventIf msg).

Definition check (mapIndex : nat) : M unit :=
  ssp <- Session_read mapIndex ;;
  if foundKey ssp then ret tt else
  let herPubKey := herPublicKey (caSession ssp) in
  if negb (Bits_isZero herPubKey) then
    let ip6 := fst (AddressCalc_addressForPublicKey herPubKey) in
    sm <- get ;;
    match Map_entry (ifaceMap sm) mapIndex with
    | Some e => Assert_true (bytes_eqb (Map_key e) ip6)
    | None => abort
    end ;;;
    Session_write mapIndex (set_foundKey true)
  else ret tt.

Definition sessionForHandle (handle : Z) : M (option nat) :=
  sm <- get ;;
  match Map_indexForHandle ((handle - firstHandle sm) mod 2 ^ 32) (ifaceMap sm) with
  | None => ret None
  | Some index => check index ;;; ret (Some index)
  end.

Definition sessionForIp6 (ip6 : list Z) : M (option nat) :=
  sm <- get ;;
  match Map_indexForKey ip6 (ifaceMap sm) with
  | None => ret None
  | Some ifaceIndex => check ifaceIndex ;;; ret (Some ifaceIndex)
  end.

Definition SessionManager_getHandleList (sm : SessionManager_pvt) : list Z :=
  map (fun e => (Map_handle e + firstHandle sm) mod 2 ^ 32) (Map_entries (ifaceMap sm)).

Definition getSession (ip6 pubKey : list Z) (version' label' metric' maintainSession' : Z)
  : M nat :=
  Assert_true (AddressCalc_validAddress ip6) ;;;
  sess <- sessionForIp6 ip6 ;;
  match sess with
  | Some sess =>
      Session_write sess
        (fun s => set_version (if version s =? 0 then version' else version s) s) ;;;
      Session_write sess
        (fun s => set_maintainSession (Z.lor (maintainSession s) maintainSession') s) ;;;
      s <- Session_read sess ;;
      (if metric' =? Metric_DEAD_LINK then
         (* this is a broken path *)
         if sendSwitchLabel s =? label' then
           if sendSwitchLabel s =? recvSwitchLabel s then
             Session_write sess (set_sendSwitchLabel 0) ;;;
             Session_write sess (set_metric Metric_DEAD_LINK)
           else
             Session_write sess (set_sendSwitchLabel (recvSwitchLabel s)) ;;;
             Session_write sess (set_metric Metric_SM_INCOMING)
         else ret tt
       else if (metric' <=? metric s) && negb (label' =? 0) then
         Session_write sess (set_sendSwitchLabel label') ;;;
         Session_write sess
           (fun s => set_version (if version' =? 0 then version s else version') s) ;;;
         Session_write sess (set_metric metric')
       else ret tt) ;;;
      ret sess
  | None =>
      alloc <- Allocator_child ;;
      let foundKey' := negb (Bits_isZero pubKey) in
      let sess0 := mkSession (CryptoAuth_newSession pubKey)
                             0 0 0 0 0 0 0 0 0 0 0 0 0 0 foundKey' in
      (if foundKey' then
         let realIp6 := fst (AddressCalc_addressForPublicKey pubKey) in
         Assert_true (bytes_eqb realIp6 ip6)
       else ret tt) ;;;
      sm <- get ;;
      let (ifaceIndex, ifaceMap') := Map_put ip6 sess0 (ifaceMap sm) in
      modify (set_ifaceMap ifaceMap') ;;;
      sm <- get ;;
      match Map_entry (ifaceMap sm) ifaceIndex with
      | Some e =>
          Session_write ifaceIndex
            (set_receiveHandle ((Map_handle e + firstHandle sm) mod 2 ^ 32))
      | None => abort
      end ;;;
      Session_write ifaceIndex (set_sess_alloc alloc) ;;;
      Session_write ifaceIndex (set_version version') ;;;
      now <- Time_currentTimeMilliseconds ;;
      Session_write ifaceIndex (set_timeOfLastIn now) ;;;
      Session_write ifaceIndex (set_timeOfKeepAliveIn now) ;;;
      Session_write ifaceIndex (set_timeOfLastOut now) ;;;
      Session_write ifaceIndex (set_sendSwitchLabel label') ;;;
      Session_write ifaceIndex (set_metric metric') ;;;
      Session_write ifaceIndex (set_maintainSession maintainSession') ;;;
      sendSession ifaceIndex label' 0xffffffff PFChan_Core_SESSION ;;;
      check ifaceIndex ;;;
      ret ifaceIndex
  end.

Definition ctrlFrame (msg : Message) : M unit :=
  let rh := zeros RouteHeader_SIZE in
  r <- Er_assert (Message_epop msg SwitchHeader_SIZE) ;;
  let rh := mem_write rh RouteHeader_sh (fst r) in
  r <- Er_assert (Message_epop (snd r) 4) ;;
  let rh := RouteHeader_set_flags
              (Z.lor RouteHeader_flags_INCOMING RouteHeader_flags_CTRLMSG) rh in
  msg <- Er_assert (Message_epush (snd r) rh) ;;
  Iface_send (InsideIf msg).

Definition failedDecrypt (msg : Message) (label_be : Z) : M unit :=
  msg <- Er_assert (Message_epush32be msg Error_AUTHENTICATION) ;;
  msg <- Er_assert (Message_epush16be msg Control_ERROR) ;;
  msg <- Er_assert (Message_epush16be msg 0) ;;
  let csum := Checksum_engine (Message_bytes msg) in
  r <- Er_assert (Message_epop16be msg) ;;
  msg <- Er_assert (Message_epush16be (snd r) csum) ;;
  msg <- Er_assert (Message_epush32be msg 0xffffffff) ;;
  let sh := zeros SwitchHeader_SIZE in
  let sh := SwitchHeader_setSuppressErrors sh true in
  let sh := SwitchHeader_setVersion sh SwitchHeader_CURRENT_VERSION in
  let sh := SwitchHeader_set_label_be label_be sh in
  msg <- Er_assert (Message_epush msg sh) ;;
  Iface_send (SwitchIf msg).

(** Lines 386-455 of [incomingFromSwitchIf]: both ways of finding the session
    continue here.  [switchHeader] is the pointer to the switch header of the
    frame. *)
Definition incomingFromSwitchIf_decrypt (switchHeader nonceOrHandle : Z)
    (firstSixteen : list Z) (length0 : Z) (session : nat) (msg : Message) : M unit :=
  let currentMessageSetup := nonceOrHandle <=? 3 in
  s <- Session_read session ;;
  let '(ret', ca, msg) := CryptoAuth_decrypt (caSession s) msg in
  Session_write session (set_caSession ca) ;;;
  if negb (ret' =? 0) then
    msg <- Er_assert (Message_eshift msg (length0 - len msg - 24)) ;;
    let msg := Message_setLength msg 0 in
    msg <- Er_assert (Message_epush32be msg (CryptoAuth_getState ca)) ;;
    msg <- Er_assert (Message_epush32be msg ret') ;;
    msg <- Er_assert (Message_epush msg firstSixteen) ;;
    msg <- Er_assert (Message_eshift msg SwitchHeader_SIZE) ;;
    Assert_true (off msg =? switchHeader) ;;;
    let sh := Message_struct msg switchHeader SwitchHeader_SIZE in
    let label_be := SwitchHeader_label_be sh in
    let msg := Message_setStruct msg switchHeader
                 (SwitchHeader_set_label_be (Bits_bitReverse64 (SwitchHeader_label_be sh)) sh) in
    failedDecrypt msg label_be
  else
    msg <- (if currentMessageSetup then
              r <- Er_assert (Message_epop32be msg) ;;
              Session_write session (set_sendHandle (fst r)) ;;;
              ret (snd r)
            else ret msg) ;;
    msg <- Er_assert (Message_eshift msg RouteHeader_SIZE) ;;
    let header := off msg in
    Assert_true (DataHeader_SIZE <=? len msg) ;;;
    let dh := Message_struct msg (header + RouteHeader_SIZE) DataHeader_SIZE in
    now <- Time_currentTimeMilliseconds ;;
    (if negb (DataHeader_getContentType dh =? ContentType_CJDHT) then
       Session_write session (set_timeOfLastIn now)
     else ret tt) ;;;
    Session_write session (fun s => set_bytesIn (bytesIn s + len msg) s) ;;;
    Session_write session (set_timeOfKeepAliveIn now) ;;;
    msg <- (if currentMessageSetup then
              ret (Message_setStruct msg (header + RouteHeader_sh)
                     (Message_struct msg switchHeader SwitchHeader_SIZE))
            else
              (* RouteHeader is laid out such that no copy of switch header
                 should be needed. *)
              Assert_true (header + RouteHeader_sh =? switchHeader) ;;; ret msg) ;;
    s <- Session_read session ;;
    let rh := Message_struct msg header RouteHeader_SIZE in
    let rh := RouteHeader_set_version_be (version s) rh in
    let rh := RouteHeader_set_ip6 (herIp6 (caSession s)) rh in
    let rh := RouteHeader_set_publicKey (herPublicKey (caSession s)) rh in
    let rh := RouteHeader_set_unused 0 rh in
    let rh := RouteHeader_set_flags RouteHeader_flags_INCOMING rh in
    let msg := Message_setStruct msg header rh in
    let path := SwitchHeader_label_be (Message_struct msg switchHeader SwitchHeader_SIZE) in
    (if sendSwitchLabel s =? 0 then Session_write session (set_sendSwitchLabel path)
     else ret tt) ;;;
    (if negb (path =? recvSwitchLabel s) then
       Session_write session (set_recvSwitchLabel path) ;;;
       sendSession session path 0xffffffff PFChan_Core_DISCOVERED_PATH
     else ret tt) ;;;
    Iface_send (InsideIf msg).

Definition incomingFromSwitchIf (msg : Message) : M unit :=
  (* SwitchHeader, handle, 0 or more bytes of control frame *)
  if len msg <? SwitchHeader_SIZE + 4 then ret tt (* DROP runt *) else
  let switchHeader := off msg in
  msg <- Er_assert (Message_eshift msg (- SwitchHeader_SIZE)) ;;
  (* The label comes in reversed from the switch. *)
  let sh := Message_struct msg switchHeader SwitchHeader_SIZE in
  let msg := Message_setStruct msg switchHeader
               (SwitchHeader_set_label_be (Bits_bitReverse64 (SwitchHeader_label_be sh)) sh) in
  let nonceOrHandle := be_value (Message_struct msg (off msg) 4) in
  if nonceOrHandle =? 0xffffffff then
    msg <- Er_assert (Message_eshift msg SwitchHeader_SIZE) ;;
    ctrlFrame msg
  else
  (* handle, small cryptoAuth header *)
  if len msg <? 4 + 20 then ret tt (* DROP runt *) else
  let length0 := len msg in
  Assert_true (16 <=? len msg) ;;;
  let firstSixteen := Message_struct msg (off msg) 16 in
  if 3 <? nonceOrHandle then
    (* > 3 it's a handle. *)
    session <- sessionForHandle nonceOrHandle ;;
    match session with
    | None => ret tt (* DROP message with unrecognized handle *)
    | Some session =>
        msg <- Er_assert (Message_eshift msg (-4)) ;;
        let nonce := be_value (Message_struct msg (off msg) 4) in
        if nonce <? 4 then ret tt (* DROP setup message with specified handle *) else
        incomingFromSwitchIf_decrypt switchHeader nonceOrHandle firstSixteen length0
          session msg
    end
  else
    (* handle + big cryptoauth header *)
    if len msg <? CryptoHeader_SIZE + 4 then ret tt (* DROP runt *) else
    let caHeader := Message_struct msg (off msg) CryptoHeader_SIZE in
    let (ip6, valid) := AddressCalc_addressForPublicKey (CryptoHeader_publicKey caHeader) in
    if negb valid then ret tt (* DROP Handshake with non-fc key *) else
    if bytes_eqb (CryptoHeader_publicKey caHeader) CryptoAuth_publicKey
    then ret tt (* DROP Handshake from 'ourselves' *) else
    let label := SwitchHeader_label_be (Message_struct msg switchHeader SwitchHeader_SIZE) in
    session <- getSession ip6 (CryptoHeader_publicKey caHeader) 0 label Metric_SM_INCOMING 0 ;;
    now <- Time_currentTimeMilliseconds ;;
    Session_write session
      (fun s => set_caSession (CryptoAuth_resetIfTimeout now (caSession s)) s) ;;;
    incomingFromSwitchIf_decrypt switchHeader nonceOrHandle firstSixteen length0
      session msg.

Definition Map_removeBuffered (i : nat) : M unit :=
  modify (fun sm => set_bufMap (Map_remove i (bufMap sm)) sm).

(** The loop of [checkTimedOutBuffers], at index [i]; an iteration either
    moves to the next index or removes a slot, so the number of slots is
    enough fuel. *)
Fixpoint checkTimedOutBuffers_loop (fuel i : nat) : M unit :=
  match fuel with
  | O => ret tt
  | S fuel' =>
      sm <- get ;;
      match Map_entry (bufMap sm) i with
      | None => ret tt    (* i >= count *)
      | Some e =>
          let buffered := Map_value e in
          now <- Time_currentTimeMilliseconds ;;
          let lag := now - timeSentMilliseconds buffered in
          if lag <? 10000 then checkTimedOutBuffers_loop fuel' (S i) else
          Map_removeBuffered i ;;;
          Allocator_free (bm_alloc buffered) ;;;
          checkTimedOutBuffers_loop fuel' i
      end
  end.

Definition checkTimedOutBuffers : M unit :=
  sm <- get ;;
  checkTimedOutBuffers_loop (length (Map_entries (bufMap sm))) 0.

Definition unsetupSession (sess : nat) : M unit :=
  s <- Session_read sess ;;
  if (version s =? 0) || negb (negb (sendSwitchLabel s =? 0) || negb (recvSwitchLabel s =? 0))
  then
    (* Nothing we can do here because it's not ok to send traffic without a
       version num. *)
    ret tt
  else
    let eventMsg := Message_new 0 512 in
    let n := mkNode 0 Metric_DEAD_LINK 0 (zeros 16) (zeros 32) in
    let n := mkNode (if sendSwitchLabel s =? 0 then recvSwitchLabel s else sendSwitchLabel s)
                    (metric_be n) (version_be n) (node_ip6 n) (node_publicKey n) in
    let n := mkNode (path_be n) (metric_be n) (version s) (node_ip6 n) (node_publicKey n) in
    let n := mkNode (path_be n) (metric s) (version_be n) (node_ip6 n) (node_publicKey n) in
    let n := mkNode (path_be n) (metric_be n) (version_be n) (node_ip6 n)
                    (herPublicKey (caSession s)) in
    let n := mkNode (path_be n) (metric_be n) (version_be n) (herIp6 (caSession s))
                    (node_publicKey n) in
    eventMsg <- Er_assert (Message_epush eventMsg (PFChan_Node_encode n)) ;;
    eventMsg <- Er_assert (Message_epush32be eventMsg 0xffffffff) ;;
    eventMsg <- Er_assert (Message_epush32be eventMsg PFChan_Core_UNSETUP_SESSION) ;;
    Iface_send (EventIf eventMsg).

Definition triggerSearch (target : list Z) (version' : Z) : M unit :=
  let eventMsg := Message_new 0 512 in
  eventMsg <- Er_assert (Message_epush32be eventMsg version') ;;
  eventMsg <- Er_assert (Message_epush32be eventMsg 0) ;;
  eventMsg <- Er_assert (Message_epush eventMsg (firstn 16 target)) ;;
  eventMsg <- Er_assert (Message_epush32be eventMsg 0xffffffff) ;;
  eventMsg <- Er_assert (Message_epush32be eventMsg PFChan_Core_SEARCH_REQ) ;;
  Iface_send (EventIf eventMsg).

Definition Map_removeSession (i : nat) : M unit :=
  modify (fun sm => set_ifaceMap (Map_remove i (ifaceMap sm)) sm).

(** The loop of [checkTimedOutSessions] with [n] slots left to visit: the
    next one is [n - 1]. *)
Fixpoint checkTimedOutSessions_loop (n : nat) : M unit :=
  match n with
  | O => ret tt
  | S i =>
      sess <- Session_read i ;;
      now <- Time_currentTimeMilliseconds ;;
      sm <- get ;;
      (* Check if the session is timed out... *)
      (if uint64 (sessionTimeoutMilliseconds sm) <? uint64 (now - timeOfKeepAliveIn sess) then
         sendSession i (sendSwitchLabel sess) 0xffffffff PFChan_Core_SESSION_ENDED ;;;
         Map_removeSession i ;;;
         Allocator_free (sess_alloc sess)
       else if maintainSession sess =? 0 then
         (* Let pathfinder maintain it's own sessions itself *)
         ret tt
       else if uint64 (sessionSearchAfterMilliseconds sm)
               <=? uint64 (now - lastSearchTime sess) then
         (* Session is not in idle state and requires a search *)
         triggerSearch (herIp6 (caSession sess)) (version sess) ;;;
         Session_write i (set_lastSearchTime now)
       else if CryptoAuth_getState (caSession sess) <? CryptoAuth_State_RECEIVED_KEY then
         unsetupSession i
       else ret tt) ;;;
      checkTimedOutSessions_loop i
  end.

Definition checkTimedOutSessions : M unit :=
  sm <- get ;;
  checkTimedOutSessions_loop (length (Map_entries (ifaceMap sm))).

Definition periodically : M unit :=
  checkTimedOutSessions ;;;
  checkTimedOutBuffers.

Definition needsLookup (msg : Message) (setupSession : bool) : M unit :=
  Assert_true (RouteHeader_SIZE + DataHeader_SIZE <=? len msg) ;;;
  let header := Message_struct msg (off msg) RouteHeader_SIZE in
  (* We should never be sending CJDHT messages without full version, key,
     path known. *)
  let dataHeader := Message_struct msg (off msg + RouteHeader_SIZE) DataHeader_SIZE in
  Assert_true (negb (DataHeader_getContentType dataHeader =? ContentType_CJDHT)) ;;;
  sm <- get ;;
  match Map_indexForKey (RouteHeader_ip6 header) (bufMap sm) with
  | Some index =>
      match Map_entry (bufMap sm) index with
      | Some e =>
          Map_removeBuffered index ;;;
          Allocator_free (bm_alloc (Map_value e))
      | None => abort
      end
  | None => ret tt
  end ;;;
  full <- (sm <- get ;;
           if maxBufferedMessages sm <=? Map_count (bufMap sm) then
             checkTimedOutBuffers ;;;
             sm <- get ;;
             ret (maxBufferedMessages sm <=? Map_count (bufMap sm))
           else ret false) ;;
  if full then ret tt (* DROP message needing lookup *) else
  lookupAlloc <- Allocator_child ;;
  now <- Time_currentTimeMilliseconds ;;
  let buffered := mkBuffered msg lookupAlloc now in
  modify (fun sm => set_bufMap (snd (Map_put (RouteHeader_ip6 header) buffered (bufMap sm))) sm) ;;;
  triggerSearch (RouteHeader_ip6 header) (RouteHeader_version_be header).

Definition readyToSend (msg : Message) (sess : nat) : M unit :=
  let header := off msg in
  let dh := Message_struct msg (header + RouteHeader_SIZE) DataHeader_SIZE in
  now <- Time_currentTimeMilliseconds ;;
  (if negb (DataHeader_getContentType dh =? ContentType_CJDHT) then
     Session_write sess (set_timeOfLastOut now)
   else ret tt) ;;;
  msg <- Er_assert (Message_eshift msg (- RouteHeader_SIZE)) ;;
  Session_write sess (fun s => set_caSession (CryptoAuth_resetIfTimeout now (caSession s)) s) ;;;
  s <- Session_read sess ;;
  r <- (if CryptoAuth_getState (caSession s) <? CryptoAuth_State_RECEIVED_KEY then
          (* Put the handle into the message so that it's authenticated. *)
          msg <- Er_assert (Message_epush32be msg (receiveHandle s)) ;;
          (* Copy back the SwitchHeader so it is not clobbered. *)
          msg <- Er_assert (Message_eshift msg (CryptoHeader_SIZE + SwitchHeader_SIZE)) ;;
          let msg := Message_setStruct msg (off msg)
                       (Message_struct msg (header + RouteHeader_sh) SwitchHeader_SIZE) in
          let sh := off msg in
          msg <- Er_assert (Message_eshift msg (- (CryptoHeader_SIZE + SwitchHeader_SIZE))) ;;
          ret (sh, msg)
        else ret (header + RouteHeader_sh, msg)) ;;
  let (sh, msg) := r : Z * Message in
  Session_write sess (fun s => set_bytesOut (bytesOut s + len msg) s) ;;;
  let '(err, ca, msg) := CryptoAuth_encrypt (caSession s) msg in
  Session_write sess (set_caSession ca) ;;;
  Assert_true (err =? 0) ;;;
  s <- Session_read sess ;;
  msg <- (if CryptoAuth_State_RECEIVED_KEY <=? CryptoAuth_getState ca then
            Er_assert (Message_epush32be msg (sendHandle s))
          else ret msg) ;;
  (* The SwitchHeader should have been moved to the correct location. *)
  msg <- Er_assert (Message_eshift msg SwitchHeader_SIZE) ;;
  Assert_true (sh =? off msg) ;;;
  let msg :=
    if SwitchHeader_label_be (Message_struct msg sh SwitchHeader_SIZE) =? 0 then
      Message_setStruct msg sh
        (SwitchHeader_setVersion
           (SwitchHeader_set_label_be (sendSwitchLabel s) (zeros SwitchHeader_SIZE))
           SwitchHeader_CURRENT_VERSION)
    else msg in
  Iface_send (SwitchIf msg).

Definition outgoingCtrlFrame (msg : Message) : M unit :=
  Assert_true (RouteHeader_SIZE <=? len msg) ;;;
  let header := Message_struct msg (off msg) RouteHeader_SIZE in
  if negb (Bits_isZero (RouteHeader_publicKey header))
     || negb (Bits_isZero (RouteHeader_ip6 header))
  then ret tt (* DROP Ctrl frame with non-zero destination key or IP *) else
  if Z.land (RouteHeader_flags header) RouteHeader_flags_CTRLMSG =? 0
  then ret tt (* DROP Ctrl frame w/o RouteHeader_flags_CTRLMSG flag *) else
  let sh := Message_struct msg (off msg + RouteHeader_sh) SwitchHeader_SIZE in
  r <- Er_assert (Message_epop msg RouteHeader_SIZE) ;;
  msg <- Er_assert (Message_epush32be (snd r) 0xffffffff) ;;
  msg <- Er_assert (Message_epush msg sh) ;;
  Iface_send (SwitchIf msg).

Definition incomingFromInsideIf (msg : Message) : M unit :=
  Assert_true (RouteHeader_SIZE <=? len msg) ;;;
  let header := off msg in
  let rh := Message_struct msg header RouteHeader_SIZE in
  if negb (Z.land (RouteHeader_flags rh) RouteHeader_flags_CTRLMSG =? 0) then
    outgoingCtrlFrame msg
  else
  Assert_true (RouteHeader_SIZE + DataHeader_SIZE <=? len msg) ;;;
  let dataHeader := header + RouteHeader_SIZE in
  let continue := fun sess : nat =>
    (if negb (RouteHeader_version_be rh =? 0) then
       Session_write sess (set_version (RouteHeader_version_be rh))
     else ret tt) ;;;
    s <- Session_read sess ;;
    if version s =? 0 then needsLookup msg false else
    let sh := Message_struct msg (header + RouteHeader_sh) SwitchHeader_SIZE in
    let send := fun msg : Message =>
      (* Forward secrecy, only send dht messages until the session is setup. *)
      now <- Time_currentTimeMilliseconds ;;
      Session_write sess
        (fun s => set_caSession (CryptoAuth_resetIfTimeout now (caSession s)) s) ;;;
      s <- Session_read sess ;;
      if negb (DataHeader_getContentType (Message_struct msg dataHeader DataHeader_SIZE)
               =? ContentType_CJDHT)
         && (CryptoAuth_getState (caSession s) <? CryptoAuth_State_RECEIVED_KEY)
      then needsLookup msg true
      else readyToSend msg sess in
    if negb (SwitchHeader_label_be sh =? 0) then send msg
    else if negb (sendSwitchLabel s =? 0) then
      send (Message_setStruct msg (header + RouteHeader_sh)
              (SwitchHeader_setVersion
                 (SwitchHeader_set_label_be (sendSwitchLabel s) (zeros SwitchHeader_SIZE))
                 SwitchHeader_CURRENT_VERSION))
    else needsLookup msg false in
  sess <- sessionForIp6 (RouteHeader_ip6 rh) ;;
  match sess with
  | Some sess => continue sess
  | None =>
      if negb (Bits_isZero (RouteHeader_publicKey rh)) && negb (RouteHeader_version_be rh =? 0)
      then
        sess <- getSession (RouteHeader_ip6 rh) (RouteHeader_publicKey rh)
                  (RouteHeader_version_be rh)
                  (SwitchHeader_label_be
                     (Message_struct msg (header + RouteHeader_sh) SwitchHeader_SIZE))
                  Metric_SM_SEND
                  (if Z.land (RouteHeader_flags rh) RouteHeader_flags_PATHFINDER =? 0
                   then 1 else 0) ;;
        continue sess
      else needsLookup msg false
  end.

(** The loop of [sessions] from slot [i], with [n] slots left. *)
Fixpoint sessions_loop (n i : nat) (sourcePf : Z) : M unit :=
  match n with
  | O => ret tt
  | S n' =>
      sess <- Session_read i ;;
      sendSession i (sendSwitchLabel sess) sourcePf PFChan_Core_SESSION ;;;
      sessions_loop n' (S i) sourcePf
  end.

Definition sessions (sourcePf : Z) : M unit :=
  sm <- get ;;
  sessions_loop (length (Map_entries (ifaceMap sm))) 0 sourcePf.

Definition incomingFromEventIf (msg : Message) : M unit :=
  r <- Er_assert (Message_epop32be msg) ;;
  let ev := fst r in
  r <- Er_assert (Message_epop32be (snd r)) ;;
  let sourcePf := fst r in
  let msg := snd r in
  if ev =? PFChan_Pathfinder_SESSIONS then
    Assert_true (len msg =? 0) ;;;
    sessions sourcePf
  else
  Assert_true (ev =? PFChan_Pathfinder_NODE) ;;;
  r <- Er_assert (Message_epop msg PFChan_Node_SIZE) ;;
  let node := PFChan_Node_decode (fst r) in
  let msg := snd r in
  Assert_true (len msg =? 0) ;;;
  sm <- get ;;
  let index := Map_indexForKey (node_ip6 node) (bufMap sm) in
  sess <- sessionForIp6 (node_ip6 node) ;;
  let ignore :=
    match sess, index with
    | None, None => true      (* Node we don't care about. *)
    | None, Some _ =>
        (* Broken path to a node we don't have a session for... *)
        Endian_raw32 (metric_be node) =? Metric_DEAD_LINK
    | Some _, _ => false
    end in
  if ignore then ret tt else
  sess <- getSession (node_ip6 node) (node_publicKey node) (version_be node)
            (path_be node) (metric_be node) 0 ;;
  s <- Session_read sess ;;
  sm <- get ;;
  (* Send what's on the buffer... *)
  match index with
  | Some index' =>
      if CryptoAuth_State_RECEIVED_KEY <=? CryptoAuth_getState (caSession s) then
        match Map_entry (bufMap sm) index' with
        | Some e =>
            let bm := Map_value e in
            readyToSend (bm_msg bm) sess ;;;
            Map_removeBuffered index' ;;;
            Allocator_free (bm_alloc bm)
        | None => abort
        end
      else unsetupSession sess
  | None =>
      if CryptoAuth_getState (caSession s) <? CryptoAuth_State_RECEIVED_KEY
      then unsetupSession sess
      else ret tt
  end.

(** [SessionManager_new]; [random] is the value of [Random_uint32(rand)] and
    [now] the clock of the event loop. *)
Definition SessionManager_new (random now : Z) : SessionManager_pvt :=
  mkSM SessionManager_MAX_BUFFERED_MESSAGES_DEFAULT
       SessionManager_SESSION_TIMEOUT_MILLISECONDS_DEFAULT
       SessionManager_SESSION_SEARCH_AFTER_MILLISECONDS_DEFAULT
       (Map_empty BufferedMessage) (Map_empty Session)
       (random mod (MAX_FIRST_HANDLE - MIN_FIRST_HANDLE) + MIN_FIRST_HANDLE)
       now [] 0.

(** ** The states the session manager can be in

    A handler runs to completion; between two handlers the clock of the event
    loop may advance. *)
Inductive reachable : SessionManager_pvt -> Prop :=
| reachable_new (random now : Z) :
    reachable (SessionManager_new random now)
| reachable_clock (sm : SessionManager_pvt) (now : Z) :
    reachable sm -> eventBase sm <= now -> reachable (set_eventBase now sm)
| reachable_switch (sm sm' : SessionManager_pvt) (msg : Message) (o : list Output) :
    reachable sm -> incomingFromSwitchIf msg sm = Ok (tt, sm', o) -> reachable sm'
| reachable_inside (sm sm' : SessionManager_pvt) (msg : Message) (o : list Output) :
    reachable sm -> incomingFromInsideIf msg sm = Ok (tt, sm', o) -> reachable sm'
| reachable_event (sm sm' : SessionManager_pvt) (msg : Message) (o : list Output) :
    reachable sm -> incomingFromEventIf msg sm = Ok (tt, sm', o) -> reachable sm'
| reachable_periodically (sm sm' : SessionManager_pvt) (o : list Output) :
    reachable sm -> periodically sm = Ok (tt, sm', o) -> reachable sm'.

(** The content type of the data header that follows the route header of an
    inside-side message is CJDHT. *)
Definition isCJDHT (msg : Message) : bool :=
  DataHeader_getContentType
    (Message_struct msg (off msg + RouteHeader_SIZE) DataHeader_SIZE)
  =? ContentType_CJDHT.

Definition Map_keys {V} (m : Map V) : list (list Z) := map (@Map_key V) (Map_entries m).
Definition Map_handles {V} (m : Map V) : list Z := map (@Map_handle V) (Map_entries m).

(** The buffered-message table: one message for a destination, no more than
    [maxBufferedMessages] of them (a bound below 0 is one that no table can
    meet), none of them a DHT message. *)
Record buffers_ok (sm : SessionManager_pvt) : Prop := {
  buf_keys : NoDup (Map_keys (bufMap sm));
  buf_bound : 0 <= maxBufferedMessages sm ->
              Map_count (bufMap sm) <= maxBufferedMessages sm;
  buf_content : Forall (fun e => isCJDHT (bm_msg (Map_value e)) = false)
                       (Map_entries (bufMap sm))
}.

(** The session table: one session for an address, the handles of the slots
    are distinct and below the counter, and the receive handle of a session
    is the handle of its slot moved by [firstHandle]. *)
Record sessions_ok (sm : SessionManager_pvt) : Prop := {
  sess_keys : NoDup (Map_keys (ifaceMap sm));
  sess_handles : NoDup (Map_handles (ifaceMap sm));
  sess_next : 0 <= Map_nextHandle (ifaceMap sm);
  sess_handle_bound :
    Forall (fun e => 0 <= Map_handle e < Map_nextHandle (ifaceMap sm))
           (Map_entries (ifaceMap sm));
  sess_receiveHandle :
    Forall (fun e => receiveHandle (Map_value e)
                     = (Map_handle e + firstHandle sm) mod 2 ^ 32)
           (Map_entries (ifaceMap sm))
}.

(** Partial correctness of a handler: from a state in [P], a run that ends
    normally with [a] ends in a state in [Q a]. *)
Definition hoare {A} (P : SessionManager_pvt -> Prop) (m : M A)
    (Q : A -> SessionManager_pvt -> Prop) : Prop :=
  forall sm a sm' o, P sm -> m sm = Ok (a, sm', o) -> Q a sm'.

(** The result of a push that succeeds. *)
Definition pushed (m : Message) (object : list Z) : Message :=
  mkMessage (mem_write (buf m) (off m - Z.of_nat (length object)) object)
            (off m - Z.of_nat (length object))
            (len m + Z.of_nat (length object)).

(** The event frames of the session manager: kind, destination pathfinder,
    payload, pushed onto a fresh message with [padding] bytes of head-room. *)
Definition eventFrame (padding ev destPf : Z) (payload : list Z) : Message :=
  pushed (pushed (pushed (Message_new 0 padding) payload) (be_bytes 4 destPf))
         (be_bytes 4 ev).

(** The descriptor that [sendSession] sends for a session. *)
Definition sessionNode (s : Session) (path : Z) : PFChan_Node :=
  mkNode path (metric s) (version s) (herIp6 (caSession s)) (herPublicKey (caSession s)).

Definition sessionEvent (s : Session) (path destPf ev : Z) : Output :=
  EventIf (eventFrame (PFChan_Node_SIZE + 512) ev destPf
             (PFChan_Node_encode (sessionNode s path))).

Definition unsetupEvent (s : Session) : Output :=
  EventIf (eventFrame 512 PFChan_Core_UNSETUP_SESSION 0xffffffff
             (PFChan_Node_encode
                (sessionNode s (if sendSwitchLabel s =? 0 then recvSwitchLabel s
                                else sendSwitchLabel s)))).

Definition searchEvent (target : list Z) (version' : Z) : Output :=
  EventIf (pushed (pushed (pushed (pushed (pushed (Message_new 0 512)
             (be_bytes 4 version')) (be_bytes 4 0)) (firstn 16 target))
             (be_bytes 4 0xffffffff)) (be_bytes 4 PFChan_Core_SEARCH_REQ)).

(** What [getSession] does to a session that exists. *)
Definition updateExisting (version' label' metric' maintainSession' : Z) (s : Session)
  : Session :=
  let s := set_version (if version s =? 0 then version' else version s) s in
  let s := set_maintainSession (Z.lor (maintainSession s) maintainSession') s in
  if metric' =? Metric_DEAD_LINK then
    if sendSwitchLabel s =? label' then
      if sendSwitchLabel s =? recvSwitchLabel s then
        set_metric Metric_DEAD_LINK (set_sendSwitchLabel 0 s)
      else set_metric Metric_SM_INCOMING (set_sendSwitchLabel (recvSwitchLabel s) s)
    else s
  else if (metric' <=? metric s) && negb (label' =? 0) then
    set_metric metric'
      (set_version (if version' =? 0 then version s else version')
         (set_sendSwitchLabel label' s))
  else s.

(** Outputs put in front of the result of the rest of a run. *)
Definition prepend {A} (o : list Output) (r : res (A * SessionManager_pvt * list Output))
  : res (A * SessionManager_pvt * list Output) :=
  match r with
  | Ok (a, sm, o') => Ok (a, sm, o ++ o')
  | Fatal => Fatal
  end.

(** What one round of [checkTimedOutSessions] does with a session. *)
Inductive TickAction : Type := Ended | Searched | Unsetup | Idle.

Definition tickAction (sm : SessionManager_pvt) (s : Session) : TickAction :=
  if uint64 (sessionTimeoutMilliseconds sm) <? uint64 (eventBase sm - timeOfKeepAliveIn s)
  then Ended
  else if maintainSession s =? 0 then Idle
  else if uint64 (sessionSearchAfterMilliseconds sm)
          <=? uint64 (eventBase sm - lastSearchTime s) then Searched
  else if CryptoAuth_getState (caSession s) <? CryptoAuth_State_RECEIVED_KEY then Unsetup
  else Idle.

Definition unsetupPossible (s : Session) : bool :=
  negb (version s =? 0)
  && (negb (sendSwitchLabel s =? 0) || negb (recvSwitchLabel s =? 0)).

Definition tickOutputs (sm : SessionManager_pvt) (s : Session) : list Output :=
  match tickAction sm s with
  | Ended => [sessionEvent s (sendSwitchLabel s) 0xffffffff PFChan_Core_SESSION_ENDED]
  | Searched => [searchEvent (herIp6 (caSession s)) (version s)]
  | Unsetup => if unsetupPossible s then [unsetupEvent s] else []
  | Idle => []
  end.

Definition tickEntry (sm : SessionManager_pvt) (e : Map_Entry Session)
  : list (Map_Entry Session) :=
  match tickAction sm (Map_value e) with
  | Ended => []
  | Searched => [mkEntry (Map_key e) (Map_handle e)
                         (set_lastSearchTime (eventBase sm) (Map_value e))]
  | _ => [e]
  end.

Definition tickFreed (sm : SessionManager_pvt) (e : Map_Entry Session) : list Z :=
  match tickAction sm (Map_value e) with
  | Ended => [sess_alloc (Map_value e)]
  | _ => []
  end.

Definition remove_all (freed live : list Z) : list Z :=
  fold_left (fun l a => remove Z.eq_dec a l) freed live.

(** The state with other slots in the session table and other live
    allocators. *)
Definition withSessions (sm : SessionManager_pvt) (es : list (Map_Entry Session))
    (live : list Z) : SessionManager_pvt :=
  mkSM (maxBufferedMessages sm) (sessionTimeoutMilliseconds sm)
       (sessionSearchAfterMilliseconds sm) (bufMap sm)
       (mkMap es (Map_nextHandle (ifaceMap sm)))
       (firstHandle sm) (eventBase sm) live (nextAlloc sm).


(** The state and the outputs of [checkTimedOutSessions]: the slots are
    visited from the last to the first. *)
Definition tickedState (sm : SessionManager_pvt) : SessionManager_pvt :=
  withSessions sm (flat_map (tickEntry sm) (Map_entries (ifaceMap sm)))
    (remove_all (flat_map (tickFreed sm) (rev (Map_entries (ifaceMap sm))))
       (liveAllocs sm)).

Definition tickedOutputs (sm : SessionManager_pvt) : list Output :=
  flat_map (fun e => tickOutputs sm (Map_value e)) (rev (Map_entries (ifaceMap sm))).

(** A handler keeps an invariant. *)
Definition keeps {A} (I : SessionManager_pvt -> Prop) (m : M A) : Prop :=
  hoare I m (fun _ => I).


(** The invariant of the session manager. *)
Definition Inv (sm : SessionManager_pvt) : Prop := buffers_ok sm /\ sessions_ok sm.

(** A buffered message that the sweep keeps: it is younger than 10 s. *)
Definition notExpired (sm : SessionManager_pvt) (e : Map_Entry BufferedMessage) : bool :=
  eventBase sm - timeSentMilliseconds (Map_value e) <? 10000.

Definition withBuffers (sm : SessionManager_pvt) (es : list (Map_Entry BufferedMessage))
    (live : list Z) : SessionManager_pvt :=
  mkSM (maxBufferedMessages sm) (sessionTimeoutMilliseconds sm)
       (sessionSearchAfterMilliseconds sm)
       (mkMap es (Map_nextHandle (bufMap sm))) (ifaceMap sm)
       (firstHandle sm) (eventBase sm) live (nextAlloc sm).

Definition expiredAllocs (sm : SessionManager_pvt) (es : list (Map_Entry BufferedMessage))
  : list Z :=
  map (fun e => bm_alloc (Map_value e)) (filter (fun e => negb (notExpired sm e)) es).

(** The state after [checkTimedOutBuffers]. *)
Definition sweptState (sm : SessionManager_pvt) : SessionManager_pvt :=
  withBuffers sm (filter (notExpired sm) (Map_entries (bufMap sm)))
    (remove_all (expiredAllocs sm (Map_entries (bufMap sm))) (liveAllocs sm)).

(** [needsLookup], step by step: the message buffered for the same
    destination is removed and freed; if the table is full the sweep runs;
    the new message is put into the table. *)
Definition displaced (key : list Z) (sm : SessionManager_pvt) : SessionManager_pvt :=
  match Map_indexForKey key (bufMap sm) with
  | Some index =>
      match Map_entry (bufMap sm) index with
      | Some e =>
          set_allocs (remove Z.eq_dec (bm_alloc (Map_value e)) (liveAllocs sm))
                     (nextAlloc sm)
                     (set_bufMap (Map_remove index (bufMap sm)) sm)
      | None => sm
      end
  | None => sm
  end.

Definition madeRoom (sm : SessionManager_pvt) : SessionManager_pvt :=
  if maxBufferedMessages sm <=? Map_count (bufMap sm) then sweptState sm else sm.

Definition buffered (key : list Z) (msg : Message) (sm : SessionManager_pvt)
  : SessionManager_pvt :=
  set_bufMap
    (snd (Map_put key (mkBuffered msg (nextAlloc sm) (eventBase sm)) (bufMap sm)))
    (set_allocs (nextAlloc sm :: liveAllocs sm) (nextAlloc sm + 1) sm).

(** The frame as [incomingFromSwitchIf] sees it once the switch header is
    shifted out and its label reversed in place (lines 320-326). *)
Definition reversed (msg : Message) : Message :=
  let m := mkMessage (buf msg) (off msg + SwitchHeader_SIZE) (len msg - SwitchHeader_SIZE) in
  let sh := Message_struct m (off msg) SwitchHeader_SIZE in
  Message_setStruct m (off msg)
    (SwitchHeader_set_label_be (Bits_bitReverse64 (SwitchHeader_label_be sh)) sh).

Definition nonceOrHandle (msg : Message) : Z :=
  be_value (Message_struct (reversed msg) (off (reversed msg)) 4).

(** The key that a handshake claims. *)
Definition claimedKey (msg : Message) : list Z :=
  CryptoHeader_publicKey (Message_struct (reversed msg) (off (reversed msg)) CryptoHeader_SIZE).

(** The path back to the sender: the label of the reversed switch header. *)
Definition sourceLabel (msg : Message) : Z :=
  SwitchHeader_label_be (Message_struct (reversed msg) (off msg) SwitchHeader_SIZE).

(** A handshake that passes the checks: what follows [getSession]. *)
Definition afterGetSession (msg : Message) (session : nat) : M unit :=
  now <- Time_currentTimeMilliseconds ;;
  Session_write session
    (fun s => set_caSession (CryptoAuth_resetIfTimeout now (caSession s)) s) ;;;
  incomingFromSwitchIf_decrypt (off msg) (nonceOrHandle msg)
    (Message_struct (reversed msg) (off (reversed msg)) 16) (len (reversed msg))
    session (reversed msg).

(** The part of [incomingFromSwitchIf] between the test for a control frame
    and the decryption (lines 347-384): the session of the frame and the
    frame as it goes to [CryptoAuth_decrypt], or none when the frame is
    dropped. *)
Definition beforeDecrypt (msg : Message) : M (option (nat * Message)) :=
  let m := reversed msg in
  if 3 <? nonceOrHandle msg then
    session <- sessionForHandle (nonceOrHandle msg) ;;
    match session with
    | None => ret None
    | Some session =>
        msg' <- Er_assert (Message_eshift m (-4)) ;;
        if be_value (Message_struct msg' (off msg') 4) <? 4 then ret None
        else ret (Some (session, msg'))
    end
  else
    if len m <? CryptoHeader_SIZE + 4 then ret None else
    if negb (AddressCalc_validAddress (AddressCalc_hash (claimedKey msg))) then ret None else
    if bytes_eqb (claimedKey msg) CryptoAuth_publicKey then ret None else
    session <- getSession (AddressCalc_hash (claimedKey msg)) (claimedKey msg) 0
                 (sourceLabel msg) Metric_SM_INCOMING 0 ;;
    now <- Time_currentTimeMilliseconds ;;
    Session_write session
      (fun s => set_caSession (CryptoAuth_resetIfTimeout now (caSession s)) s) ;;;
    ret (Some (session, m)).

(** The counters of incoming traffic of a session. *)
Definition sameCounters (s s' : Session) : Prop :=
  timeOfLastIn s' = timeOfLastIn s
  /\ timeOfKeepAliveIn s' = timeOfKeepAliveIn s
  /\ bytesIn s' = bytesIn s.

(** Every session of [sm] is still in its slot in [sm'], with the counters
    of incoming traffic it had. *)
Definition countersKept (sm sm' : SessionManager_pvt) : Prop :=
  forall j s, sessionAt sm j = Some s ->
  exists s', sessionAt sm' j = Some s' /\ sameCounters s s'.

Definition isEvent (o : Output) : Prop :=
  match o with
  | EventIf _ => True
  | _ => False
  end.

(** Every frame that [m] sends satisfies [P]. *)
Definition emits {A} (P : Output -> Prop) (m : M A) : Prop :=
  forall sm a sm' o, m sm = Ok (a, sm', o) -> Forall P o.


(** The configuration of the session manager and its clock. *)
Definition sameConfig (sm sm' : SessionManager_pvt) : Prop :=
  maxBufferedMessages sm' = maxBufferedMessages sm
  /\ sessionTimeoutMilliseconds sm' = sessionTimeoutMilliseconds sm
  /\ sessionSearchAfterMilliseconds sm' = sessionSearchAfterMilliseconds sm
  /\ firstHandle sm' = firstHandle sm
  /\ eventBase sm' = eventBase sm.

(** A frame that does not go to the inside interface. *)
Definition notInside (o : Output) : Prop :=
  match o with
  | InsideIf _ => False
  | _ => True
  end.

End WithExternals.

Notation "x <- c1 ;; c2" := (bind c1 (fun x => c2))
  (at level 61, c1 at next level, right associativity).
Notation "c1 ;;; c2" := (bind c1 (fun _ => c2))
  (at level 61, right associativity).

End SessionManager.

(** * dht/Pathfinder.c *)

Module UserAgent.
Import String.
Definition userAgent : list Z :=
  map (fun c => Z.of_nat (Ascii.nat_of_ascii c))
      (list_ascii_of_string "Cjdns internal pathfinder").
End UserAgent.

Module Pathfinder.

(** [struct Address] (dht/Address.h). *)
Record Address : Type := mkAddress {
  protocolVersion : Z;
  padding : Z;
  key : list Z;
  ip6 : list Z;
  path : Z
}.

(** What [replyTo] of a message of the DHT points to. *)
Inductive ReplyTo : Type :=
| replyTo_NULL        (* nothing: the message is a request *)
| replyTo_incoming    (* the message that [incomingMsg] is handing to the registry *)
| replyTo_other.      (* another message, in the memory of the DHT *)

(** [struct DHTMessage] (dht/DHTMessage.h), with the fields that the
    pathfinder reads. *)
Record DHTMessage : Type := mkDHTMessage {
  address : Address;
  binMessage : Message;
  replyTo : ReplyTo
}.

(** The DHT subsystems are outside the two files.  Their objects live in a
    memory [World] of their own, which every call may read and change; the
    pathfinder holds references to them.  The pathfinder gives the DHT its
    module [pf->dhtModule], whose [handleOutgoing] is [incomingFromDHT]: an
    operation of the DHT returns, with the memory as it is when the call
    returns, the messages that the DHT handed to [handleOutgoing] while the
    call ran, in their order. *)
Class Dht : Type := {
  World : Type;
  DHTModuleRegistry : Type;
  RumorMill : Type;
  NodeStore : Type;
  RouterModule : Type;
  SearchRunner : Type;
  Router : Type;
  Node_Link : Type;
  Node_Two : Type;
  (* wire/PFChan.h *)
  PFChan_Core_CONNECT : Z;
  PFChan_Core_SWITCH_ERR : Z;
  PFChan_Core_PEER : Z;
  PFChan_Core_PEER_GONE : Z;
  PFChan_Core_MSG : Z;
  PFChan_Core_PING : Z;
  PFChan_Core_PONG : Z;
  PFChan_Pathfinder_CONNECT : Z;
  PFChan_Pathfinder_SENDMSG : Z;
  PFChan_Pathfinder_PONG : Z;
  PFChan_Core_Connect_SIZE : Z;
  PFChan_Core_Connect_publicKey : list Z -> list Z;
  PFChan_Core_SwitchErr_MIN_SIZE : Z;
  PFChan_Core_SwitchErr_sh_label_be : list Z -> Z;
  PFChan_Core_SwitchErr_cause_label_be : list Z -> Z;
  PFChan_Pathfinder_Connect_encode : Z -> Z -> list Z -> list Z;
  Version_CURRENT_PROTOCOL : Z;
  (* wire/DataHeader.h *)
  DataHeader_CURRENT_VERSION : Z;
  DataHeader_setVersion : list Z -> Z -> list Z;
  DataHeader_setContentType : list Z -> Z -> list Z;
  (* dht/Address.c *)
  Address_getPrefix : Address -> Address;
  (* the constructors and registrations called by [connected]; they make
     and link the objects of the DHT and hand no message to the pathfinder *)
  DHTModuleRegistry_new : World -> DHTModuleRegistry * World;
  ReplyModule_register : DHTModuleRegistry -> World -> World;
  RumorMill_new : Address -> Z -> World -> RumorMill * World;
  NodeStore_new : Address -> RumorMill -> World -> NodeStore * World;
  RouterModule_register :
    DHTModuleRegistry -> list Z -> NodeStore -> World -> RouterModule * World;
  SearchRunner_new :
    NodeStore -> RouterModule -> list Z -> RumorMill -> World -> SearchRunner * World;
  Janitor_new :
    Z -> Z -> RouterModule -> NodeStore -> SearchRunner -> RumorMill -> World -> World;
  EncodingSchemeModule_register : DHTModuleRegistry -> World -> World;
  SerializationModule_register : DHTModuleRegistry -> World -> World;
  DHTModuleRegistry_register : DHTModuleRegistry -> World -> World;
  Router_new : RouterModule -> NodeStore -> SearchRunner -> World -> Router * World;
  NodeStore_admin_register : NodeStore -> World -> World;
  RouterModule_admin_register : RouterModule -> Router -> World -> World;
  SearchRunner_admin_register : SearchRunner -> World -> World;
  (* the operations called by the handlers *)
  NodeStore_linkForPath : NodeStore -> Z -> World -> option Node_Link;
  NodeStore_brokenLink : NodeStore -> Z -> Z -> World -> list DHTMessage * World;
  NodeStore_disconnectedPeer : NodeStore -> Z -> World -> list DHTMessage * World;
  NodeStore_nodeForAddr : NodeStore -> list Z -> World -> option Node_Two;
  NodeStore_pinNode : NodeStore -> Node_Two -> World -> list DHTMessage * World;
  NodeStore_unpinNode : NodeStore -> Node_Two -> World -> list DHTMessage * World;
  SearchRunner_search :
    list Z -> Z -> Z -> SearchRunner -> World -> list DHTMessage * World;
  Router_sendGetPeers : Router -> Address -> Z -> Z -> World -> list DHTMessage * World;
  RumorMill_addNode : RumorMill -> Address -> World -> list DHTMessage * World;
  Node_getBestParent : Node_Two -> World -> option Node_Link;
  link_child : Node_Link -> World -> Node_Two;
  link_parent : Node_Link -> World -> Node_Two;
  link_cannonicalLabel : Node_Link -> World -> Z;
  node_address : Node_Two -> World -> Address;
  (* [DHTModuleRegistry_handleIncoming]: the address and the message as
     they are when the call returns, and the messages handed to
     [handleOutgoing] meanwhile *)
  DHTModuleRegistry_handleIncoming :
    DHTModuleRegistry -> Address -> Message -> World ->
    Address * Message * list DHTMessage * World
}.

Section WithExternals.

Context {E : Externals} {D : Dht}.

(** The number of milliseconds between attempting local maintenance searches. *)
Definition LOCAL_MAINTENANCE_SEARCH_MILLISECONDS : Z := 1000.
(** The number of milliseconds to pass between global maintainence searches. *)
Definition GLOBAL_MAINTENANCE_SEARCH_MILLISECONDS : Z := 30000.
Definition RUMORMILL_CAPACITY : Z := 64.

Definition Pathfinder_pvt_state_INITIALIZING : Z := 0.
Definition Pathfinder_pvt_state_RUNNING : Z := 1.

Record Pathfinder_pvt : Type := mkPf {
  admin : bool;              (* whether [pf->admin] is set *)
  state : Z;
  (* After begin connected, these fields will be filled. *)
  myAddr : Address;
  registry : option DHTModuleRegistry;
  nodeStore : option NodeStore;
  router : option Router;
  searchRunner : option SearchRunner;
  rumorMill : option RumorMill;
  world : World
}.

Definition set_world w (pf : Pathfinder_pvt) : Pathfinder_pvt :=
  mkPf (admin pf) (state pf) (myAddr pf) (registry pf) (nodeStore pf) (router pf)
       (searchRunner pf) (rumorMill pf) w.

(** The monad of the pathfinder's handlers; the outputs are the messages
    sent on [pf->eventIf]. *)
Definition PM (A : Type) : Type :=
  Pathfinder_pvt -> res (A * Pathfinder_pvt * list Message).

Definition pret {A} (a : A) : PM A := fun pf => Ok (a, pf, []).

Definition pbind {A B} (m : PM A) (k : A -> PM B) : PM B :=
  fun pf =>
    match m pf with
    | Ok (a, pf1, o1) =>
        match k a pf1 with
        | Ok (b, pf2, o2) => Ok (b, pf2, o1 ++ o2)
        | Fatal => Fatal
        end
    | Fatal => Fatal
    end.

Notation "x <- c1 ;; c2" := (pbind c1 (fun x => c2))
  (at level 61, c1 at next level, right associativity).
Notation "c1 ;;; c2" := (pbind c1 (fun _ => c2))
  (at level 61, right associativity).

Definition pget : PM Pathfinder_pvt := fun pf => Ok (pf, pf, []).
Definition pset (pf : Pathfinder_pvt) : PM unit := fun _ => Ok (tt, pf, []).
Definition pabort {A} : PM A := fun _ => Fatal.
Definition Assert_true (b : bool) : PM unit := if b then pret tt else pabort.
Definition Assert_failure {A} : PM A := pabort.
Definition Iface_send (msg : Message) : PM unit := fun pf => Ok (tt, pf, [msg]).

(** [Message_pop], [Message_shift] and [Message_push32] with a null
    exception handler: an error aborts. *)
Definition orAbort {A} (r : res A) : PM A :=
  match r with Ok a => pret a | Fatal => pabort end.

(** A field that [connected] fills in, dereferenced. *)
Definition deref {A} (p : option A) : PM A :=
  match p with Some a => pret a | None => pabort end.

(** A registration with the DHT: it changes the memory of the DHT. *)
Definition setup (f : World -> World) : PM unit :=
  fun pf => Ok (tt, set_world (f (world pf)) pf, []).

(** A call into the DHT that only reads. *)
Definition ask {A} (f : World -> A) : PM A :=
  fun pf => Ok (f (world pf), pf, []).

(** A constructor of the DHT. *)
Definition construct {A} (f : World -> A * World) : PM A :=
  fun pf => Ok (fst (f (world pf)), set_world (snd (f (world pf))) pf, []).

Definition Message_reset (m : Message) : Message :=
  mkMessage (buf m) (Z.of_nat (length (buf m))) 0.

(** Modelled from the spec: wire/PFChan.h is not in src/.  A [PFChan_Msg]
    is a route header followed by a data header; the content follows. *)
Definition PFChan_Msg_MIN_SIZE : Z := RouteHeader_SIZE + DataHeader_SIZE.

(** [incomingFromDHT] is [pf->dhtModule.handleOutgoing]: the DHT calls it
    with every message that it sends.  The function returns 0; the value
    here tells whether it has set [pleaseRespond] of the message that
    [incomingMsg] is handing to the registry.  (The flag of another message
    is in the memory of the DHT.) *)
Definition incomingFromDHT (dmessage : DHTMessage) : PM bool :=
  let msg := binMessage dmessage in
  let addr := address dmessage in
  (* Sanity check (make sure the addr was actually calculated) *)
  Assert_true (nth 0 (ip6 addr) 0 =? 0xfc) ;;;
  msg <- orAbort (Message_eshift msg PFChan_Msg_MIN_SIZE) ;;
  let emsg := off msg in
  let msg := Message_setStruct msg emsg (zeros PFChan_Msg_MIN_SIZE) in
  let data := emsg + RouteHeader_SIZE in
  let msg := Message_setStruct msg data
               (DataHeader_setVersion (Message_struct msg data DataHeader_SIZE)
                  DataHeader_CURRENT_VERSION) in
  let msg := Message_setStruct msg data
               (DataHeader_setContentType (Message_struct msg data DataHeader_SIZE)
                  ContentType_CJDHT) in
  let msg := Message_setStruct msg emsg
               (RouteHeader_set_ip6 (ip6 addr) (Message_struct msg emsg RouteHeader_SIZE)) in
  let msg := Message_setStruct msg emsg
               (RouteHeader_set_version_be (protocolVersion addr)
                  (Message_struct msg emsg RouteHeader_SIZE)) in
  let sh := emsg + RouteHeader_sh in
  let msg := Message_setStruct msg sh
               (SwitchHeader_set_label_be (path addr)
                  (Message_struct msg sh SwitchHeader_SIZE)) in
  let msg := Message_setStruct msg emsg
               (RouteHeader_set_publicKey (key addr)
                  (Message_struct msg emsg RouteHeader_SIZE)) in
  msg <- orAbort (Message_epush32be msg PFChan_Pathfinder_SENDMSG) ;;
  match replyTo dmessage with
  | replyTo_incoming =>
      (* see incomingMsg *)
      pret true
  | replyTo_other => pret false
  | replyTo_NULL =>
      (* send DHT request *)
      Iface_send msg ;;;
      pret false
  end.

(** The DHT hands the messages [out] to [handleOutgoing], one after the
    other. *)
Fixpoint handleOutgoing (out : list DHTMessage) : PM bool :=
  match out with
  | [] => pret false
  | dmessage :: out' =>
      r <- incomingFromDHT dmessage ;;
      r' <- handleOutgoing out' ;;
      pret (r || r')
  end.

(** An operation of the DHT that changes its memory and may send. *)
Definition call (f : World -> list DHTMessage * World) : PM unit :=
  out <- (fun pf => Ok (fst (f (world pf)), set_world (snd (f (world pf))) pf, [])) ;;
  handleOutgoing out ;;;
  pret tt.

Definition connected (msg : Message) : PM unit :=
  r <- orAbort (Message_epop msg PFChan_Core_Connect_SIZE) ;;
  let conn := fst r in
  Assert_true (len (snd r) =? 0) ;;;
  pf <- pget ;;
  let a := myAddr pf in
  let a := mkAddress (protocolVersion a) (padding a)
                     (PFChan_Core_Connect_publicKey conn) (ip6 a) (path a) in
  let a := Address_getPrefix a in
  let myAddr' := mkAddress (protocolVersion a) (padding a) (key a) (ip6 a) 1 in
  (* begin *)
  registry' <- construct DHTModuleRegistry_new ;;
  setup (ReplyModule_register registry') ;;;
  rumorMill' <- construct (RumorMill_new myAddr' RUMORMILL_CAPACITY) ;;
  nodeStore' <- construct (NodeStore_new myAddr' rumorMill') ;;
  routerModule <- construct (RouterModule_register registry' (key myAddr') nodeStore') ;;
  searchRunner' <- construct (SearchRunner_new nodeStore' routerModule (ip6 myAddr') rumorMill') ;;
  setup (Janitor_new LOCAL_MAINTENANCE_SEARCH_MILLISECONDS
                    GLOBAL_MAINTENANCE_SEARCH_MILLISECONDS
                    routerModule nodeStore' searchRunner' rumorMill') ;;;
  setup (EncodingSchemeModule_register registry') ;;;
  setup (SerializationModule_register registry') ;;;
  setup (DHTModuleRegistry_register registry') ;;;
  router' <- construct (Router_new routerModule nodeStore' searchRunner') ;;
  (* Now the admin stuff... *)
  (if admin pf then
     setup (NodeStore_admin_register nodeStore') ;;;
     setup (RouterModule_admin_register routerModule router') ;;;
     setup (SearchRunner_admin_register searchRunner')
   else pret tt) ;;;
  pf <- pget ;;
  pset (mkPf (admin pf) Pathfinder_pvt_state_RUNNING myAddr' (Some registry')
             (Some nodeStore') (Some router') (Some searchRunner') (Some rumorMill')
             (world pf)).

Definition addressForNode (msg : Message) : PM Address :=
  r <- orAbort (Message_epop msg PFChan_Node_SIZE) ;;
  let node := PFChan_Node_decode (fst r) in
  Assert_true (len (snd r) =? 0) ;;;
  pret (mkAddress (version_be node) 0 (node_publicKey node) (node_ip6 node) (path_be node)).

Definition nodeForAddress (addr : Address) (metric : Z) : PFChan_Node :=
  mkNode (path addr) metric (protocolVersion addr) (ip6 addr) (key addr).

Definition switchErr (msg : Message) : PM unit :=
  r <- orAbort (Message_epop msg PFChan_Core_SwitchErr_MIN_SIZE) ;;
  let switchErr := fst r in
  let path := PFChan_Core_SwitchErr_sh_label_be switchErr in
  let pathAtErrorHop := PFChan_Core_SwitchErr_cause_label_be switchErr in
  pf <- pget ;;
  nodeStore' <- deref (nodeStore pf) ;;
  link <- ask (NodeStore_linkForPath nodeStore' path) ;;
  nodeAddr <- match link with
              | Some l => ask (fun w => ip6 (node_address (link_child l w) w))
              | None => pret []
              end ;;
  call (NodeStore_brokenLink nodeStore' path pathAtErrorHop) ;;;
  match link with
  | Some _ =>
      (* Don't touch the node again, it might be a dangling pointer *)
      searchRunner' <- deref (searchRunner pf) ;;
      call (SearchRunner_search nodeAddr 20 3 searchRunner')
  | None => pret tt
  end.

Definition searchReq (msg : Message) : PM unit :=
  r <- orAbort (Message_epop msg 16) ;;
  let addr := fst r in
  Assert_true (len (snd r) =? 0) ;;;
  pf <- pget ;;
  searchRunner' <- deref (searchRunner pf) ;;
  call (SearchRunner_search addr 20 3 searchRunner').

Definition peer (msg : Message) : PM unit :=
  addr <- addressForNode msg ;;
  pf <- pget ;;
  nodeStore' <- deref (nodeStore pf) ;;
  link <- ask (NodeStore_linkForPath nodeStore' (path addr)) ;;
  (* It exists, it's parent is the self-node, and it's label is equal to the
     switchLabel. *)
  known <- ask (fun w =>
    match link with
    | Some l =>
        match Node_getBestParent (link_child l w) w with
        | Some bp =>
            (path (node_address (link_parent bp w) w) =? 1)
            && (link_cannonicalLabel bp w =? path addr)
        | None => false
        end
    | None => false
    end) ;;
  if known then pret tt else
  router' <- deref (router pf) ;;
  call (Router_sendGetPeers router' addr 0 0).

Definition peerGone (msg : Message) : PM unit :=
  addr <- addressForNode msg ;;
  pf <- pget ;;
  nodeStore' <- deref (nodeStore pf) ;;
  call (NodeStore_disconnectedPeer nodeStore' (path addr)).

Definition session (msg : Message) : PM unit :=
  addr <- addressForNode msg ;;
  pf <- pget ;;
  nodeStore' <- deref (nodeStore pf) ;;
  node <- ask (NodeStore_nodeForAddr nodeStore' (ip6 addr)) ;;
  match node with
  | Some node => call (NodeStore_pinNode nodeStore' node)
  | None =>
      searchRunner' <- deref (searchRunner pf) ;;
      call (SearchRunner_search (ip6 addr) 20 3 searchRunner')
  end.

Definition sessionEnded (msg : Message) : PM unit :=
  addr <- addressForNode msg ;;
  pf <- pget ;;
  nodeStore' <- deref (nodeStore pf) ;;
  node <- ask (NodeStore_nodeForAddr nodeStore' (ip6 addr)) ;;
  match node with
  | Some node => call (NodeStore_unpinNode nodeStore' node)
  | None => pret tt
  end.

Definition discoveredPath (msg : Message) : PM unit :=
  addr <- addressForNode msg ;;
  pf <- pget ;;
  rumorMill' <- deref (rumorMill pf) ;;
  call (RumorMill_addNode rumorMill' addr).

Definition handlePing (msg : Message) : PM unit :=
  msg <- orAbort (Message_epush32be msg PFChan_Pathfinder_PONG) ;;
  Iface_send msg.

Definition handlePong (msg : Message) : PM unit := pret tt.

Definition incomingMsg (msg : Message) : PM unit :=
  let hdr := Message_struct msg (off msg) RouteHeader_SIZE in
  msg <- orAbort (Message_eshift msg (- (RouteHeader_SIZE + DataHeader_SIZE))) ;;
  let version := RouteHeader_version_be hdr in
  let addr := mkAddress version 0 (RouteHeader_publicKey hdr) (RouteHeader_ip6 hdr)
                (SwitchHeader_label_be (mem_read hdr RouteHeader_sh SwitchHeader_SIZE)) in
  pf <- pget ;;
  registry' <- deref (registry pf) ;;
  r <- (fun pf =>
          let '(addr', msg', out, w) :=
            DHTModuleRegistry_handleIncoming registry' addr msg (world pf) in
          Ok ((addr', msg', out), set_world w pf, [])) ;;
  let '(addr, msg, out) := r in
  pleaseRespond <- handleOutgoing out ;;
  if pleaseRespond : bool then
    (* what a beautiful hack, see incomingFromDHT *)
    Iface_send msg
  else if (version =? 0) && negb (protocolVersion addr =? 0) then
    let msg := Message_reset msg in
    msg <- orAbort (Message_eshift msg PFChan_Node_SIZE) ;;
    let msg := Message_setStruct msg (off msg)
                 (PFChan_Node_encode (nodeForAddress addr 0xfffffffe)) in
    msg <- orAbort (Message_epush32be msg PFChan_Pathfinder_NODE) ;;
    Iface_send msg
  else pret tt.

Definition incomingFromEventIf (msg : Message) : PM unit :=
  r <- orAbort (Message_epop32be msg) ;;
  let ev := fst r in
  let msg := snd r in
  pf <- pget ;;
  if Pathfinder_pvt_state_INITIALIZING =? state pf then
    Assert_true (ev =? PFChan_Core_CONNECT) ;;;
    connected msg
  else
  if ev =? PFChan_Core_SWITCH_ERR then switchErr msg
  else if ev =? PFChan_Core_SEARCH_REQ then searchReq msg
  else if ev =? PFChan_Core_PEER then peer msg
  else if ev =? PFChan_Core_PEER_GONE then peerGone msg
  else if ev =? PFChan_Core_SESSION then session msg
  else if ev =? PFChan_Core_SESSION_ENDED then sessionEnded msg
  else if ev =? PFChan_Core_DISCOVERED_PATH then discoveredPath msg
  else if ev =? PFChan_Core_MSG then incomingMsg msg
  else if ev =? PFChan_Core_PING then handlePing msg
  else if ev =? PFChan_Core_PONG then handlePong msg
  else Assert_failure.

Definition sendEvent (ev : Z) (data : list Z) : PM unit :=
  let msg := Message_new 0 (512 + Z.of_nat (length data)) in
  msg <- orAbort (Message_epush msg data) ;;
  msg <- orAbort (Message_epush32be msg ev) ;;
  Iface_send msg.

(** [Pathfinder_register]: the fresh pathfinder (the struct is zeroed, so it
    is [INITIALIZING]) announces itself with a CONNECT event. *)
Definition Pathfinder_register (admin' : bool) (w : World)
  : res (unit * Pathfinder_pvt * list Message) :=
  let pf := mkPf admin' 0 (mkAddress 0 0 (zeros 32) (zeros 16) 0)
                 None None None None None w in
  sendEvent PFChan_Pathfinder_CONNECT
    (PFChan_Pathfinder_Connect_encode 1 Version_CURRENT_PROTOCOL
       UserAgent.userAgent)
    pf.


(** The event kinds that [incomingFromEventIf] dispatches once the
    pathfinder runs: the case labels of its switch, in their order. *)
Definition dispatched : list Z :=
  [PFChan_Core_SWITCH_ERR; PFChan_Core_SEARCH_REQ; PFChan_Core_PEER; PFChan_Core_PEER_GONE;
   PFChan_Core_SESSION; PFChan_Core_SESSION_ENDED; PFChan_Core_DISCOVERED_PATH;
   PFChan_Core_MSG; PFChan_Core_PING; PFChan_Core_PONG].

(** A run of [m] that ends normally leaves every field of the pathfinder
    as it was, but for the memory of the DHT. *)
Definition worldOnly {A} (m : PM A) : Prop :=
  forall pf a pf' o, m pf = Ok (a, pf', o) -> pf' = set_world (world pf') pf.

(** Every message that a run of [m] sends satisfies [P]. *)
Definition sends {A} (P : Message -> Prop) (m : PM A) : Prop :=
  forall pf a pf' o, m pf = Ok (a, pf', o) -> Forall P o.

(** [msg] is a message that [incomingFromDHT] sends for a request of the
    DHT. *)
Definition fromDHT (msg : Message) : Prop :=
  exists dmessage pf,
    replyTo dmessage = replyTo_NULL
    /\ incomingFromDHT dmessage pf = Ok (false, pf, [msg]).

End WithExternals.

End Pathfinder.

(** * An instantiation of the parameters

    The model runs once the parameters are given.  The instance below is used
    for the examples: struct layouts after the C headers of the project, a
    stand-in for the hash of AddressCalc (a key whose first byte is even has
    a valid address) and a stand-in for CryptoAuth (a message authenticates
    when the byte after its nonce is zero). *)

Module Example.

Definition fit (n : nat) (l : list Z) : list Z := firstn n (l ++ repeat 0 n).

Definition Node_encode (n : PFChan_Node) : list Z :=
  fit 16 (node_ip6 n) ++ fit 32 (node_publicKey n)
  ++ be_bytes 8 (path_be n) ++ be_bytes 4 (metric_be n) ++ be_bytes 4 (version_be n).

Definition Node_decode (b : list Z) : PFChan_Node :=
  mkNode (be_value (mem_read b 48 8)) (be_value (mem_read b 56 4))
         (be_value (mem_read b 60 4)) (mem_read b 0 16) (mem_read b 16 32).

Definition hash (key : list Z) : list Z :=
  match key with
  | k :: rest => (if Z.even k then 0xfc else 0xfd) :: fit 15 rest
  | [] => repeat 0 16%nat
  end.

Record CaSession : Type := mkCa {
  ca_key : list Z;
  ca_ip6 : list Z;
  ca_state : Z
}.

Definition decrypt (s : CaSession) (m : Message) : Z * CaSession * Message :=
  if len m <? 20 then (1, s, m)
  else if be_value (mem_read (buf m) (off m + 4) 1) =? 0
       then (0, mkCa (ca_key s) (ca_ip6 s) 100, mkMessage (buf m) (off m + 20) (len m - 20))
       else (2, s, m).

Definition encrypt (s : CaSession) (m : Message) : Z * CaSession * Message :=
  let n := if ca_state s <? 4 then 120 else 20 in
  if off m <? n then (1, s, m)
  else (0, s, mkMessage (mem_write (buf m) (off m - n) (zeros n)) (off m - n) (len m + n)).

Definition setSuppressErrors (h : list Z) (b : bool) : list Z :=
  mem_write h 8 [if b then Z.lor (nth 8 h 0) 1 else Z.land (nth 8 h 0) 254].

Definition setVersion (h : list Z) (v : Z) : list Z :=
  mem_write h 9 [Z.lor (Z.shiftl (v mod 4) 6) (Z.land (nth 9 h 0) 63)].

Definition E0 : Externals := {|
  Metric_DEAD_LINK := 0xffffffff;
  Metric_SM_INCOMING := 0xfffffff0;
  Metric_SM_SEND := 0xfffffff1;
  PFChan_Core_SEARCH_REQ := 1028;
  PFChan_Core_SESSION := 1031;
  PFChan_Core_SESSION_ENDED := 1032;
  PFChan_Core_DISCOVERED_PATH := 1033;
  PFChan_Core_UNSETUP_SESSION := 1038;
  PFChan_Pathfinder_NODE := 514;
  PFChan_Pathfinder_SESSIONS := 518;
  PFChan_Node_SIZE := 64;
  PFChan_Node_encode := Node_encode;
  PFChan_Node_decode := Node_decode;
  SwitchHeader_SIZE := 12;
  SwitchHeader_CURRENT_VERSION := 1;
  SwitchHeader_label_be := fun h => be_value (mem_read h 0 8);
  SwitchHeader_set_label_be := fun l h => mem_write h 0 (be_bytes 8 l);
  SwitchHeader_getSuppressErrors := fun h => Z.testbit (nth 8 h 0) 0;
  SwitchHeader_setSuppressErrors := setSuppressErrors;
  SwitchHeader_setVersion := setVersion;
  RouteHeader_SIZE := 68;
  RouteHeader_sh := 32;
  RouteHeader_publicKey := fun h => mem_read h 0 32;
  RouteHeader_ip6 := fun h => mem_read h 52 16;
  RouteHeader_version_be := fun h => be_value (mem_read h 44 4);
  RouteHeader_flags := fun h => be_value (mem_read h 48 1);
  RouteHeader_set_publicKey := fun k h => mem_write h 0 (fit 32 k);
  RouteHeader_set_ip6 := fun a h => mem_write h 52 (fit 16 a);
  RouteHeader_set_version_be := fun v h => mem_write h 44 (be_bytes 4 v);
  RouteHeader_set_flags := fun f h => mem_write h 48 (be_bytes 1 f);
  RouteHeader_set_unused := fun u h => mem_write h 49 (be_bytes 1 u);
  DataHeader_SIZE := 4;
  DataHeader_getContentType := fun h => be_value (mem_read h 2 2);
  ContentType_CJDHT := 256;
  CryptoHeader_SIZE := 120;
  CryptoHeader_publicKey := fun h => mem_read h 40 32;
  Error_AUTHENTICATION := 12;
  Control_ERROR := 2;
  Checksum_engine := fun l => fold_left Z.add l 0 mod 65536;
  Endian_isBigEndian := false;
  AddressCalc_hash := hash;
  CryptoAuth_Session := CaSession;
  CryptoAuth_publicKey := repeat 7 32%nat;
  CryptoAuth_State_RECEIVED_KEY := 4;
  herPublicKey := ca_key;
  herIp6 := ca_ip6;
  CryptoAuth_newSession := fun k => mkCa k (hash k) 0;
  CryptoAuth_resetIfTimeout := fun _ s => s;
  CryptoAuth_getState := ca_state;
  CryptoAuth_decrypt := decrypt;
  CryptoAuth_encrypt := encrypt;
  SessionManager_SESSION_TIMEOUT_MILLISECONDS_DEFAULT := 60000;
  SessionManager_MAX_BUFFERED_MESSAGES_DEFAULT := 30;
  SessionManager_SESSION_SEARCH_AFTER_MILLISECONDS_DEFAULT := 20000
|}.

Definition D0 : Pathfinder.Dht := {|
  Pathfinder.World := unit;
  Pathfinder.DHTModuleRegistry := unit;
  Pathfinder.RumorMill := unit;
  Pathfinder.NodeStore := unit;
  Pathfinder.RouterModule := unit;
  Pathfinder.SearchRunner := unit;
  Pathfinder.Router := unit;
  Pathfinder.Node_Link := unit;
  Pathfinder.Node_Two := unit;
  Pathfinder.PFChan_Core_CONNECT := 1024;
  Pathfinder.PFChan_Core_SWITCH_ERR := 1027;
  Pathfinder.PFChan_Core_PEER := 1029;
  Pathfinder.PFChan_Core_PEER_GONE := 1030;
  Pathfinder.PFChan_Core_MSG := 1034;
  Pathfinder.PFChan_Core_PING := 1035;
  Pathfinder.PFChan_Core_PONG := 1036;
  Pathfinder.PFChan_Pathfinder_CONNECT := 512;
  Pathfinder.PFChan_Pathfinder_SENDMSG := 515;
  Pathfinder.PFChan_Pathfinder_PONG := 517;
  Pathfinder.PFChan_Core_Connect_SIZE := 104;
  Pathfinder.PFChan_Core_Connect_publicKey := fun b => mem_read b 72 32;
  Pathfinder.PFChan_Core_SwitchErr_MIN_SIZE := 44;
  Pathfinder.PFChan_Core_SwitchErr_sh_label_be := fun b => be_value (mem_read b 0 8);
  Pathfinder.PFChan_Core_SwitchErr_cause_label_be := fun b => be_value (mem_read b 20 8);
  Pathfinder.PFChan_Pathfinder_Connect_encode :=
    fun sup ver agent => be_bytes 4 sup ++ be_bytes 4 ver ++ fit 64 agent;
  Pathfinder.Version_CURRENT_PROTOCOL := 20;
  Pathfinder.DataHeader_CURRENT_VERSION := 1;
  Pathfinder.DataHeader_setVersion :=
    fun h v => mem_write h 0 [Z.lor (Z.shiftl (v mod 16) 4) (Z.land (nth 0 h 0) 15)];
  Pathfinder.DataHeader_setContentType := fun h t => mem_write h 2 (be_bytes 2 t);
  Pathfinder.Address_getPrefix :=
    fun a => Pathfinder.mkAddress (Pathfinder.protocolVersion a) (Pathfinder.padding a)
               (Pathfinder.key a) (hash (Pathfinder.key a)) (Pathfinder.path a);
  Pathfinder.DHTModuleRegistry_new := fun w => (tt, w);
  Pathfinder.ReplyModule_register := fun _ w => w;
  Pathfinder.RumorMill_new := fun _ _ w => (tt, w);
  Pathfinder.NodeStore_new := fun _ _ w => (tt, w);
  Pathfinder.RouterModule_register := fun _ _ _ w => (tt, w);
  Pathfinder.SearchRunner_new := fun _ _ _ _ w => (tt, w);
  Pathfinder.Janitor_new := fun _ _ _ _ _ _ w => w;
  Pathfinder.EncodingSchemeModule_register := fun _ w => w;
  Pathfinder.SerializationModule_register := fun _ w => w;
  Pathfinder.DHTModuleRegistry_register := fun _ w => w;
  Pathfinder.Router_new := fun _ _ _ w => (tt, w);
  Pathfinder.NodeStore_admin_register := fun _ w => w;
  Pathfinder.RouterModule_admin_register := fun _ _ w => w;
  Pathfinder.SearchRunner_admin_register := fun _ w => w;
  Pathfinder.NodeStore_linkForPath := fun _ _ _ => None;
  Pathfinder.NodeStore_brokenLink := fun _ _ _ w => ([], w);
  Pathfinder.NodeStore_disconnectedPeer := fun _ _ w => ([], w);
  Pathfinder.NodeStore_nodeForAddr := fun _ _ _ => None;
  Pathfinder.NodeStore_pinNode := fun _ _ w => ([], w);
  Pathfinder.NodeStore_unpinNode := fun _ _ w => ([], w);
  Pathfinder.SearchRunner_search :=
    fun target _ _ _ w =>
      ([Pathfinder.mkDHTMessage (Pathfinder.mkAddress 18 0 (repeat 6 32%nat) target 0x15)
          (mkMessage (zeros 512 ++ [100; 49; 58; 113]) 512 4) Pathfinder.replyTo_NULL], w);
  Pathfinder.Router_sendGetPeers := fun _ _ _ _ w => ([], w);
  Pathfinder.RumorMill_addNode := fun _ _ w => ([], w);
  Pathfinder.Node_getBestParent := fun _ _ => None;
  Pathfinder.link_child := fun _ _ => tt;
  Pathfinder.link_parent := fun _ _ => tt;
  Pathfinder.link_cannonicalLabel := fun _ _ => 0;
  Pathfinder.node_address := fun _ _ => Pathfinder.mkAddress 0 0 [] [] 0;
  Pathfinder.DHTModuleRegistry_handleIncoming := fun _ a m w => (a, m, [], w)
|}.


Definition exKey : list Z := repeat 2 32%nat.

(** A session whose path was reported dead. *)
Definition exDeadSession : SessionManager.Session (E:=E0) :=
  SessionManager.mkSession (E:=E0) (mkCa exKey (hash exKey) 0)
    1000 1000 0 0 0 1000 0 21 18 0xffffffff 0 0 0 0 true.

Definition exDead : SessionManager.SessionManager_pvt (E:=E0) :=
  SessionManager.mkSM 30 60000 20000 (Map_empty _)
    (mkMap [mkEntry (hash exKey) 0 exDeadSession] 1) 21 2000 [0] 1.

(** A manager that has just been made. *)
Definition exNew : SessionManager.SessionManager_pvt :=
  SessionManager.SessionManager_new (E:=E0) 17 1000.

(** A handshake frame from the switch: 64 bytes of headroom, a switch
    header with label 1, nonce 0 and the key [exKey] in the place of the
    crypto header's key; 100 bytes follow the switch header, fewer than a
    crypto header and four more. *)
Definition exRunt : Message :=
  mkMessage (zeros 64 ++ (be_bytes 8 1 ++ [0; 0; 0; 0])
               ++ be_bytes 4 0 ++ zeros 36 ++ exKey ++ zeros 28) 64 112.

(** The same handshake with 124 bytes after the switch header. *)
Definition exHandshake : Message :=
  mkMessage (zeros 64 ++ (be_bytes 8 1 ++ [0; 0; 0; 0])
               ++ be_bytes 4 0 ++ zeros 36 ++ exKey ++ zeros 52) 64 136.

(** The handshake [exHandshake] with a byte that makes [decrypt] fail. *)
Definition exBad : Message :=
  mkMessage (zeros 64 ++ (be_bytes 8 1 ++ [0; 0; 0; 0])
               ++ be_bytes 4 0 ++ [1] ++ zeros 35 ++ exKey ++ zeros 52) 64 136.

(** The state, the frames and the value of a run. *)
Definition run_state {A} (r : res (A * SessionManager.SessionManager_pvt (E:=E0)
                                  * list SessionManager.Output))
    (default : SessionManager.SessionManager_pvt) : SessionManager.SessionManager_pvt :=
  match r with
  | Ok (_, sm, _) => sm
  | Fatal => default
  end.

Definition run_outputs {A} (r : res (A * SessionManager.SessionManager_pvt (E:=E0)
                                    * list SessionManager.Output))
  : list SessionManager.Output :=
  match r with
  | Ok (_, _, o) => o
  | Fatal => []
  end.

Definition switchFrames (o : list SessionManager.Output) : list Message :=
  flat_map (fun x => match x with SessionManager.SwitchIf m => [m] | _ => [] end) o.

Definition session_or (sm : SessionManager.SessionManager_pvt (E:=E0)) (i : nat)
  : SessionManager.Session (E:=E0) :=
  match SessionManager.sessionAt sm i with
  | Some s => s
  | None => exDeadSession
  end.

(** The run of [exBad] on the new manager: the state and the events when
    the decryption is called, the session it is called with, and the frame
    that goes back to the switch. *)
Definition exBadState : SessionManager.SessionManager_pvt (E:=E0) :=
  Eval vm_compute in run_state (SessionManager.beforeDecrypt (E:=E0) exBad exNew) exNew.

Definition exBadEvents : list SessionManager.Output :=
  Eval vm_compute in run_outputs (SessionManager.beforeDecrypt (E:=E0) exBad exNew).

Definition exBadSession : SessionManager.Session (E:=E0) :=
  Eval vm_compute in session_or exBadState 0.

Definition exBadReply : Message :=
  Eval vm_compute in
    hd exBad (switchFrames
                (run_outputs (SessionManager.incomingFromSwitchIf (E:=E0) exBad exNew))).

(** A session without the key of its peer, with a version and a path, that
    the pathfinder maintains itself, and the same session maintained by the
    session manager; neither has timed out or is due for a search. *)
Definition exUnmaintainedSession : SessionManager.Session (E:=E0) :=
  SessionManager.mkSession (E:=E0) (mkCa exKey (hash exKey) 0)
    1000 1000 0 0 1000 1000 0 21 18 0xfffffff0 19 0 0 0 true.

Definition exMaintainedSession : SessionManager.Session (E:=E0) :=
  SessionManager.mkSession (E:=E0) (mkCa exKey (hash exKey) 0)
    1000 1000 0 0 1000 1000 0 21 18 0xfffffff0 19 0 1 0 true.

Definition exUnmaintained : SessionManager.SessionManager_pvt (E:=E0) :=
  SessionManager.mkSM 30 60000 20000 (Map_empty _)
    (mkMap [mkEntry (hash exKey) 0 exUnmaintainedSession] 1) 21 2000 [0] 1.

Definition exMaintained : SessionManager.SessionManager_pvt (E:=E0) :=
  SessionManager.mkSM 30 60000 20000 (Map_empty _)
    (mkMap [mkEntry (hash exKey) 0 exMaintainedSession] 1) 21 2000 [0] 1.

(** A data message from the inside for the node with the key [exKey], for
    which the new manager has no session: 512 bytes of headroom, a route
    header with label 0x13 and version 18, a data header of content type
    0x0101 and four bytes. *)
Definition exInside : Message :=
  mkMessage (zeros 512
               ++ (exKey ++ (be_bytes 8 0x13 ++ [0; 0; 0; 0]) ++ be_bytes 4 18
                     ++ [0; 0; 0; 0] ++ hash exKey)
               ++ [0; 0; 1; 1] ++ [1; 2; 3; 4]) 512 76.

(** The manager after [exInside]: one session, one buffered message. *)
Definition exBuffered : SessionManager.SessionManager_pvt (E:=E0) :=
  Eval vm_compute in
    run_state (SessionManager.incomingFromInsideIf (E:=E0) exInside exNew) exNew.

Definition exBufferedEvents : list SessionManager.Output :=
  Eval vm_compute in
    run_outputs (SessionManager.incomingFromInsideIf (E:=E0) exInside exNew).

Definition exBufferedSession : SessionManager.Session (E:=E0) :=
  Eval vm_compute in session_or exBuffered 0.

(** The session of [exUnmaintained] a hundred seconds later. *)
Definition exTimedOut : SessionManager.SessionManager_pvt (E:=E0) :=
  SessionManager.mkSM 30 60000 20000 (Map_empty _)
    (mkMap [mkEntry (hash exKey) 0 exUnmaintainedSession] 1) 21 100000 [0] 1.

(** Two sessions at the time 100000.  The one in slot 0, for the key
    [exKey2], has its last keep-alive at 200000, later than the clock; the
    one in slot 1, for the key [exKey], was last heard of at 1000. *)
Definition exKey2 : list Z := repeat 4 32%nat.

Definition exAheadSession : SessionManager.Session (E:=E0) :=
  SessionManager.mkSession (E:=E0) (mkCa exKey2 (hash exKey2) 0)
    200000 200000 0 0 200000 200000 0 21 18 0xfffffff0 23 0 0 0 true.

Definition exSecondSession : SessionManager.Session (E:=E0) :=
  SessionManager.mkSession (E:=E0) (mkCa exKey (hash exKey) 0)
    1000 1000 0 0 1000 1000 0 22 18 0xfffffff0 19 0 0 1 true.

Definition exTwo : SessionManager.SessionManager_pvt (E:=E0) :=
  SessionManager.mkSM 30 60000 20000 (Map_empty _)
    (mkMap [mkEntry (hash exKey2) 0 exAheadSession; mkEntry (hash exKey) 1 exSecondSession] 2)
    21 100000 [0; 1] 2.

(** The session of [exUnmaintained] with the clock at 500, behind the last
    keep-alive of the session at 1000. *)
Definition exEarly : SessionManager.SessionManager_pvt (E:=E0) :=
  SessionManager.mkSM 30 60000 20000 (Map_empty _)
    (mkMap [mkEntry (hash exKey) 0 exUnmaintainedSession] 1) 21 500 [0] 1.

(** The event SESSIONS from the pathfinder 7. *)
Definition exSessions : Message :=
  mkMessage (be_bytes 4 518 ++ be_bytes 4 7) 0 8.

(** A pathfinder that has been registered, and the event CONNECT. *)
Definition exPathfinder : Pathfinder.Pathfinder_pvt (D:=D0) :=
  Pathfinder.mkPf (D:=D0) false 0 (Pathfinder.mkAddress 0 0 [] [] 0)
    None None None None None tt.

Definition exConnect : Message :=
  mkMessage (be_bytes 4 1024 ++ zeros 72 ++ exKey) 0 108.


(** The session of [exMaintained] twenty-nine seconds after its last
    search and its last keep-alive. *)
Definition exSearchDue : SessionManager.SessionManager_pvt (E:=E0) :=
  SessionManager.mkSM 30 60000 20000 (Map_empty _)
    (mkMap [mkEntry (hash exKey) 0 exMaintainedSession] 1) 21 30000 [0] 1.

(** Frames from the switch: eight bytes only; a data frame with the handle
    100; a frame with the handle 21 followed by the nonce 1. *)
Definition exShortFrame : Message :=
  mkMessage (be_bytes 8 1) 0 8.

Definition exUnknownHandle : Message :=
  mkMessage (zeros 64 ++ (be_bytes 8 1 ++ [0; 0; 0; 0]) ++ be_bytes 4 100 ++ zeros 40) 64 56.

Definition exSetupOnHandle : Message :=
  mkMessage (zeros 64 ++ (be_bytes 8 1 ++ [0; 0; 0; 0]) ++ be_bytes 4 21 ++ be_bytes 4 1
               ++ zeros 36) 64 56.

(** Events from the pathfinder 7: four bytes only; an event of the kind 999;
    the event NODE for the key [exKey], with path 0x15, metric 0xfffffff0
    and version 18. *)
Definition exShortEvent : Message :=
  mkMessage (be_bytes 4 514) 0 4.

Definition exUnknownEvent : Message :=
  mkMessage (be_bytes 4 999 ++ be_bytes 4 7) 0 8.

Definition exNodeEvent : Message :=
  mkMessage (be_bytes 4 514 ++ be_bytes 4 7
               ++ Node_encode (mkNode 0x15 0xfffffff0 18 (hash exKey) exKey)) 0 72.


(** A pathfinder that runs, and events for it: PING with three bytes of
    payload, PONG, and SESSION with the node of the key [exKey]. *)
Definition exRunning : Pathfinder.Pathfinder_pvt (D:=D0) :=
  Pathfinder.mkPf (D:=D0) false 1 (Pathfinder.mkAddress 0 0 exKey (hash exKey) 1)
    (Some tt) (Some tt) (Some tt) (Some tt) (Some tt) tt.

Definition exPing : Message :=
  mkMessage (be_bytes 4 1035 ++ [1; 2; 3]) 0 7.

Definition exPong : Message :=
  mkMessage (be_bytes 4 1036) 0 4.

Definition exSessionEvent : Message :=
  mkMessage (be_bytes 4 1031
               ++ Node_encode (mkNode 0x15 0xfffffff0 18 (hash exKey) exKey)) 0 68.


(** Control frames: one from the inside, with a route header that is zero
    but for the label 0x13 and the flag CTRLMSG, and four bytes; one from
    the switch, with the label 1, the word 0xffffffff and four bytes. *)
Definition exCtrlOut : Message :=
  mkMessage (zeros 64
               ++ (zeros 32 ++ (be_bytes 8 0x13 ++ [0; 0; 0; 0]) ++ be_bytes 4 0
                     ++ [2; 0; 0; 0] ++ zeros 16)
               ++ [9; 9; 9; 9]) 64 72.

Definition exCtrlIn : Message :=
  mkMessage (zeros 64 ++ (be_bytes 8 1 ++ [0; 0; 0; 0]) ++ be_bytes 4 0xffffffff
               ++ [7; 7; 7; 7]) 64 20.


(** A data message from the inside for the address of [exKey] whose route
    header has neither key nor version. *)
Definition exCold : Message :=
  mkMessage (zeros 512
               ++ (zeros 32 ++ (be_bytes 8 0 ++ [0; 0; 0; 0]) ++ be_bytes 4 0
                     ++ [0; 0; 0; 0] ++ hash exKey)
               ++ [0; 0; 1; 1] ++ [1; 2; 3; 4]) 512 76.


(** A data frame from the switch for the session of [exBuffered]: the
    handle 21, the nonce 5, sixteen bytes that authenticate, and a data
    header with four bytes.  [exDataX] is the frame as it goes to the
    decryption, [exDataD] as it comes out. *)
Definition exData : Message :=
  mkMessage (zeros 64 ++ (be_bytes 8 1 ++ [0; 0; 0; 0]) ++ be_bytes 4 21 ++ be_bytes 4 5
               ++ zeros 16 ++ [0; 0; 1; 1] ++ [1; 2; 3; 4]) 64 44.

Definition exDataX : Message :=
  Eval vm_compute in
    match SessionManager.beforeDecrypt (E:=E0) exData exBuffered with
    | Ok (Some (_, m), _, _) => m
    | _ => exData
    end.

Definition exDataD : Message :=
  Eval vm_compute in mkMessage (buf exDataX) (off exDataX + 20) (len exDataX - 20).


(** A session whose crypto session has the key of the peer (state 100),
    with the send handle 77, and the message [exInside] without its route
    header, encrypted. *)
Definition exEstablishedSession : SessionManager.Session (E:=E0) :=
  SessionManager.mkSession (E:=E0) (mkCa exKey (hash exKey) 100)
    1000 1000 0 0 1000 1000 77 21 18 0xfffffff0 19 0 0 0 true.

Definition exEstablished : SessionManager.SessionManager_pvt (E:=E0) :=
  SessionManager.mkSM 30 60000 20000 (Map_empty _)
    (mkMap [mkEntry (hash exKey) 0 exEstablishedSession] 1) 21 2000 [0] 1.

Definition exInsideE : Message :=
  Eval vm_compute in
    snd (encrypt (mkCa exKey (hash exKey) 100)
           (mkMessage (buf exInside) (off exInside + 68) (len exInside - 68))).


(** The message that waits in [exBuffered]. *)
Definition exBufferedEntry : Map_Entry (SessionManager.BufferedMessage) :=
  Eval vm_compute in
    nth 0 (Map_entries (SessionManager.bufMap exBuffered))
      (mkEntry [] 0 (SessionManager.mkBuffered exInside 0 0)).


(** A handshake that authenticates and asks for the handle 77: the state,
    the events and the session when the decryption is called, the frame as
    it goes in and as it comes out. *)
Definition exHello : Message :=
  mkMessage (zeros 64 ++ (be_bytes 8 1 ++ [0; 0; 0; 0])
               ++ be_bytes 4 0 ++ zeros 16 ++ be_bytes 4 77 ++ zeros 16 ++ exKey
               ++ zeros 52) 64 136.

Definition exHelloState : SessionManager.SessionManager_pvt (E:=E0) :=
  Eval vm_compute in run_state (SessionManager.beforeDecrypt (E:=E0) exHello exNew) exNew.

Definition exHelloEvents : list SessionManager.Output :=
  Eval vm_compute in run_outputs (SessionManager.beforeDecrypt (E:=E0) exHello exNew).

Definition exHelloSession : SessionManager.Session (E:=E0) :=
  Eval vm_compute in session_or exHelloState 0.

Definition exHelloX : Message :=
  Eval vm_compute in
    match SessionManager.beforeDecrypt (E:=E0) exHello exNew with
    | Ok (Some (_, m), _, _) => m
    | _ => exHello
    end.

Definition exHelloD : Message :=
  Eval vm_compute in mkMessage (buf exHelloX) (off exHelloX + 20) (len exHelloX - 20).


(** A CJDHT message from the inside for the node with the key [exKey]:
    [exInside] with the content type 0x0100. *)
Definition exDht : Message :=
  mkMessage (zeros 512
               ++ (exKey ++ (be_bytes 8 0x13 ++ [0; 0; 0; 0]) ++ be_bytes 4 18
                     ++ [0; 0; 0; 0] ++ hash exKey)
               ++ [0; 0; 1; 0] ++ [1; 2; 3; 4]) 512 76.

(** The manager after [exCold]: a buffered message and no session; and the
    event NODE for the address of [exKey] with a key that does not hash to
    it. *)
Definition exWaiting : SessionManager.SessionManager_pvt (E:=E0) :=
  Eval vm_compute in
    run_state (SessionManager.incomingFromInsideIf (E:=E0) exCold exNew) exNew.

Definition exWrongNode : Message :=
  mkMessage (be_bytes 4 514 ++ be_bytes 4 7
               ++ Node_encode (mkNode 0x15 0xfffffff0 18 (hash exKey) (repeat 4 32%nat)))
    0 72.



(** The manager [exBuffered] four seconds later, and a data frame for its
    session (the handle 21, the nonce 5) whose sixteen bytes do not
    authenticate; [exForgedX] is the frame as it goes to the decryption. *)
Definition exLater : SessionManager.SessionManager_pvt (E:=E0) :=
  Eval vm_compute in SessionManager.set_eventBase 5000 exBuffered.

Definition exForged : Message :=
  mkMessage (zeros 64 ++ (be_bytes 8 1 ++ [0; 0; 0; 0]) ++ be_bytes 4 21 ++ be_bytes 4 5
               ++ [1] ++ zeros 15 ++ [0; 0; 1; 1] ++ [1; 2; 3; 4]) 64 44.

Definition exForgedX : Message :=
  Eval vm_compute in
    match SessionManager.beforeDecrypt (E:=E0) exForged exLater with
    | Ok (Some (_, m), _, _) => m
    | _ => exForged
    end.



(** What the pathfinder [exRunning] sends when it handles [exSessionEvent]. *)
Definition exRequestEvent : Message :=
  Eval vm_compute in
    match Pathfinder.incomingFromEventIf (E:=E0) (D:=D0) exSessionEvent exRunning with
    | Ok (_, _, [m]) => m
    | _ => exSessionEvent
    end.


(** The request that the search of the example hands out for the address of
    [exKey]. *)
Definition exRequest : Pathfinder.DHTMessage :=
  Pathfinder.mkDHTMessage (Pathfinder.mkAddress 18 0 (repeat 6 32%nat) (hash exKey) 0x15)
    (mkMessage (zeros 512 ++ [100; 49; 58; 113]) 512 4) Pathfinder.replyTo_NULL.

End Example.

(** * Facts about lists, the slotted map and messages *)

Lemma bytes_eqb_eq (a b : list Z) : bytes_eqb a b = true <-> a = b.
Proof.
  revert b. induction a as [|x a IH]; intros [|y b]; cbn; split; intros H;
    try reflexivity; try discriminate.
  - apply andb_true_iff in H. destruct H as [Hx Hab].
    apply Z.eqb_eq in Hx. apply IH in Hab. congruence.
  - injection H as -> ->. rewrite Z.eqb_refl. cbn. apply IH. reflexivity.
Qed.

Lemma bytes_eqb_refl (a : list Z) : bytes_eqb a a = true.
Proof. apply bytes_eqb_eq. reflexivity. Qed.

Lemma bytes_eqb_neq (a b : list Z) : bytes_eqb a b = false <-> a <> b.
Proof.
  split.
  - intros H Heq. apply bytes_eqb_eq in Heq. congruence.
  - intros H. destruct (bytes_eqb a b) eqn:Hab; [|reflexivity].
    apply bytes_eqb_eq in Hab. contradiction.
Qed.

Section ListFacts.

Variable A : Type.

Lemma find_index_Some (p : A -> bool) (l : list A) (i : nat) :
  find_index p l = Some i ->
  exists x, nth_error l i = Some x /\ p x = true.
Proof.
  revert i. induction l as [|y l IH]; intros i H; cbn in H; [discriminate|].
  destruct (p y) eqn:Hp.
  - injection H as <-. exists y. split; [reflexivity | assumption].
  - destruct (find_index p l) as [j|] eqn:Hf; [|discriminate].
    injection H as <-. cbn. apply IH. reflexivity.
Qed.

Lemma find_index_None (p : A -> bool) (l : list A) :
  find_index p l = None -> forall x, In x l -> p x = false.
Proof.
  induction l as [|y l IH]; intros H x Hin; cbn in *; [contradiction|].
  destruct (p y) eqn:Hp; [discriminate|].
  destruct (find_index p l) eqn:Hf; [discriminate|].
  destruct Hin as [<-|Hin]; [assumption | apply IH; auto].
Qed.

Lemma find_index_None_iff (p : A -> bool) (l : list A) :
  (forall x, In x l -> p x = false) -> find_index p l = None.
Proof.
  induction l as [|y l IH]; intros H; cbn; [reflexivity|].
  rewrite (H y (or_introl eq_refl)). rewrite IH; [reflexivity|].
  intros x Hx. apply H. right. assumption.
Qed.

(** A predicate that singles out one value of an injective projection finds
    the slot that holds it. *)
Lemma find_index_unique (B : Type) (f : A -> B) (p : A -> bool) (l : list A)
    (i : nat) (x : A) :
  NoDup (map f l) ->
  nth_error l i = Some x ->
  (forall y, p y = true <-> f y = f x) ->
  find_index p l = Some i.
Proof.
  revert i. induction l as [|y l IH]; intros i Hnd Hnth Hp.
  - destruct i; discriminate.
  - cbn in Hnd. inversion Hnd as [|? ? Hnotin Hnd']; subst.
    destruct i as [|i]; cbn in Hnth.
    + injection Hnth as ->. cbn. rewrite (proj2 (Hp x) eq_refl). reflexivity.
    + cbn. destruct (p y) eqn:Hy.
      * exfalso. apply Hnotin. apply Hp in Hy. rewrite Hy.
        apply in_map. eapply nth_error_In. eassumption.
      * rewrite (IH i Hnd' Hnth Hp). reflexivity.
Qed.

Lemma list_update_length (l : list A) (i : nat) (f : A -> A) :
  length (list_update l i f) = length l.
Proof.
  revert i. induction l as [|x l IH]; intros [|i]; cbn; auto.
Qed.

Lemma nth_error_list_update_eq (l : list A) (i : nat) (f : A -> A) :
  nth_error (list_update l i f) i = option_map f (nth_error l i).
Proof.
  revert i. induction l as [|x l IH]; intros [|i]; cbn; auto.
Qed.

Lemma nth_error_list_update_neq (l : list A) (i j : nat) (f : A -> A) :
  i <> j -> nth_error (list_update l i f) j = nth_error l j.
Proof.
  revert i j. induction l as [|x l IH]; intros [|i] [|j] H; cbn; auto.
  contradiction.
Qed.

Lemma map_list_update (B : Type) (g : A -> B) (l : list A) (i : nat) (f : A -> A) :
  (forall x, g (f x) = g x) -> map g (list_update l i f) = map g l.
Proof.
  intros Hg. revert i. induction l as [|x l IH]; intros [|i]; cbn;
    rewrite ?Hg, ?IH; auto.
Qed.

Lemma Forall_list_update (P : A -> Prop) (l : list A) (i : nat) (f : A -> A) :
  (forall x, P x -> P (f x)) -> Forall P l -> Forall P (list_update l i f).
Proof.
  intros Hf H. revert i. induction H as [|x l Hx H IH]; intros [|i]; cbn;
    constructor; auto.
Qed.

Lemma list_update_id (l : list A) (i : nat) (f : A -> A) :
  (forall x, nth_error l i = Some x -> f x = x) -> list_update l i f = l.
Proof.
  revert i. induction l as [|x l IH]; intros [|i] H; cbn; auto.
  - rewrite (H x eq_refl). reflexivity.
  - rewrite IH; auto.
Qed.

Lemma list_update_twice (l : list A) (i : nat) (f g : A -> A) :
  list_update (list_update l i f) i g = list_update l i (fun x => g (f x)).
Proof.
  revert i. induction l as [|x l IH]; intros [|i]; cbn; auto.
  rewrite IH. reflexivity.
Qed.

Lemma list_delete_length (l : list A) (i : nat) :
  (i < length l)%nat -> length (list_delete l i) = pred (length l).
Proof.
  revert i. induction l as [|x l IH]; intros [|i] H; cbn in *; try lia.
  rewrite IH by lia. destruct l; cbn in *; lia.
Qed.

Lemma list_delete_length_le (l : list A) (i : nat) :
  (length (list_delete l i) <= length l)%nat.
Proof.
  revert i. induction l as [|x l IH]; intros [|i]; cbn; auto.
  specialize (IH i). lia.
Qed.

Lemma In_list_delete (l : list A) (i : nat) (x : A) :
  In x (list_delete l i) -> In x l.
Proof.
  revert i. induction l as [|y l IH]; intros [|i] H; cbn in *; auto.
  destruct H as [H|H]; eauto.
Qed.

Lemma map_list_delete (B : Type) (g : A -> B) (l : list A) (i : nat) :
  map g (list_delete l i) = list_delete (map g l) i.
Proof.
  revert i. induction l as [|x l IH]; intros [|i]; cbn; rewrite ?IH; auto.
Qed.

Lemma NoDup_list_delete (l : list A) (i : nat) :
  NoDup l -> NoDup (list_delete l i).
Proof.
  intros H. revert i. induction H as [|x l Hx H IH]; intros [|i]; cbn; auto.
  - constructor.
  - constructor.
  - constructor; auto. intros Hin. apply Hx. eapply In_list_delete. eassumption.
Qed.

Lemma Forall_list_delete (P : A -> Prop) (l : list A) (i : nat) :
  Forall P l -> Forall P (list_delete l i).
Proof.
  intros H. apply Forall_forall. intros x Hx.
  apply In_list_delete in Hx. revert x Hx. apply Forall_forall. assumption.
Qed.

Lemma list_delete_firstn_skipn (l : list A) (i : nat) :
  list_delete l i = firstn i l ++ skipn (S i) l.
Proof.
  revert i. induction l as [|x l IH]; intros [|i]; cbn; auto.
  rewrite IH. reflexivity.
Qed.

Lemma nth_error_list_delete_lt (l : list A) (i j : nat) :
  (j < i)%nat -> nth_error (list_delete l i) j = nth_error l j.
Proof.
  revert i j. induction l as [|x l IH]; intros [|i] [|j] H; cbn; auto; try lia.
  apply IH. lia.
Qed.

End ListFacts.

(** * Facts about the session manager *)

Module SessionManagerFacts.

Import SessionManager.

Section Facts.

Context {E : Externals}.

(** ** Running the monad *)

Lemma prepend_nil A (r : res (A * SessionManager_pvt * list Output)) : prepend [] r = r.
Proof. destruct r as [[[a sm] o]|]; reflexivity. Qed.

Lemma prepend_prepend A (o1 o2 : list Output) (r : res (A * SessionManager_pvt * list Output)) :
  prepend o1 (prepend o2 r) = prepend (o1 ++ o2) r.
Proof. destruct r as [[[a sm] o]|]; cbn; [rewrite app_assoc|]; reflexivity. Qed.

Lemma bind_run {A B} {m : M A} (k : A -> M B) {sm a sm1 o1} :
  m sm = Ok (a, sm1, o1) -> bind m k sm = prepend o1 (k a sm1).
Proof. intros H. unfold bind. rewrite H. reflexivity. Qed.

Lemma bind_fatal {A B} {m : M A} (k : A -> M B) {sm} :
  m sm = Fatal -> bind m k sm = Fatal.
Proof. intros H. unfold bind. rewrite H. reflexivity. Qed.

Lemma bind_ret A B (a : A) (k : A -> M B) sm : bind (ret a) k sm = k a sm.
Proof. rewrite (@bind_run _ _ (ret a) k sm a sm [] eq_refl). apply prepend_nil. Qed.

Lemma bind_get B (k : SessionManager_pvt -> M B) sm : bind get k sm = k sm sm.
Proof. rewrite (@bind_run _ _ get k sm sm sm [] eq_refl). apply prepend_nil. Qed.

Lemma bind_modify B f (k : unit -> M B) sm : bind (modify f) k sm = k tt (f sm).
Proof. rewrite (@bind_run _ _ (modify f) k sm tt (f sm) [] eq_refl). apply prepend_nil. Qed.

Lemma bind_write B i f (k : unit -> M B) sm :
  bind (Session_write i f) k sm
  = k tt (set_ifaceMap (Map_update (ifaceMap sm) i f) sm).
Proof. unfold Session_write. rewrite bind_modify. reflexivity. Qed.

Lemma bind_send B o (k : unit -> M B) sm :
  bind (Iface_send o) k sm = prepend [o] (k tt sm).
Proof. apply (@bind_run _ _ (Iface_send o) k sm tt sm [o] eq_refl). Qed.

Lemma bind_read {B i} (k : Session -> M B) {sm s} :
  sessionAt sm i = Some s -> bind (Session_read i) k sm = k s sm.
Proof.
  intros H. rewrite (@bind_run _ _ (Session_read i) k sm s sm []).
  - apply prepend_nil.
  - unfold Session_read. rewrite H. reflexivity.
Qed.

Lemma bind_assert_true B (k : unit -> M B) sm : bind (Assert_true true) k sm = k tt sm.
Proof. apply bind_ret. Qed.

Lemma bind_abort A B (k : A -> M B) sm : bind abort k sm = Fatal.
Proof. reflexivity. Qed.

Lemma bind_assoc A B C (m : M A) (k : A -> M B) (h : B -> M C) sm :
  bind (bind m k) h sm = bind m (fun a => bind (k a) h) sm.
Proof.
  unfold bind. destruct (m sm) as [[[a sm1] o1]|]; [|reflexivity].
  destruct (k a sm1) as [[[b sm2] o2]|]; [|reflexivity].
  destruct (h b sm2) as [[[c sm3] o3]|]; [|reflexivity].
  rewrite app_assoc. reflexivity.
Qed.

Lemma sessionAt_update (sm : SessionManager_pvt) (i : nat) (f : Session -> Session) :
  sessionAt (set_ifaceMap (Map_update (ifaceMap sm) i f) sm) i
  = option_map f (sessionAt sm i).
Proof.
  unfold sessionAt, Map_entry, Map_update. cbn.
  rewrite nth_error_list_update_eq.
  destruct (nth_error (Map_entries (ifaceMap sm)) i); reflexivity.
Qed.

Lemma Map_update_twice V (m : Map V) (i : nat) (f g : V -> V) :
  Map_update (Map_update m i f) i g = Map_update m i (fun x => g (f x)).
Proof.
  unfold Map_update. cbn. rewrite list_update_twice. reflexivity.
Qed.

Lemma Map_update_at V (m : Map V) (i : nat) (f g : V -> V) :
  (forall e, Map_entry m i = Some e -> f (Map_value e) = g (Map_value e)) ->
  Map_update m i f = Map_update m i g.
Proof.
  intros H. unfold Map_update. f_equal.
  unfold Map_entry in H. revert i H.
  induction (Map_entries m) as [|x l IH]; intros [|i] H; cbn; auto.
  - rewrite (H x eq_refl). reflexivity.
  - rewrite IH; auto.
Qed.

Lemma set_ifaceMap_twice m1 m2 sm : set_ifaceMap m2 (set_ifaceMap m1 sm) = set_ifaceMap m2 sm.
Proof. reflexivity. Qed.

Lemma ifaceMap_set m sm : ifaceMap (set_ifaceMap m sm) = m.
Proof. reflexivity. Qed.

(** Writes to one session, collected into one. *)
Lemma write_write i f g sm :
  set_ifaceMap (Map_update (ifaceMap (set_ifaceMap (Map_update (ifaceMap sm) i f) sm)) i g)
               (set_ifaceMap (Map_update (ifaceMap sm) i f) sm)
  = set_ifaceMap (Map_update (ifaceMap sm) i (fun x => g (f x))) sm.
Proof. rewrite ifaceMap_set, set_ifaceMap_twice, Map_update_twice. reflexivity. Qed.

Lemma check_run {j sm r} :
  check j sm = Ok r ->
  exists s, sessionAt sm j = Some s
    /\ (r = (tt, sm, [])
        \/ r = (tt, set_ifaceMap (Map_update (ifaceMap sm) j (set_foundKey true)) sm, [])).
Proof.
  unfold check.
  destruct (sessionAt sm j) as [s|] eqn:Hs.
  - rewrite (bind_read _ Hs). intros H. exists s. split; [reflexivity|].
    destruct (foundKey s); [left; unfold ret in H; injection H as <-; reflexivity|].
    destruct (negb (Bits_isZero (herPublicKey (caSession s)))).
    + cbn [fst] in H. rewrite bind_get in H.
      destruct (Map_entry (ifaceMap sm) j) as [e|]; [|discriminate].
      destruct (bytes_eqb (Map_key e) _).
      * rewrite bind_assert_true in H. right. unfold Session_write, modify in H.
        injection H as <-; reflexivity.
      * discriminate.
    + left. unfold ret in H; injection H as <-; reflexivity.
  - rewrite bind_fatal; [discriminate|]. unfold Session_read. rewrite Hs. reflexivity.
Qed.

Lemma sessionForIp6_Some {ip6 sm i sm1 o} :
  sessionForIp6 ip6 sm = Ok (Some i, sm1, o) ->
  exists s, sessionAt sm1 i = Some s.
Proof.
  unfold sessionForIp6. rewrite bind_get.
  destruct (Map_indexForKey ip6 (ifaceMap sm)) as [j|] eqn:Hj; [|discriminate].
  destruct (check j sm) as [r|] eqn:Hc.
  - destruct r as [[u sm2] o2]. rewrite (bind_run _ Hc). cbn.
    intros H. injection H as <- <- <-.
    destruct (check_run Hc) as (s & Hs & [H|H]); injection H as _ -> _.
    + eauto.
    + rewrite sessionAt_update, Hs. cbn. eauto.
  - rewrite (bind_fatal _ Hc). discriminate.
Qed.

Lemma getSession_existing (ip6 pubKey : list Z) (version' label' metric' maintain' : Z)
    (sm sm1 : SessionManager_pvt) (i : nat) (o : list Output) :
  AddressCalc_validAddress ip6 = true ->
  sessionForIp6 ip6 sm = Ok (Some i, sm1, o) ->
  getSession ip6 pubKey version' label' metric' maintain' sm
  = Ok (i, set_ifaceMap (Map_update (ifaceMap sm1) i
                           (updateExisting version' label' metric' maintain')) sm1, o).
Proof.
  intros Hvalid Hfind.
  destruct (sessionForIp6_Some Hfind) as [s Hs].
  unfold getSession. rewrite Hvalid, bind_assert_true.
  rewrite (bind_run _ Hfind).
  rewrite !bind_write, write_write.
  erewrite bind_read by (rewrite sessionAt_update, Hs; reflexivity).
  cbv beta.
  assert (Hfin : forall f : Session -> Session,
             f s = updateExisting version' label' metric' maintain' s ->
             Map_update (ifaceMap sm1) i f
             = Map_update (ifaceMap sm1) i (updateExisting version' label' metric' maintain')).
  { intros f Hf. apply Map_update_at. intros e He.
    unfold sessionAt in Hs. rewrite He in Hs. injection Hs as ->. exact Hf. }
  unfold updateExisting at 1 in Hfin. cbv zeta in Hfin.
  assert (Hok : forall m1 m2 : Map Session, m1 = m2 ->
            prepend o (Ok (i, set_ifaceMap m1 sm1, []))
            = Ok (i, set_ifaceMap m2 sm1, o)).
  { intros m1 m2 ->. cbn. rewrite app_nil_r. reflexivity. }
  destruct (metric' =? Metric_DEAD_LINK).
  - match goal with |- context [if ?c then _ else _] => destruct c eqn:Hsend end.
    + match goal with |- context [if ?c then _ else _] => destruct c eqn:Hrecv end;
        repeat first [rewrite bind_assoc | rewrite bind_write | rewrite write_write]; unfold ret;
        apply Hok, Hfin; reflexivity.
    + rewrite !bind_ret. unfold ret. apply Hok, Hfin. reflexivity.
  - match goal with |- context [if ?c then _ else _] => destruct c eqn:Hle end.
    + repeat first [rewrite bind_assoc | rewrite bind_write | rewrite write_write]. unfold ret.
      apply Hok, Hfin. reflexivity.
    + rewrite !bind_ret. unfold ret. apply Hok, Hfin. reflexivity.
Qed.

(** C1 (amended).  [getSession] on a session that exists: when the caller's
    metric is DEAD_LINK and the caller's label is the session's send label,
    the send label becomes 0 and the metric DEAD_LINK if send and receive
    label agree, and otherwise the send label becomes the receive label and
    the metric SM_INCOMING; when the caller's metric is DEAD_LINK and the
    label is another one, label and metric stay as they are; when the
    caller's metric is not DEAD_LINK, is at most the session's metric and the
    label is not 0, send label and metric become the caller's and the version
    becomes the caller's if that is not 0; in the remaining case label and
    metric stay.  So for a label that is not 0 and a metric that is not
    DEAD_LINK the new metric is at most the old one. *)
Theorem getSession_updates_existing
    (ip6 pubKey : list Z) (version' label' metric' maintain' : Z)
    (sm sm1 : SessionManager_pvt) (i : nat) (o : list Output) (s : Session) :
  AddressCalc_validAddress ip6 = true ->
  sessionForIp6 ip6 sm = Ok (Some i, sm1, o) ->
  sessionAt sm1 i = Some s ->
  exists sm' s',
    getSession ip6 pubKey version' label' metric' maintain' sm = Ok (i, sm', o)
    /\ sessionAt sm' i = Some s'
    /\ (metric' = Metric_DEAD_LINK -> sendSwitchLabel s = label' ->
        (sendSwitchLabel s = recvSwitchLabel s ->
         sendSwitchLabel s' = 0 /\ metric s' = Metric_DEAD_LINK)
        /\ (sendSwitchLabel s <> recvSwitchLabel s ->
            sendSwitchLabel s' = recvSwitchLabel s /\ metric s' = Metric_SM_INCOMING))
    /\ (metric' = Metric_DEAD_LINK -> sendSwitchLabel s <> label' ->
        sendSwitchLabel s' = sendSwitchLabel s /\ metric s' = metric s)
    /\ (metric' <> Metric_DEAD_LINK -> metric' <= metric s -> label' <> 0 ->
        sendSwitchLabel s' = label' /\ metric s' = metric'
        /\ version s' = (if version' =? 0 then version s else version'))
    /\ (metric' <> Metric_DEAD_LINK -> ~ (metric' <= metric s /\ label' <> 0) ->
        sendSwitchLabel s' = sendSwitchLabel s /\ metric s' = metric s)
    /\ (label' <> 0 -> metric' <> Metric_DEAD_LINK -> metric s' <= metric s).
Proof.
  intros Hvalid Hfind Hs.
  eexists. exists (updateExisting version' label' metric' maintain' s).
  split; [apply getSession_existing; [exact Hvalid | exact Hfind]|].
  split; [rewrite sessionAt_update, Hs; reflexivity|].
  unfold updateExisting. cbv zeta. cbn [sendSwitchLabel recvSwitchLabel metric version
    set_version set_maintainSession].
  destruct (Z.eqb_spec metric' Metric_DEAD_LINK) as [Hd|Hd];
    [destruct (Z.eqb_spec (sendSwitchLabel s) label') as [Hl|Hl];
       [destruct (Z.eqb_spec (sendSwitchLabel s) (recvSwitchLabel s)) as [Hr|Hr]|]
    |destruct (Z.leb_spec metric' (metric s)) as [Hm|Hm];
       destruct (Z.eqb_spec label' 0) as [Hz|Hz]];
    cbn; repeat split; intros; try contradiction; try congruence; try lia.
  destruct (Z.eqb_spec version' 0) as [Hv'|Hv']; [|reflexivity].
  destruct (Z.eqb_spec (version s) 0) as [Hv|Hv]; congruence.
Qed.


Lemma Message_epush_ok (m : Message) (object : list Z) :
  Z.of_nat (length object) <= off m -> 0 <= len m ->
  Message_epush m object = Ok (pushed m object).
Proof.
  intros Hoff Hlen. unfold Message_epush, Message_eshift.
  replace (off m <? Z.of_nat (length object)) with false
    by (symmetry; apply Z.ltb_ge; lia).
  rewrite andb_false_r.
  replace (len m <? - Z.of_nat (length object)) with false
    by (symmetry; apply Z.ltb_ge; lia).
  reflexivity.
Qed.

Lemma be_bytes_length (n : nat) (v : Z) : length (be_bytes n v) = n.
Proof. induction n; cbn; auto. Qed.

Lemma bind_Er_assert A B (a : A) (k : A -> M B) sm :
  bind (Er_assert (Ok a)) k sm = k a sm.
Proof. apply bind_ret. Qed.

Ltac mnorm :=
  repeat first [rewrite bind_assoc | rewrite bind_ret | rewrite bind_get
               | rewrite bind_modify | rewrite bind_write
               | rewrite bind_assert_true].

Ltac push_side := cbn [off len pushed Message_new]; rewrite ?be_bytes_length; lia.

Section Events.

(** What the statements about events assume of [struct PFChan_Node]: its
    encoding has [PFChan_Node_SIZE] bytes, and these fit into the 512 bytes
    of an event message together with the two words in front. *)
Hypothesis Node_length :
  forall n, Z.of_nat (length (PFChan_Node_encode n)) = PFChan_Node_SIZE.
Hypothesis Node_fits : PFChan_Node_SIZE <= 504.

Lemma Node_SIZE_nonneg : 0 <= PFChan_Node_SIZE.
Proof. rewrite <- (Node_length (mkNode 0 0 0 [] [])). lia. Qed.

Lemma eventFrame_run (padding ev destPf : Z) (payload : list Z) B
    (k : Message -> M B) sm :
  Z.of_nat (length payload) + 8 <= padding ->
  bind (Er_assert (Message_epush (Message_new 0 padding) payload))
    (fun msg => bind (Er_assert (Message_epush32be msg destPf))
       (fun msg => bind (Er_assert (Message_epush32be msg ev)) k)) sm
  = k (eventFrame padding ev destPf payload) sm.
Proof.
  intros Hpad. unfold Message_epush32be.
  rewrite Message_epush_ok by push_side. rewrite bind_Er_assert.
  rewrite Message_epush_ok by push_side.
  rewrite bind_Er_assert.
  rewrite Message_epush_ok by push_side.
  rewrite bind_Er_assert. reflexivity.
Qed.

Lemma sendSession_run {i : nat} (path destPf ev : Z) {sm s} :
  sessionAt sm i = Some s ->
  sendSession i path destPf ev sm = Ok (tt, sm, [sessionEvent s path destPf ev]).
Proof.
  intros Hs. unfold sendSession. rewrite (bind_read _ Hs). cbv zeta.
  rewrite eventFrame_run by (rewrite Node_length; lia).
  reflexivity.
Qed.

Lemma unsetupSession_run {i : nat} {sm s} :
  sessionAt sm i = Some s ->
  unsetupSession i sm
  = Ok (tt, sm, if unsetupPossible s then [unsetupEvent s] else []).
Proof.
  intros Hs. unfold unsetupSession. rewrite (bind_read _ Hs).
  unfold unsetupPossible.
  destruct (version s =? 0); [reflexivity|].
  destruct (negb (sendSwitchLabel s =? 0) || negb (recvSwitchLabel s =? 0));
    [|reflexivity].
  cbn [negb orb andb]. cbv zeta. cbn [path_be metric_be version_be node_ip6 node_publicKey].
  rewrite eventFrame_run by (rewrite Node_length; lia).
  reflexivity.
Qed.

Lemma triggerSearch_run (target : list Z) (version' : Z) sm :
  triggerSearch target version' sm = Ok (tt, sm, [searchEvent target version']).
Proof.
  unfold triggerSearch, Message_epush32be. cbv zeta.
  assert (H16 : (length (firstn 16 target) <= 16)%nat) by apply firstn_le_length.
  rewrite Message_epush_ok by push_side. rewrite bind_Er_assert.
  rewrite Message_epush_ok by push_side. rewrite bind_Er_assert.
  rewrite Message_epush_ok by push_side. rewrite bind_Er_assert.
  rewrite Message_epush_ok by push_side. rewrite bind_Er_assert.
  rewrite Message_epush_ok by push_side. rewrite bind_Er_assert.
  reflexivity.
Qed.


Lemma nth_error_split_at A (l : list A) (i : nat) (x : A) :
  nth_error l i = Some x ->
  l = firstn i l ++ x :: skipn (S i) l /\ length (firstn i l) = i.
Proof.
  revert i. induction l as [|y l IH]; intros [|i] H; cbn in *; try discriminate.
  - injection H as ->. auto.
  - destruct (IH i H) as [H1 H2]. rewrite <- H1. auto.
Qed.

Lemma list_delete_app A (l1 l2 : list A) (x : A) :
  list_delete (l1 ++ x :: l2) (length l1) = l1 ++ l2.
Proof. induction l1; cbn; congruence. Qed.

Lemma list_update_app A (l1 l2 : list A) (x : A) (f : A -> A) :
  list_update (l1 ++ x :: l2) (length l1) f = l1 ++ f x :: l2.
Proof. induction l1; cbn; congruence. Qed.

Lemma tickAction_ext (sm1 sm2 : SessionManager_pvt) (s : Session) :
  sessionTimeoutMilliseconds sm1 = sessionTimeoutMilliseconds sm2 ->
  sessionSearchAfterMilliseconds sm1 = sessionSearchAfterMilliseconds sm2 ->
  eventBase sm1 = eventBase sm2 ->
  tickAction sm1 s = tickAction sm2 s.
Proof. intros H1 H2 H3. unfold tickAction. rewrite H1, H2, H3. reflexivity. Qed.

Lemma checkTimedOutSessions_loop_shape (sm : SessionManager_pvt)
    (pre : list (Map_Entry Session)) :
  forall (post : list (Map_Entry Session)) (live : list Z),
  checkTimedOutSessions_loop (length pre) (withSessions sm (pre ++ post) live)
  = Ok (tt,
        withSessions sm (flat_map (tickEntry sm) pre ++ post)
          (remove_all (flat_map (tickFreed sm) (rev pre)) live),
        flat_map (fun e => tickOutputs sm (Map_value e)) (rev pre)).
Proof.
  induction pre as [|e pre IH] using rev_ind; intros post live.
  - reflexivity.
  - rewrite length_app. cbn [length]. rewrite Nat.add_1_r.
    cbn [checkTimedOutSessions_loop].
    rewrite <- app_assoc. cbn [app].
    assert (Hs : sessionAt (withSessions sm (pre ++ e :: post) live) (length pre)
                 = Some (Map_value e)).
    { unfold sessionAt, Map_entry. cbn.
      rewrite nth_error_app2, Nat.sub_diag by lia. reflexivity. }
    rewrite (bind_read _ Hs).
    unfold Time_currentTimeMilliseconds. rewrite bind_assoc, bind_get, bind_ret, bind_get.
    rewrite rev_app_distr. cbn [rev app flat_map].
    rewrite flat_map_app. cbn [flat_map]. rewrite app_nil_r.
    assert (Hact : tickAction sm (Map_value e)
                   = tickAction (withSessions sm (pre ++ e :: post) live) (Map_value e))
      by (apply tickAction_ext; reflexivity).
    unfold tickAction at 2 in Hact.
    cbn [sessionTimeoutMilliseconds sessionSearchAfterMilliseconds eventBase withSessions]
      in Hact.
    cbn [sessionTimeoutMilliseconds sessionSearchAfterMilliseconds eventBase withSessions].
    unfold tickEntry at 2. unfold tickFreed at 1. unfold tickOutputs at 1.
    destruct (uint64 (sessionTimeoutMilliseconds sm)
              <? uint64 (eventBase sm - timeOfKeepAliveIn (Map_value e))).
    { rewrite Hact.
      rewrite !bind_assoc. rewrite (bind_run _ (sendSession_run _ _ _ Hs)).
      unfold Map_removeSession, Allocator_free. mnorm.
      unfold set_ifaceMap, set_allocs, Map_remove.
      cbn [maxBufferedMessages sessionTimeoutMilliseconds sessionSearchAfterMilliseconds
           bufMap ifaceMap firstHandle eventBase liveAllocs nextAlloc withSessions
           Map_entries Map_nextHandle].
      rewrite list_delete_app.
      specialize (IH post (remove Z.eq_dec (sess_alloc (Map_value e)) live)).
      unfold withSessions in IH. rewrite IH.
      cbn [prepend app remove_all fold_left]. rewrite app_nil_r. reflexivity. }
    destruct (maintainSession (Map_value e) =? 0).
    { rewrite Hact, bind_ret.
      specialize (IH (e :: post) live). unfold withSessions in *. rewrite IH.
      cbn [app remove_all fold_left]. rewrite <- app_assoc. reflexivity. }
    destruct (uint64 (sessionSearchAfterMilliseconds sm)
              <=? uint64 (eventBase sm - lastSearchTime (Map_value e))).
    { rewrite Hact.
      rewrite !bind_assoc. rewrite (bind_run _ (triggerSearch_run _ _ _)).
      mnorm.
      unfold set_ifaceMap, Map_update.
      cbn [maxBufferedMessages sessionTimeoutMilliseconds sessionSearchAfterMilliseconds
           bufMap ifaceMap firstHandle eventBase liveAllocs nextAlloc withSessions
           Map_entries Map_nextHandle].
      rewrite list_update_app.
      specialize (IH (mkEntry (Map_key e) (Map_handle e)
                        (set_lastSearchTime (eventBase sm) (Map_value e)) :: post) live).
      unfold withSessions in IH. rewrite IH. cbn [prepend app remove_all fold_left].
      rewrite <- app_assoc. reflexivity. }
    destruct (CryptoAuth_getState (caSession (Map_value e)) <? CryptoAuth_State_RECEIVED_KEY).
    { rewrite Hact. rewrite (bind_run _ (unsetupSession_run Hs)).
      specialize (IH (e :: post) live). unfold withSessions in *. rewrite IH.
      cbn [prepend app remove_all fold_left]. rewrite <- app_assoc. reflexivity. }
    rewrite Hact, bind_ret.
    specialize (IH (e :: post) live). unfold withSessions in *. rewrite IH.
    cbn [app remove_all fold_left]. rewrite <- app_assoc. reflexivity.
Qed.


Lemma withSessions_same (sm : SessionManager_pvt) :
  withSessions sm (Map_entries (ifaceMap sm)) (liveAllocs sm) = sm.
Proof. destruct sm as [? ? ? ? [es nh] ? ? ? ?]. reflexivity. Qed.

Lemma checkTimedOutSessions_run (sm : SessionManager_pvt) :
  checkTimedOutSessions sm = Ok (tt, tickedState sm, tickedOutputs sm).
Proof.
  unfold checkTimedOutSessions. rewrite bind_get.
  rewrite <- (withSessions_same sm) at 2.
  rewrite <- (app_nil_r (Map_entries (ifaceMap sm))) at 2.
  rewrite checkTimedOutSessions_loop_shape. rewrite app_nil_r. reflexivity.
Qed.

Lemma length_zeros (n : Z) : Z.of_nat (length (zeros n)) = Z.max 0 n.
Proof. unfold zeros. rewrite repeat_length. lia. Qed.

Lemma Message_new_ok (padding : Z) : 0 <= padding -> Message_ok (Message_new 0 padding).
Proof.
  intros H. unfold Message_ok, Message_new. cbn [off len buf].
  rewrite length_zeros. lia.
Qed.

Lemma mem_write_length (b : list Z) (p : Z) (d : list Z) :
  0 <= p -> p + Z.of_nat (length d) <= Z.of_nat (length b) ->
  length (mem_write b p d) = length b.
Proof.
  intros Hp Hle. unfold mem_write.
  rewrite !length_app, length_firstn, length_skipn. lia.
Qed.

Lemma mem_read_write (b : list Z) (p n : Z) (d : list Z) :
  0 <= p -> 0 <= n -> p + Z.of_nat (length d) <= Z.of_nat (length b) ->
  mem_read (mem_write b p d) p (Z.of_nat (length d) + n)
  = d ++ mem_read b (p + Z.of_nat (length d)) n.
Proof.
  intros Hp Hn Hle. unfold mem_read, mem_write.
  rewrite skipn_app.
  rewrite length_firstn, Nat.min_l by lia.
  rewrite Nat.sub_diag. cbn [skipn].
  rewrite skipn_all2 by (rewrite length_firstn; lia). cbn [app].
  replace (Z.to_nat (Z.of_nat (length d) + n)) with (length d + Z.to_nat n)%nat by lia.
  rewrite firstn_app_2.
  replace (Z.to_nat (p + Z.of_nat (length d))) with (Z.to_nat p + length d)%nat by lia.
  reflexivity.
Qed.

Lemma pushed_ok (m : Message) (d : list Z) :
  Message_ok m -> Z.of_nat (length d) <= off m -> Message_ok (pushed m d).
Proof.
  intros (H1 & H2 & H3) Hd. unfold Message_ok, pushed. cbn [off len buf].
  rewrite mem_write_length by lia. lia.
Qed.

Lemma pushed_bytes (m : Message) (d : list Z) :
  Message_ok m -> Z.of_nat (length d) <= off m ->
  Message_bytes (pushed m d) = d ++ Message_bytes m.
Proof.
  intros (H1 & H2 & H3) Hd. unfold Message_bytes, pushed. cbn [off len buf].
  rewrite (Z.add_comm (len m)).
  rewrite mem_read_write by lia.
  do 2 f_equal. lia.
Qed.

Lemma eventFrame_bytes (padding ev destPf : Z) (payload : list Z) :
  Z.of_nat (length payload) + 8 <= padding ->
  Message_bytes (eventFrame padding ev destPf payload)
  = be_bytes 4 ev ++ be_bytes 4 destPf ++ payload.
Proof.
  intros H. unfold eventFrame.
  assert (H0 : Message_ok (Message_new 0 padding)) by (apply Message_new_ok; lia).
  assert (H1 : Message_ok (pushed (Message_new 0 padding) payload))
    by (apply pushed_ok; [assumption | cbn; lia]).
  assert (H2 : Message_ok (pushed (pushed (Message_new 0 padding) payload) (be_bytes 4 destPf)))
    by (apply pushed_ok; [assumption | cbn; lia]).
  rewrite !pushed_bytes; try assumption; try (cbn; lia).
  unfold Message_bytes, Message_new, mem_read. cbn [len]. cbn [Z.to_nat firstn].
  rewrite app_nil_r. reflexivity.
Qed.


Lemma NoDup_map_In_inj A B (f : A -> B) (l : list A) (x y : A) :
  NoDup (map f l) -> In x l -> In y l -> f x = f y -> x = y.
Proof.
  induction l as [|z l IH]; intros Hnd Hx Hy Hf; [contradiction|].
  cbn in Hnd. inversion Hnd as [|? ? Hnotin Hnd']; subst.
  destruct Hx as [->|Hx], Hy as [->|Hy]; auto.
  - exfalso. apply Hnotin. rewrite Hf. apply in_map. assumption.
  - exfalso. apply Hnotin. rewrite <- Hf. apply in_map. assumption.
Qed.

Lemma In_tickEntry (sm : SessionManager_pvt) (es : list (Map_Entry Session))
    (e' : Map_Entry Session) :
  In e' (flat_map (tickEntry sm) es) ->
  exists e0, In e0 es /\ Map_key e' = Map_key e0 /\ Map_handle e' = Map_handle e0
             /\ tickAction sm (Map_value e0) <> Ended.
Proof.
  intros H. apply in_flat_map in H. destruct H as (e0 & Hin & He').
  exists e0. split; [assumption|]. unfold tickEntry in He'.
  destruct (tickAction sm (Map_value e0)); cbn in He'; try contradiction;
    destruct He' as [<-|[]]; repeat split; discriminate.
Qed.

Lemma remove_all_subset (freed live : list Z) (a : Z) :
  In a (remove_all freed live) -> In a live.
Proof.
  revert live. induction freed as [|b freed IH]; intros live H; cbn in H; [assumption|].
  apply IH in H. apply in_remove in H. tauto.
Qed.

Lemma remove_all_not_In (freed live : list Z) (a : Z) :
  In a freed -> ~ In a (remove_all freed live).
Proof.
  revert live. induction freed as [|b freed IH]; intros live Hin; [contradiction|].
  destruct Hin as [->|Hin]; cbn.
  - intros H. apply remove_all_subset in H. revert H. apply remove_In.
  - apply IH. assumption.
Qed.

Lemma handle_roundtrip (h fh : Z) :
  0 <= h < 2 ^ 32 -> ((h + fh) mod 2 ^ 32 - fh) mod 2 ^ 32 = h.
Proof.
  intros H. rewrite Zminus_mod_idemp_l.
  replace (h + fh - fh) with h by lia. apply Z.mod_small. assumption.
Qed.

Lemma sessionForHandle_none (handle : Z) (sm : SessionManager_pvt) :
  Map_indexForHandle ((handle - firstHandle sm) mod 2 ^ 32) (ifaceMap sm) = None ->
  sessionForHandle handle sm = Ok (None, sm, []).
Proof.
  intros H. unfold sessionForHandle. rewrite bind_get, H. reflexivity.
Qed.

Lemma sessionForIp6_none (ip6 : list Z) (sm : SessionManager_pvt) :
  Map_indexForKey ip6 (ifaceMap sm) = None ->
  sessionForIp6 ip6 sm = Ok (None, sm, []).
Proof.
  intros H. unfold sessionForIp6. rewrite bind_get, H. reflexivity.
Qed.


(** ** The time tests of the periodic check

    The tests are made in [uint64_t]; for a timeout that is not negative
    and a stamp that the clock has not left 2^64 ms behind, nor run behind
    of, they are the tests on the numbers. *)

Lemma uint64_small (z : Z) : 0 <= z < 2 ^ 64 -> uint64 z = z.
Proof. intros H. unfold uint64. apply Z.mod_small. exact H. Qed.

Lemma uint64_range (z : Z) : 0 <= uint64 z < 2 ^ 64.
Proof. unfold uint64. apply Z.mod_pos_bound. reflexivity. Qed.

Lemma uint64_lt_plain (t d : Z) :
  0 <= t -> t < d -> d < 2 ^ 64 -> (uint64 t <? uint64 d) = true.
Proof. intros H1 H2 H3. rewrite !uint64_small by lia. apply Z.ltb_lt. lia. Qed.

Lemma uint64_not_lt_plain (t d : Z) :
  0 <= d -> d <= t -> t < 2 ^ 64 -> (uint64 t <? uint64 d) = false.
Proof. intros H1 H2 H3. rewrite !uint64_small by lia. apply Z.ltb_ge. lia. Qed.

Lemma uint64_le_plain (t d : Z) :
  0 <= t -> t <= d -> d < 2 ^ 64 -> (uint64 t <=? uint64 d) = true.
Proof. intros H1 H2 H3. rewrite !uint64_small by lia. apply Z.leb_le. lia. Qed.

Lemma uint64_not_le_plain (t d : Z) :
  0 <= d -> d < t -> t < 2 ^ 64 -> (uint64 t <=? uint64 d) = false.
Proof. intros H1 H2 H3. rewrite !uint64_small by lia. apply Z.leb_gt. lia. Qed.


(** C6.  A session whose last keep-alive is more than the session timeout
    ago when the periodic check runs: a SESSION_ENDED event is sent for it
    and it is destroyed.  The events sent after it in this round are those
    of the slots below it, which hold other sessions (another address,
    another receive handle); afterwards the session table has no session for
    its address nor for its receive handle, and its allocator is freed.
    (The events of the session manager carry the address and the key of a
    session, never its handle.)  The code subtracts and compares in
    [uint64_t]: the timeout is not negative, and the time since the
    keep-alive is less than 2^64 ms. *)
Theorem timed_out_session_is_ended
    (sm : SessionManager_pvt) (i : nat) (e : Map_Entry Session) :
  sessions_ok sm ->
  Map_nextHandle (ifaceMap sm) <= 2 ^ 32 ->
  Map_entry (ifaceMap sm) i = Some e ->
  0 <= sessionTimeoutMilliseconds sm ->
  eventBase sm - timeOfKeepAliveIn (Map_value e) < 2 ^ 64 ->
  sessionTimeoutMilliseconds sm < eventBase sm - timeOfKeepAliveIn (Map_value e) ->
  exists sm' before after,
    checkTimedOutSessions sm
    = Ok (tt, sm',
          before
          ++ sessionEvent (Map_value e) (sendSwitchLabel (Map_value e)) 0xffffffff
               PFChan_Core_SESSION_ENDED
          :: after)
    /\ after = flat_map (fun e' => tickOutputs sm (Map_value e'))
                        (rev (firstn i (Map_entries (ifaceMap sm))))
    /\ (forall e', In e' (firstn i (Map_entries (ifaceMap sm))) ->
                   Map_key e' <> Map_key e
                   /\ receiveHandle (Map_value e') <> receiveHandle (Map_value e))
    /\ sessionForIp6 (Map_key e) sm' = Ok (None, sm', [])
    /\ sessionForHandle (receiveHandle (Map_value e)) sm' = Ok (None, sm', [])
    /\ ~ In (sess_alloc (Map_value e)) (liveAllocs sm').
Proof.
  intros [Hkeys Hhandles _ Hbound Hrecv] Hnext He Hto0 Hwrap Hto.
  unfold Map_entry in He.
  destruct (nth_error_split_at _ _ He) as [Hsplit Hlen].
  set (es := Map_entries (ifaceMap sm)) in *.
  assert (Hin : In e es) by (eapply nth_error_In; eassumption).
  assert (Hact : tickAction sm (Map_value e) = Ended).
  { unfold tickAction. rewrite uint64_lt_plain by assumption. reflexivity. }
  exists (tickedState sm).
  exists (flat_map (fun e' => tickOutputs sm (Map_value e')) (rev (skipn (S i) es))).
  exists (flat_map (fun e' => tickOutputs sm (Map_value e')) (rev (firstn i es))).
  split; [|split; [reflexivity|]].
  { rewrite checkTimedOutSessions_run; try assumption. do 2 f_equal.
    unfold tickedOutputs. fold es. rewrite Hsplit at 1.
    rewrite rev_app_distr. cbn [rev]. rewrite <- app_assoc. cbn [app].
    rewrite flat_map_app. cbn [flat_map]. f_equal.
    unfold tickOutputs at 1. rewrite Hact. reflexivity. }
  assert (Hrange : forall e', In e' es -> 0 <= Map_handle e' < 2 ^ 32).
  { intros e' He'. rewrite Forall_forall in Hbound. specialize (Hbound e' He'). lia. }
  assert (Hsame : forall e', In e' es -> Map_handle e' = Map_handle e -> e' = e).
  { intros e' He' Hh. apply (NoDup_map_In_inj _ _ _ _ Hhandles He' Hin Hh). }
  assert (Hgone_h : forall e', In e' (Map_entries (ifaceMap (tickedState sm))) ->
                               Map_handle e' <> Map_handle e).
  { intros e' He' Hh. cbn in He'. apply In_tickEntry in He'.
    destruct He' as (e0 & Hin0 & _ & Hh0 & Hne).
    apply Hne. rewrite (Hsame e0 Hin0) by congruence. assumption. }
  assert (Hgone_k : forall e', In e' (Map_entries (ifaceMap (tickedState sm))) ->
                               Map_key e' <> Map_key e).
  { intros e' He' Hk. cbn in He'. apply In_tickEntry in He'.
    destruct He' as (e0 & Hin0 & Hk0 & _ & Hne).
    apply Hne. rewrite (NoDup_map_In_inj _ _ _ _ Hkeys Hin0 Hin) by congruence.
    assumption. }
  split; [|split; [|split]].
  - intros e' He'.
    assert (Hin' : In e' es).
    { rewrite Hsplit. apply in_or_app. left. assumption. }
    assert (Hne : e' <> e).
    { intros ->. unfold Map_keys in Hkeys.
      fold es in Hkeys. rewrite Hsplit in Hkeys.
      rewrite map_app in Hkeys. cbn [map] in Hkeys.
      apply NoDup_remove_2 in Hkeys. apply Hkeys. apply in_or_app. left.
      apply in_map. assumption. }
    split.
    + intros Hk. apply Hne. apply (NoDup_map_In_inj _ _ _ _ Hkeys Hin' Hin Hk).
    + rewrite Forall_forall in Hrecv.
      rewrite (Hrecv e' Hin'), (Hrecv e Hin). intros Heq.
      apply Hne. apply Hsame; [assumption|].
      rewrite <- (handle_roundtrip (firstHandle sm) (Hrange e' Hin')).
      rewrite Heq. apply handle_roundtrip. auto.
  - apply sessionForIp6_none. unfold Map_indexForKey.
    apply find_index_None_iff. intros e' He'.
    apply bytes_eqb_neq. apply Hgone_k. assumption.
  - apply sessionForHandle_none. unfold Map_indexForHandle.
    apply find_index_None_iff. intros e' He'.
    rewrite Forall_forall in Hrecv. rewrite (Hrecv e Hin).
    cbn [firstHandle tickedState withSessions].
    rewrite handle_roundtrip by auto.
    apply Z.eqb_neq. apply Hgone_h. assumption.
  - cbn [liveAllocs tickedState withSessions]. apply remove_all_not_In.
    apply in_flat_map. exists e. split; [apply in_rev; rewrite rev_involutive; assumption|].
    unfold tickFreed. rewrite Hact. left. reflexivity.
Qed.


(** C2 (amended).  At the periodic check, for a session that the session
    manager maintains, that is not timed out, whose search is not due, whose
    crypto session has not received the peer's key, and that has a version
    and a send or receive label, an UNSETUP_SESSION event is sent, with the
    session's descriptor.  The code subtracts and compares in [uint64_t]:
    the last keep-alive and the last search are not later than the clock,
    and the two timeouts are below 2^64. *)
Theorem unsetup_event_for_maintained_session
    (sm : SessionManager_pvt) (i : nat) (e : Map_Entry Session) :
  Map_entry (ifaceMap sm) i = Some e ->
  timeOfKeepAliveIn (Map_value e) <= eventBase sm ->
  lastSearchTime (Map_value e) <= eventBase sm ->
  sessionTimeoutMilliseconds sm < 2 ^ 64 ->
  sessionSearchAfterMilliseconds sm < 2 ^ 64 ->
  eventBase sm - timeOfKeepAliveIn (Map_value e) <= sessionTimeoutMilliseconds sm ->
  maintainSession (Map_value e) <> 0 ->
  eventBase sm - lastSearchTime (Map_value e) < sessionSearchAfterMilliseconds sm ->
  CryptoAuth_getState (caSession (Map_value e)) < CryptoAuth_State_RECEIVED_KEY ->
  version (Map_value e) <> 0 ->
  sendSwitchLabel (Map_value e) <> 0 \/ recvSwitchLabel (Map_value e) <> 0 ->
  exists sm' before msg after,
    checkTimedOutSessions sm = Ok (tt, sm', before ++ EventIf msg :: after)
    /\ Message_bytes msg
       = be_bytes 4 PFChan_Core_UNSETUP_SESSION ++ be_bytes 4 0xffffffff
         ++ PFChan_Node_encode
              (sessionNode (Map_value e)
                 (if sendSwitchLabel (Map_value e) =? 0
                  then recvSwitchLabel (Map_value e)
                  else sendSwitchLabel (Map_value e))).
Proof.
  intros He Hka Hls Hto64 Hsa64 Hto Hm Hsearch Hst Hv Hl.
  unfold Map_entry in He.
  destruct (nth_error_split_at _ _ He) as [Hsplit Hlen].
  set (es := Map_entries (ifaceMap sm)) in *.
  assert (Hact : tickAction sm (Map_value e) = Unsetup).
  { unfold tickAction.
    rewrite uint64_not_lt_plain by lia.
    apply Z.eqb_neq in Hm. rewrite Hm.
    rewrite uint64_not_le_plain by lia.
    apply Z.ltb_lt in Hst. rewrite Hst. reflexivity. }
  assert (Hposs : unsetupPossible (Map_value e) = true).
  { unfold unsetupPossible. apply Z.eqb_neq in Hv. rewrite Hv. cbn [negb andb].
    destruct Hl as [Hl|Hl]; apply Z.eqb_neq in Hl; rewrite Hl; cbn;
      [reflexivity | apply orb_true_r]. }
  exists (tickedState sm).
  exists (flat_map (fun e' => tickOutputs sm (Map_value e')) (rev (skipn (S i) es))).
  eexists.
  exists (flat_map (fun e' => tickOutputs sm (Map_value e')) (rev (firstn i es))).
  split.
  - rewrite checkTimedOutSessions_run; try assumption. do 2 f_equal.
    unfold tickedOutputs. fold es. rewrite Hsplit at 1.
    rewrite rev_app_distr. cbn [rev]. rewrite <- app_assoc. cbn [app].
    rewrite flat_map_app. cbn [flat_map]. f_equal.
    unfold tickOutputs at 1. rewrite Hact, Hposs. reflexivity.
  - apply eventFrame_bytes. rewrite Node_length. lia.
Qed.

Lemma skipn_nth_error A (l : list A) (i : nat) (x : A) :
  nth_error l i = Some x -> skipn i l = x :: skipn (S i) l.
Proof.
  revert i. induction l as [|y l IH]; intros [|i] H; cbn in *; try discriminate.
  - injection H as ->. reflexivity.
  - apply IH. assumption.
Qed.

Lemma sessions_loop_run (sourcePf : Z) (sm : SessionManager_pvt) (n : nat) :
  forall i : nat,
  (i + n <= length (Map_entries (ifaceMap sm)))%nat ->
  sessions_loop n i sourcePf sm
  = Ok (tt, sm,
        map (fun e => sessionEvent (Map_value e) (sendSwitchLabel (Map_value e))
                        sourcePf PFChan_Core_SESSION)
            (firstn n (skipn i (Map_entries (ifaceMap sm))))).
Proof.
  induction n as [|n IH]; intros i Hi; [reflexivity|].
  cbn [sessions_loop].
  destruct (nth_error (Map_entries (ifaceMap sm)) i) as [e|] eqn:He.
  2:{ apply nth_error_None in He. lia. }
  assert (Hs : sessionAt sm i = Some (Map_value e)).
  { unfold sessionAt, Map_entry. rewrite He. reflexivity. }
  rewrite (bind_read _ Hs).
  rewrite (bind_run _ (sendSession_run _ _ _ Hs)).
  rewrite IH by lia. cbn [prepend app].
  rewrite (skipn_nth_error _ _ He). cbn [firstn map]. reflexivity.
Qed.

Lemma Message_epop32be_ok (m : Message) :
  4 <= len m ->
  Message_epop32be m
  = Ok (be_value (mem_read (buf m) (off m) 4), mkMessage (buf m) (off m + 4) (len m - 4)).
Proof.
  intros H. unfold Message_epop32be, Message_epop, Message_eshift.
  cbn [Z.opp Z.ltb Z.compare andb].
  replace (len m <? 4) with false by (symmetry; apply Z.ltb_ge; lia).
  do 3 f_equal; lia.
Qed.

(** C10.  A SESSIONS event with an empty payload: the handler sends one
    SESSION event for every slot of the session table, in order, each to the
    pathfinder that asked, and leaves the state as it is.  A SESSIONS event
    with a payload ends in the fatal assertion. *)
Theorem sessions_event_lists_sessions (msg : Message) (sm : SessionManager_pvt) :
  8 <= len msg ->
  be_value (mem_read (buf msg) (off msg) 4) = PFChan_Pathfinder_SESSIONS ->
  (len msg = 8 ->
   incomingFromEventIf msg sm
   = Ok (tt, sm,
         map (fun e => sessionEvent (Map_value e) (sendSwitchLabel (Map_value e))
                         (be_value (mem_read (buf msg) (off msg + 4) 4))
                         PFChan_Core_SESSION)
             (Map_entries (ifaceMap sm))))
  /\ (len msg <> 8 -> incomingFromEventIf msg sm = Fatal).
Proof.
  intros Hlen Hev.
  assert (Hrun : incomingFromEventIf msg sm
                 = (Assert_true (len msg - 4 - 4 =? 0) ;;;
                    sessions (be_value (mem_read (buf msg) (off msg + 4) 4))) sm).
  { unfold incomingFromEventIf.
    rewrite Message_epop32be_ok by lia. rewrite bind_Er_assert. cbn [fst snd].
    rewrite Message_epop32be_ok by (cbn; lia). rewrite bind_Er_assert.
    cbn [fst snd buf off len]. rewrite Hev, Z.eqb_refl. reflexivity. }
  rewrite Hrun. split.
  - intros H8. replace (len msg - 4 - 4 =? 0) with true by (symmetry; apply Z.eqb_eq; lia).
    rewrite bind_assert_true. unfold sessions. rewrite bind_get.
    rewrite sessions_loop_run by lia. cbn [skipn]. rewrite firstn_all. reflexivity.
  - intros H8. replace (len msg - 4 - 4 =? 0) with false by (symmetry; apply Z.eqb_neq; lia).
    reflexivity.
Qed.

(** ** Partial correctness *)

Lemma hoare_bind A B (P : SessionManager_pvt -> Prop) (Q : A -> SessionManager_pvt -> Prop)
    (R : B -> SessionManager_pvt -> Prop) (m : M A) (k : A -> M B) :
  hoare P m Q -> (forall a, hoare (Q a) (k a) R) -> hoare P (bind m k) R.
Proof.
  intros Hm Hk sm b sm' o HP Hrun. unfold bind in Hrun.
  destruct (m sm) as [[[a sm1] o1]|] eqn:Hm1; [|discriminate].
  destruct (k a sm1) as [[[b' sm2] o2]|] eqn:Hk1; [|discriminate].
  injection Hrun as <- <- <-.
  eapply Hk; [|eassumption]. eapply Hm; eassumption.
Qed.

Lemma keeps_bind A B (I : SessionManager_pvt -> Prop) (m : M A) (k : A -> M B) :
  keeps I m -> (forall a, keeps I (k a)) -> keeps I (bind m k).
Proof. intros Hm Hk. eapply hoare_bind; eassumption. Qed.

Lemma keeps_ret A (I : SessionManager_pvt -> Prop) (a : A) : keeps I (ret a).
Proof. intros sm a' sm' o HI H. injection H as <- <- <-. assumption. Qed.

Lemma keeps_get (I : SessionManager_pvt -> Prop) : keeps I get.
Proof. intros sm a' sm' o HI H. injection H as <- <- <-. assumption. Qed.

Lemma keeps_abort A (I : SessionManager_pvt -> Prop) : keeps I (@abort _ A).
Proof. intros sm a' sm' o HI H. discriminate. Qed.

Lemma keeps_send (I : SessionManager_pvt -> Prop) (o : Output) : keeps I (Iface_send o).
Proof. intros sm a' sm' o' HI H. injection H as <- <- <-. assumption. Qed.

Lemma keeps_assert (I : SessionManager_pvt -> Prop) (b : bool) : keeps I (Assert_true b).
Proof. destruct b; [apply keeps_ret | apply keeps_abort]. Qed.

Lemma keeps_Er_assert A (I : SessionManager_pvt -> Prop) (r : res A) : keeps I (Er_assert r).
Proof. destruct r; [apply keeps_ret | apply keeps_abort]. Qed.

Lemma keeps_modify (I : SessionManager_pvt -> Prop) (f : SessionManager_pvt -> SessionManager_pvt) :
  (forall sm, I sm -> I (f sm)) -> keeps I (modify f).
Proof. intros Hf sm a' sm' o' HI H. injection H as <- <- <-. auto. Qed.

Lemma keeps_read (I : SessionManager_pvt -> Prop) (i : nat) : keeps I (Session_read i).
Proof.
  intros sm a' sm' o' HI H. unfold Session_read in H.
  destruct (sessionAt sm i); [|discriminate]. injection H as <- <- <-. assumption.
Qed.

(** An assertion in front of the rest: the rest runs only when it holds. *)
Lemma hoare_assert_bind B (P : SessionManager_pvt -> Prop)
    (Q : B -> SessionManager_pvt -> Prop) (b : bool) (k : unit -> M B) :
  (b = true -> hoare P (k tt) Q) -> hoare P (bind (Assert_true b) k) Q.
Proof.
  intros H sm a sm' o HP Hrun. destruct b.
  - rewrite bind_assert_true in Hrun. eapply H; eauto.
  - discriminate.
Qed.

(** The state read in front of the rest. *)
Lemma hoare_get_bind B (P : SessionManager_pvt -> Prop)
    (Q : B -> SessionManager_pvt -> Prop) (k : SessionManager_pvt -> M B) :
  (forall sm0, P sm0 -> hoare (fun sm => sm = sm0) (k sm0) Q) ->
  hoare P (bind get k) Q.
Proof.
  intros H sm a sm' o HP Hrun. rewrite bind_get in Hrun.
  eapply H; eauto.
Qed.

Lemma hoare_modify_bind B (P : SessionManager_pvt -> Prop)
    (Q : B -> SessionManager_pvt -> Prop) f (k : unit -> M B) :
  hoare (fun sm => exists sm0, P sm0 /\ sm = f sm0) (k tt) Q ->
  hoare P (bind (modify f) k) Q.
Proof.
  intros H sm a sm' o HP Hrun. rewrite bind_modify in Hrun.
  eapply H; eauto.
Qed.

Lemma hoare_weaken A (P P' : SessionManager_pvt -> Prop)
    (Q : A -> SessionManager_pvt -> Prop) (m : M A) :
  (forall sm, P' sm -> P sm) -> hoare P m Q -> hoare P' m Q.
Proof. intros HP H sm a sm' o HP' Hrun. eapply H; eauto. Qed.

(** ** The invariants *)

Lemma Inv_set_allocs l n sm : Inv sm -> Inv (set_allocs l n sm).
Proof. intros [[B1 B2 B3] [S1 S2 S3 S4 S5]]. split; constructor; assumption. Qed.

Lemma Inv_set_eventBase t sm : Inv sm -> Inv (set_eventBase t sm).
Proof. intros [[B1 B2 B3] [S1 S2 S3 S4 S5]]. split; constructor; assumption. Qed.

Lemma Inv_write (i : nat) (f : Session -> Session) sm :
  (forall s, receiveHandle (f s) = receiveHandle s) ->
  Inv sm -> Inv (set_ifaceMap (Map_update (ifaceMap sm) i f) sm).
Proof.
  intros Hf [[B1 B2 B3] [S1 S2 S3 S4 S5]]. split; constructor; try assumption.
  - unfold Map_keys, Map_update. cbn. rewrite map_list_update; [assumption|reflexivity].
  - unfold Map_handles, Map_update. cbn. rewrite map_list_update; [assumption|reflexivity].
  - cbn. apply Forall_list_update; [|assumption]. intros e He. exact He.
  - cbn. apply Forall_list_update; [|assumption]. intros e He. cbn. rewrite Hf. exact He.
Qed.

Lemma Inv_removeSession (i : nat) sm :
  Inv sm -> Inv (set_ifaceMap (Map_remove i (ifaceMap sm)) sm).
Proof.
  intros [[B1 B2 B3] [S1 S2 S3 S4 S5]]. split; constructor; try assumption.
  - unfold Map_keys, Map_remove. cbn. rewrite map_list_delete.
    apply NoDup_list_delete. assumption.
  - unfold Map_handles, Map_remove. cbn. rewrite map_list_delete.
    apply NoDup_list_delete. assumption.
  - cbn. apply Forall_list_delete. assumption.
  - cbn. apply Forall_list_delete. assumption.
Qed.

Lemma Inv_removeBuffered (i : nat) sm :
  Inv sm -> Inv (set_bufMap (Map_remove i (bufMap sm)) sm).
Proof.
  intros [[B1 B2 B3] [S1 S2 S3 S4 S5]]. split; constructor; try assumption.
  - unfold Map_keys, Map_remove. cbn. rewrite map_list_delete.
    apply NoDup_list_delete. assumption.
  - intros Hmax. specialize (B2 Hmax). unfold Map_count, Map_remove in *. cbn.
    pose proof (list_delete_length_le (Map_entries (bufMap sm)) i). lia.
  - cbn. apply Forall_list_delete. assumption.
Qed.

Lemma keeps_write (i : nat) (f : Session -> Session) :
  (forall s, receiveHandle (f s) = receiveHandle s) ->
  keeps Inv (Session_write i f).
Proof. intros Hf. apply keeps_modify. intros sm. apply Inv_write. assumption. Qed.

Lemma keeps_Time I : keeps I Time_currentTimeMilliseconds.
Proof.
  unfold Time_currentTimeMilliseconds. apply keeps_bind; [apply keeps_get|].
  intros a. apply keeps_ret.
Qed.

Lemma keeps_Allocator_child : keeps Inv Allocator_child.
Proof.
  unfold Allocator_child. apply keeps_bind; [apply keeps_get|]. intros sm.
  apply keeps_bind; [|intros; apply keeps_ret].
  apply keeps_modify. intros sm'. apply Inv_set_allocs.
Qed.

Lemma keeps_Allocator_free a : keeps Inv (Allocator_free a).
Proof. apply keeps_modify. intros sm. apply Inv_set_allocs. Qed.

Lemma keeps_removeSession i : keeps Inv (Map_removeSession i).
Proof. apply keeps_modify. intros sm. apply Inv_removeSession. Qed.

Lemma keeps_removeBuffered i : keeps Inv (Map_removeBuffered i).
Proof. apply keeps_modify. intros sm. apply Inv_removeBuffered. Qed.

Ltac keeps_step :=
  lazymatch goal with
  | |- keeps _ (bind _ _) => apply keeps_bind; [| intros ?]
  | |- keeps _ (ret _) => apply keeps_ret
  | |- keeps _ get => apply keeps_get
  | |- keeps _ abort => apply keeps_abort
  | |- keeps _ (Iface_send _) => apply keeps_send
  | |- keeps _ (Assert_true _) => apply keeps_assert
  | |- keeps _ (Er_assert _) => apply keeps_Er_assert
  | |- keeps _ (Session_read _) => apply keeps_read
  | |- keeps _ (Session_write _ _) => apply keeps_write; intros; reflexivity
  | |- keeps _ Time_currentTimeMilliseconds => apply keeps_Time
  | |- keeps _ Allocator_child => apply keeps_Allocator_child
  | |- keeps _ (Allocator_free _) => apply keeps_Allocator_free
  | |- keeps _ (Map_removeSession _) => apply keeps_removeSession
  | |- keeps _ (Map_removeBuffered _) => apply keeps_removeBuffered
  | |- keeps _ (if ?b then _ else _) => destruct b
  | |- keeps _ (match ?x with _ => _ end) => destruct x
  | |- keeps _ (let _ := _ in _) => cbv zeta
  end.

Ltac keeps_auto := repeat keeps_step.

Lemma keeps_sendSession i path destPf ev : keeps Inv (sendSession i path destPf ev).
Proof. unfold sendSession. keeps_auto. Qed.

Lemma keeps_check i : keeps Inv (check i).
Proof. unfold check. keeps_auto. Qed.

Lemma keeps_sessionForHandle h : keeps Inv (sessionForHandle h).
Proof. unfold sessionForHandle. keeps_auto. apply keeps_check. Qed.

Lemma keeps_sessionForIp6 ip6 : keeps Inv (sessionForIp6 ip6).
Proof. unfold sessionForIp6. keeps_auto. apply keeps_check. Qed.

Lemma keeps_triggerSearch t v : keeps Inv (triggerSearch t v).
Proof. unfold triggerSearch. keeps_auto. Qed.

Lemma keeps_unsetupSession i : keeps Inv (unsetupSession i).
Proof. unfold unsetupSession. keeps_auto. Qed.

Lemma keeps_ctrlFrame msg : keeps Inv (ctrlFrame msg).
Proof. unfold ctrlFrame. keeps_auto. Qed.

Lemma keeps_failedDecrypt msg l : keeps Inv (failedDecrypt msg l).
Proof. unfold failedDecrypt. keeps_auto. Qed.

Lemma keeps_outgoingCtrlFrame msg : keeps Inv (outgoingCtrlFrame msg).
Proof. unfold outgoingCtrlFrame. keeps_auto. Qed.

Lemma keeps_checkTimedOutSessions_loop n : keeps Inv (checkTimedOutSessions_loop n).
Proof.
  induction n as [|n IH]; cbn [checkTimedOutSessions_loop]; keeps_auto;
    try apply keeps_sendSession; try apply keeps_triggerSearch;
    try apply keeps_unsetupSession; assumption.
Qed.

Lemma keeps_checkTimedOutSessions : keeps Inv checkTimedOutSessions.
Proof. unfold checkTimedOutSessions. keeps_auto. apply keeps_checkTimedOutSessions_loop. Qed.

Lemma keeps_checkTimedOutBuffers_loop fuel : forall i, keeps Inv (checkTimedOutBuffers_loop fuel i).
Proof.
  induction fuel as [|fuel IH]; intros i; cbn [checkTimedOutBuffers_loop]; keeps_auto;
    apply IH.
Qed.

Lemma keeps_checkTimedOutBuffers : keeps Inv checkTimedOutBuffers.
Proof. unfold checkTimedOutBuffers. keeps_auto. apply keeps_checkTimedOutBuffers_loop. Qed.

Lemma keeps_periodically : keeps Inv periodically.
Proof.
  unfold periodically. keeps_auto;
    [apply keeps_checkTimedOutSessions | apply keeps_checkTimedOutBuffers].
Qed.

Lemma keeps_readyToSend msg sess : keeps Inv (readyToSend msg sess).
Proof. unfold readyToSend. keeps_auto. Qed.


Lemma keeps_decrypt sh n f l0 session msg :
  keeps Inv (incomingFromSwitchIf_decrypt sh n f l0 session msg).
Proof.
  unfold incomingFromSwitchIf_decrypt. keeps_auto;
    try apply keeps_failedDecrypt; try apply keeps_sendSession.
Qed.

Lemma find_index_lt A (p : A -> bool) (l : list A) (i : nat) :
  find_index p l = Some i -> (i < length l)%nat.
Proof.
  intros H. apply find_index_Some in H. destruct H as (x & Hx & _).
  apply nth_error_Some. congruence.
Qed.

Lemma NoDup_snoc A (l : list A) (x : A) :
  ~ In x l -> NoDup l -> NoDup (l ++ [x]).
Proof.
  intros Hx H. induction H as [|y l Hy H IH]; cbn.
  - constructor; [intros [] | constructor].
  - constructor.
    + intros Hin. apply in_app_or in Hin. destruct Hin as [Hin|[->|[]]].
      * contradiction.
      * apply Hx. left. reflexivity.
    + apply IH. intros Hin. apply Hx. right. assumption.
Qed.

(** The slot that [Map_put] fills, with its receive handle set. *)
Lemma Inv_put_session (ip6 : list Z) (sess0 : Session) (sm : SessionManager_pvt)
    (i : nat) (m' : Map Session) (e : Map_Entry Session) :
  Inv sm ->
  Map_put ip6 sess0 (ifaceMap sm) = (i, m') ->
  Map_entry m' i = Some e ->
  Inv (set_ifaceMap
         (Map_update m' i
            (set_receiveHandle ((Map_handle e + firstHandle sm) mod 2 ^ 32))) sm).
Proof.
  intros [HB [S1 S2 S3 S4 S5]] Hput He. split.
  { destruct HB as [B1 B2 B3]. constructor; assumption. }
  unfold Map_put in Hput.
  destruct (Map_indexForKey ip6 (ifaceMap sm)) as [j|] eqn:Hj.
  - injection Hput as <- <-.
    unfold Map_entry, Map_update in He. cbn in He.
    rewrite nth_error_list_update_eq in He.
    destruct (nth_error (Map_entries (ifaceMap sm)) j) as [e0|] eqn:He0; [|discriminate].
    cbn in He. injection He as <-. cbn [Map_handle].
    rewrite Map_update_twice.
    constructor.
    + unfold Map_keys, Map_update. cbn. rewrite map_list_update; [assumption|reflexivity].
    + unfold Map_handles, Map_update. cbn. rewrite map_list_update; [assumption|reflexivity].
    + assumption.
    + cbn. apply Forall_list_update; [|assumption]. intros e He. exact He.
    + cbn. rewrite Forall_forall in *. intros e Hin.
      destruct (In_nth_error _ _ Hin) as [k Hk].
      destruct (Nat.eq_dec j k) as [<-|Hne].
      * rewrite nth_error_list_update_eq, He0 in Hk. cbn in Hk. injection Hk as <-.
        reflexivity.
      * rewrite nth_error_list_update_neq in Hk by assumption.
        apply S5. eapply nth_error_In. eassumption.
  - injection Hput as <- <-.
    unfold Map_entry in He. cbn in He.
    rewrite nth_error_app2, Nat.sub_diag in He by lia. cbn in He.
    injection He as <-. cbn [Map_handle].
    unfold Map_update. cbn [Map_entries Map_nextHandle].
    rewrite list_update_app. cbn.
    pose proof (find_index_None _ _ Hj) as Hfresh.
    constructor; cbn.
    + unfold Map_keys. cbn. rewrite map_app. cbn.
      apply NoDup_snoc; [|assumption].
      intros Hin. apply in_map_iff in Hin. destruct Hin as (e & Hk & Hin).
      specialize (Hfresh e Hin). cbn in Hfresh. rewrite Hk, bytes_eqb_refl in Hfresh.
      discriminate.
    + unfold Map_handles. cbn. rewrite map_app. cbn.
      apply NoDup_snoc; [|assumption].
      intros Hin. apply in_map_iff in Hin. destruct Hin as (e & Hh & Hin).
      rewrite Forall_forall in S4. specialize (S4 e Hin). lia.
    + lia.
    + apply Forall_app. split.
      * refine (Forall_impl _ _ S4). intros a Ha. cbn. lia.
      * constructor; [cbn; lia | constructor].
    + apply Forall_app. split; [assumption|].
      constructor; [reflexivity | constructor].
Qed.

Lemma keeps_getSession ip6 pubKey v l m mt : keeps Inv (getSession ip6 pubKey v l m mt).
Proof.
  unfold getSession.
  apply keeps_bind; [apply keeps_assert|]. intros _.
  apply keeps_bind; [apply keeps_sessionForIp6|]. intros [i|].
  - keeps_auto.
  - apply keeps_bind; [apply keeps_Allocator_child|]. intros alloc. cbv zeta.
    apply keeps_bind; [keeps_auto|]. intros _.
    apply hoare_get_bind. intros sm0 HI.
    destruct (Map_put ip6 _ (ifaceMap sm0)) as [i m'] eqn:Hput.
    apply hoare_modify_bind. apply hoare_get_bind.
    intros sm1 (sm2 & -> & ->).
    cbn [ifaceMap set_ifaceMap firstHandle].
    destruct (Map_entry m' i) as [e|] eqn:He.
    + intros sm a sm' o -> Hrun.
      rewrite bind_write in Hrun.
      cbn [ifaceMap set_ifaceMap] in Hrun.
      match type of Hrun with
      | ?k ?s = _ =>
          assert (Hk : keeps Inv k)
            by (keeps_auto; [apply keeps_sendSession | apply keeps_check]);
          exact (Hk s a sm' o (Inv_put_session _ _ HI Hput He) Hrun)
      end.
    + intros sm a sm' o -> Hrun. discriminate.
Qed.


Lemma keeps_incomingFromSwitchIf msg : keeps Inv (incomingFromSwitchIf msg).
Proof.
  unfold incomingFromSwitchIf. keeps_auto;
    first [apply keeps_ctrlFrame | apply keeps_sessionForHandle
          | apply keeps_decrypt | apply keeps_getSession].
Qed.

Lemma Inv_put_buffered (key : list Z) (b : BufferedMessage) (sm : SessionManager_pvt) :
  Inv sm ->
  Map_count (bufMap sm) < maxBufferedMessages sm ->
  isCJDHT (bm_msg b) = false ->
  Inv (set_bufMap (snd (Map_put key b (bufMap sm))) sm).
Proof.
  intros [[B1 B2 B3] HS] Hcount Hb. split.
  2:{ destruct HS as [S1 S2 S3 S4 S5]. constructor; assumption. }
  unfold Map_put.
  destruct (Map_indexForKey key (bufMap sm)) as [j|] eqn:Hj; cbn [snd].
  - constructor.
    + unfold Map_keys, Map_update. cbn. rewrite map_list_update; [assumption|reflexivity].
    + intros _. unfold Map_count, Map_update in *. cbn. rewrite list_update_length. lia.
    + cbn. rewrite Forall_forall in *. intros e Hin.
      destruct (In_nth_error _ _ Hin) as [k Hk].
      destruct (Nat.eq_dec j k) as [<-|Hne].
      * rewrite nth_error_list_update_eq in Hk.
        destruct (nth_error (Map_entries (bufMap sm)) j); [|discriminate].
        cbn in Hk. injection Hk as <-. exact Hb.
      * rewrite nth_error_list_update_neq in Hk by assumption.
        apply B3. eapply nth_error_In. eassumption.
  - pose proof (find_index_None _ _ Hj) as Hfresh.
    constructor; cbn.
    + unfold Map_keys. cbn. rewrite map_app. cbn.
      apply NoDup_snoc; [|assumption].
      intros Hin. apply in_map_iff in Hin. destruct Hin as (e & Hk & Hin).
      specialize (Hfresh e Hin). cbn in Hfresh. rewrite Hk, bytes_eqb_refl in Hfresh.
      discriminate.
    + intros _. unfold Map_count in *. cbn. rewrite length_app. cbn. lia.
    + apply Forall_app. split; [assumption|].
      constructor; [exact Hb | constructor].
Qed.

Lemma keeps_needsLookup msg setup : keeps Inv (needsLookup msg setup).
Proof.
  unfold needsLookup.
  apply hoare_assert_bind. intros _. cbv zeta.
  apply hoare_assert_bind. intros Hct.
  apply negb_true_iff in Hct. fold (isCJDHT msg) in Hct.
  apply keeps_bind; [apply keeps_get|]. intros sm0.
  apply keeps_bind; [keeps_auto|]. intros _.
  apply hoare_bind with
    (Q := fun (full : bool) sm =>
            Inv sm /\ (full = false -> Map_count (bufMap sm) < maxBufferedMessages sm)).
  { intros sm a sm' o HI Hrun. rewrite bind_get in Hrun.
    destruct (maxBufferedMessages sm <=? Map_count (bufMap sm)) eqn:Hfull.
    - unfold bind in Hrun.
      destruct (checkTimedOutBuffers sm) as [[[u sm1] o1]|] eqn:Hc; [|discriminate].
      cbn in Hrun. injection Hrun as <- <- <-.
      split; [exact (keeps_checkTimedOutBuffers HI Hc)|].
      intros H. apply Z.leb_gt in H. assumption.
    - injection Hrun as <- <- <-. split; [assumption|].
      intros _. apply Z.leb_gt in Hfull. assumption. }
  intros [|].
  - intros sm a sm' o [HI _] Hrun. injection Hrun as <- <- <-. assumption.
  - intros sm a sm' o [HI Hlt] Hrun. specialize (Hlt eq_refl).
    unfold Allocator_child, Time_currentTimeMilliseconds in Hrun.
    repeat first [rewrite bind_assoc in Hrun | rewrite bind_get in Hrun
                 | rewrite bind_modify in Hrun | rewrite bind_ret in Hrun].
    match type of Hrun with
    | ?k ?s = _ =>
        assert (Hk : keeps Inv k) by apply keeps_triggerSearch;
        refine (Hk s a sm' o _ Hrun)
    end.
    cbn [bufMap set_allocs].
    match goal with
    | |- Inv (set_bufMap ?m ?s) =>
        change (Inv (set_bufMap m (set_allocs (liveAllocs s) (nextAlloc s) sm)))
    end.
    apply (@Inv_put_buffered _ _ (set_allocs _ _ sm)).
    + apply Inv_set_allocs. assumption.
    + exact Hlt.
    + exact Hct.
Qed.

Lemma keeps_incomingFromInsideIf msg : keeps Inv (incomingFromInsideIf msg).
Proof.
  unfold incomingFromInsideIf. cbv zeta. keeps_auto;
    first [apply keeps_outgoingCtrlFrame | apply keeps_sessionForIp6
          | apply keeps_needsLookup | apply keeps_readyToSend | apply keeps_getSession].
Qed.

Lemma keeps_sessions_loop n : forall i pf, keeps Inv (sessions_loop n i pf).
Proof.
  induction n as [|n IH]; intros i pf; cbn [sessions_loop]; keeps_auto;
    [apply keeps_sendSession | apply IH].
Qed.

Lemma keeps_incomingFromEventIf msg : keeps Inv (incomingFromEventIf msg).
Proof.
  unfold incomingFromEventIf, sessions. cbv zeta. keeps_auto;
    first [apply keeps_sessions_loop | apply keeps_sessionForIp6
          | apply keeps_getSession | apply keeps_readyToSend
          | apply keeps_unsetupSession].
Qed.

Lemma Inv_new (random now : Z) : Inv (SessionManager_new random now).
Proof.
  split; constructor; cbn; try constructor; try intros; try assumption; lia.
Qed.

(** Every state the session manager reaches satisfies the invariants. *)
Lemma reachable_Inv (sm : SessionManager_pvt) : reachable sm -> Inv sm.
Proof.
  intros H. induction H.
  - apply Inv_new.
  - apply Inv_set_eventBase. assumption.
  - eapply keeps_incomingFromSwitchIf; eassumption.
  - eapply keeps_incomingFromInsideIf; eassumption.
  - eapply keeps_incomingFromEventIf; eassumption.
  - eapply keeps_periodically; eassumption.
Qed.

Lemma checkTimedOutBuffers_loop_shape (sm : SessionManager_pvt) (fuel : nat) :
  forall (pre rest : list (Map_Entry BufferedMessage)) (live : list Z),
  (length rest <= fuel)%nat ->
  checkTimedOutBuffers_loop fuel (length pre) (withBuffers sm (pre ++ rest) live)
  = Ok (tt,
        withBuffers sm (pre ++ filter (notExpired sm) rest)
          (remove_all (expiredAllocs sm rest) live),
        []).
Proof.
  induction fuel as [|fuel IH]; intros pre rest live Hfuel.
  - destruct rest; [reflexivity | cbn in Hfuel; lia].
  - cbn [checkTimedOutBuffers_loop]. rewrite bind_get.
    unfold Map_entry. cbn [bufMap withBuffers Map_entries].
    rewrite nth_error_app2, Nat.sub_diag by lia.
    destruct rest as [|e rest]; [reflexivity|].
    cbn [nth_error]. unfold Time_currentTimeMilliseconds. mnorm.
    cbn [eventBase withBuffers].
    assert (Hk : notExpired sm e
                 = (eventBase sm - timeSentMilliseconds (Map_value e) <? 10000))
      by reflexivity.
    unfold expiredAllocs. cbn [filter]. rewrite Hk.
    destruct (eventBase sm - timeSentMilliseconds (Map_value e) <? 10000) eqn:Hlag;
      cbn [negb map].
    + specialize (IH (pre ++ [e]) rest live).
      rewrite length_app, Nat.add_1_r in IH. rewrite <- !app_assoc in IH. cbn [app] in IH.
      rewrite IH by (cbn in Hfuel; lia). reflexivity.
    + unfold Map_removeBuffered, Allocator_free. mnorm.
      unfold set_bufMap, set_allocs, Map_remove.
      cbn [maxBufferedMessages sessionTimeoutMilliseconds sessionSearchAfterMilliseconds
           bufMap ifaceMap firstHandle eventBase liveAllocs nextAlloc withBuffers
           Map_entries Map_nextHandle].
      rewrite list_delete_app.
      specialize (IH pre rest (remove Z.eq_dec (bm_alloc (Map_value e)) live)).
      unfold withBuffers in IH. rewrite IH by (cbn in Hfuel; lia). reflexivity.
Qed.

Lemma withBuffers_same (sm : SessionManager_pvt) :
  withBuffers sm (Map_entries (bufMap sm)) (liveAllocs sm) = sm.
Proof. destruct sm as [? ? ? [es nh] ? ? ? ? ?]. reflexivity. Qed.

Lemma checkTimedOutBuffers_run (sm : SessionManager_pvt) :
  checkTimedOutBuffers sm = Ok (tt, sweptState sm, []).
Proof.
  unfold checkTimedOutBuffers. rewrite bind_get.
  rewrite <- (withBuffers_same sm) at 2.
  apply (checkTimedOutBuffers_loop_shape sm [] (Map_entries (bufMap sm)) (liveAllocs sm)).
  lia.
Qed.


Lemma needsLookup_run (msg : Message) (setup : bool) (sm : SessionManager_pvt) :
  RouteHeader_SIZE + DataHeader_SIZE <= len msg ->
  isCJDHT msg = false ->
  let header := Message_struct msg (off msg) RouteHeader_SIZE in
  let sm2 := madeRoom (displaced (RouteHeader_ip6 header) sm) in
  needsLookup msg setup sm
  = if maxBufferedMessages sm2 <=? Map_count (bufMap sm2)
    then Ok (tt, sm2, [])
    else Ok (tt, buffered (RouteHeader_ip6 header) msg sm2,
             [searchEvent (RouteHeader_ip6 header) (RouteHeader_version_be header)]).
Proof.
  intros Hlen Hct. cbv zeta. unfold needsLookup.
  apply Z.leb_le in Hlen. rewrite Hlen, bind_assert_true. cbv zeta.
  unfold isCJDHT in Hct. rewrite Hct. cbn [negb]. rewrite bind_assert_true.
  rewrite bind_get.
  set (key := RouteHeader_ip6 (Message_struct msg (off msg) RouteHeader_SIZE)).
  assert (Hdis : forall B (k : unit -> M B),
             bind (match Map_indexForKey key (bufMap sm) with
                   | Some index =>
                       match Map_entry (bufMap sm) index with
                       | Some e => Map_removeBuffered index ;;;
                                   Allocator_free (bm_alloc (Map_value e))
                       | None => abort
                       end
                   | None => ret tt
                   end) k sm
             = k tt (displaced key sm)).
  { intros B k. unfold displaced.
    destruct (Map_indexForKey key (bufMap sm)) as [index|] eqn:Hidx.
    - destruct (find_index_Some _ _ Hidx) as (e & He & _).
      unfold Map_entry. rewrite He.
      unfold Map_removeBuffered, Allocator_free. mnorm. reflexivity.
    - apply bind_ret. }
  rewrite Hdis. clear Hdis.
  set (sm1 := displaced key sm).
  rewrite bind_assoc, bind_get. unfold madeRoom. fold sm1.
  destruct (maxBufferedMessages sm1 <=? Map_count (bufMap sm1)) eqn:Hfull.
  - rewrite bind_assoc.
    rewrite (bind_run _ (checkTimedOutBuffers_run sm1)). rewrite prepend_nil.
    mnorm.
    destruct (maxBufferedMessages (sweptState sm1) <=? Map_count (bufMap (sweptState sm1)));
      [reflexivity|].
    unfold Allocator_child, Time_currentTimeMilliseconds. mnorm.
    apply triggerSearch_run.
  - mnorm. rewrite Hfull.
    unfold Allocator_child, Time_currentTimeMilliseconds. mnorm.
    apply triggerSearch_run.
Qed.

Lemma find_index_list_delete A B (f : A -> B) (p : A -> bool) (l : list A) (i : nat) (b : B) :
  NoDup (map f l) ->
  (forall y, p y = true <-> f y = b) ->
  find_index p l = Some i ->
  find_index p (list_delete l i) = None.
Proof.
  intros Hnd Hp. revert i. induction l as [|x l IH]; intros i Hi; [discriminate|].
  cbn in Hnd. inversion Hnd as [|? ? Hnotin Hnd']; subst.
  cbn in Hi. destruct (p x) eqn:Hx.
  - injection Hi as <-. cbn. apply find_index_None_iff. intros y Hy.
    destruct (p y) eqn:Hpy; [|reflexivity].
    exfalso. apply Hnotin. apply Hp in Hx, Hpy. rewrite Hx, <- Hpy.
    apply in_map. assumption.
  - destruct (find_index p l) as [j|] eqn:Hj; [|discriminate].
    injection Hi as <-. cbn. rewrite Hx. rewrite (IH Hnd' j eq_refl). reflexivity.
Qed.

Lemma find_index_filter_None A (p q : A -> bool) (l : list A) :
  find_index p l = None -> find_index p (filter q l) = None.
Proof.
  intros H. apply find_index_None_iff. intros x Hx.
  apply filter_In in Hx. eapply find_index_None; [eassumption | tauto].
Qed.

Lemma displaced_gone (key : list Z) (sm : SessionManager_pvt) :
  NoDup (Map_keys (bufMap sm)) ->
  Map_indexForKey key (bufMap (madeRoom (displaced key sm))) = None.
Proof.
  intros Hnd.
  assert (H1 : Map_indexForKey key (bufMap (displaced key sm)) = None).
  { unfold displaced.
    destruct (Map_indexForKey key (bufMap sm)) as [index|] eqn:Hidx; [|assumption].
    destruct (find_index_Some _ _ Hidx) as (e & He & _).
    unfold Map_entry. rewrite He. cbn.
    unfold Map_indexForKey in *. cbn.
    eapply find_index_list_delete with (f := @Map_key BufferedMessage) (b := key);
      [exact Hnd | | exact Hidx].
    intros y. apply bytes_eqb_eq. }
  unfold madeRoom.
  destruct (maxBufferedMessages (displaced key sm) <=? Map_count (bufMap (displaced key sm)));
    [|assumption].
  unfold Map_indexForKey in *. cbn. apply find_index_filter_None. assumption.
Qed.


(** C5.  In every state the session manager reaches, the buffered-message
    table has at most one message for a destination and (for a bound that is
    not negative) at most [maxBufferedMessages] messages, and [needsLookup]
    keeps it so.  [needsLookup] first removes (and frees) the message
    buffered for the same destination, so that none is left for it; if the
    table is full it then runs the 10-second sweep; if the table is still
    full the new message is dropped: the state is the swept one and nothing
    is sent; otherwise the message is put into the table and a search is
    requested. *)
Theorem buffered_messages_bounded (sm : SessionManager_pvt) :
  reachable sm ->
  NoDup (Map_keys (bufMap sm))
  /\ (0 <= maxBufferedMessages sm -> Map_count (bufMap sm) <= maxBufferedMessages sm)
  /\ (forall msg setup sm' o,
        needsLookup msg setup sm = Ok (tt, sm', o) ->
        NoDup (Map_keys (bufMap sm'))
        /\ (0 <= maxBufferedMessages sm' ->
            Map_count (bufMap sm') <= maxBufferedMessages sm'))
  /\ (forall msg setup,
        RouteHeader_SIZE + DataHeader_SIZE <= len msg ->
        isCJDHT msg = false ->
        let header := Message_struct msg (off msg) RouteHeader_SIZE in
        let sm2 := madeRoom (displaced (RouteHeader_ip6 header) sm) in
        Map_indexForKey (RouteHeader_ip6 header) (bufMap sm2) = None
        /\ needsLookup msg setup sm
           = if maxBufferedMessages sm2 <=? Map_count (bufMap sm2)
             then Ok (tt, sm2, [])
             else Ok (tt, buffered (RouteHeader_ip6 header) msg sm2,
                      [searchEvent (RouteHeader_ip6 header)
                                   (RouteHeader_version_be header)])).
Proof.
  intros Hreach. pose proof (reachable_Inv Hreach) as HI.
  destruct HI as [[B1 B2 B3] HS].
  split; [assumption|]. split; [assumption|]. split.
  - intros msg setup sm' o Hrun.
    assert (HI' : Inv sm').
    { eapply keeps_needsLookup; [|eassumption]. split; [constructor|]; assumption. }
    destruct HI' as [[B1' B2' B3'] _]. split; assumption.
  - intros msg setup Hlen Hct. cbv zeta. split.
    + apply displaced_gone. assumption.
    + apply needsLookup_run; assumption.
Qed.

Lemma check_again (j : nat) (sm sm1 : SessionManager_pvt) (o : list Output) :
  check j sm = Ok (tt, sm1, o) -> check j sm1 = Ok (tt, sm1, []).
Proof.
  intros H. destruct (check_run H) as (s & Hs & [Hr|Hr]); injection Hr as -> ->.
  - assumption.
  - unfold check.
    assert (Hs' : sessionAt (set_ifaceMap (Map_update (ifaceMap sm) j (set_foundKey true)) sm) j
                  = Some (set_foundKey true s))
      by (rewrite sessionAt_update, Hs; reflexivity).
    rewrite (bind_read _ Hs'). reflexivity.
Qed.

Lemma sessionForIp6_inv (ip6 : list Z) (sm sm1 : SessionManager_pvt) (i : nat)
    (o : list Output) :
  sessionForIp6 ip6 sm = Ok (Some i, sm1, o) ->
  Map_indexForKey ip6 (ifaceMap sm) = Some i /\ check i sm = Ok (tt, sm1, o).
Proof.
  unfold sessionForIp6. rewrite bind_get.
  destruct (Map_indexForKey ip6 (ifaceMap sm)) as [j|]; [|discriminate].
  unfold bind. destruct (check j sm) as [[[[] sm2] o2]|] eqn:Hc; [|discriminate].
  cbn. intros H. injection H as <- <- <-. rewrite app_nil_r. auto.
Qed.

(** C7.  A session found by its address is found again by its own receive
    handle: the lookup by handle answers with the same slot of the session
    table and changes nothing.  (The handles of the slots are below 2^32 as
    long as fewer than 2^32 sessions were ever created.) *)
Theorem lookup_by_ip6_then_by_handle
    (sm sm1 : SessionManager_pvt) (ip6 : list Z) (i : nat) (o : list Output)
    (s : Session) :
  reachable sm ->
  Map_nextHandle (ifaceMap sm) <= 2 ^ 32 ->
  sessionForIp6 ip6 sm = Ok (Some i, sm1, o) ->
  sessionAt sm1 i = Some s ->
  sessionForHandle (receiveHandle s) sm1 = Ok (Some i, sm1, []).
Proof.
  intros Hreach Hnext Hfind Hs.
  pose proof (reachable_Inv Hreach) as HI.
  assert (HI1 : Inv sm1) by (eapply keeps_sessionForIp6; eassumption).
  destruct (sessionForIp6_inv _ _ Hfind) as [Hidx Hcheck].
  assert (Hnext1 : Map_nextHandle (ifaceMap sm1) = Map_nextHandle (ifaceMap sm)).
  { destruct (check_run Hcheck) as (s0 & _ & [Hr|Hr]); injection Hr as -> _; reflexivity. }
  destruct HI1 as [_ [S1 S2 S3 S4 S5]].
  unfold sessionAt, Map_entry in Hs.
  destruct (nth_error (Map_entries (ifaceMap sm1)) i) as [e|] eqn:He; [|discriminate].
  cbn in Hs. injection Hs as <-.
  assert (Hin : In e (Map_entries (ifaceMap sm1))) by (eapply nth_error_In; eassumption).
  rewrite Forall_forall in S4, S5.
  unfold sessionForHandle. rewrite bind_get.
  rewrite (S5 e Hin), handle_roundtrip by (specialize (S4 e Hin); lia).
  unfold Map_indexForHandle.
  rewrite (find_index_unique (@Map_handle Session) _ _ _ S2 He).
  2:{ intros y. apply Z.eqb_eq. }
  rewrite (bind_run _ (check_again _ _ Hcheck)). reflexivity.
Qed.

Lemma needsLookup_CJDHT (msg : Message) (setup : bool) (sm : SessionManager_pvt) :
  isCJDHT msg = true -> needsLookup msg setup sm = Fatal.
Proof.
  intros Hct. unfold needsLookup.
  destruct (RouteHeader_SIZE + DataHeader_SIZE <=? len msg); [|reflexivity].
  rewrite bind_assert_true. cbv zeta. unfold isCJDHT in Hct. rewrite Hct. reflexivity.
Qed.

(** C9.  A message whose content type is CJDHT is never buffered: in every
    state the session manager reaches all buffered messages have another
    content type; [needsLookup] on a CJDHT message ends in the fatal
    assertion; and so does [incomingFromInsideIf] on a CJDHT message that
    would need a lookup, because there is no session and no key or version to
    make one, or because the session has no version, or no label. *)
Theorem dht_messages_are_never_buffered (sm : SessionManager_pvt) :
  reachable sm ->
  Forall (fun e => isCJDHT (bm_msg (Map_value e)) = false) (Map_entries (bufMap sm))
  /\ (forall msg setup, isCJDHT msg = true -> needsLookup msg setup sm = Fatal)
  /\ (forall msg,
        isCJDHT msg = true ->
        let rh := Message_struct msg (off msg) RouteHeader_SIZE in
        Z.land (RouteHeader_flags rh) RouteHeader_flags_CTRLMSG = 0 ->
        (* no session, and no key or no version to make one *)
        (Map_indexForKey (RouteHeader_ip6 rh) (ifaceMap sm) = None ->
         Bits_isZero (RouteHeader_publicKey rh) = true \/ RouteHeader_version_be rh = 0 ->
         incomingFromInsideIf msg sm = Fatal)
        /\ (forall i sm1 o s,
              sessionForIp6 (RouteHeader_ip6 rh) sm = Ok (Some i, sm1, o) ->
              sessionAt sm1 i = Some s ->
              (* no version *)
              (RouteHeader_version_be rh = 0 -> version s = 0 ->
               incomingFromInsideIf msg sm = Fatal)
              (* no label *)
              /\ (SwitchHeader_label_be
                    (Message_struct msg (off msg + RouteHeader_sh) SwitchHeader_SIZE) = 0 ->
                  sendSwitchLabel s = 0 ->
                  incomingFromInsideIf msg sm = Fatal))).
Proof.
  intros Hreach. pose proof (reachable_Inv Hreach) as [[B1 B2 B3] HS].
  split; [assumption|]. split; [intros; apply needsLookup_CJDHT; assumption|].
  intros msg Hct rh Hflags.
  assert (Hstart : forall k : M unit,
            (Assert_true (RouteHeader_SIZE <=? len msg) ;;;
             (if negb (Z.land (RouteHeader_flags rh) RouteHeader_flags_CTRLMSG =? 0)
              then outgoingCtrlFrame msg
              else Assert_true (RouteHeader_SIZE + DataHeader_SIZE <=? len msg) ;;; k)) sm
            = Fatal \/
            (Assert_true (RouteHeader_SIZE <=? len msg) ;;;
             (if negb (Z.land (RouteHeader_flags rh) RouteHeader_flags_CTRLMSG =? 0)
              then outgoingCtrlFrame msg
              else Assert_true (RouteHeader_SIZE + DataHeader_SIZE <=? len msg) ;;; k)) sm
            = k sm).
  { intros k. rewrite Hflags. cbn [Z.eqb negb].
    destruct (RouteHeader_SIZE <=? len msg); [|left; reflexivity].
    rewrite bind_assert_true.
    destruct (RouteHeader_SIZE + DataHeader_SIZE <=? len msg); [|left; reflexivity].
    rewrite bind_assert_true. right. reflexivity. }
  split.
  - intros Hnone Hnokey.
    unfold incomingFromInsideIf. cbv zeta. fold rh.
    match goal with |- (_ ;;; (if _ then _ else _ ;;; ?k)) sm = Fatal =>
      destruct (Hstart k) as [H|H]; rewrite H; [reflexivity|]
    end.
    rewrite (bind_run _ (sessionForIp6_none _ _ Hnone)). rewrite prepend_nil.
    replace (negb (Bits_isZero (RouteHeader_publicKey rh))
             && negb (RouteHeader_version_be rh =? 0)) with false.
    + apply needsLookup_CJDHT. assumption.
    + destruct Hnokey as [Hk|Hv].
      * rewrite Hk. reflexivity.
      * rewrite Hv. cbn. rewrite andb_false_r. reflexivity.
  - intros i sm1 o s Hfind Hs. split.
    + intros Hv0 Hvs.
      unfold incomingFromInsideIf. cbv zeta. fold rh.
      match goal with |- (_ ;;; (if _ then _ else _ ;;; ?k)) sm = Fatal =>
        destruct (Hstart k) as [H|H]; rewrite H; [reflexivity|]
      end.
      rewrite (bind_run _ Hfind). rewrite Hv0. cbn [Z.eqb negb]. rewrite bind_ret.
      rewrite (bind_read _ Hs). rewrite Hvs. cbn [Z.eqb].
      rewrite needsLookup_CJDHT by assumption. reflexivity.
    + intros Hl0 Hsend.
      unfold incomingFromInsideIf. cbv zeta. fold rh.
      match goal with |- (_ ;;; (if _ then _ else _ ;;; ?k)) sm = Fatal =>
        destruct (Hstart k) as [H|H]; rewrite H; [reflexivity|]
      end.
      rewrite (bind_run _ Hfind).
      destruct (negb (RouteHeader_version_be rh =? 0)).
      * rewrite bind_write.
        erewrite bind_read by (rewrite sessionAt_update, Hs; reflexivity).
        cbn [version set_version].
        destruct (RouteHeader_version_be rh =? 0);
          [rewrite needsLookup_CJDHT by assumption; reflexivity|].
        rewrite Hl0. cbn [Z.eqb negb sendSwitchLabel set_version]. rewrite Hsend.
        cbn [Z.eqb negb]. rewrite needsLookup_CJDHT by assumption. reflexivity.
      * rewrite bind_ret. rewrite (bind_read _ Hs).
        destruct (version s =? 0);
          [rewrite needsLookup_CJDHT by assumption; reflexivity|].
        rewrite Hl0, Hsend. cbn [Z.eqb negb].
        rewrite needsLookup_CJDHT by assumption. reflexivity.
Qed.

(** ** Frames from the switch *)

Lemma Message_eshift_neg (m : Message) (n : Z) :
  0 <= n -> n <= len m ->
  Message_eshift m (- n) = Ok (mkMessage (buf m) (off m + n) (len m - n)).
Proof.
  intros Hn Hlen. unfold Message_eshift.
  replace (0 <? - n) with false by (symmetry; apply Z.ltb_ge; lia).
  replace (len m <? - - n) with false by (symmetry; apply Z.ltb_ge; lia).
  cbn [andb]. do 2 f_equal; lia.
Qed.

(** The frame up to the test of the nonce. *)
Lemma incomingFromSwitchIf_start (msg : Message) (sm : SessionManager_pvt) :
  0 <= SwitchHeader_SIZE -> SwitchHeader_SIZE + 4 <= len msg ->
  nonceOrHandle msg <> 0xffffffff ->
  24 <= len (reversed msg) ->
  incomingFromSwitchIf msg sm
  = (let m := reversed msg in
     let firstSixteen := Message_struct m (off m) 16 in
     if 3 <? nonceOrHandle msg then
       session <- sessionForHandle (nonceOrHandle msg) ;;
       match session with
       | None => ret tt
       | Some session =>
           msg' <- Er_assert (Message_eshift m (-4)) ;;
           if be_value (Message_struct msg' (off msg') 4) <? 4 then ret tt else
           incomingFromSwitchIf_decrypt (off msg) (nonceOrHandle msg) firstSixteen (len m)
             session msg'
       end
     else
       if len m <? CryptoHeader_SIZE + 4 then ret tt else
       if negb (AddressCalc_validAddress (AddressCalc_hash (claimedKey msg))) then ret tt else
       if bytes_eqb (claimedKey msg) CryptoAuth_publicKey then ret tt else
       session <- getSession (AddressCalc_hash (claimedKey msg)) (claimedKey msg) 0
                    (sourceLabel msg) Metric_SM_INCOMING 0 ;;
       afterGetSession msg session) sm.
Proof.
  intros Hsize Hlen Hctrl Hrunt. unfold incomingFromSwitchIf.
  replace (len msg <? SwitchHeader_SIZE + 4) with false by (symmetry; apply Z.ltb_ge; lia).
  rewrite Message_eshift_neg by lia. rewrite bind_Er_assert. cbv zeta.
  fold (reversed msg). fold (nonceOrHandle msg).
  apply Z.eqb_neq in Hctrl. rewrite Hctrl.
  replace (len (reversed msg) <? 4 + 20) with false by (symmetry; apply Z.ltb_ge; lia).
  replace (16 <=? len (reversed msg)) with true by (symmetry; apply Z.leb_le; lia).
  rewrite bind_assert_true.
  reflexivity.
Qed.

(** C3.  A handshake frame: the first word after the switch header is at
    most 3.  When the frame is long enough to hold a whole crypto header
    plus four bytes, which is what the spec requires of a handshake: if the
    key in the crypto header gives no address starting with 0xfc, or is our
    own key, the handler returns without any output and with the state as it
    was, so no session is created or modified; if the key is valid and not
    ours, the handler is [getSession], called with the address of the key,
    the key, version 0, the label of the reversed switch header, metric
    [Metric_SM_INCOMING] and maintain 0, followed by the rest of the
    handler.  Every shorter handshake frame is dropped too, whatever the
    bytes at the place of the key: no output, the state as it was. *)
Theorem handshake_is_dropped_or_gets_session (msg : Message) (sm : SessionManager_pvt) :
  0 <= SwitchHeader_SIZE -> SwitchHeader_SIZE + 4 <= len msg ->
  nonceOrHandle msg <= 3 ->
  (len (reversed msg) < 24 \/ len (reversed msg) < CryptoHeader_SIZE + 4 ->
   incomingFromSwitchIf msg sm = Ok (tt, sm, []))
  /\ (24 <= len (reversed msg) -> CryptoHeader_SIZE + 4 <= len (reversed msg) ->
      (AddressCalc_validAddress (AddressCalc_hash (claimedKey msg)) = false
       \/ claimedKey msg = CryptoAuth_publicKey ->
       incomingFromSwitchIf msg sm = Ok (tt, sm, []))
      /\ (AddressCalc_validAddress (AddressCalc_hash (claimedKey msg)) = true ->
          claimedKey msg <> CryptoAuth_publicKey ->
          incomingFromSwitchIf msg sm
          = (session <- getSession (AddressCalc_hash (claimedKey msg)) (claimedKey msg) 0
                          (sourceLabel msg) Metric_SM_INCOMING 0 ;;
             afterGetSession msg session) sm)).
Proof.
  intros Hsize Hlen Hnonce.
  assert (Hctrl : nonceOrHandle msg <> 0xffffffff) by lia.
  assert (Hsmall : (3 <? nonceOrHandle msg) = false) by (apply Z.ltb_ge; lia).
  split.
  - intros Hshort.
    destruct (Z_lt_ge_dec (len (reversed msg)) 24) as [Hrunt|Hrunt].
    + unfold incomingFromSwitchIf.
      replace (len msg <? SwitchHeader_SIZE + 4) with false by (symmetry; apply Z.ltb_ge; lia).
      rewrite Message_eshift_neg by lia. rewrite bind_Er_assert. cbv zeta.
      fold (reversed msg). fold (nonceOrHandle msg).
      apply Z.eqb_neq in Hctrl. rewrite Hctrl.
      replace (len (reversed msg) <? 4 + 20) with true by (symmetry; apply Z.ltb_lt; lia).
      reflexivity.
    + rewrite incomingFromSwitchIf_start by (try assumption; lia). cbv zeta.
      rewrite Hsmall.
      replace (len (reversed msg) <? CryptoHeader_SIZE + 4) with true
        by (symmetry; apply Z.ltb_lt; lia).
      reflexivity.
  - intros Hrunt Hca.
    rewrite incomingFromSwitchIf_start by (try assumption; lia). cbv zeta.
    rewrite Hsmall.
    replace (len (reversed msg) <? CryptoHeader_SIZE + 4) with false
      by (symmetry; apply Z.ltb_ge; lia).
    split.
    + intros [Hinvalid|Hself].
      * rewrite Hinvalid. reflexivity.
      * destruct (negb _); [reflexivity|].
        apply bytes_eqb_eq in Hself. rewrite Hself. reflexivity.
    + intros Hvalid Hother. rewrite Hvalid. cbn [negb].
      apply bytes_eqb_neq in Hother. rewrite Hother. reflexivity.
Qed.

Lemma mem_read_length (b : list Z) (p n : Z) :
  0 <= p -> 0 <= n -> p + n <= Z.of_nat (length b) ->
  Z.of_nat (length (mem_read b p n)) = n.
Proof.
  intros Hp Hn Hle. unfold mem_read. rewrite length_firstn, length_skipn. lia.
Qed.

Lemma mem_read_app (b : list Z) (p n1 n2 : Z) :
  0 <= p -> 0 <= n1 -> 0 <= n2 ->
  mem_read b p (n1 + n2) = mem_read b p n1 ++ mem_read b (p + n1) n2.
Proof.
  intros Hp H1 H2. unfold mem_read.
  replace (Z.to_nat (n1 + n2)) with (Z.to_nat n1 + Z.to_nat n2)%nat by lia.
  replace (Z.to_nat (p + n1)) with (Z.to_nat n1 + Z.to_nat p)%nat by lia.
  rewrite <- skipn_skipn. 
  generalize (skipn (Z.to_nat p) b). intros l.
  rewrite <- (firstn_skipn (Z.to_nat n1) l) at 1.
  destruct (Nat.le_gt_cases (Z.to_nat n1) (length l)) as [Hl|Hl].
  - rewrite firstn_app. rewrite length_firstn, Nat.min_l by assumption.
    replace (Z.to_nat n1 + Z.to_nat n2 - Z.to_nat n1)%nat with (Z.to_nat n2) by lia.
    f_equal. rewrite firstn_firstn. f_equal. lia.
  - rewrite (skipn_all2 l) by lia. rewrite app_nil_r.
    rewrite firstn_firstn. rewrite firstn_nil, app_nil_r. f_equal. lia.
Qed.

Lemma mem_read_write_before (b : list Z) (p q n : Z) (d : list Z) :
  0 <= q -> 0 <= n -> q + n <= p -> p <= Z.of_nat (length b) ->
  mem_read (mem_write b p d) q n = mem_read b q n.
Proof.
  intros Hq Hn Hle Hp. unfold mem_read, mem_write.
  rewrite skipn_app. rewrite firstn_app.
  rewrite length_skipn, length_firstn.
  replace (Z.to_nat n - (Nat.min (Z.to_nat p) (length b) - Z.to_nat q))%nat with 0%nat by lia.
  cbn [firstn]. rewrite app_nil_r.
  rewrite <- (firstn_skipn (Z.to_nat p) b) at 2.
  rewrite skipn_app, firstn_app.
  rewrite length_skipn, length_firstn.
  replace (Z.to_nat n - (Nat.min (Z.to_nat p) (length b) - Z.to_nat q))%nat with 0%nat by lia.
  cbn [firstn]. rewrite app_nil_r. reflexivity.
Qed.

Lemma mem_read_write_after (b : list Z) (p q n : Z) (d : list Z) :
  0 <= p -> p + Z.of_nat (length d) <= q -> p + Z.of_nat (length d) <= Z.of_nat (length b) ->
  mem_read (mem_write b p d) q n = mem_read b q n.
Proof.
  intros Hp Hle Hb. unfold mem_read, mem_write. f_equal.
  rewrite app_assoc.
  rewrite skipn_app.
  rewrite skipn_all2 by (rewrite length_app, length_firstn; lia).
  cbn [app]. rewrite length_app, length_firstn, Nat.min_l by lia.
  rewrite skipn_skipn. f_equal. lia.
Qed.

Lemma mem_read_write_same (b : list Z) (p : Z) (d : list Z) :
  0 <= p -> p + Z.of_nat (length d) <= Z.of_nat (length b) ->
  mem_read (mem_write b p d) p (Z.of_nat (length d)) = d.
Proof.
  intros Hp Hle.
  rewrite <- (Z.add_0_r (Z.of_nat (length d))).
  rewrite mem_read_write by lia.
  unfold mem_read. cbn. apply app_nil_r.
Qed.

Lemma pushed_before (m : Message) (d : list Z) (q n : Z) :
  Message_ok m -> Z.of_nat (length d) <= off m ->
  0 <= q -> 0 <= n -> q + n <= off m - Z.of_nat (length d) ->
  mem_read (buf (pushed m d)) q n = mem_read (buf m) q n.
Proof.
  intros (H1 & H2 & H3) Hd Hq Hn Hle. unfold pushed. cbn [buf].
  apply mem_read_write_before; lia.
Qed.

Lemma pushed_length (m : Message) (d : list Z) :
  Message_ok m -> Z.of_nat (length d) <= off m ->
  length (buf (pushed m d)) = length (buf m).
Proof.
  intros (H1 & H2 & H3) Hd. unfold pushed. cbn [buf].
  apply mem_write_length; lia.
Qed.

Lemma Message_epop16be_ok (m : Message) :
  2 <= len m ->
  Message_epop16be m
  = Ok (be_value (mem_read (buf m) (off m) 2), mkMessage (buf m) (off m + 2) (len m - 2)).
Proof.
  intros H. unfold Message_epop16be, Message_epop.
  rewrite Message_eshift_neg by lia. reflexivity.
Qed.

(** What a push wrote is gone again once it is popped. *)
Lemma popped_ok (m : Message) (d : list Z) :
  Message_ok m -> Z.of_nat (length d) <= off m ->
  let p := pushed m d in
  let m' := mkMessage (buf p) (off p + Z.of_nat (length d)) (len p - Z.of_nat (length d)) in
  Message_ok m' /\ Message_bytes m' = Message_bytes m /\ off m' = off m.
Proof.
  intros (H1 & H2 & H3) Hd. cbv zeta. unfold Message_ok, Message_bytes, pushed.
  cbn [buf off len].
  rewrite mem_write_length by lia.
  split; [lia|]. split; [|lia].
  replace (off m - Z.of_nat (length d) + Z.of_nat (length d)) with (off m) by lia.
  replace (len m + Z.of_nat (length d) - Z.of_nat (length d)) with (len m) by lia.
  apply mem_read_write_after; lia.
Qed.

Lemma failedDecrypt_run (msg : Message) (label_be : Z) (sm : SessionManager_pvt) :
  let sh := SwitchHeader_set_label_be label_be
              (SwitchHeader_setVersion
                 (SwitchHeader_setSuppressErrors (zeros SwitchHeader_SIZE) true)
                 SwitchHeader_CURRENT_VERSION) in
  Message_ok msg -> 0 <= SwitchHeader_SIZE -> 12 + SwitchHeader_SIZE <= off msg ->
  Z.of_nat (length sh) = SwitchHeader_SIZE ->
  exists reply,
    failedDecrypt msg label_be sm = Ok (tt, sm, [SwitchIf reply])
    /\ Message_bytes reply
       = sh ++ be_bytes 4 0xffffffff
            ++ be_bytes 2 (Checksum_engine
                             (be_bytes 2 0 ++ be_bytes 2 Control_ERROR
                                ++ be_bytes 4 Error_AUTHENTICATION ++ Message_bytes msg))
            ++ be_bytes 2 Control_ERROR ++ be_bytes 4 Error_AUTHENTICATION
            ++ Message_bytes msg.
Proof.
  intros sh Hok Hsize Hroom Hsh.
  pose proof Hok as (Hoff & Hlen & Hbuf).
  unfold failedDecrypt, Message_epush32be, Message_epush16be.
  set (p1 := pushed msg (be_bytes 4 Error_AUTHENTICATION)).
  assert (Hp1 : Message_ok p1) by (apply pushed_ok; [assumption|rewrite be_bytes_length; lia]).
  assert (Ho1 : off p1 = off msg - 4) by reflexivity.
  assert (Hb1 : Message_bytes p1 = be_bytes 4 Error_AUTHENTICATION ++ Message_bytes msg)
    by (apply pushed_bytes; [assumption|rewrite be_bytes_length; lia]).
  rewrite Message_epush_ok by (rewrite ?be_bytes_length; lia).
  rewrite bind_Er_assert. fold p1.
  set (p2 := pushed p1 (be_bytes 2 Control_ERROR)).
  assert (Hp2 : Message_ok p2) by (apply pushed_ok; [assumption|rewrite be_bytes_length; lia]).
  assert (Ho2 : off p2 = off msg - 6)
    by (unfold p2, pushed; cbn [off]; rewrite be_bytes_length; lia).
  assert (Hb2 : Message_bytes p2 = be_bytes 2 Control_ERROR ++ Message_bytes p1)
    by (apply pushed_bytes; [assumption|rewrite be_bytes_length; lia]).
  rewrite Message_epush_ok by (rewrite ?be_bytes_length; destruct Hp1; lia).
  rewrite bind_Er_assert. fold p2.
  set (p3 := pushed p2 (be_bytes 2 0)).
  assert (Hb3 : Message_bytes p3 = be_bytes 2 0 ++ Message_bytes p2)
    by (apply pushed_bytes; [assumption|rewrite be_bytes_length; lia]).
  assert (Hl3 : 2 <= len p3)
    by (unfold p3, pushed; cbn [len]; rewrite be_bytes_length; destruct Hp2; lia).
  rewrite Message_epush_ok by (rewrite ?be_bytes_length; destruct Hp2; lia).
  rewrite bind_Er_assert. fold p3. cbv zeta.
  rewrite Message_epop16be_ok by assumption.
  rewrite bind_Er_assert. cbn [snd].
  destruct (@popped_ok p2 (be_bytes 2 0) Hp2) as (Hq & Hbq & Hoq);
    [rewrite be_bytes_length; lia|].
  rewrite be_bytes_length in Hq, Hbq, Hoq. fold p3 in Hq, Hbq, Hoq.
  change (Z.of_nat 2) with 2 in Hq, Hbq, Hoq.
  set (q := mkMessage (buf p3) (off p3 + 2) (len p3 - 2)) in *.
  set (csum := Checksum_engine (Message_bytes p3)).
  set (p4 := pushed q (be_bytes 2 csum)).
  assert (Hp4 : Message_ok p4) by (apply pushed_ok; [assumption|rewrite be_bytes_length; lia]).
  assert (Ho4 : off p4 = off msg - 8)
    by (unfold p4, pushed; cbn [off]; rewrite be_bytes_length; lia).
  assert (Hb4 : Message_bytes p4 = be_bytes 2 csum ++ Message_bytes q)
    by (apply pushed_bytes; [assumption|rewrite be_bytes_length; lia]).
  rewrite Message_epush_ok by (rewrite ?be_bytes_length; destruct Hq; lia).
  rewrite bind_Er_assert. fold p4.
  set (p5 := pushed p4 (be_bytes 4 0xffffffff)).
  assert (Hp5 : Message_ok p5) by (apply pushed_ok; [assumption|rewrite be_bytes_length; lia]).
  assert (Ho5 : off p5 = off msg - 12)
    by (unfold p5, pushed; cbn [off]; rewrite be_bytes_length; lia).
  assert (Hb5 : Message_bytes p5 = be_bytes 4 0xffffffff ++ Message_bytes p4)
    by (apply pushed_bytes; [assumption|rewrite be_bytes_length; lia]).
  rewrite Message_epush_ok by (rewrite ?be_bytes_length; destruct Hp4; lia).
  rewrite bind_Er_assert. fold p5. fold sh.
  rewrite Message_epush_ok by (destruct Hp5; lia).
  rewrite bind_Er_assert.
  exists (pushed p5 sh). split; [reflexivity|].
  rewrite pushed_bytes by (try assumption; lia).
  rewrite Hb5, Hb4, Hbq, Hb2, Hb1. unfold csum. rewrite Hb3, Hb2, Hb1. reflexivity.
Qed.

Lemma zeros_length (n : Z) : 0 <= n -> Z.of_nat (length (zeros n)) = n.
Proof. intros H. unfold zeros. rewrite repeat_length. lia. Qed.

Lemma Message_eshift_ok (m : Message) (n : Z) :
  n <= off m -> - n <= len m ->
  Message_eshift m n = Ok (mkMessage (buf m) (off m - n) (len m + n)).
Proof.
  intros H1 H2. unfold Message_eshift.
  replace (off m <? n) with false by (symmetry; apply Z.ltb_ge; lia).
  rewrite andb_false_r.
  replace (len m <? - n) with false by (symmetry; apply Z.ltb_ge; lia).
  reflexivity.
Qed.

Lemma bind_ext A B (m : M A) (k k' : A -> M B) (sm : SessionManager_pvt) :
  (forall a sm', k a sm' = k' a sm') -> bind m k sm = bind m k' sm.
Proof.
  intros H. unfold bind. destruct (m sm) as [[[a sm1] o1]|]; [|reflexivity].
  rewrite H. reflexivity.
Qed.

(** The handler is [beforeDecrypt] followed by lines 386-455. *)
Lemma incomingFromSwitchIf_beforeDecrypt (msg : Message) (sm : SessionManager_pvt) :
  0 <= SwitchHeader_SIZE -> SwitchHeader_SIZE + 4 <= len msg ->
  nonceOrHandle msg <> 0xffffffff ->
  24 <= len (reversed msg) ->
  incomingFromSwitchIf msg sm
  = (r <- beforeDecrypt msg ;;
     match r with
     | None => ret tt
     | Some (session, m) =>
         incomingFromSwitchIf_decrypt (off msg) (nonceOrHandle msg)
           (Message_struct (reversed msg) (off (reversed msg)) 16) (len (reversed msg))
           session m
     end) sm.
Proof.
  intros Hsize Hlen Hctrl Hrunt.
  rewrite incomingFromSwitchIf_start by assumption.
  unfold beforeDecrypt. cbv zeta.
  destruct (3 <? nonceOrHandle msg).
  - rewrite bind_assoc. apply bind_ext. intros [session|] sm'.
    + destruct (Message_eshift (reversed msg) (-4)) as [m'|].
      * rewrite bind_assoc, !bind_Er_assert.
        destruct (be_value (Message_struct m' (off m') 4) <? 4);
          rewrite bind_ret; reflexivity.
      * reflexivity.
    + rewrite bind_ret. reflexivity.
  - destruct (len (reversed msg) <? CryptoHeader_SIZE + 4); [rewrite bind_ret; reflexivity|].
    destruct (negb _); [rewrite bind_ret; reflexivity|].
    destruct (bytes_eqb _ _); [rewrite bind_ret; reflexivity|].
    rewrite bind_assoc. apply bind_ext. intros session sm'.
    unfold afterGetSession.
    rewrite bind_assoc. apply bind_ext. intros now sm''.
    rewrite bind_assoc. apply bind_ext. intros [] sm'''.
    rewrite bind_ret. reflexivity.
Qed.

(** The frame that goes to the decryption shares the buffer and the end of
    the frame that came in. *)
Lemma beforeDecrypt_frame (msg : Message) (sm sm1 : SessionManager_pvt) (i : nat)
    (mX : Message) (o1 : list Output) :
  beforeDecrypt msg sm = Ok (Some (i, mX), sm1, o1) ->
  buf mX = buf (reversed msg)
  /\ off mX + len mX = off (reversed msg) + len (reversed msg).
Proof.
  unfold beforeDecrypt. cbv zeta.
  destruct (3 <? nonceOrHandle msg).
  - unfold bind at 1.
    destruct (sessionForHandle (nonceOrHandle msg) sm) as [[[[j|] sm'] o']|];
      [| discriminate | discriminate].
    unfold Message_eshift.
    destruct ((0 <? -4) && _); [discriminate|].
    destruct (len (reversed msg) <? - -4); [discriminate|].
    rewrite bind_Er_assert. cbn [buf off len].
    destruct (_ <? 4); [discriminate|].
    unfold ret. intros H. injection H as <- <- <- <-. cbn [buf off len].
    split; [reflexivity|]. unfold reversed, Message_setStruct; cbn [off len]. lia.
  - destruct (len (reversed msg) <? CryptoHeader_SIZE + 4); [discriminate|].
    destruct (negb _); [discriminate|].
    destruct (bytes_eqb _ _); [discriminate|].
    unfold bind at 1.
    destruct (getSession _ _ _ _ _ _ sm) as [[[j sm'] o']|]; [|discriminate].
    unfold Time_currentTimeMilliseconds. mnorm.
    unfold ret, prepend. intros H. injection H as <- <- <- <-. split; reflexivity.
Qed.

(** ** Sessions keep their counters *)

Lemma sessionAt_update_neq (sm : SessionManager_pvt) (i j : nat) (f : Session -> Session) :
  i <> j ->
  sessionAt (set_ifaceMap (Map_update (ifaceMap sm) i f) sm) j = sessionAt sm j.
Proof.
  intros Hne. unfold sessionAt, Map_entry, Map_update. cbn.
  rewrite nth_error_list_update_neq by assumption. reflexivity.
Qed.

Lemma countersKept_refl (sm : SessionManager_pvt) : countersKept sm sm.
Proof. intros j s Hs. exists s. repeat split; assumption. Qed.

Lemma countersKept_write (sm0 sm : SessionManager_pvt) (i : nat) (f : Session -> Session) :
  (forall s, sameCounters s (f s)) ->
  countersKept sm0 sm ->
  countersKept sm0 (set_ifaceMap (Map_update (ifaceMap sm) i f) sm).
Proof.
  intros Hf H j s Hs. destruct (H j s Hs) as (s' & Hs' & H1 & H2 & H3).
  destruct (Nat.eq_dec i j) as [->|Hne].
  - exists (f s'). rewrite sessionAt_update, Hs'. split; [reflexivity|].
    destruct (Hf s') as (F1 & F2 & F3). repeat split; congruence.
  - exists s'. rewrite sessionAt_update_neq by assumption. repeat split; assumption.
Qed.

Lemma countersKept_allocs (sm0 sm : SessionManager_pvt) l n :
  countersKept sm0 sm -> countersKept sm0 (set_allocs l n sm).
Proof. intros H j s Hs. exact (H j s Hs). Qed.

Lemma kept_write (sm0 : SessionManager_pvt) (i : nat) (f : Session -> Session) :
  (forall s, sameCounters s (f s)) ->
  keeps (countersKept sm0) (Session_write i f).
Proof. intros Hf. apply keeps_modify. intros sm. apply countersKept_write. assumption. Qed.

Lemma kept_write_fresh (sm0 : SessionManager_pvt) (i : nat) (f : Session -> Session) :
  sessionAt sm0 i = None ->
  keeps (countersKept sm0) (Session_write i f).
Proof.
  intros Hfresh. apply keeps_modify. intros sm H j s Hs.
  destruct (H j s Hs) as (s' & Hs' & Hc).
  exists s'. split; [|assumption].
  rewrite sessionAt_update_neq; [assumption|]. intros ->. congruence.
Qed.

Lemma kept_Allocator_child (sm0 : SessionManager_pvt) :
  keeps (countersKept sm0) Allocator_child.
Proof.
  unfold Allocator_child. apply keeps_bind; [apply keeps_get|]. intros sm.
  apply keeps_bind; [|intros; apply keeps_ret].
  apply keeps_modify. intros sm'. apply countersKept_allocs.
Qed.

Ltac kept_step :=
  lazymatch goal with
  | |- keeps _ (bind _ _) => apply keeps_bind; [| intros ?]
  | |- keeps _ (ret _) => apply keeps_ret
  | |- keeps _ get => apply keeps_get
  | |- keeps _ abort => apply keeps_abort
  | |- keeps _ (Iface_send _) => apply keeps_send
  | |- keeps _ (Assert_true _) => apply keeps_assert
  | |- keeps _ (Er_assert _) => apply keeps_Er_assert
  | |- keeps _ (Session_read _) => apply keeps_read
  | |- keeps _ (Session_write _ _) =>
      first [apply kept_write; intros; repeat split; reflexivity
            | apply kept_write_fresh; assumption]
  | |- keeps _ Time_currentTimeMilliseconds => apply keeps_Time
  | |- keeps _ Allocator_child => apply kept_Allocator_child
  | |- keeps _ (if ?b then _ else _) => destruct b
  | |- keeps _ (match ?x with _ => _ end) => destruct x
  | |- keeps _ (let _ := _ in _) => cbv zeta
  end.

Ltac kept_auto := repeat kept_step.

Lemma kept_sendSession sm0 i path destPf ev :
  keeps (countersKept sm0) (sendSession i path destPf ev).
Proof. unfold sendSession. kept_auto. Qed.

Lemma kept_check sm0 i : keeps (countersKept sm0) (check i).
Proof. unfold check. kept_auto. Qed.

Lemma kept_sessionForHandle sm0 h : keeps (countersKept sm0) (sessionForHandle h).
Proof. unfold sessionForHandle. kept_auto. apply kept_check. Qed.

(** A lookup by address that finds nothing leaves a table without the
    address. *)
Lemma kept_sessionForIp6 sm0 ip6 :
  hoare (countersKept sm0) (sessionForIp6 ip6)
    (fun r sm => countersKept sm0 sm
                 /\ (r = None -> Map_indexForKey ip6 (ifaceMap sm) = None)).
Proof.
  unfold sessionForIp6. apply hoare_get_bind. intros sm1 H1.
  destruct (Map_indexForKey ip6 (ifaceMap sm1)) as [j|] eqn:Hj.
  - eapply hoare_bind with (Q := fun _ sm => countersKept sm0 sm).
    + eapply hoare_weaken; [|apply kept_check]. intros sm ->. assumption.
    + intros _ sm a sm' o H Hrun. unfold ret in Hrun. injection Hrun as <- <- <-.
      split; [assumption|discriminate].
  - intros sm a sm' o -> Hrun. unfold ret in Hrun. injection Hrun as <- <- <-.
    split; [assumption|]. intros _. assumption.
Qed.

Lemma countersKept_put (sm0 sm : SessionManager_pvt) (ip6 : list Z) (sess0 : Session)
    (f : Session -> Session) :
  Map_indexForKey ip6 (ifaceMap sm) = None ->
  countersKept sm0 sm ->
  countersKept sm0
    (set_ifaceMap (Map_update (snd (Map_put ip6 sess0 (ifaceMap sm)))
                     (fst (Map_put ip6 sess0 (ifaceMap sm))) f) sm).
Proof.
  intros Habs H j s Hs. destruct (H j s Hs) as (s' & Hs' & Hc).
  exists s'. split; [|assumption].
  unfold Map_put. rewrite Habs. cbn [fst snd].
  unfold sessionAt, Map_entry, Map_update in *. cbn [ifaceMap set_ifaceMap Map_entries].
  assert (Hlt : (j < length (Map_entries (ifaceMap sm)))%nat).
  { apply nth_error_Some. destruct (nth_error (Map_entries (ifaceMap sm)) j); discriminate. }
  rewrite nth_error_list_update_neq by lia.
  rewrite nth_error_app1 by assumption. assumption.
Qed.

Lemma kept_getSession sm0 ip6 pubKey v l m mt :
  keeps (countersKept sm0) (getSession ip6 pubKey v l m mt).
Proof.
  unfold getSession.
  apply keeps_bind; [apply keeps_assert|]. intros _.
  eapply hoare_bind; [apply kept_sessionForIp6|]. intros [i|].
  - eapply hoare_weaken; [intros sm H; exact (proj1 H)|].
    match goal with |- hoare ?I ?c _ => change (keeps I c) end. kept_auto.
  - eapply hoare_bind with
      (Q := fun _ sm => countersKept sm0 sm /\ Map_indexForKey ip6 (ifaceMap sm) = None).
    { intros sm a sm' o [H Habs] Hrun. unfold Allocator_child in Hrun.
      rewrite bind_get, bind_modify in Hrun. unfold ret in Hrun.
      injection Hrun as <- <- <-. split; [apply countersKept_allocs; assumption|].
      apply Habs. reflexivity. }
    intros alloc. cbv zeta.
    eapply hoare_bind with
      (Q := fun _ sm => countersKept sm0 sm /\ Map_indexForKey ip6 (ifaceMap sm) = None).
    { destruct (negb (Bits_isZero pubKey)).
      - destruct (bytes_eqb _ ip6).
        + intros sm a sm' o H Hrun. injection Hrun as <- <- <-. assumption.
        + intros sm a sm' o H Hrun. discriminate.
      - intros sm a sm' o H Hrun. injection Hrun as <- <- <-. assumption. }
    intros _.
    apply hoare_get_bind. intros sm1 [HI Habs].
    destruct (Map_put ip6 _ (ifaceMap sm1)) as [i m'] eqn:Hput.
    apply hoare_modify_bind. apply hoare_get_bind.
    intros sm2 (sm3 & -> & ->).
    cbn [ifaceMap set_ifaceMap firstHandle].
    destruct (Map_entry m' i) as [e|] eqn:He.
    + assert (Hfresh : sessionAt sm0 i = None).
      { unfold Map_put in Hput. rewrite Habs in Hput. injection Hput as <- _.
        destruct (sessionAt sm0 (length (Map_entries (ifaceMap sm1)))) as [s|] eqn:Hs;
          [|reflexivity].
        destruct (HI _ _ Hs) as (s' & Hs' & _).
        unfold sessionAt, Map_entry in Hs'.
        rewrite (proj2 (nth_error_None _ _)) in Hs' by lia. discriminate. }
      intros sm a sm' o -> Hrun.
      rewrite bind_write in Hrun.
      cbn [ifaceMap set_ifaceMap] in Hrun.
      match type of Hrun with
      | ?k ?s = _ =>
          assert (Hk : keeps (countersKept sm0) k)
            by (kept_auto; [apply kept_sendSession | apply kept_check]);
          refine (Hk s a sm' o _ Hrun)
      end.
      match type of Hput with
      | Map_put _ ?s0 _ = _ =>
          pose proof (@countersKept_put sm0 sm1 ip6 s0
                        (set_receiveHandle ((Map_handle e + firstHandle sm1) mod 2 ^ 32))
                        Habs HI) as Hp
      end.
      rewrite Hput in Hp. exact Hp.
    + intros sm a sm' o -> Hrun. discriminate.
Qed.

Lemma kept_beforeDecrypt sm0 msg : keeps (countersKept sm0) (beforeDecrypt msg).
Proof.
  unfold beforeDecrypt. kept_auto;
    first [apply kept_sessionForHandle | apply kept_getSession].
Qed.

(** ** The frames that are sent *)

Lemma emits_bind A B (P : Output -> Prop) (m : M A) (k : A -> M B) :
  emits P m -> (forall a, emits P (k a)) -> emits P (bind m k).
Proof.
  intros Hm Hk sm b sm' o Hrun. unfold bind in Hrun.
  destruct (m sm) as [[[a sm1] o1]|] eqn:Hm1; [|discriminate].
  destruct (k a sm1) as [[[b' sm2] o2]|] eqn:Hk1; [|discriminate].
  injection Hrun as <- <- <-.
  apply Forall_app. split; [eapply Hm | eapply Hk]; eassumption.
Qed.

Lemma emits_ret A (P : Output -> Prop) (a : A) : emits P (ret a).
Proof. intros sm a' sm' o H. injection H as <- <- <-. constructor. Qed.

Lemma emits_get (P : Output -> Prop) : emits P get.
Proof. intros sm a' sm' o H. injection H as <- <- <-. constructor. Qed.

Lemma emits_abort A (P : Output -> Prop) : emits P (@abort _ A).
Proof. intros sm a' sm' o H. discriminate. Qed.

Lemma emits_modify (P : Output -> Prop) f : emits P (modify f).
Proof. intros sm a' sm' o H. injection H as <- <- <-. constructor. Qed.

Lemma emits_send (P : Output -> Prop) (o : Output) : P o -> emits P (Iface_send o).
Proof. intros Ho sm a' sm' o' H. injection H as <- <- <-. repeat constructor. assumption. Qed.

Lemma emits_assert (P : Output -> Prop) (b : bool) : emits P (Assert_true b).
Proof. destruct b; [apply emits_ret | apply emits_abort]. Qed.

Lemma emits_Er_assert A (P : Output -> Prop) (r : res A) : emits P (Er_assert r).
Proof. destruct r; [apply emits_ret | apply emits_abort]. Qed.

Lemma emits_read (P : Output -> Prop) (i : nat) : emits P (Session_read i).
Proof.
  intros sm a' sm' o' H. unfold Session_read in H.
  destruct (sessionAt sm i); [|discriminate]. injection H as <- <- <-. constructor.
Qed.

Ltac emits_step :=
  lazymatch goal with
  | |- emits _ (bind _ _) => apply emits_bind; [| intros ?]
  | |- emits _ (ret _) => apply emits_ret
  | |- emits _ get => apply emits_get
  | |- emits _ abort => apply emits_abort
  | |- emits _ (modify _) => apply emits_modify
  | |- emits _ (Iface_send (EventIf _)) => apply emits_send; exact I
  | |- emits _ (Assert_true _) => apply emits_assert
  | |- emits _ (Er_assert _) => apply emits_Er_assert
  | |- emits _ (Session_read _) => apply emits_read
  | |- emits _ (Session_write _ _) => apply emits_modify
  | |- emits _ (if ?b then _ else _) => destruct b
  | |- emits _ (match ?x with _ => _ end) => destruct x
  | |- emits _ (let _ := _ in _) => cbv zeta
  end.

Ltac emits_auto := repeat emits_step.

Lemma emits_sendSession i path destPf ev : emits isEvent (sendSession i path destPf ev).
Proof. unfold sendSession. emits_auto. Qed.

Lemma emits_check i : emits isEvent (check i).
Proof. unfold check. emits_auto. Qed.

Lemma emits_getSession ip6 pubKey v l m mt : emits isEvent (getSession ip6 pubKey v l m mt).
Proof.
  unfold getSession, sessionForIp6, Allocator_child, Time_currentTimeMilliseconds.
  emits_auto; first [apply emits_check | apply emits_sendSession].
Qed.

Lemma emits_beforeDecrypt msg : emits isEvent (beforeDecrypt msg).
Proof.
  unfold beforeDecrypt, sessionForHandle, Time_currentTimeMilliseconds.
  emits_auto; first [apply emits_check | apply emits_getSession].
Qed.

(** ** Bits and bytes *)

Lemma bitReverse_range (n : nat) : forall (v acc k : Z),
  0 <= k -> 0 <= acc < 2 ^ k -> 0 <= bitReverse n v acc < 2 ^ (k + Z.of_nat n).
Proof.
  induction n as [|n IH]; intros v acc k Hk Hacc.
  - cbn [bitReverse]. rewrite Z.add_0_r. assumption.
  - cbn [bitReverse].
    replace (k + Z.of_nat (S n)) with ((k + 1) + Z.of_nat n) by lia.
    apply IH; [lia|].
    change (Z.land v 1) with (Z.land v (Z.ones 1)).
    rewrite Z.land_ones, Z.shiftl_mul_pow2 by lia.
    change (2 ^ 1) with 2.
    pose proof (Z.mod_pos_bound v 2 eq_refl) as Hb.
    pose proof (Z.add_lor_land (acc * 2) (v mod 2)) as Hadd.
    assert (0 <= Z.land (acc * 2) (v mod 2)) by (apply Z.land_nonneg; lia).
    assert (0 <= Z.lor (acc * 2) (v mod 2)) by (apply Z.lor_nonneg; lia).
    rewrite Z.pow_add_r by lia. change (2 ^ 1) with 2. lia.
Qed.

Lemma Bits_bitReverse64_range (v : Z) : 0 <= Bits_bitReverse64 v < 2 ^ 64.
Proof. apply (@bitReverse_range 64 v 0 0); [lia|]. change (2 ^ 0) with 1. lia. Qed.

Lemma bitReverse_testbit (n : nat) : forall (v acc i : Z),
  0 <= i ->
  Z.testbit (bitReverse n v acc) i
  = if i <? Z.of_nat n then Z.testbit v (Z.of_nat n - 1 - i)
    else Z.testbit acc (i - Z.of_nat n).
Proof.
  induction n as [|n IH]; intros v acc i Hi.
  - cbn [bitReverse]. replace (i <? Z.of_nat 0) with false by (symmetry; apply Z.ltb_ge; lia).
    f_equal. lia.
  - cbn [bitReverse]. rewrite IH by assumption.
    destruct (i <? Z.of_nat n) eqn:H1.
    + apply Z.ltb_lt in H1.
      replace (i <? Z.of_nat (S n)) with true by (symmetry; apply Z.ltb_lt; lia).
      rewrite Z.shiftr_spec by lia. f_equal. lia.
    + apply Z.ltb_ge in H1. rewrite Z.lor_spec, Z.land_spec.
      destruct (Z.eq_dec i (Z.of_nat n)) as [->|Hne].
      * replace (Z.of_nat n <? Z.of_nat (S n)) with true by (symmetry; apply Z.ltb_lt; lia).
        rewrite Z.sub_diag. rewrite Z.shiftl_spec_low by lia.
        replace (Z.of_nat (S n) - 1 - Z.of_nat n) with 0 by lia.
        cbn [orb]. change (Z.testbit 1 0) with true. apply andb_true_r.
      * replace (i <? Z.of_nat (S n)) with false by (symmetry; apply Z.ltb_ge; lia).
        rewrite Z.shiftl_spec by lia.
        replace (Z.testbit 1 (i - Z.of_nat n)) with false.
        -- rewrite andb_false_r, orb_false_r. f_equal. lia.
        -- symmetry. apply Z.bits_above_log2; [lia|]. cbn. lia.
Qed.

(** Reversing the 64 bits twice gives the number back. *)
Lemma Bits_bitReverse64_involutive (v : Z) :
  0 <= v < 2 ^ 64 -> Bits_bitReverse64 (Bits_bitReverse64 v) = v.
Proof.
  intros Hv. apply Z.bits_inj'. intros i Hi. unfold Bits_bitReverse64.
  rewrite bitReverse_testbit by assumption.
  destruct (i <? Z.of_nat 64) eqn:H1.
  - apply Z.ltb_lt in H1. rewrite bitReverse_testbit by lia.
    replace (Z.of_nat 64 - 1 - i <? Z.of_nat 64) with true by (symmetry; apply Z.ltb_lt; lia).
    f_equal. lia.
  - apply Z.ltb_ge in H1. rewrite Z.testbit_0_l. symmetry.
    destruct (Z.eq_dec v 0) as [->|Hne]; [apply Z.testbit_0_l|].
    apply Z.bits_above_log2; [lia|].
    apply Z.lt_le_trans with 64; [|exact H1].
    apply Z.log2_lt_pow2; lia.
Qed.

Lemma be_value_from (l : list Z) (a : Z) :
  fold_left (fun a b => a * 256 + b) l a
  = a * 256 ^ Z.of_nat (length l) + be_value l.
Proof.
  unfold be_value. revert a. induction l as [|x l IH]; intros a.
  - cbn. lia.
  - cbn [fold_left length]. rewrite IH. rewrite (IH (0 * 256 + x)).
    rewrite Nat2Z.inj_succ, Z.pow_succ_r by lia. ring.
Qed.

Lemma be_value_be_bytes_mod (n : nat) (v : Z) :
  be_value (be_bytes n v) = v mod 256 ^ Z.of_nat n.
Proof.
  induction n as [|n IH].
  - cbn. rewrite Z.mod_1_r. reflexivity.
  - cbn [be_bytes]. unfold be_value. cbn [fold_left].
    rewrite be_value_from, be_bytes_length, IH.
    rewrite Z.shiftr_div_pow2 by lia.
    replace (2 ^ (8 * Z.of_nat n)) with (256 ^ Z.of_nat n)
      by (change 256 with (2 ^ 8); rewrite <- Z.pow_mul_r by lia; reflexivity).
    rewrite Nat2Z.inj_succ, Z.pow_succ_r by lia.
    rewrite (Z.mul_comm 256).
    rewrite Z.rem_mul_r by lia. ring.
Qed.

Lemma be_value_be_bytes (n : nat) (v : Z) :
  0 <= v < 256 ^ Z.of_nat n -> be_value (be_bytes n v) = v.
Proof. intros H. rewrite be_value_be_bytes_mod. apply Z.mod_small. assumption. Qed.

(** ** A decryption that fails *)

Section FailedDecrypt.

(** The layout of wire/SwitchHeader.h, which is not in src/: the setters keep
    the size of a header, the label is a 64-bit field of its own, and the
    SuppressErrors bit is touched by its own setter only. *)
Hypothesis SwitchHeader_SIZE_nonneg : 0 <= SwitchHeader_SIZE.
Hypothesis set_label_be_length : forall l h,
  Z.of_nat (length h) = SwitchHeader_SIZE ->
  Z.of_nat (length (SwitchHeader_set_label_be l h)) = SwitchHeader_SIZE.
Hypothesis setSuppressErrors_length : forall h b,
  Z.of_nat (length h) = SwitchHeader_SIZE ->
  Z.of_nat (length (SwitchHeader_setSuppressErrors h b)) = SwitchHeader_SIZE.
Hypothesis setVersion_length : forall h v,
  Z.of_nat (length h) = SwitchHeader_SIZE ->
  Z.of_nat (length (SwitchHeader_setVersion h v)) = SwitchHeader_SIZE.
Hypothesis label_be_set_label_be : forall l h,
  Z.of_nat (length h) = SwitchHeader_SIZE -> 0 <= l < 2 ^ 64 ->
  SwitchHeader_label_be (SwitchHeader_set_label_be l h) = l.
Hypothesis getSuppressErrors_setSuppressErrors : forall h,
  Z.of_nat (length h) = SwitchHeader_SIZE ->
  SwitchHeader_getSuppressErrors (SwitchHeader_setSuppressErrors h true) = true.
Hypothesis getSuppressErrors_setVersion : forall h v,
  Z.of_nat (length h) = SwitchHeader_SIZE ->
  SwitchHeader_getSuppressErrors (SwitchHeader_setVersion h v)
  = SwitchHeader_getSuppressErrors h.
Hypothesis getSuppressErrors_set_label_be : forall l h,
  Z.of_nat (length h) = SwitchHeader_SIZE ->
  SwitchHeader_getSuppressErrors (SwitchHeader_set_label_be l h)
  = SwitchHeader_getSuppressErrors h.

Lemma replyHeader_length (l : Z) :
  Z.of_nat (length (SwitchHeader_set_label_be l
                      (SwitchHeader_setVersion
                         (SwitchHeader_setSuppressErrors (zeros SwitchHeader_SIZE) true)
                         SwitchHeader_CURRENT_VERSION))) = SwitchHeader_SIZE.
Proof.
  apply set_label_be_length, setVersion_length, setSuppressErrors_length, zeros_length.
  assumption.
Qed.

(** A decryption that fails (lines 388-405): the session keeps what
    [CryptoAuth_decrypt] did to its crypto session, and one frame goes back
    to the switch. *)
Lemma decrypt_failure_run (sw nonce : Z) (f16 : list Z) (length0 : Z) (i : nat)
    (mX : Message) (sm : SessionManager_pvt) (s : Session) (r : Z)
    (ca : CryptoAuth_Session) (md : Message) :
  12 + SwitchHeader_SIZE <= sw -> 24 <= length0 -> Z.of_nat (length f16) = 16 ->
  sessionAt sm i = Some s ->
  CryptoAuth_decrypt (caSession s) mX = (r, ca, md) -> r <> 0 ->
  off md + len md = sw + SwitchHeader_SIZE + length0 ->
  sw + SwitchHeader_SIZE + length0 <= Z.of_nat (length (buf md)) ->
  let shd := mem_read (buf md) sw SwitchHeader_SIZE in
  exists reply csum,
    incomingFromSwitchIf_decrypt sw nonce f16 length0 i mX sm
    = Ok (tt, set_ifaceMap (Map_update (ifaceMap sm) i (set_caSession ca)) sm,
          [SwitchIf reply])
    /\ Message_bytes reply
       = SwitchHeader_set_label_be (SwitchHeader_label_be shd)
           (SwitchHeader_setVersion
              (SwitchHeader_setSuppressErrors (zeros SwitchHeader_SIZE) true)
              SwitchHeader_CURRENT_VERSION)
         ++ be_bytes 4 0xffffffff ++ be_bytes 2 csum
         ++ be_bytes 2 Control_ERROR ++ be_bytes 4 Error_AUTHENTICATION
         ++ SwitchHeader_set_label_be (Bits_bitReverse64 (SwitchHeader_label_be shd)) shd
         ++ f16 ++ be_bytes 4 r ++ be_bytes 4 (CryptoAuth_getState ca).
Proof.
  intros Hroom Hl0 Hf16 Hs Hdec Hr Hend Hbuf shd.
  assert (Hshd : Z.of_nat (length shd) = SwitchHeader_SIZE)
    by (apply mem_read_length; lia).
  unfold incomingFromSwitchIf_decrypt.
  rewrite (bind_read _ Hs). rewrite Hdec. rewrite bind_write.
  apply Z.eqb_neq in Hr. rewrite Hr. cbn [negb].
  rewrite Message_eshift_ok by lia. rewrite bind_Er_assert.
  unfold Message_setLength. cbn [buf off len].
  replace (off md - (length0 - len md - 24)) with (sw + SwitchHeader_SIZE + 24) by lia.
  set (m0 := mkMessage (buf md) (sw + SwitchHeader_SIZE + 24) 0).
  assert (Hm0 : Message_ok m0) by (unfold Message_ok, m0; cbn [buf off len]; lia).
  assert (Hb0 : Message_bytes m0 = []) by reflexivity.
  unfold Message_epush32be.
  set (p1 := pushed m0 (be_bytes 4 (CryptoAuth_getState ca))).
  assert (Hp1 : Message_ok p1)
    by (apply pushed_ok; [assumption|rewrite be_bytes_length; cbn [m0 off]; lia]).
  assert (Ho1 : off p1 = sw + SwitchHeader_SIZE + 20)
    by (unfold p1, pushed; cbn [off m0]; rewrite be_bytes_length; lia).
  assert (Hb1 : Message_bytes p1 = be_bytes 4 (CryptoAuth_getState ca) ++ Message_bytes m0)
    by (apply pushed_bytes; [assumption|rewrite be_bytes_length; cbn [m0 off]; lia]).
  rewrite Message_epush_ok by (rewrite ?be_bytes_length; cbn [m0 off len]; lia).
  rewrite bind_Er_assert. fold p1.
  set (p2 := pushed p1 (be_bytes 4 r)).
  assert (Hp2 : Message_ok p2)
    by (apply pushed_ok; [assumption|rewrite be_bytes_length; lia]).
  assert (Ho2 : off p2 = sw + SwitchHeader_SIZE + 16)
    by (unfold p2, pushed; cbn [off]; rewrite be_bytes_length; lia).
  assert (Hb2 : Message_bytes p2 = be_bytes 4 r ++ Message_bytes p1)
    by (apply pushed_bytes; [assumption|rewrite be_bytes_length; lia]).
  rewrite Message_epush_ok by (rewrite ?be_bytes_length; destruct Hp1; lia).
  rewrite bind_Er_assert. fold p2.
  set (p3 := pushed p2 f16).
  assert (Hp3 : Message_ok p3) by (apply pushed_ok; [assumption|lia]).
  assert (Ho3 : off p3 = sw + SwitchHeader_SIZE) by (unfold p3, pushed; cbn [off]; lia).
  assert (Hb3 : Message_bytes p3 = f16 ++ Message_bytes p2)
    by (apply pushed_bytes; [assumption|lia]).
  assert (Hl3 : len p3 = 24).
  { unfold p3, p2, p1, pushed. cbn [len m0]. rewrite !be_bytes_length. lia. }
  rewrite Message_epush_ok by (destruct Hp2; lia).
  rewrite bind_Er_assert. fold p3.
  rewrite Message_eshift_ok by lia. rewrite bind_Er_assert. cbn [off].
  replace (off p3 - SwitchHeader_SIZE =? sw) with true by (symmetry; apply Z.eqb_eq; lia).
  rewrite bind_assert_true. cbv zeta.
  unfold Message_struct, Message_setStruct. cbn [buf off len].
  assert (Hhdr : mem_read (buf p3) sw SwitchHeader_SIZE = shd).
  { unfold p3. rewrite pushed_before by (try assumption; lia).
    unfold p2. rewrite pushed_before by (try assumption; rewrite ?be_bytes_length; lia).
    unfold p1. rewrite pushed_before
      by (try assumption; rewrite ?be_bytes_length; cbn [m0 off]; lia).
    reflexivity. }
  rewrite Hhdr.
  set (cause := SwitchHeader_set_label_be (Bits_bitReverse64 (SwitchHeader_label_be shd)) shd).
  assert (Hcause : Z.of_nat (length cause) = SwitchHeader_SIZE)
    by (apply set_label_be_length; assumption).
  set (m5 := mkMessage (mem_write (buf p3) sw cause) (off p3 - SwitchHeader_SIZE)
                       (len p3 + SwitchHeader_SIZE)).
  assert (Hlen3 : Z.of_nat (length (buf p3)) = Z.of_nat (length (buf md))).
  { unfold p3. rewrite pushed_length by (try assumption; lia).
    unfold p2. rewrite pushed_length by (try assumption; rewrite ?be_bytes_length; lia).
    unfold p1. rewrite pushed_length
      by (try assumption; rewrite ?be_bytes_length; cbn [m0 off]; lia).
    reflexivity. }
  assert (Hm5 : Message_ok m5).
  { unfold Message_ok, m5. cbn [buf off len].
    rewrite mem_write_length by lia. lia. }
  assert (Hb5 : Message_bytes m5 = cause ++ Message_bytes p3).
  { unfold Message_bytes, m5. cbn [buf off len].
    replace (off p3 - SwitchHeader_SIZE) with sw by lia.
    replace (len p3 + SwitchHeader_SIZE) with (Z.of_nat (length cause) + len p3) by lia.
    rewrite mem_read_write by lia.
    do 2 f_equal. lia. }
  destruct (@failedDecrypt_run m5 (SwitchHeader_label_be shd)
              (set_ifaceMap (Map_update (ifaceMap sm) i (set_caSession ca)) sm))
    as (reply & Hrun & Hbytes).
  - assumption.
  - assumption.
  - unfold m5. cbn [off]. lia.
  - apply replyHeader_length.
  - exists reply. eexists. split; [exact Hrun|].
    rewrite Hbytes, Hb5, Hb3, Hb2, Hb1, Hb0. rewrite app_nil_r. reflexivity.
Qed.


(** The frame after the reversal of its label: only the switch header has
    changed. *)
Lemma reversed_header (msg : Message) :
  Message_ok msg -> SwitchHeader_SIZE <= len msg ->
  Z.of_nat (length (buf (reversed msg))) = Z.of_nat (length (buf msg))
  /\ mem_read (buf (reversed msg)) (off msg) SwitchHeader_SIZE
     = SwitchHeader_set_label_be
         (Bits_bitReverse64
            (SwitchHeader_label_be (Message_struct msg (off msg) SwitchHeader_SIZE)))
         (Message_struct msg (off msg) SwitchHeader_SIZE)
  /\ forall n, mem_read (buf (reversed msg)) (off msg + SwitchHeader_SIZE) n
               = mem_read (buf msg) (off msg + SwitchHeader_SIZE) n.
Proof.
  intros (Hoff & Hlen & Hbuf) Hsize.
  unfold reversed, Message_setStruct, Message_struct. cbn [buf off len].
  set (sh0 := mem_read (buf msg) (off msg) SwitchHeader_SIZE).
  assert (Hsh0 : Z.of_nat (length sh0) = SwitchHeader_SIZE)
    by (apply mem_read_length; lia).
  set (sh := SwitchHeader_set_label_be _ sh0).
  assert (Hsh : Z.of_nat (length sh) = SwitchHeader_SIZE)
    by (apply set_label_be_length; assumption).
  split; [|split].
  - rewrite mem_write_length by lia. reflexivity.
  - rewrite <- Hsh at 1. apply mem_read_write_same; lia.
  - intros n. apply mem_read_write_after; lia.
Qed.

(** C4 (amended).  A frame from the switch that reaches the decryption with
    session [i] and whose decryption fails with code [r]; the decryption
    leaves the end of the frame where it is.  Then the handler sends, after
    the events [o1] of the lookup, exactly one frame on the switch
    interface.  The frame is a new switch header [sh] with SuppressErrors
    set and the label that the switch header of the failed frame has at
    that moment, then the handle 0xffffffff, a control header of type ERROR,
    the code [Error_AUTHENTICATION], the switch header [cause] of the failed
    frame with its label reversed once more, the first 16 bytes that
    followed it, the 32-bit code [r] and the 32-bit state of the crypto
    session.  When the decryption has left the bytes of the switch header
    alone, the label of [sh] is the bit reversal of the label that came in
    on the wire -- the route back to the sender, not the label as it came
    in --, and [cause] is the switch header of the frame with the label set
    to its reversal and then back: its label is the label on the wire.  The
    session is still in its slot; it differs from the session at the time
    of the decryption by its crypto session only, and every session that
    was in the table before the frame has the [timeOfLastIn],
    [timeOfKeepAliveIn] and [bytesIn] it had. *)
Theorem failed_decrypt_is_answered (msg : Message) (sm sm1 : SessionManager_pvt)
    (o1 : list Output) (i : nat) (mX md : Message) (s : Session) (r : Z)
    (ca : CryptoAuth_Session) :
  Message_ok msg -> 12 + SwitchHeader_SIZE <= off msg ->
  SwitchHeader_SIZE + 24 <= len msg ->
  nonceOrHandle msg <> 0xffffffff ->
  beforeDecrypt msg sm = Ok (Some (i, mX), sm1, o1) ->
  sessionAt sm1 i = Some s ->
  CryptoAuth_decrypt (caSession s) mX = (r, ca, md) -> r <> 0 ->
  off md + len md = off mX + len mX ->
  length (buf md) = length (buf mX) ->
  let sh0 := Message_struct msg (off msg) SwitchHeader_SIZE in
  let wire := SwitchHeader_label_be sh0 in
  let shd := mem_read (buf md) (off msg) SwitchHeader_SIZE in
  let sh := SwitchHeader_set_label_be (SwitchHeader_label_be shd)
              (SwitchHeader_setVersion
                 (SwitchHeader_setSuppressErrors (zeros SwitchHeader_SIZE) true)
                 SwitchHeader_CURRENT_VERSION) in
  let cause := SwitchHeader_set_label_be
                 (Bits_bitReverse64 (SwitchHeader_label_be shd)) shd in
  let sm2 := set_ifaceMap (Map_update (ifaceMap sm1) i (set_caSession ca)) sm1 in
  exists reply csum,
    incomingFromSwitchIf msg sm = Ok (tt, sm2, o1 ++ [SwitchIf reply])
    /\ Forall isEvent o1
    /\ Message_bytes reply
       = sh ++ be_bytes 4 0xffffffff ++ be_bytes 2 csum
            ++ be_bytes 2 Control_ERROR ++ be_bytes 4 Error_AUTHENTICATION
            ++ cause ++ mem_read (buf msg) (off msg + SwitchHeader_SIZE) 16
            ++ be_bytes 4 r ++ be_bytes 4 (CryptoAuth_getState ca)
    /\ Z.of_nat (length sh) = SwitchHeader_SIZE
    /\ Z.of_nat (length cause) = SwitchHeader_SIZE
    /\ SwitchHeader_getSuppressErrors sh = true
    /\ (shd = mem_read (buf mX) (off msg) SwitchHeader_SIZE ->
        SwitchHeader_label_be sh = Bits_bitReverse64 wire
        /\ SwitchHeader_getSuppressErrors cause = SwitchHeader_getSuppressErrors sh0
        /\ (0 <= wire < 2 ^ 64 ->
            cause = SwitchHeader_set_label_be wire
                      (SwitchHeader_set_label_be (Bits_bitReverse64 wire) sh0)
            /\ SwitchHeader_label_be cause = wire))
    /\ sessionAt sm2 i = Some (set_caSession ca s)
    /\ countersKept sm sm2.
Proof.
  intros Hok Hroom Hlen Hctrl Hpre Hs Hdec Hr Hend Hbuflen sh0 wire shd sh cause sm2.
  pose proof Hok as (Hoff & Hlen0 & Hbuf).
  destruct (reversed_header Hok) as (Hrl & Hrh & Hrp); [lia|].
  assert (Hrlen : len (reversed msg) = len msg - SwitchHeader_SIZE) by reflexivity.
  assert (Hroff : off (reversed msg) = off msg + SwitchHeader_SIZE) by reflexivity.
  destruct (beforeDecrypt_frame _ _ Hpre) as (HbX & HendX).
  fold sh0 in Hrh. fold wire in Hrh.
  assert (Hsh0 : Z.of_nat (length sh0) = SwitchHeader_SIZE)
    by (apply mem_read_length; lia).
  assert (Hshdl : Z.of_nat (length shd) = SwitchHeader_SIZE).
  { apply mem_read_length; try lia. rewrite Hbuflen, HbX. lia. }
  assert (Hz : Z.of_nat (length (zeros SwitchHeader_SIZE)) = SwitchHeader_SIZE)
    by (apply zeros_length; assumption).
  destruct (@decrypt_failure_run (off msg) (nonceOrHandle msg)
              (Message_struct (reversed msg) (off (reversed msg)) 16)
              (len (reversed msg)) i mX sm1 s r ca md)
    as (reply & csum & Hrun & Hbytes); try assumption.
  - lia.
  - unfold Message_struct. rewrite Hroff. apply mem_read_length; lia.
  - lia.
  - rewrite Hbuflen, HbX. lia.
  - exists reply, csum.
    split; [|split; [|split; [|split; [|split; [|split; [|split; [|split]]]]]]].
    + rewrite incomingFromSwitchIf_beforeDecrypt by (try assumption; lia).
      rewrite (bind_run _ Hpre). rewrite Hrun. reflexivity.
    + exact (emits_beforeDecrypt _ _ Hpre).
    + rewrite Hbytes. unfold Message_struct. rewrite Hroff, Hrp. reflexivity.
    + apply replyHeader_length.
    + apply set_label_be_length. assumption.
    + unfold sh. rewrite getSuppressErrors_set_label_be
        by (apply setVersion_length, setSuppressErrors_length; assumption).
      rewrite getSuppressErrors_setVersion
        by (apply setSuppressErrors_length; assumption).
      apply getSuppressErrors_setSuppressErrors. assumption.
    + intros Hhdr.
      assert (Hshd : shd = SwitchHeader_set_label_be (Bits_bitReverse64 wire) sh0)
        by (rewrite Hhdr, HbX; exact Hrh).
      assert (Hlabel : SwitchHeader_label_be shd = Bits_bitReverse64 wire).
      { rewrite Hshd. apply label_be_set_label_be; [assumption|].
        apply Bits_bitReverse64_range. }
      split; [|split].
      * unfold sh. rewrite Hlabel.
        apply label_be_set_label_be; [|apply Bits_bitReverse64_range].
        apply setVersion_length, setSuppressErrors_length. assumption.
      * unfold cause. rewrite getSuppressErrors_set_label_be by assumption.
        rewrite Hshd. apply getSuppressErrors_set_label_be. assumption.
      * intros Hwire.
        assert (Hcause : cause
                         = SwitchHeader_set_label_be wire
                             (SwitchHeader_set_label_be (Bits_bitReverse64 wire) sh0)).
        { unfold cause. rewrite Hlabel, Bits_bitReverse64_involutive by assumption.
          rewrite Hshd. reflexivity. }
        split; [exact Hcause|].
        rewrite Hcause. apply label_be_set_label_be; [|assumption].
        apply set_label_be_length. assumption.
    + unfold sm2. rewrite sessionAt_update, Hs. reflexivity.
    + unfold sm2. apply countersKept_write; [intros s'; repeat split; reflexivity|].
      exact (kept_beforeDecrypt _ (countersKept_refl sm) Hpre).
Qed.

End FailedDecrypt.


(** ** The periodic checks *)

Lemma In_remove_all_iff (freed live : list Z) (a : Z) :
  In a (remove_all freed live) <-> In a live /\ ~ In a freed.
Proof.
  unfold remove_all. revert live. induction freed as [|x freed IH]; intros live; cbn.
  - tauto.
  - rewrite IH. split.
    + intros [Hin Hnot]. apply in_remove in Hin. destruct Hin as [Hin Hne].
      split; [assumption|]. intros [Heq|Hf]; [congruence|tauto].
    + intros [Hin Hnot]. split; [|tauto].
      apply in_in_remove; [|assumption]. intros Heq. apply Hnot. left. congruence.
Qed.

(** X1.  The sweep [checkTimedOutBuffers] sends nothing and removes from the
    buffered-message table exactly the messages that were buffered 10
    seconds ago or earlier: the messages left are the younger ones, in their
    order.  The allocator of a removed message is no longer live, the other
    allocators, the sessions and the clock are as before. *)
Theorem sweep_removes_the_expired (sm : SessionManager_pvt) :
  exists sm',
    checkTimedOutBuffers sm = Ok (tt, sm', [])
    /\ Map_entries (bufMap sm')
       = filter (fun e => eventBase sm - timeSentMilliseconds (Map_value e) <? 10000)
                (Map_entries (bufMap sm))
    /\ (forall e, In e (Map_entries (bufMap sm)) ->
                  10000 <= eventBase sm - timeSentMilliseconds (Map_value e) ->
                  ~ In e (Map_entries (bufMap sm'))
                  /\ ~ In (bm_alloc (Map_value e)) (liveAllocs sm'))
    /\ (forall a, In a (liveAllocs sm) ->
                  (forall e, In e (Map_entries (bufMap sm)) ->
                             10000 <= eventBase sm - timeSentMilliseconds (Map_value e) ->
                             bm_alloc (Map_value e) <> a) ->
                  In a (liveAllocs sm'))
    /\ Map_count (bufMap sm') <= Map_count (bufMap sm)
    /\ ifaceMap sm' = ifaceMap sm
    /\ eventBase sm' = eventBase sm.
Proof.
  exists (sweptState sm). split; [apply checkTimedOutBuffers_run|].
  unfold sweptState, withBuffers, expiredAllocs, notExpired.
  cbn [bufMap Map_entries liveAllocs ifaceMap eventBase].
  split; [reflexivity|]. split; [|split; [|split; [|split; reflexivity]]].
  - intros e Hin Hold. split.
    + intros Hf. apply filter_In in Hf. destruct Hf as [_ Hf].
      apply Z.ltb_lt in Hf. lia.
    + apply remove_all_not_In. apply in_map_iff. exists e. split; [reflexivity|].
      apply filter_In. split; [assumption|].
      apply negb_true_iff. apply Z.ltb_ge. assumption.
  - intros a Hlive Hother. apply In_remove_all_iff. split; [assumption|].
    intros Hf. apply in_map_iff in Hf. destruct Hf as (e & Ha & Hf).
    apply filter_In in Hf. destruct Hf as [Hin Hf].
    apply negb_true_iff, Z.ltb_ge in Hf. exact (Hother e Hin Hf Ha).
  - unfold Map_count. cbn [Map_entries].
    pose proof (filter_length_le
                  (fun e => eventBase sm - timeSentMilliseconds (Map_value e) <? 10000)
                  (Map_entries (bufMap sm))). lia.
Qed.

Ltac unfold_frames :=
  repeat match goal with x := _ : Message |- _ => unfold x in *; clear x end.

Ltac frame_side := unfold_frames; push_side.

Lemma searchEvent_bytes (target : list Z) (version' : Z) :
  match searchEvent target version' with
  | EventIf msg =>
      Message_bytes msg
      = be_bytes 4 PFChan_Core_SEARCH_REQ ++ be_bytes 4 0xffffffff
          ++ firstn 16 target ++ be_bytes 4 0 ++ be_bytes 4 version'
  | _ => False
  end.
Proof.
  unfold searchEvent.
  assert (Ht : (length (firstn 16 target) <= 16)%nat) by apply firstn_le_length.
  set (t := firstn 16 target) in *.
  set (m0 := Message_new 0 512).
  assert (H0 : Message_ok m0) by (apply Message_new_ok; lia).
  set (m1 := pushed m0 (be_bytes 4 version')).
  assert (H1 : Message_ok m1) by (apply pushed_ok; [assumption | frame_side]).
  set (m2 := pushed m1 (be_bytes 4 0)).
  assert (H2 : Message_ok m2) by (apply pushed_ok; [assumption | frame_side]).
  set (m3 := pushed m2 t).
  assert (H3 : Message_ok m3) by (apply pushed_ok; [assumption | frame_side]).
  set (m4 := pushed m3 (be_bytes 4 0xffffffff)).
  assert (H4 : Message_ok m4) by (apply pushed_ok; [assumption | frame_side]).
  rewrite pushed_bytes by (try assumption; frame_side).
  unfold m4. rewrite pushed_bytes by (try assumption; frame_side).
  unfold m3. rewrite pushed_bytes by (try assumption; frame_side).
  unfold m2. rewrite pushed_bytes by (try assumption; frame_side).
  unfold m1. rewrite pushed_bytes by (try assumption; frame_side).
  unfold Message_bytes, m0, Message_new, mem_read. cbn [len]. cbn [Z.to_nat firstn].
  rewrite app_nil_r. reflexivity.
Qed.

Lemma tickAction_Ended (sm : SessionManager_pvt) (s : Session) :
  tickAction sm s = Ended
  <-> uint64 (sessionTimeoutMilliseconds sm) < uint64 (eventBase sm - timeOfKeepAliveIn s).
Proof.
  unfold tickAction.
  destruct (uint64 (sessionTimeoutMilliseconds sm)
            <? uint64 (eventBase sm - timeOfKeepAliveIn s)) eqn:H.
  - apply Z.ltb_lt in H. tauto.
  - apply Z.ltb_ge in H. split; [|lia].
    destruct (maintainSession s =? 0); [discriminate|].
    destruct (_ <=? _); [discriminate|].
    destruct (_ <? _); discriminate.
Qed.

(** X2.  At the periodic check, for a session that the session manager
    maintains, that has not timed out and whose last search is
    [sessionSearchAfterMilliseconds] or longer ago, a SEARCH_REQ event is
    sent to all pathfinders; it carries the first 16 bytes of the address
    of the session, four zero bytes and the version of the session.  After
    the round the session is in the table with its last search time set to
    the time of the round and nothing else changed.  The two tests are
    those of the code: the time since a stamp and the timeout are compared
    as [uint64_t]. *)
Theorem search_is_requested_when_due
    (sm : SessionManager_pvt) (i : nat) (e : Map_Entry Session) :
  Map_entry (ifaceMap sm) i = Some e ->
  uint64 (eventBase sm - timeOfKeepAliveIn (Map_value e))
  <= uint64 (sessionTimeoutMilliseconds sm) ->
  maintainSession (Map_value e) <> 0 ->
  uint64 (sessionSearchAfterMilliseconds sm)
  <= uint64 (eventBase sm - lastSearchTime (Map_value e)) ->
  exists sm' before msg after,
    checkTimedOutSessions sm = Ok (tt, sm', before ++ EventIf msg :: after)
    /\ Message_bytes msg
       = be_bytes 4 PFChan_Core_SEARCH_REQ ++ be_bytes 4 0xffffffff
           ++ firstn 16 (herIp6 (caSession (Map_value e)))
           ++ be_bytes 4 0 ++ be_bytes 4 (version (Map_value e))
    /\ In (mkEntry (Map_key e) (Map_handle e)
                   (set_lastSearchTime (eventBase sm) (Map_value e)))
          (Map_entries (ifaceMap sm')).
Proof.
  intros He Hto Hm Hsearch.
  unfold Map_entry in He.
  destruct (nth_error_split_at _ _ He) as [Hsplit Hlen].
  set (es := Map_entries (ifaceMap sm)) in *.
  assert (Hact : tickAction sm (Map_value e) = Searched).
  { unfold tickAction.
    replace (uint64 (sessionTimeoutMilliseconds sm)
             <? uint64 (eventBase sm - timeOfKeepAliveIn (Map_value e)))
      with false by (symmetry; apply Z.ltb_ge; lia).
    apply Z.eqb_neq in Hm. rewrite Hm.
    apply Z.leb_le in Hsearch. rewrite Hsearch. reflexivity. }
  pose proof (searchEvent_bytes (herIp6 (caSession (Map_value e))) (version (Map_value e)))
    as Hbytes.
  destruct (searchEvent (herIp6 (caSession (Map_value e))) (version (Map_value e)))
    as [m|m|msg] eqn:Hev; try contradiction.
  exists (tickedState sm).
  exists (flat_map (fun e' => tickOutputs sm (Map_value e')) (rev (skipn (S i) es))).
  exists msg.
  exists (flat_map (fun e' => tickOutputs sm (Map_value e')) (rev (firstn i es))).
  split; [|split].
  - rewrite checkTimedOutSessions_run; try assumption. do 2 f_equal.
    unfold tickedOutputs. fold es. rewrite Hsplit at 1.
    rewrite rev_app_distr. cbn [rev]. rewrite <- app_assoc. cbn [app].
    rewrite flat_map_app. cbn [flat_map]. f_equal.
    unfold tickOutputs at 1. rewrite Hact, Hev. reflexivity.
  - exact Hbytes.
  - unfold tickedState, withSessions. cbn [ifaceMap Map_entries]. fold es.
    rewrite Hsplit. rewrite flat_map_app. apply in_or_app. right.
    cbn [flat_map]. apply in_or_app. left.
    unfold tickEntry. rewrite Hact. left. reflexivity.
Qed.

Lemma tickEntry_keys (sm : SessionManager_pvt) (es : list (Map_Entry Session)) :
  map (fun e => (Map_key e, Map_handle e)) (flat_map (tickEntry sm) es)
  = map (fun e => (Map_key e, Map_handle e))
        (filter (fun e => negb (uint64 (sessionTimeoutMilliseconds sm)
                                <? uint64 (eventBase sm - timeOfKeepAliveIn (Map_value e))))
                es).
Proof.
  induction es as [|e es IH]; [reflexivity|].
  cbn [flat_map filter]. rewrite map_app, IH.
  unfold tickEntry at 1, tickAction.
  destruct (uint64 (sessionTimeoutMilliseconds sm)
            <? uint64 (eventBase sm - timeOfKeepAliveIn (Map_value e))).
  - reflexivity.
  - cbn [negb].
    destruct (maintainSession (Map_value e) =? 0); [reflexivity|].
    destruct (_ <=? _); [reflexivity|].
    destruct (_ <? _); reflexivity.
Qed.

Lemma tickOutputs_events (sm : SessionManager_pvt) (s : Session) :
  Forall isEvent (tickOutputs sm s).
Proof.
  unfold tickOutputs. destruct (tickAction sm s).
  - repeat constructor.
  - repeat constructor.
  - destruct (unsetupPossible s); repeat constructor.
  - constructor.
Qed.

(** X3.  A round of [checkTimedOutSessions] removes the sessions that have
    timed out and no other: the slots left are those of the sessions whose
    last keep-alive is at most [sessionTimeoutMilliseconds] ago (the time
    since the keep-alive and the timeout compared as [uint64_t], as the
    code does), in their order and with their addresses and handles, and a
    session that is left is as before but for the time of its last search.
    The round sends events only and leaves the buffered messages alone. *)
Theorem round_keeps_the_live_sessions (sm : SessionManager_pvt) :
  exists sm' o,
    checkTimedOutSessions sm = Ok (tt, sm', o)
    /\ map (fun e => (Map_key e, Map_handle e)) (Map_entries (ifaceMap sm'))
       = map (fun e => (Map_key e, Map_handle e))
             (filter (fun e => uint64 (eventBase sm - timeOfKeepAliveIn (Map_value e))
                               <=? uint64 (sessionTimeoutMilliseconds sm))
                     (Map_entries (ifaceMap sm)))
    /\ (forall e', In e' (Map_entries (ifaceMap sm')) ->
          exists e, In e (Map_entries (ifaceMap sm))
                    /\ Map_key e' = Map_key e /\ Map_handle e' = Map_handle e
                    /\ (Map_value e' = Map_value e
                        \/ Map_value e' = set_lastSearchTime (eventBase sm) (Map_value e)))
    /\ Forall isEvent o
    /\ bufMap sm' = bufMap sm.
Proof.
  exists (tickedState sm), (tickedOutputs sm).
  split; [apply checkTimedOutSessions_run; assumption|].
  unfold tickedState, withSessions. cbn [ifaceMap Map_entries bufMap].
  split; [|split; [|split; [|reflexivity]]].
  - rewrite tickEntry_keys. f_equal. apply filter_ext. intros e.
    rewrite Z.leb_antisym. reflexivity.
  - intros e' Hin. apply in_flat_map in Hin. destruct Hin as (e & Hin & He').
    exists e. split; [assumption|].
    unfold tickEntry in He'. destruct (tickAction sm (Map_value e)); cbn in He'.
    + contradiction.
    + destruct He' as [<-|[]]. cbn. auto.
    + destruct He' as [<-|[]]. auto.
    + destruct He' as [<-|[]]. auto.
  - unfold tickedOutputs. apply Forall_flat_map. apply Forall_forall.
    intros e _. apply tickOutputs_events.
Qed.


(** ** The handles *)

Lemma NoDup_map_through A B C (h : A -> B) (f : A -> C) (l : list A) :
  NoDup (map h l) ->
  (forall x y, In x l -> In y l -> f x = f y -> h x = h y) ->
  NoDup (map f l).
Proof.
  induction l as [|x l IH]; intros Hh Hf; cbn; [constructor|].
  inversion Hh as [|? ? Hx Hl]; subst. constructor.
  - intros Hin. apply in_map_iff in Hin. destruct Hin as (y & Hy & Hin).
    apply Hx. apply in_map_iff. exists y. split; [|assumption].
    apply Hf; [right; assumption | left; reflexivity | assumption].
  - apply IH; [assumption|]. intros a b Ha Hb. apply Hf; right; assumption.
Qed.

(** X4.  In every state that the session manager reaches,
    [SessionManager_getHandleList] lists the receive handles of the sessions
    in the table, one for each session and in the order of the slots; as
    long as the handle counter of the table has not passed 2^32 the handles
    of the list are distinct, and the slot that the lookup by handle finds
    for the i-th handle of the list is slot i. *)
Theorem handle_list_is_the_receive_handles (sm : SessionManager_pvt) :
  reachable sm ->
  SessionManager_getHandleList sm
  = map (fun e => receiveHandle (Map_value e)) (Map_entries (ifaceMap sm))
  /\ Z.of_nat (length (SessionManager_getHandleList sm)) = Map_count (ifaceMap sm)
  /\ (Map_nextHandle (ifaceMap sm) <= 2 ^ 32 ->
      NoDup (SessionManager_getHandleList sm)
      /\ forall i h, nth_error (SessionManager_getHandleList sm) i = Some h ->
           Map_indexForHandle ((h - firstHandle sm) mod 2 ^ 32) (ifaceMap sm) = Some i).
Proof.
  intros Hreach. destruct (reachable_Inv Hreach) as [_ [S1 S2 S3 S4 S5]].
  rewrite Forall_forall in S4, S5.
  unfold SessionManager_getHandleList.
  split; [|split].
  - apply map_ext_in. intros e Hin. symmetry. apply S5. assumption.
  - rewrite length_map. reflexivity.
  - intros Hnext. split.
    + apply (NoDup_map_through (@Map_handle Session)); [exact S2|].
      intros x y Hx Hy Heq.
      rewrite <- (handle_roundtrip (h := Map_handle x) (firstHandle sm))
        by (specialize (S4 x Hx); lia).
      rewrite Heq. apply handle_roundtrip. specialize (S4 y Hy). lia.
    + intros i h Hh. rewrite nth_error_map in Hh.
      destruct (nth_error (Map_entries (ifaceMap sm)) i) as [e|] eqn:He; [|discriminate].
      cbn in Hh. injection Hh as <-.
      assert (Hin : In e (Map_entries (ifaceMap sm))) by (eapply nth_error_In; eassumption).
      rewrite handle_roundtrip by (specialize (S4 e Hin); lia).
      unfold Map_indexForHandle.
      apply (find_index_unique (@Map_handle Session) _ _ _ S2 He).
      intros y. apply Z.eqb_eq.
Qed.

(** ** Frames from the switch that are dropped *)

(** X5.  Frames from the switch that are dropped without a reply.  A frame
    shorter than a switch header and four bytes, and a frame that is not a
    control frame and has fewer than 24 bytes after the switch header, leave
    the state as it is and send nothing.  So does a frame whose first word
    is above 3 and is the handle of no session.  A frame with the handle of
    a session whose next word, the nonce, is below 4 ends after the lookup:
    nothing is decrypted or sent. *)
Theorem switch_frames_that_are_dropped (msg : Message) (sm : SessionManager_pvt) :
  0 <= SwitchHeader_SIZE ->
  (len msg < SwitchHeader_SIZE + 4 -> incomingFromSwitchIf msg sm = Ok (tt, sm, []))
  /\ (SwitchHeader_SIZE + 4 <= len msg -> nonceOrHandle msg <> 0xffffffff ->
      (len msg < SwitchHeader_SIZE + 24 -> incomingFromSwitchIf msg sm = Ok (tt, sm, []))
      /\ (SwitchHeader_SIZE + 24 <= len msg -> 3 < nonceOrHandle msg ->
          (Map_indexForHandle ((nonceOrHandle msg - firstHandle sm) mod 2 ^ 32)
                              (ifaceMap sm) = None ->
           incomingFromSwitchIf msg sm = Ok (tt, sm, []))
          /\ (forall i sm1 o1,
                sessionForHandle (nonceOrHandle msg) sm = Ok (Some i, sm1, o1) ->
                be_value (Message_struct (reversed msg) (off (reversed msg) + 4) 4) < 4 ->
                incomingFromSwitchIf msg sm = Ok (tt, sm1, o1)))).
Proof.
  intros Hsize. split.
  - intros Hlen. unfold incomingFromSwitchIf.
    apply Z.ltb_lt in Hlen. rewrite Hlen. reflexivity.
  - intros Hlen Hctrl.
    assert (Hrlen : len (reversed msg) = len msg - SwitchHeader_SIZE) by reflexivity.
    split.
    + intros Hrunt. unfold incomingFromSwitchIf.
      replace (len msg <? SwitchHeader_SIZE + 4) with false by (symmetry; apply Z.ltb_ge; lia).
      rewrite Message_eshift_neg by lia. rewrite bind_Er_assert. cbv zeta.
      fold (reversed msg). fold (nonceOrHandle msg).
      apply Z.eqb_neq in Hctrl. rewrite Hctrl.
      replace (len (reversed msg) <? 4 + 20) with true by (symmetry; apply Z.ltb_lt; lia).
      reflexivity.
    + intros Hlong Hhandle.
      rewrite incomingFromSwitchIf_start by (try assumption; lia). cbv zeta.
      apply Z.ltb_lt in Hhandle. rewrite Hhandle.
      split.
      * intros Hnone. rewrite (bind_run _ (sessionForHandle_none _ _ Hnone)). reflexivity.
      * intros i sm1 o1 Hfind Hnonce. rewrite (bind_run _ Hfind).
        unfold Message_eshift. cbn [Z.ltb Z.compare andb Z.opp].
        replace (len (reversed msg) <? 4) with false by (symmetry; apply Z.ltb_ge; lia).
        rewrite bind_Er_assert. unfold Message_struct in Hnonce |- *. cbn [off buf].
        replace (off (reversed msg) - -4) with (off (reversed msg) + 4) by lia.
        apply Z.ltb_lt in Hnonce. rewrite Hnonce.
        unfold ret, prepend. rewrite app_nil_r. reflexivity.
Qed.


(** ** Events from the pathfinders *)

Lemma Message_epop_ok (m : Message) (n : Z) :
  0 <= n -> n <= len m ->
  Message_epop m n
  = Ok (mem_read (buf m) (off m) n, mkMessage (buf m) (off m + n) (len m - n)).
Proof.
  intros H0 H. unfold Message_epop. rewrite Message_eshift_neg by lia. reflexivity.
Qed.

Lemma Message_epop_short (m : Message) (n : Z) :
  0 <= n -> len m < n -> Message_epop m n = Fatal.
Proof.
  intros H0 H. unfold Message_epop, Message_eshift.
  replace (0 <? - n) with false by (symmetry; apply Z.ltb_ge; lia).
  replace (len m <? - - n) with true by (symmetry; apply Z.ltb_lt; lia).
  reflexivity.
Qed.

Lemma Message_epop32be_short (m : Message) :
  len m < 4 -> Message_epop32be m = Fatal.
Proof.
  intros H. unfold Message_epop32be. rewrite Message_epop_short by lia. reflexivity.
Qed.

Lemma Map_indexForKey_update V (m : Map V) (i : nat) (f : V -> V) (key : list Z) :
  Map_indexForKey key (Map_update m i f) = Map_indexForKey key m.
Proof.
  unfold Map_indexForKey, Map_update. cbn [Map_entries].
  generalize (Map_entries m) as l. intros l. revert i.
  induction l as [|x l IH]; intros [|i]; cbn; try reflexivity.
  rewrite IH. reflexivity.
Qed.

(** The handler of the event channel once kind and source are popped. *)
Lemma incomingFromEventIf_node (msg : Message) (sm : SessionManager_pvt) :
  8 <= len msg ->
  be_value (mem_read (buf msg) (off msg) 4) = PFChan_Pathfinder_NODE ->
  PFChan_Pathfinder_NODE <> PFChan_Pathfinder_SESSIONS ->
  len msg = 8 + PFChan_Node_SIZE ->
  let node := PFChan_Node_decode (mem_read (buf msg) (off msg + 8) PFChan_Node_SIZE) in
  incomingFromEventIf msg sm
  = (let index := Map_indexForKey (node_ip6 node) (bufMap sm) in
     sess <- sessionForIp6 (node_ip6 node) ;;
     let ignore :=
       match sess, index with
       | None, None => true
       | None, Some _ => Endian_raw32 (metric_be node) =? Metric_DEAD_LINK
       | Some _, _ => false
       end in
     if ignore then ret tt else
     sess <- getSession (node_ip6 node) (node_publicKey node) (version_be node)
               (path_be node) (metric_be node) 0 ;;
     s <- Session_read sess ;;
     sm <- get ;;
     match index with
     | Some index' =>
         if CryptoAuth_State_RECEIVED_KEY <=? CryptoAuth_getState (caSession s) then
           match Map_entry (bufMap sm) index' with
           | Some e =>
               let bm := Map_value e in
               readyToSend (bm_msg bm) sess ;;;
               Map_removeBuffered index' ;;;
               Allocator_free (bm_alloc bm)
           | None => abort
           end
         else unsetupSession sess
     | None =>
         if CryptoAuth_getState (caSession s) <? CryptoAuth_State_RECEIVED_KEY
         then unsetupSession sess
         else ret tt
     end) sm.
Proof.
  intros Hlen Hev Hne Hsize node.
  pose proof Node_SIZE_nonneg as Hn.
  unfold incomingFromEventIf.
  rewrite Message_epop32be_ok by lia. rewrite bind_Er_assert. cbn [fst snd].
  rewrite Message_epop32be_ok by (cbn; lia). rewrite bind_Er_assert.
  cbn [fst snd buf off len]. rewrite Hev.
  apply Z.eqb_neq in Hne. rewrite Hne. rewrite Z.eqb_refl, bind_assert_true.
  rewrite Message_epop_ok by (cbn [len]; lia). rewrite bind_Er_assert.
  cbn [fst snd buf off len].
  replace (off msg + 4 + 4) with (off msg + 8) by lia. fold node.
  replace (len msg - 4 - 4 - PFChan_Node_SIZE =? 0) with true
    by (symmetry; apply Z.eqb_eq; lia).
  rewrite bind_assert_true, bind_get. reflexivity.
Qed.

(** X6.  An event from a pathfinder that is malformed ends in a fatal
    assertion: an event shorter than its kind and source (8 bytes), an event
    whose kind is neither SESSIONS nor NODE, and a NODE event whose payload
    is not exactly one [PFChan_Node]. *)
Theorem malformed_events_are_fatal (msg : Message) (sm : SessionManager_pvt) :
  (len msg < 8 -> incomingFromEventIf msg sm = Fatal)
  /\ (8 <= len msg ->
      be_value (mem_read (buf msg) (off msg) 4) <> PFChan_Pathfinder_SESSIONS ->
      (be_value (mem_read (buf msg) (off msg) 4) <> PFChan_Pathfinder_NODE ->
       incomingFromEventIf msg sm = Fatal)
      /\ (len msg <> 8 + PFChan_Node_SIZE -> incomingFromEventIf msg sm = Fatal)).
Proof.
  pose proof Node_SIZE_nonneg as Hn.
  split.
  - intros Hlen. unfold incomingFromEventIf.
    destruct (Z.lt_ge_cases (len msg) 4) as [H4|H4].
    + rewrite Message_epop32be_short by assumption. reflexivity.
    + rewrite Message_epop32be_ok by lia. rewrite bind_Er_assert. cbn [fst snd].
      rewrite Message_epop32be_short by (cbn [len]; lia). reflexivity.
  - intros Hlen Hnot. apply Z.eqb_neq in Hnot.
    split.
    + intros Hnode. apply Z.eqb_neq in Hnode. unfold incomingFromEventIf.
      rewrite Message_epop32be_ok by lia. rewrite bind_Er_assert. cbn [fst snd].
      rewrite Message_epop32be_ok by (cbn; lia). rewrite bind_Er_assert.
      cbn [fst snd buf off len]. rewrite Hnot, Hnode. reflexivity.
    + intros Hsize. unfold incomingFromEventIf.
      rewrite Message_epop32be_ok by lia. rewrite bind_Er_assert. cbn [fst snd].
      rewrite Message_epop32be_ok by (cbn; lia). rewrite bind_Er_assert.
      cbn [fst snd buf off len]. rewrite Hnot.
      destruct (_ =? PFChan_Pathfinder_NODE); [|reflexivity].
      rewrite bind_assert_true.
      destruct (Z.lt_ge_cases (len msg - 4 - 4) PFChan_Node_SIZE) as [Hshort|Hlong].
      * rewrite Message_epop_short by (cbn [len]; lia). reflexivity.
      * rewrite Message_epop_ok by (cbn [len]; lia). rewrite bind_Er_assert.
        cbn [fst snd buf off len].
        replace (len msg - 4 - 4 - PFChan_Node_SIZE =? 0) with false
          by (symmetry; apply Z.eqb_neq; lia).
        reflexivity.
Qed.

(** X7.  A NODE event for an address that has no session is ignored, with
    the state as it was and nothing sent, when no message is buffered for
    the address, and also when one is buffered but the node's metric field
    equals [Metric_DEAD_LINK]. *)
Theorem node_event_for_unknown_address_is_ignored
    (msg : Message) (sm : SessionManager_pvt) :
  len msg = 8 + PFChan_Node_SIZE ->
  be_value (mem_read (buf msg) (off msg) 4) = PFChan_Pathfinder_NODE ->
  PFChan_Pathfinder_NODE <> PFChan_Pathfinder_SESSIONS ->
  let node := PFChan_Node_decode (mem_read (buf msg) (off msg + 8) PFChan_Node_SIZE) in
  Map_indexForKey (node_ip6 node) (ifaceMap sm) = None ->
  Map_indexForKey (node_ip6 node) (bufMap sm) = None
  \/ Endian_raw32 (metric_be node) = Metric_DEAD_LINK ->
  incomingFromEventIf msg sm = Ok (tt, sm, []).
Proof.
  intros Hsize Hev Hne node Hnone Hcase.
  pose proof Node_SIZE_nonneg as Hn.
  rewrite incomingFromEventIf_node by (try assumption; lia). cbv zeta. fold node.
  rewrite (bind_run _ (sessionForIp6_none _ _ Hnone)).
  destruct (Map_indexForKey (node_ip6 node) (bufMap sm)) as [j|].
  - destruct Hcase as [Hc|Hc]; [discriminate|].
    rewrite Hc, Z.eqb_refl. reflexivity.
  - reflexivity.
Qed.

(** X8.  A NODE event for an address that has a session and no buffered
    message: the session is updated as by [getSession] with the version,
    path and metric of the node (and maintain 0); then, if the crypto
    session has not received the key of the peer, an UNSETUP_SESSION event
    is sent for the session as updated (provided it has a version and a
    path), and otherwise nothing is sent. *)
Theorem node_event_updates_the_session
    (msg : Message) (sm sm1 : SessionManager_pvt) (i : nat) (o : list Output)
    (s : Session) :
  len msg = 8 + PFChan_Node_SIZE ->
  be_value (mem_read (buf msg) (off msg) 4) = PFChan_Pathfinder_NODE ->
  PFChan_Pathfinder_NODE <> PFChan_Pathfinder_SESSIONS ->
  let node := PFChan_Node_decode (mem_read (buf msg) (off msg + 8) PFChan_Node_SIZE) in
  AddressCalc_validAddress (node_ip6 node) = true ->
  Map_indexForKey (node_ip6 node) (bufMap sm) = None ->
  sessionForIp6 (node_ip6 node) sm = Ok (Some i, sm1, o) ->
  sessionAt sm1 i = Some s ->
  let s' := updateExisting (version_be node) (path_be node) (metric_be node) 0 s in
  incomingFromEventIf msg sm
  = Ok (tt, set_ifaceMap (Map_update (ifaceMap sm1) i
                            (updateExisting (version_be node) (path_be node)
                               (metric_be node) 0)) sm1,
        o ++ (if (CryptoAuth_getState (caSession s') <? CryptoAuth_State_RECEIVED_KEY)
                 && unsetupPossible s'
              then [unsetupEvent s'] else [])).
Proof.
  intros Hsize Hev Hne node Hvalid Hbuf Hfind Hs s'.
  pose proof Node_SIZE_nonneg as Hn.
  rewrite incomingFromEventIf_node by (try assumption; lia). cbv zeta. fold node.
  rewrite Hbuf.
  destruct (sessionForIp6_inv _ _ Hfind) as [Hidx Hcheck].
  rewrite (bind_run _ Hfind).
  assert (Hfind1 : sessionForIp6 (node_ip6 node) sm1 = Ok (Some i, sm1, [])).
  { unfold sessionForIp6. rewrite bind_get.
    replace (Map_indexForKey (node_ip6 node) (ifaceMap sm1)) with (Some i).
    - rewrite (bind_run _ (check_again _ _ Hcheck)). reflexivity.
    - destruct (check_run Hcheck) as (s0 & _ & [Hr|Hr]); injection Hr as ->.
      + symmetry. assumption.
      + rewrite <- Hidx. cbn [ifaceMap set_ifaceMap].
        symmetry. apply Map_indexForKey_update. }
  rewrite (bind_run _ (getSession_existing _ _ _ _ _ _ _ Hvalid Hfind1)).
  set (sm2 := set_ifaceMap _ sm1).
  assert (Hs2 : sessionAt sm2 i = Some s').
  { unfold sm2. rewrite sessionAt_update, Hs. reflexivity. }
  rewrite (bind_read _ Hs2). rewrite bind_get.
  destruct (CryptoAuth_getState (caSession s') <? CryptoAuth_State_RECEIVED_KEY).
  - rewrite (unsetupSession_run Hs2). cbn [andb prepend app]. reflexivity.
  - cbn [andb]. unfold ret, prepend. cbn [app]. reflexivity.
Qed.


(** ** What the handlers leave alone *)

Section Frame.

(** A property of the state that does not depend on the two tables nor on
    the allocators. *)
Variable I : SessionManager_pvt -> Prop.
Hypothesis I_ifaceMap : forall m sm, I sm -> I (set_ifaceMap m sm).
Hypothesis I_bufMap : forall m sm, I sm -> I (set_bufMap m sm).
Hypothesis I_allocs : forall l n sm, I sm -> I (set_allocs l n sm).

Ltac frame_step :=
  lazymatch goal with
  | |- keeps _ (bind _ _) => apply keeps_bind; [| intros ?]
  | |- keeps _ (ret _) => apply keeps_ret
  | |- keeps _ get => apply keeps_get
  | |- keeps _ abort => apply keeps_abort
  | |- keeps _ (Iface_send _) => apply keeps_send
  | |- keeps _ (Assert_true _) => apply keeps_assert
  | |- keeps _ (Er_assert _) => apply keeps_Er_assert
  | |- keeps _ (Session_read _) => apply keeps_read
  | |- keeps _ Time_currentTimeMilliseconds => apply keeps_Time
  | |- keeps _ (modify _) =>
      apply keeps_modify; intros ? ?;
      first [apply I_ifaceMap | apply I_bufMap | apply I_allocs]; assumption
  | |- keeps _ (Session_write _ _) => unfold Session_write
  | |- keeps _ Allocator_child => unfold Allocator_child
  | |- keeps _ (Allocator_free _) => unfold Allocator_free
  | |- keeps _ (Map_removeSession _) => unfold Map_removeSession
  | |- keeps _ (Map_removeBuffered _) => unfold Map_removeBuffered
  | |- keeps _ (if ?b then _ else _) => destruct b
  | |- keeps _ (match ?x with _ => _ end) => destruct x
  | |- keeps _ (let _ := _ in _) => cbv zeta
  end.

Ltac frame_auto := repeat frame_step.

Lemma frame_sendSession i path destPf ev : keeps I (sendSession i path destPf ev).
Proof. unfold sendSession. frame_auto. Qed.

Lemma frame_check i : keeps I (check i).
Proof. unfold check. frame_auto. Qed.

Lemma frame_sessionForHandle h : keeps I (sessionForHandle h).
Proof. unfold sessionForHandle. frame_auto. apply frame_check. Qed.

Lemma frame_sessionForIp6 ip6 : keeps I (sessionForIp6 ip6).
Proof. unfold sessionForIp6. frame_auto. apply frame_check. Qed.

Lemma frame_triggerSearch t v : keeps I (triggerSearch t v).
Proof. unfold triggerSearch. frame_auto. Qed.

Lemma frame_unsetupSession i : keeps I (unsetupSession i).
Proof. unfold unsetupSession. frame_auto. Qed.

Lemma frame_getSession ip6 pubKey v l m mt : keeps I (getSession ip6 pubKey v l m mt).
Proof.
  unfold getSession.
  apply keeps_bind; [apply keeps_assert|]. intros _.
  apply keeps_bind; [apply frame_sessionForIp6|]. intros [i|].
  - frame_auto.
  - frame_auto; first [apply frame_sendSession | apply frame_check].
Qed.

Lemma frame_decrypt sh n f l0 session msg :
  keeps I (incomingFromSwitchIf_decrypt sh n f l0 session msg).
Proof.
  unfold incomingFromSwitchIf_decrypt, failedDecrypt. frame_auto;
    apply frame_sendSession.
Qed.

Lemma frame_incomingFromSwitchIf msg : keeps I (incomingFromSwitchIf msg).
Proof.
  unfold incomingFromSwitchIf, ctrlFrame. frame_auto;
    first [apply frame_sessionForHandle | apply frame_decrypt | apply frame_getSession].
Qed.

Lemma frame_checkTimedOutSessions_loop n : keeps I (checkTimedOutSessions_loop n).
Proof.
  induction n as [|n IH]; cbn [checkTimedOutSessions_loop]; frame_auto;
    try apply frame_sendSession; try apply frame_triggerSearch;
    try apply frame_unsetupSession; assumption.
Qed.

Lemma frame_checkTimedOutBuffers_loop fuel :
  forall i, keeps I (checkTimedOutBuffers_loop fuel i).
Proof.
  induction fuel as [|fuel IH]; intros i; cbn [checkTimedOutBuffers_loop]; frame_auto;
    apply IH.
Qed.

Lemma frame_checkTimedOutBuffers : keeps I checkTimedOutBuffers.
Proof. unfold checkTimedOutBuffers. frame_auto. apply frame_checkTimedOutBuffers_loop. Qed.

Lemma frame_periodically : keeps I periodically.
Proof.
  unfold periodically, checkTimedOutSessions. frame_auto;
    [apply frame_checkTimedOutSessions_loop | apply frame_checkTimedOutBuffers].
Qed.

Lemma frame_needsLookup msg setup : keeps I (needsLookup msg setup).
Proof.
  unfold needsLookup. frame_auto;
    first [apply frame_checkTimedOutBuffers | apply frame_triggerSearch].
Qed.

Lemma frame_readyToSend msg sess : keeps I (readyToSend msg sess).
Proof. unfold readyToSend. frame_auto. Qed.

Lemma frame_incomingFromInsideIf msg : keeps I (incomingFromInsideIf msg).
Proof.
  unfold incomingFromInsideIf, outgoingCtrlFrame. cbv zeta. frame_auto;
    first [apply frame_sessionForIp6 | apply frame_needsLookup
          | apply frame_readyToSend | apply frame_getSession].
Qed.

Lemma frame_sessions_loop n : forall i pf, keeps I (sessions_loop n i pf).
Proof.
  induction n as [|n IH]; intros i pf; cbn [sessions_loop]; frame_auto;
    [apply frame_sendSession | apply IH].
Qed.

Lemma frame_incomingFromEventIf msg : keeps I (incomingFromEventIf msg).
Proof.
  unfold incomingFromEventIf, sessions. cbv zeta. frame_auto;
    first [apply frame_sessions_loop | apply frame_sessionForIp6
          | apply frame_getSession | apply frame_readyToSend
          | apply frame_unsetupSession].
Qed.

End Frame.

Lemma sameConfig_refl (sm : SessionManager_pvt) : sameConfig sm sm.
Proof. repeat split. Qed.

(** X14.  No handler of the session manager changes its configuration or
    its clock: after a message from the switch, a message from the inside,
    an event, or a periodic check, the bound on buffered messages, the two
    timeouts, the first handle and the time of the event loop are what
    they were. *)
Theorem handlers_keep_the_configuration (sm sm' : SessionManager_pvt) (o : list Output) :
  (forall msg, incomingFromSwitchIf msg sm = Ok (tt, sm', o) -> sameConfig sm sm')
  /\ (forall msg, incomingFromInsideIf msg sm = Ok (tt, sm', o) -> sameConfig sm sm')
  /\ (forall msg, incomingFromEventIf msg sm = Ok (tt, sm', o) -> sameConfig sm sm')
  /\ (periodically sm = Ok (tt, sm', o) -> sameConfig sm sm').
Proof.
  assert (H1 : forall m s, sameConfig sm s -> sameConfig sm (set_ifaceMap m s))
    by (intros m s H; exact H).
  assert (H2 : forall m s, sameConfig sm s -> sameConfig sm (set_bufMap m s))
    by (intros m s H; exact H).
  assert (H3 : forall l n s, sameConfig sm s -> sameConfig sm (set_allocs l n s))
    by (intros l n s H; exact H).
  split; [|split; [|split]].
  - intros msg Hrun.
    eapply (@frame_incomingFromSwitchIf (sameConfig sm));
      try exact H1; try exact H2; try exact H3; [apply sameConfig_refl | exact Hrun].
  - intros msg Hrun.
    eapply (@frame_incomingFromInsideIf (sameConfig sm));
      try exact H1; try exact H2; try exact H3; [apply sameConfig_refl | exact Hrun].
  - intros msg Hrun.
    eapply (@frame_incomingFromEventIf (sameConfig sm));
      try exact H1; try exact H2; try exact H3; [apply sameConfig_refl | exact Hrun].
  - intros Hrun.
    eapply (@frame_periodically (sameConfig sm));
      try exact H1; try exact H2; try exact H3; [apply sameConfig_refl | exact Hrun].
Qed.

(** X15.  In every state that the session manager reaches, the first handle
    is in the range 4 - 99999 that [SessionManager_new] draws it from, and
    the receive handle of a session is the handle of its slot plus the
    first handle as long as that sum is below 2^32: it is above 3, so it
    is never taken for the nonce of a handshake. *)
Theorem receive_handles_are_not_nonces (sm : SessionManager_pvt) :
  reachable sm ->
  MIN_FIRST_HANDLE <= firstHandle sm < MAX_FIRST_HANDLE
  /\ forall e, In e (Map_entries (ifaceMap sm)) ->
       Map_handle e + firstHandle sm < 2 ^ 32 ->
       receiveHandle (Map_value e) = Map_handle e + firstHandle sm
       /\ 3 < receiveHandle (Map_value e).
Proof.
  intros Hreach.
  assert (Hrange : MIN_FIRST_HANDLE <= firstHandle sm < MAX_FIRST_HANDLE).
  { set (J := fun s : SessionManager_pvt =>
                MIN_FIRST_HANDLE <= firstHandle s < MAX_FIRST_HANDLE).
    assert (H1 : forall m s, J s -> J (set_ifaceMap m s)) by (intros m s H; exact H).
    assert (H2 : forall m s, J s -> J (set_bufMap m s)) by (intros m s H; exact H).
    assert (H3 : forall l n s, J s -> J (set_allocs l n s)) by (intros l n s H; exact H).
    change (J sm).
    induction Hreach as [random now | s now _ IH _ | s s' msg o _ IH Hrun
                        | s s' msg o _ IH Hrun | s s' msg o _ IH Hrun | s s' o _ IH Hrun].
    - unfold J, SessionManager_new, MIN_FIRST_HANDLE, MAX_FIRST_HANDLE. cbn [firstHandle].
      pose proof (Z.mod_pos_bound random (100000 - 4) ltac:(lia)). lia.
    - exact IH.
    - eapply (@frame_incomingFromSwitchIf J);
        try exact H1; try exact H2; try exact H3; [exact IH | exact Hrun].
    - eapply (@frame_incomingFromInsideIf J);
        try exact H1; try exact H2; try exact H3; [exact IH | exact Hrun].
    - eapply (@frame_incomingFromEventIf J);
        try exact H1; try exact H2; try exact H3; [exact IH | exact Hrun].
    - eapply (@frame_periodically J);
        try exact H1; try exact H2; try exact H3; [exact IH | exact Hrun]. }
  split; [exact Hrange|].
  intros e Hin Hsum.
  destruct (reachable_Inv Hreach) as [_ [_ _ _ S4 S5]].
  rewrite Forall_forall in S4, S5.
  specialize (S4 e Hin). specialize (S5 e Hin).
  unfold MIN_FIRST_HANDLE in Hrange.
  rewrite S5. rewrite Z.mod_small by lia. lia.
Qed.


(** ** Where the frames go *)

Section Sends.

(** A property of frames that holds of every event and of every frame for
    the switch. *)
Variable P : Output -> Prop.
Hypothesis P_event : forall m, P (EventIf m).
Hypothesis P_switch : forall m, P (SwitchIf m).

Ltac sends_step :=
  lazymatch goal with
  | |- emits _ (bind _ _) => apply emits_bind; [| intros ?]
  | |- emits _ (ret _) => apply emits_ret
  | |- emits _ get => apply emits_get
  | |- emits _ abort => apply emits_abort
  | |- emits _ (modify _) => apply emits_modify
  | |- emits _ (Iface_send (EventIf _)) => apply emits_send; apply P_event
  | |- emits _ (Iface_send (SwitchIf _)) => apply emits_send; apply P_switch
  | |- emits _ (Assert_true _) => apply emits_assert
  | |- emits _ (Er_assert _) => apply emits_Er_assert
  | |- emits _ (Session_read _) => apply emits_read
  | |- emits _ (Session_write _ _) => apply emits_modify
  | |- emits _ Time_currentTimeMilliseconds => unfold Time_currentTimeMilliseconds
  | |- emits _ Allocator_child => unfold Allocator_child
  | |- emits _ (Allocator_free _) => apply emits_modify
  | |- emits _ (Map_removeSession _) => apply emits_modify
  | |- emits _ (Map_removeBuffered _) => apply emits_modify
  | |- emits _ (if ?b then _ else _) => destruct b
  | |- emits _ (match ?x with _ => _ end) => destruct x
  | |- emits _ (let _ := _ in _) => cbv zeta
  end.

Ltac sends_auto := repeat sends_step.

Lemma sends_sendSession i path destPf ev : emits P (sendSession i path destPf ev).
Proof. unfold sendSession. sends_auto. Qed.

Lemma sends_check i : emits P (check i).
Proof. unfold check. sends_auto. Qed.

Lemma sends_sessionForIp6 ip6 : emits P (sessionForIp6 ip6).
Proof. unfold sessionForIp6. sends_auto. apply sends_check. Qed.

Lemma sends_triggerSearch t v : emits P (triggerSearch t v).
Proof. unfold triggerSearch. sends_auto. Qed.

Lemma sends_unsetupSession i : emits P (unsetupSession i).
Proof. unfold unsetupSession. sends_auto. Qed.

Lemma sends_getSession ip6 pubKey v l m mt : emits P (getSession ip6 pubKey v l m mt).
Proof.
  unfold getSession. sends_auto;
    first [apply sends_sessionForIp6 | apply sends_sendSession | apply sends_check].
Qed.

Lemma sends_checkTimedOutSessions_loop n : emits P (checkTimedOutSessions_loop n).
Proof.
  induction n as [|n IH]; cbn [checkTimedOutSessions_loop]; sends_auto;
    try apply sends_sendSession; try apply sends_triggerSearch;
    try apply sends_unsetupSession; assumption.
Qed.

Lemma sends_checkTimedOutBuffers_loop fuel :
  forall i, emits P (checkTimedOutBuffers_loop fuel i).
Proof.
  induction fuel as [|fuel IH]; intros i; cbn [checkTimedOutBuffers_loop]; sends_auto;
    apply IH.
Qed.

Lemma sends_checkTimedOutBuffers : emits P checkTimedOutBuffers.
Proof. unfold checkTimedOutBuffers. sends_auto. apply sends_checkTimedOutBuffers_loop. Qed.

Lemma sends_periodically : emits P periodically.
Proof.
  unfold periodically, checkTimedOutSessions. sends_auto;
    [apply sends_checkTimedOutSessions_loop | apply sends_checkTimedOutBuffers].
Qed.

Lemma sends_needsLookup msg setup : emits P (needsLookup msg setup).
Proof.
  unfold needsLookup. sends_auto;
    first [apply sends_checkTimedOutBuffers | apply sends_triggerSearch].
Qed.

Lemma sends_readyToSend msg sess : emits P (readyToSend msg sess).
Proof. unfold readyToSend. sends_auto. Qed.

Lemma sends_incomingFromInsideIf msg : emits P (incomingFromInsideIf msg).
Proof.
  unfold incomingFromInsideIf, outgoingCtrlFrame. cbv zeta. sends_auto;
    first [apply sends_sessionForIp6 | apply sends_needsLookup
          | apply sends_readyToSend | apply sends_getSession].
Qed.

Lemma sends_sessions_loop n : forall i pf, emits P (sessions_loop n i pf).
Proof.
  induction n as [|n IH]; intros i pf; cbn [sessions_loop]; sends_auto;
    [apply sends_sendSession | apply IH].
Qed.

Lemma sends_incomingFromEventIf msg : emits P (incomingFromEventIf msg).
Proof.
  unfold incomingFromEventIf, sessions. cbv zeta. sends_auto;
    first [apply sends_sessions_loop | apply sends_sessionForIp6
          | apply sends_getSession | apply sends_readyToSend
          | apply sends_unsetupSession].
Qed.

End Sends.

(** X16.  Nothing comes back to where it came from: while it handles a
    message from the inside or an event from a pathfinder, the session
    manager sends nothing to the inside interface (only frames for the
    switch and events), and a periodic check sends events only. *)
Theorem nothing_is_sent_back_inside (sm sm' : SessionManager_pvt) (o : list Output) :
  (forall msg, incomingFromInsideIf msg sm = Ok (tt, sm', o) -> Forall notInside o)
  /\ (forall msg, incomingFromEventIf msg sm = Ok (tt, sm', o) -> Forall notInside o)
  /\ (periodically sm = Ok (tt, sm', o) -> Forall isEvent o).
Proof.
  split; [|split].
  - intros msg Hrun.
    exact (@sends_incomingFromInsideIf notInside (fun _ => I) (fun _ => I) msg _ _ _ _ Hrun).
  - intros msg Hrun.
    exact (@sends_incomingFromEventIf notInside (fun _ => I) (fun _ => I) msg _ _ _ _ Hrun).
  - intros Hrun.
    exact (@sends_periodically isEvent (fun _ => I) _ _ _ _ Hrun).
Qed.



(** ** A session that is made *)

Lemma find_index_snoc A (p : A -> bool) (l : list A) (x : A) :
  find_index p l = None -> p x = true ->
  find_index p (l ++ [x]) = Some (length l).
Proof.
  intros Hl Hx. induction l as [|y l IH]; cbn in *.
  - rewrite Hx. reflexivity.
  - destruct (p y); [discriminate|].
    destruct (find_index p l); [discriminate|].
    rewrite IH by reflexivity. reflexivity.
Qed.

Lemma nth_error_snoc A (l : list A) (x : A) : nth_error (l ++ [x]) (length l) = Some x.
Proof. rewrite nth_error_app2 by lia. rewrite Nat.sub_diag. reflexivity. Qed.

(** X17.  [getSession] for a valid address that has no session, with a key
    that is zero or hashes to the address, makes a session in a new slot at
    the end of the table: its receive handle is the handle of the slot plus
    the first handle (mod 2^32), its three time stamps are the current time,
    version, label, metric and maintain flag are the caller's, its counters,
    send handle and receive label are 0, and it owns a fresh allocator.  One
    SESSION event for it is sent to all pathfinders, and the session is
    found by its address afterwards. *)
Theorem getSession_creates_a_session
    (ip6 pubKey : list Z) (version' label' metric' maintain' : Z) (sm : SessionManager_pvt) :
  AddressCalc_validAddress ip6 = true ->
  Map_indexForKey ip6 (ifaceMap sm) = None ->
  Bits_isZero pubKey = true \/ AddressCalc_hash pubKey = ip6 ->
  herPublicKey (CryptoAuth_newSession pubKey) = pubKey ->
  let i := length (Map_entries (ifaceMap sm)) in
  let s := mkSession (CryptoAuth_newSession pubKey) (eventBase sm) (eventBase sm) 0 0 0
             (eventBase sm) 0 ((Map_nextHandle (ifaceMap sm) + firstHandle sm) mod 2 ^ 32)
             version' metric' label' 0 maintain' (nextAlloc sm)
             (negb (Bits_isZero pubKey)) in
  let sm' := set_ifaceMap
               (mkMap (Map_entries (ifaceMap sm)
                         ++ [mkEntry ip6 (Map_nextHandle (ifaceMap sm)) s])
                      (Map_nextHandle (ifaceMap sm) + 1))
               (set_allocs (nextAlloc sm :: liveAllocs sm) (nextAlloc sm + 1) sm) in
  getSession ip6 pubKey version' label' metric' maintain' sm
  = Ok (i, sm', [sessionEvent s label' 0xffffffff PFChan_Core_SESSION])
  /\ sessionForIp6 ip6 sm' = Ok (Some i, sm', []).
Proof.
  intros Hvalid Hnone Hkey Hlaw i s sm'.
  assert (Hs : sessionAt sm' i = Some s).
  { unfold sessionAt, Map_entry, sm', i. cbn [ifaceMap set_ifaceMap Map_entries].
    rewrite nth_error_snoc. reflexivity. }
  assert (Hcheck : check i sm' = Ok (tt, sm', [])).
  { unfold check. rewrite (bind_read _ Hs). unfold s at 1. cbn [foundKey].
    destruct (Bits_isZero pubKey) eqn:Hz; cbn [negb]; [|reflexivity].
    unfold s at 1. cbn [caSession]. rewrite Hlaw, Hz. reflexivity. }
  split.
  - unfold getSession. rewrite Hvalid, bind_assert_true.
    rewrite (bind_run _ (sessionForIp6_none _ _ Hnone)), prepend_nil.
    unfold Allocator_child. mnorm. cbv zeta.
    assert (Hassert : (if negb (Bits_isZero pubKey)
                       then Assert_true
                              (bytes_eqb (fst (AddressCalc_addressForPublicKey pubKey)) ip6)
                       else ret tt) = ret tt).
    { destruct (Bits_isZero pubKey) eqn:Hz; cbn [negb]; [reflexivity|].
      destruct Hkey as [Hk|Hk]; [discriminate|].
      unfold AddressCalc_addressForPublicKey. cbn [fst]. rewrite Hk, bytes_eqb_refl.
      reflexivity. }
    rewrite Hassert. mnorm.
    cbn [ifaceMap set_allocs]. unfold Map_put. rewrite Hnone. mnorm.
    unfold Map_entry. cbn [ifaceMap set_ifaceMap Map_entries].
    rewrite nth_error_snoc. mnorm.
    unfold Time_currentTimeMilliseconds. mnorm.
    repeat rewrite write_write.
    cbn [eventBase set_ifaceMap set_allocs firstHandle Map_handle].
    match goal with |- ?k ?st = _ => assert (Hst : st = sm') end.
    { rewrite ifaceMap_set, set_ifaceMap_twice. unfold sm'. f_equal.
      unfold Map_update. cbn [Map_entries Map_nextHandle]. f_equal.
      exact (list_update_app _ _ _ _). }
    rewrite Hst.
    rewrite (bind_run _ (sendSession_run label' 0xffffffff PFChan_Core_SESSION Hs)).
    rewrite (bind_run _ Hcheck). reflexivity.
  - unfold sessionForIp6. rewrite bind_get.
    replace (Map_indexForKey ip6 (ifaceMap sm')) with (Some i).
    + rewrite (bind_run _ Hcheck). reflexivity.
    + symmetry. unfold Map_indexForKey, sm'. cbn [ifaceMap set_ifaceMap Map_entries].
      apply find_index_snoc; [exact Hnone|]. cbn [Map_key]. apply bytes_eqb_refl.
Qed.


(** ** Control frames *)

(** X18.  A message from the inside whose route header has the flag CTRLMSG
    is a control frame.  With a key or an address in its route header that
    is not zero it is dropped.  With both zero it goes to the switch, once:
    the switch header that was in the route header, the word 0xffffffff,
    and what followed the route header.  The state stays as it is. *)
Theorem inside_control_frame_goes_to_the_switch (msg : Message) (sm : SessionManager_pvt) :
  Message_ok msg ->
  RouteHeader_SIZE <= len msg ->
  0 <= SwitchHeader_SIZE -> 0 <= RouteHeader_sh ->
  RouteHeader_sh + SwitchHeader_SIZE <= RouteHeader_SIZE ->
  SwitchHeader_SIZE + 4 <= RouteHeader_SIZE ->
  let rh := Message_struct msg (off msg) RouteHeader_SIZE in
  let sh := Message_struct msg (off msg + RouteHeader_sh) SwitchHeader_SIZE in
  Z.land (RouteHeader_flags rh) RouteHeader_flags_CTRLMSG <> 0 ->
  (Bits_isZero (RouteHeader_publicKey rh) = false
   \/ Bits_isZero (RouteHeader_ip6 rh) = false ->
   incomingFromInsideIf msg sm = Ok (tt, sm, []))
  /\ (Bits_isZero (RouteHeader_publicKey rh) = true ->
      Bits_isZero (RouteHeader_ip6 rh) = true ->
      exists out,
        incomingFromInsideIf msg sm = Ok (tt, sm, [SwitchIf out])
        /\ Message_bytes out
           = sh ++ be_bytes 4 0xffffffff
                ++ mem_read (buf msg) (off msg + RouteHeader_SIZE)
                     (len msg - RouteHeader_SIZE)).
Proof.
  intros (Hoff & Hlen0 & Hbuf) Hlen Hsh0 Hrsh Hin Hroom rh sh Hflag.
  assert (Hstart : incomingFromInsideIf msg sm
                   = (if negb (Bits_isZero (RouteHeader_publicKey rh))
                         || negb (Bits_isZero (RouteHeader_ip6 rh))
                      then ret tt
                      else
                        r <- Er_assert (Message_epop msg RouteHeader_SIZE) ;;
                        msg <- Er_assert (Message_epush32be (snd r) 0xffffffff) ;;
                        msg <- Er_assert (Message_epush msg sh) ;;
                        Iface_send (SwitchIf msg)) sm).
  { unfold incomingFromInsideIf.
    replace (RouteHeader_SIZE <=? len msg) with true by (symmetry; apply Z.leb_le; lia).
    rewrite bind_assert_true. cbv zeta. fold rh.
    apply Z.eqb_neq in Hflag. rewrite Hflag. cbn [negb].
    unfold outgoingCtrlFrame.
    replace (RouteHeader_SIZE <=? len msg) with true by (symmetry; apply Z.leb_le; lia).
    rewrite bind_assert_true. cbv zeta. fold rh. rewrite Hflag. reflexivity. }
  rewrite Hstart. split.
  - intros [H|H]; rewrite H; cbn [negb orb]; [reflexivity|].
    rewrite orb_true_r. reflexivity.
  - intros Hk Hi. rewrite Hk, Hi. cbn [negb orb].
    assert (Hshlen : Z.of_nat (length sh) = SwitchHeader_SIZE)
      by (apply mem_read_length; lia).
    set (m1 := mkMessage (buf msg) (off msg + RouteHeader_SIZE) (len msg - RouteHeader_SIZE)).
    assert (H1 : Message_ok m1) by (unfold Message_ok, m1; cbn [off len buf]; lia).
    set (m2 := pushed m1 (be_bytes 4 0xffffffff)).
    assert (H2 : Message_ok m2)
      by (apply pushed_ok; [assumption | rewrite be_bytes_length; unfold m1; cbn [off]; lia]).
    rewrite Message_epop_ok by lia. rewrite bind_Er_assert. cbn [snd]. fold m1.
    unfold Message_epush32be.
    rewrite Message_epush_ok by (rewrite ?be_bytes_length; unfold m1; cbn [off len]; lia).
    rewrite bind_Er_assert. fold m2.
    rewrite Message_epush_ok
      by (unfold m2, m1; cbn [off len pushed]; rewrite ?be_bytes_length; lia).
    rewrite bind_Er_assert.
    exists (pushed m2 sh). split; [reflexivity|].
    rewrite pushed_bytes
      by (try assumption; unfold m2, m1; cbn [off pushed]; rewrite ?be_bytes_length; lia).
    unfold m2. rewrite pushed_bytes
      by (try assumption; rewrite be_bytes_length; unfold m1; cbn [off]; lia).
    reflexivity.
Qed.


(** X19.  A frame from the switch whose first word after the switch header
    is 0xffffffff is a control frame.  It goes to the inside, once, behind
    a route header that is zero but for the switch header of the frame, with
    its label reversed, and the flags INCOMING and CTRLMSG; the word
    0xffffffff is taken out.  The state stays as it is.  (The setters of
    the two headers keep their sizes, and the frame has the head-room for
    the route header.) *)
Theorem switch_control_frame_goes_inside (msg : Message) (sm : SessionManager_pvt) :
  (forall l h, Z.of_nat (length h) = SwitchHeader_SIZE ->
               Z.of_nat (length (SwitchHeader_set_label_be l h)) = SwitchHeader_SIZE) ->
  (forall f h, Z.of_nat (length h) = RouteHeader_SIZE ->
               Z.of_nat (length (RouteHeader_set_flags f h)) = RouteHeader_SIZE) ->
  0 <= SwitchHeader_SIZE -> 0 <= RouteHeader_sh ->
  RouteHeader_sh + SwitchHeader_SIZE <= RouteHeader_SIZE ->
  Message_ok msg ->
  SwitchHeader_SIZE + 4 <= len msg ->
  RouteHeader_SIZE <= off msg + SwitchHeader_SIZE + 4 ->
  nonceOrHandle msg = 0xffffffff ->
  let sh := Message_struct msg (off msg) SwitchHeader_SIZE in
  let sh' := SwitchHeader_set_label_be (Bits_bitReverse64 (SwitchHeader_label_be sh)) sh in
  let rh := RouteHeader_set_flags
              (Z.lor RouteHeader_flags_INCOMING RouteHeader_flags_CTRLMSG)
              (mem_write (zeros RouteHeader_SIZE) RouteHeader_sh sh') in
  exists out,
    incomingFromSwitchIf msg sm = Ok (tt, sm, [InsideIf out])
    /\ Message_bytes out
       = rh ++ mem_read (buf msg) (off msg + SwitchHeader_SIZE + 4)
                 (len msg - SwitchHeader_SIZE - 4).
Proof.
  intros Hlabel Hflags Hsh0 Hrsh Hin (Hoff & Hlen0 & Hbuf) Hlen Hroom Hnonce sh sh' rh.
  assert (Hshlen : Z.of_nat (length sh) = SwitchHeader_SIZE)
    by (apply mem_read_length; lia).
  assert (Hshlen' : Z.of_nat (length sh') = SwitchHeader_SIZE)
    by (apply Hlabel; assumption).
  assert (Hrhlen : Z.of_nat (length rh) = RouteHeader_SIZE).
  { apply Hflags. rewrite mem_write_length by (rewrite ?zeros_length; lia).
    apply zeros_length. lia. }
  assert (Hbuf' : length (buf (reversed msg)) = length (buf msg)).
  { unfold reversed, Message_setStruct, Message_struct. cbn [buf off len].
    change (mem_read (buf msg) (off msg) SwitchHeader_SIZE) with sh. fold sh'.
    apply mem_write_length; lia. }
  assert (Hhdr : mem_read (buf (reversed msg)) (off msg) SwitchHeader_SIZE = sh').
  { unfold reversed, Message_setStruct, Message_struct. cbn [buf off len].
    change (mem_read (buf msg) (off msg) SwitchHeader_SIZE) with sh. fold sh'.
    rewrite <- Hshlen' at 1. apply mem_read_write_same; lia. }
  assert (Hrest : forall q n, off msg + SwitchHeader_SIZE <= q ->
                    mem_read (buf (reversed msg)) q n = mem_read (buf msg) q n).
  { intros q n Hq. unfold reversed, Message_setStruct, Message_struct. cbn [buf off len].
    change (mem_read (buf msg) (off msg) SwitchHeader_SIZE) with sh. fold sh'.
    apply mem_read_write_after; lia. }
  set (m2 := mkMessage (buf (reversed msg)) (off msg + SwitchHeader_SIZE + 4)
               (len msg - SwitchHeader_SIZE - 4)).
  assert (H2 : Message_ok m2) by (unfold Message_ok, m2; cbn [off len buf]; lia).
  exists (pushed m2 rh). split.
  - unfold incomingFromSwitchIf.
    replace (len msg <? SwitchHeader_SIZE + 4) with false by (symmetry; apply Z.ltb_ge; lia).
    rewrite Message_eshift_neg by lia. rewrite bind_Er_assert. cbv zeta.
    fold (reversed msg). fold (nonceOrHandle msg).
    rewrite Hnonce, Z.eqb_refl.
    rewrite Message_eshift_ok
      by (unfold reversed, Message_setStruct; cbn [off len]; lia).
    rewrite bind_Er_assert. unfold ctrlFrame.
    rewrite Message_epop_ok
      by (unfold reversed, Message_setStruct; cbn [off len]; lia).
    rewrite bind_Er_assert. cbn [fst snd].
    rewrite Message_epop_ok
      by (unfold reversed, Message_setStruct; cbn [off len]; lia).
    rewrite bind_Er_assert. cbn [fst snd buf off len].
    assert (Hro : off (reversed msg) = off msg + SwitchHeader_SIZE) by reflexivity.
    assert (Hrl : len (reversed msg) = len msg - SwitchHeader_SIZE) by reflexivity.
    rewrite Hro, Hrl.
    replace (off msg + SwitchHeader_SIZE - SwitchHeader_SIZE + SwitchHeader_SIZE + 4)
      with (off msg + SwitchHeader_SIZE + 4) by lia.
    replace (len msg - SwitchHeader_SIZE + SwitchHeader_SIZE - SwitchHeader_SIZE - 4)
      with (len msg - SwitchHeader_SIZE - 4) by lia.
    replace (off msg + SwitchHeader_SIZE - SwitchHeader_SIZE) with (off msg) by lia.
    rewrite Hhdr. fold rh. fold m2.
    rewrite Message_epush_ok by (unfold m2; cbn [off len]; lia).
    rewrite bind_Er_assert. reflexivity.
  - rewrite pushed_bytes by (try assumption; unfold m2; cbn [off]; lia).
    f_equal. unfold Message_bytes, m2. cbn [buf off len]. apply Hrest. lia.
Qed.


(** ** A message for a node that is not known *)

(** X20.  A message from the inside for an address that has no session,
    whose route header has no key or no version, cannot be sent.  If its
    content is CJDHT the handler ends in a fatal assertion.  Otherwise,
    when no message is buffered for the address and the table of buffered
    messages has room, the message is put at the end of the table with the
    current time and a fresh allocator, and one SEARCH_REQ event for the
    address is sent; the sessions are as before. *)
Theorem message_for_unknown_node_is_buffered (msg : Message) (sm : SessionManager_pvt) :
  0 <= DataHeader_SIZE ->
  RouteHeader_SIZE + DataHeader_SIZE <= len msg ->
  let rh := Message_struct msg (off msg) RouteHeader_SIZE in
  Z.land (RouteHeader_flags rh) RouteHeader_flags_CTRLMSG = 0 ->
  Map_indexForKey (RouteHeader_ip6 rh) (ifaceMap sm) = None ->
  Bits_isZero (RouteHeader_publicKey rh) = true \/ RouteHeader_version_be rh = 0 ->
  (isCJDHT msg = true -> incomingFromInsideIf msg sm = Fatal)
  /\ (isCJDHT msg = false ->
      Map_indexForKey (RouteHeader_ip6 rh) (bufMap sm) = None ->
      Map_count (bufMap sm) < maxBufferedMessages sm ->
      exists sm',
        incomingFromInsideIf msg sm
        = Ok (tt, sm', [searchEvent (RouteHeader_ip6 rh) (RouteHeader_version_be rh)])
        /\ Map_entries (bufMap sm')
           = Map_entries (bufMap sm)
               ++ [mkEntry (RouteHeader_ip6 rh) (Map_nextHandle (bufMap sm))
                     (mkBuffered msg (nextAlloc sm) (eventBase sm))]
        /\ liveAllocs sm' = nextAlloc sm :: liveAllocs sm
        /\ ifaceMap sm' = ifaceMap sm).
Proof.
  intros Hdh Hlen rh Hflag Hnone Hcold.
  assert (Hstart : incomingFromInsideIf msg sm = needsLookup msg false sm).
  { unfold incomingFromInsideIf.
    replace (RouteHeader_SIZE <=? len msg) with true by (symmetry; apply Z.leb_le; lia).
    rewrite bind_assert_true. cbv zeta. fold rh.
    rewrite Hflag. cbn [Z.eqb negb].
    replace (RouteHeader_SIZE + DataHeader_SIZE <=? len msg) with true
      by (symmetry; apply Z.leb_le; lia).
    rewrite bind_assert_true.
    rewrite (bind_run _ (sessionForIp6_none _ _ Hnone)), prepend_nil.
    replace (negb (Bits_isZero (RouteHeader_publicKey rh))
             && negb (RouteHeader_version_be rh =? 0)) with false; [reflexivity|].
    destruct Hcold as [H|H]; rewrite H; cbn [negb andb Z.eqb]; [reflexivity|].
    rewrite andb_false_r. reflexivity. }
  rewrite Hstart. split.
  - intros Hdht. apply needsLookup_CJDHT. assumption.
  - intros Hdht Hbuf Hroom.
    rewrite needsLookup_run by assumption. cbv zeta. fold rh.
    assert (Hd : displaced (RouteHeader_ip6 rh) sm = sm)
      by (unfold displaced; rewrite Hbuf; reflexivity).
    assert (Hm : madeRoom sm = sm).
    { unfold madeRoom.
      replace (maxBufferedMessages sm <=? Map_count (bufMap sm)) with false
        by (symmetry; apply Z.leb_gt; lia).
      reflexivity. }
    rewrite Hd, Hm.
    replace (maxBufferedMessages sm <=? Map_count (bufMap sm)) with false
      by (symmetry; apply Z.leb_gt; lia).
    eexists. split; [reflexivity|].
    unfold buffered, Map_put. rewrite Hbuf. cbn. repeat split.
Qed.


(** ** A frame that authenticates *)

(** X21.  A data frame from the switch (its first word is a handle) that
    reaches the decryption with session [i] and is decrypted without error,
    the decrypted content [md] lying where the route header ends.  The
    session gets the new state of the crypto session, its [bytesIn] grows by
    the length of the message that goes to the inside, its
    [timeOfKeepAliveIn] becomes the current time and so does its
    [timeOfLastIn] unless the content is CJDHT.  The path of the frame
    becomes the receive label of the session, and its send label if that
    was 0; when the receive label changes one DISCOVERED_PATH event is sent.
    Then the message goes to the inside, once, under a route header with
    the version, the address and the key of the session and the flag
    INCOMING. *)
Theorem authenticated_frame_reaches_the_inside
    (msg : Message) (sm sm1 : SessionManager_pvt) (o1 : list Output) (i : nat)
    (mX md : Message) (s : Session) (ca : CryptoAuth_Session) :
  0 <= SwitchHeader_SIZE ->
  SwitchHeader_SIZE + 24 <= len msg ->
  nonceOrHandle msg <> 0xffffffff -> 3 < nonceOrHandle msg ->
  beforeDecrypt msg sm = Ok (Some (i, mX), sm1, o1) ->
  sessionAt sm1 i = Some s ->
  CryptoAuth_decrypt (caSession s) mX = (0, ca, md) ->
  off md = off msg - RouteHeader_sh + RouteHeader_SIZE ->
  RouteHeader_SIZE <= off md -> 0 <= len md + RouteHeader_SIZE ->
  DataHeader_SIZE <= len md + RouteHeader_SIZE ->
  let now := eventBase sm1 in
  let m2 := mkMessage (buf md) (off md - RouteHeader_SIZE) (len md + RouteHeader_SIZE) in
  let rh := RouteHeader_set_flags RouteHeader_flags_INCOMING
              (RouteHeader_set_unused 0
                 (RouteHeader_set_publicKey (herPublicKey ca)
                    (RouteHeader_set_ip6 (herIp6 ca)
                       (RouteHeader_set_version_be (version s)
                          (Message_struct m2 (off m2) RouteHeader_SIZE))))) in
  let out := Message_setStruct m2 (off m2) rh in
  let path := SwitchHeader_label_be (Message_struct out (off msg) SwitchHeader_SIZE) in
  let s1 := set_caSession ca s in
  let s2 := set_timeOfKeepAliveIn now
              (set_bytesIn (bytesIn s + len m2)
                 (if isCJDHT m2 then s1 else set_timeOfLastIn now s1)) in
  let s3 := if sendSwitchLabel s =? 0 then set_sendSwitchLabel path s2 else s2 in
  let s4 := if path =? recvSwitchLabel s then s3 else set_recvSwitchLabel path s3 in
  incomingFromSwitchIf msg sm
  = Ok (tt, set_ifaceMap (Map_update (ifaceMap sm1) i (fun _ => s4)) sm1,
        o1 ++ (if path =? recvSwitchLabel s then []
               else [sessionEvent s4 path 0xffffffff PFChan_Core_DISCOVERED_PATH])
           ++ [InsideIf out])
  /\ Forall isEvent o1.
Proof.
  intros Hsh0 Hlen Hctrl Hhandle Hpre Hs Hdec Hlay Hroom Hlen2 Hdh
         now m2 rh out path s1 s2 s3 s4.
  split; [|exact (emits_beforeDecrypt _ _ Hpre)].
  assert (Hrlen : len (reversed msg) = len msg - SwitchHeader_SIZE) by reflexivity.
  rewrite incomingFromSwitchIf_beforeDecrypt by (try assumption; lia).
  rewrite (bind_run _ Hpre). f_equal.
  unfold incomingFromSwitchIf_decrypt.
  rewrite (bind_read _ Hs). rewrite Hdec. rewrite bind_write.
  cbn [Z.eqb negb].
  replace (nonceOrHandle msg <=? 3) with false by (symmetry; apply Z.leb_gt; lia).
  rewrite bind_ret.
  rewrite Message_eshift_ok by lia. rewrite bind_Er_assert. fold m2.
  replace (DataHeader_SIZE <=? len m2) with true
    by (symmetry; apply Z.leb_le; unfold m2; cbn [len]; lia).
  rewrite bind_assert_true.
  unfold Time_currentTimeMilliseconds. rewrite bind_assoc, bind_get, bind_ret.
  cbn [eventBase set_ifaceMap]. fold now.
  change (DataHeader_getContentType
            (Message_struct m2 (off m2 + RouteHeader_SIZE) DataHeader_SIZE)
          =? ContentType_CJDHT) with (isCJDHT m2).
  replace (off m2 + RouteHeader_sh =? off msg) with true
    by (symmetry; apply Z.eqb_eq; unfold m2; cbn [off]; lia).
  assert (Hfin : forall (f : Session -> Session) (o : list Output),
             f s = s4 ->
             Ok (tt, set_ifaceMap (Map_update (ifaceMap sm1) i f) sm1, o)
             = Ok (tt, set_ifaceMap (Map_update (ifaceMap sm1) i (fun _ => s4)) sm1, o)).
  { intros f o Hf.
    replace (Map_update (ifaceMap sm1) i f)
      with (Map_update (ifaceMap sm1) i (fun _ => s4)); [reflexivity|].
    symmetry. apply Map_update_at. intros e He.
    unfold sessionAt in Hs. rewrite He in Hs. injection Hs as ->. exact Hf. }
  destruct (isCJDHT m2) eqn:Hdht; cbn [negb];
    repeat first [rewrite bind_assoc | rewrite bind_ret | rewrite bind_write
                 | rewrite write_write | rewrite bind_assert_true];
    (erewrite bind_read by (rewrite sessionAt_update, Hs; reflexivity));
    cbn [option_map];
    cbn [sendSwitchLabel recvSwitchLabel caSession version bytesIn
         set_timeOfKeepAliveIn set_bytesIn set_caSession set_timeOfLastIn];
    fold rh; fold out; fold path;
    destruct (sendSwitchLabel s =? 0) eqn:Hsend;
    destruct (path =? recvSwitchLabel s) eqn:Hpath; cbn [negb];
    repeat first [rewrite bind_assoc | rewrite bind_ret | rewrite bind_write
                 | rewrite write_write];
    try match goal with
        | |- context [bind (sendSession i path _ _) _ ?st] =>
            let Hs4 := fresh "Hs4" in
            assert (Hs4 : sessionAt st i = Some s4)
              by (rewrite sessionAt_update, Hs; cbn [option_map]; unfold s4, s3, s2, s1;
                  rewrite ?Hdht, ?Hsend, ?Hpath; reflexivity);
            rewrite (bind_run _ (sendSession_run path 0xffffffff
                                   PFChan_Core_DISCOVERED_PATH Hs4))
        end;
    unfold Iface_send, ret; cbn [prepend app];
    apply Hfin; unfold s4, s3, s2, s1; rewrite ?Hdht, ?Hsend, ?Hpath; reflexivity.
Qed.


(** ** Data for a session that is not set up *)






(** ** A message that is sent *)

(** X23.  [readyToSend] for a session whose crypto session has the key of
    the peer, before and after the encryption, the encrypted message
    beginning where the handle goes behind the switch header.  The session
    gets the new state of the crypto session, its [bytesOut] grows by the
    length of the message without its route header, and its
    [timeOfLastOut] becomes the current time unless the content is CJDHT.
    One frame goes to the switch: the switch header that was in the route
    header (or, if its label is 0, a fresh one with the send label of the
    session), the send handle of the session, and the encrypted message. *)
Theorem readyToSend_sends_to_the_switch
    (msg : Message) (sm : SessionManager_pvt) (i : nat) (s : Session)
    (ca : CryptoAuth_Session) (me : Message) :
  0 <= RouteHeader_SIZE -> 0 <= SwitchHeader_SIZE ->
  sessionAt sm i = Some s ->
  RouteHeader_SIZE <= len msg ->
  let now := eventBase sm in
  let m1 := mkMessage (buf msg) (off msg + RouteHeader_SIZE) (len msg - RouteHeader_SIZE) in
  let s1 := set_caSession
              (CryptoAuth_resetIfTimeout now
                 (caSession (if isCJDHT msg then s else set_timeOfLastOut now s)))
              (if isCJDHT msg then s else set_timeOfLastOut now s) in
  CryptoAuth_State_RECEIVED_KEY <= CryptoAuth_getState (caSession s1) ->
  CryptoAuth_encrypt (caSession s1) m1 = (0, ca, me) ->
  CryptoAuth_State_RECEIVED_KEY <= CryptoAuth_getState ca ->
  off me = off msg + RouteHeader_sh + SwitchHeader_SIZE + 4 ->
  0 <= off msg + RouteHeader_sh -> 0 <= len me ->
  let m3 := pushed me (be_bytes 4 (sendHandle s)) in
  let m4 := mkMessage (buf m3) (off msg + RouteHeader_sh) (len m3 + SwitchHeader_SIZE) in
  let out := if SwitchHeader_label_be (Message_struct m4 (off m4) SwitchHeader_SIZE) =? 0
             then Message_setStruct m4 (off m4)
                    (SwitchHeader_setVersion
                       (SwitchHeader_set_label_be (sendSwitchLabel s)
                          (zeros SwitchHeader_SIZE))
                       SwitchHeader_CURRENT_VERSION)
             else m4 in
  readyToSend msg i sm
  = Ok (tt,
        set_ifaceMap
          (Map_update (ifaceMap sm) i
             (fun _ => set_caSession ca (set_bytesOut (bytesOut s + len m1) s1))) sm,
        [SwitchIf out]).
Proof.
  intros Hrh0 Hsh0 Hs Hlen now m1 s1 Hstate Henc Hstate' Hlay Hroom Hlen' m3 m4 out.
  assert (Hfin : forall (f : Session -> Session) (o : list Output),
             f s = set_caSession ca (set_bytesOut (bytesOut s + len m1) s1) ->
             Ok (tt, set_ifaceMap (Map_update (ifaceMap sm) i f) sm, o)
             = Ok (tt, set_ifaceMap
                         (Map_update (ifaceMap sm) i
                            (fun _ => set_caSession ca
                                        (set_bytesOut (bytesOut s + len m1) s1))) sm, o)).
  { intros f o Hf.
    replace (Map_update (ifaceMap sm) i f)
      with (Map_update (ifaceMap sm) i
              (fun _ => set_caSession ca (set_bytesOut (bytesOut s + len m1) s1)));
      [reflexivity|].
    symmetry. apply Map_update_at. intros e He.
    unfold sessionAt in Hs. rewrite He in Hs. injection Hs as ->. exact Hf. }
  apply Z.leb_le in Hstate'. apply Z.ltb_ge in Hstate.
  unfold readyToSend. cbv zeta.
  unfold Time_currentTimeMilliseconds. rewrite bind_assoc, bind_get, bind_ret. fold now.
  change (DataHeader_getContentType
            (Message_struct msg (off msg + RouteHeader_SIZE) DataHeader_SIZE)
          =? ContentType_CJDHT) with (isCJDHT msg).
  rewrite Message_eshift_neg by lia. fold m1.
  unfold s1 in Hstate, Henc.
  destruct (isCJDHT msg) eqn:Hdht; cbn [negb];
    repeat first [rewrite bind_assoc | rewrite bind_ret | rewrite bind_write
                 | rewrite write_write | rewrite bind_Er_assert];
    (erewrite bind_read by (rewrite sessionAt_update, Hs; reflexivity));
    cbn [option_map];
    cbn [caSession set_caSession set_timeOfLastOut] in Hstate, Henc |- *;
    rewrite Hstate;
    repeat first [rewrite bind_assoc | rewrite bind_ret | rewrite bind_write
                 | rewrite write_write];
    cbv beta iota; rewrite Henc;
    repeat first [rewrite bind_assoc | rewrite bind_ret | rewrite bind_write
                 | rewrite write_write];
    cbn [Z.eqb]; rewrite bind_assert_true;
    (erewrite bind_read by (rewrite sessionAt_update, Hs; reflexivity));
    cbn [option_map]; rewrite Hstate';
    cbn [sendHandle sendSwitchLabel bytesOut set_caSession set_bytesOut set_timeOfLastOut];
    unfold Message_epush32be;
    (rewrite Message_epush_ok by (rewrite ?be_bytes_length; lia));
    rewrite bind_Er_assert; fold m3;
    (rewrite Message_eshift_ok
       by (unfold m3; cbn [off len pushed]; rewrite ?be_bytes_length; lia));
    rewrite bind_Er_assert;
    replace (off m3 - SwitchHeader_SIZE) with (off msg + RouteHeader_sh)
      by (unfold m3; cbn [off pushed]; rewrite be_bytes_length; lia);
    fold m4; cbn [off]; rewrite Z.eqb_refl, bind_assert_true;
    unfold Iface_send; apply Hfin; unfold s1; rewrite ?Hdht; reflexivity.
Qed.


(** ** A node for which a message waits *)

Lemma check_bufMap (j : nat) (sm sm1 : SessionManager_pvt) (o : list Output) :
  check j sm = Ok (tt, sm1, o) -> bufMap sm1 = bufMap sm.
Proof.
  intros H. destruct (check_run H) as (s & _ & [Hr|Hr]); injection Hr as ->; reflexivity.
Qed.

(** X24.  A NODE event for an address that has a session and for which a
    message is buffered.  The session is updated as by [getSession].  While
    the crypto session has not received the key of the peer the message
    stays in the table and an UNSETUP_SESSION event is sent (if the session
    has a version and a path).  Once it has the key, the buffered message is
    handed to [readyToSend]; then its slot is taken out of the table of
    buffered messages and its allocator is freed. *)
Theorem node_event_sends_the_buffered_message
    (msg : Message) (sm sm1 : SessionManager_pvt) (i j : nat) (o : list Output)
    (s : Session) (e : Map_Entry BufferedMessage) :
  len msg = 8 + PFChan_Node_SIZE ->
  be_value (mem_read (buf msg) (off msg) 4) = PFChan_Pathfinder_NODE ->
  PFChan_Pathfinder_NODE <> PFChan_Pathfinder_SESSIONS ->
  let node := PFChan_Node_decode (mem_read (buf msg) (off msg + 8) PFChan_Node_SIZE) in
  AddressCalc_validAddress (node_ip6 node) = true ->
  Map_indexForKey (node_ip6 node) (bufMap sm) = Some j ->
  Map_entry (bufMap sm) j = Some e ->
  sessionForIp6 (node_ip6 node) sm = Ok (Some i, sm1, o) ->
  sessionAt sm1 i = Some s ->
  let s' := updateExisting (version_be node) (path_be node) (metric_be node) 0 s in
  let sm2 := set_ifaceMap (Map_update (ifaceMap sm1) i
                             (updateExisting (version_be node) (path_be node)
                                (metric_be node) 0)) sm1 in
  (CryptoAuth_getState (caSession s') < CryptoAuth_State_RECEIVED_KEY ->
   incomingFromEventIf msg sm
   = Ok (tt, sm2, o ++ (if unsetupPossible s' then [unsetupEvent s'] else []))
   /\ bufMap sm2 = bufMap sm)
  /\ (CryptoAuth_State_RECEIVED_KEY <= CryptoAuth_getState (caSession s') ->
      forall sm3 o3,
        readyToSend (bm_msg (Map_value e)) i sm2 = Ok (tt, sm3, o3) ->
        incomingFromEventIf msg sm
        = Ok (tt,
              set_allocs (remove Z.eq_dec (bm_alloc (Map_value e)) (liveAllocs sm3))
                (nextAlloc sm3) (set_bufMap (Map_remove j (bufMap sm)) sm3),
              o ++ o3)
        /\ bufMap sm3 = bufMap sm).
Proof.
  intros Hsize Hev Hne node Hvalid Hbuf He Hfind Hs s' sm2.
  pose proof Node_SIZE_nonneg as Hn.
  destruct (sessionForIp6_inv _ _ Hfind) as [Hidx Hcheck].
  assert (Hb1 : bufMap sm1 = bufMap sm) by exact (check_bufMap _ _ Hcheck).
  assert (Hb2 : bufMap sm2 = bufMap sm) by exact Hb1.
  assert (Hfind1 : sessionForIp6 (node_ip6 node) sm1 = Ok (Some i, sm1, [])).
  { unfold sessionForIp6. rewrite bind_get.
    replace (Map_indexForKey (node_ip6 node) (ifaceMap sm1)) with (Some i).
    - rewrite (bind_run _ (check_again _ _ Hcheck)). reflexivity.
    - destruct (check_run Hcheck) as (s0 & _ & [Hr|Hr]); injection Hr as ->.
      + symmetry. assumption.
      + rewrite <- Hidx. cbn [ifaceMap set_ifaceMap].
        symmetry. apply Map_indexForKey_update. }
  assert (Hs2 : sessionAt sm2 i = Some s').
  { unfold sm2. rewrite sessionAt_update, Hs. reflexivity. }
  assert (Hstart : incomingFromEventIf msg sm
                   = prepend o
                       ((if CryptoAuth_State_RECEIVED_KEY <=? CryptoAuth_getState (caSession s')
                         then
                           readyToSend (bm_msg (Map_value e)) i ;;;
                           Map_removeBuffered j ;;;
                           Allocator_free (bm_alloc (Map_value e))
                         else unsetupSession i) sm2)).
  { rewrite incomingFromEventIf_node by (try assumption; lia). cbv zeta. fold node.
    rewrite Hbuf. rewrite (bind_run _ Hfind). f_equal.
    rewrite (bind_run _ (getSession_existing _ _ _ _ _ _ _ Hvalid Hfind1)), prepend_nil.
    fold sm2. rewrite (bind_read _ Hs2). rewrite bind_get.
    rewrite Hb2, He. reflexivity. }
  rewrite Hstart. split.
  - intros Hstate.
    replace (CryptoAuth_State_RECEIVED_KEY <=? CryptoAuth_getState (caSession s'))
      with false by (symmetry; apply Z.leb_gt; lia).
    rewrite (unsetupSession_run Hs2). split; [reflexivity | exact Hb2].
  - intros Hstate sm3 o3 Hsend.
    replace (CryptoAuth_State_RECEIVED_KEY <=? CryptoAuth_getState (caSession s'))
      with true by (symmetry; apply Z.leb_le; lia).
    assert (Hb3 : bufMap sm3 = bufMap sm).
    { rewrite <- Hb2.
      eapply (@frame_readyToSend (fun st => bufMap st = bufMap sm2));
        [intros m st H; exact H | reflexivity | exact Hsend]. }
    split; [|exact Hb3].
    rewrite (bind_run _ Hsend). unfold Map_removeBuffered, Allocator_free.
    rewrite !bind_modify. rewrite Hb3. unfold modify.
    cbn [prepend liveAllocs nextAlloc set_bufMap]. rewrite app_nil_r. reflexivity.
Qed.


(** X25.  A handshake from the switch (its first word is a nonce, at most
    3) that reaches the decryption with session [i] and is decrypted
    without error.  The first word of the decrypted content is the handle
    the peer wants to be addressed with: it becomes the send handle of the
    session.  The rest is handled as for a data frame: the counters of
    incoming traffic are updated, the switch header is copied into the
    route header, the path of the frame becomes the receive label (and the
    send label if that was 0, with a DISCOVERED_PATH event when the receive
    label changes), and the message goes to the inside, once. *)
Theorem handshake_sets_the_send_handle
    (msg : Message) (sm sm1 : SessionManager_pvt) (o1 : list Output) (i : nat)
    (mX md : Message) (s : Session) (ca : CryptoAuth_Session) :
  0 <= SwitchHeader_SIZE -> 0 <= RouteHeader_SIZE ->
  SwitchHeader_SIZE + 24 <= len msg ->
  nonceOrHandle msg <= 3 ->
  beforeDecrypt msg sm = Ok (Some (i, mX), sm1, o1) ->
  sessionAt sm1 i = Some s ->
  CryptoAuth_decrypt (caSession s) mX = (0, ca, md) ->
  4 <= len md ->
  RouteHeader_SIZE <= off md + 4 -> DataHeader_SIZE <= len md - 4 + RouteHeader_SIZE ->
  let now := eventBase sm1 in
  let handle := be_value (mem_read (buf md) (off md) 4) in
  let m2 := mkMessage (buf md) (off md + 4 - RouteHeader_SIZE)
              (len md - 4 + RouteHeader_SIZE) in
  let m3 := Message_setStruct m2 (off m2 + RouteHeader_sh)
              (Message_struct m2 (off msg) SwitchHeader_SIZE) in
  let rh := RouteHeader_set_flags RouteHeader_flags_INCOMING
              (RouteHeader_set_unused 0
                 (RouteHeader_set_publicKey (herPublicKey ca)
                    (RouteHeader_set_ip6 (herIp6 ca)
                       (RouteHeader_set_version_be (version s)
                          (Message_struct m3 (off m2) RouteHeader_SIZE))))) in
  let out := Message_setStruct m3 (off m2) rh in
  let path := SwitchHeader_label_be (Message_struct out (off msg) SwitchHeader_SIZE) in
  let s1 := set_sendHandle handle (set_caSession ca s) in
  let s2 := set_timeOfKeepAliveIn now
              (set_bytesIn (bytesIn s + len m2)
                 (if isCJDHT m2 then s1 else set_timeOfLastIn now s1)) in
  let s3 := if sendSwitchLabel s =? 0 then set_sendSwitchLabel path s2 else s2 in
  let s4 := if path =? recvSwitchLabel s then s3 else set_recvSwitchLabel path s3 in
  incomingFromSwitchIf msg sm
  = Ok (tt, set_ifaceMap (Map_update (ifaceMap sm1) i (fun _ => s4)) sm1,
        o1 ++ (if path =? recvSwitchLabel s then []
               else [sessionEvent s4 path 0xffffffff PFChan_Core_DISCOVERED_PATH])
           ++ [InsideIf out])
  /\ sendHandle s4 = handle.
Proof.
  intros Hsh0 Hrh0 Hlen Hnonce Hpre Hs Hdec Hlen4 Hroom Hdh
         now handle m2 m3 rh out path s1 s2 s3 s4.
  split;
    [|unfold s4, s3, s2, s1;
      destruct (path =? recvSwitchLabel s); destruct (sendSwitchLabel s =? 0);
      destruct (isCJDHT m2); reflexivity].
  assert (Hrlen : len (reversed msg) = len msg - SwitchHeader_SIZE) by reflexivity.
  assert (Hctrl : nonceOrHandle msg <> 0xffffffff) by lia.
  rewrite incomingFromSwitchIf_beforeDecrypt by (try assumption; lia).
  rewrite (bind_run _ Hpre). f_equal.
  unfold incomingFromSwitchIf_decrypt.
  rewrite (bind_read _ Hs). rewrite Hdec. rewrite bind_write.
  cbn [Z.eqb negb].
  replace (nonceOrHandle msg <=? 3) with true by (symmetry; apply Z.leb_le; lia).
  rewrite Message_epop32be_ok by lia.
  repeat first [rewrite bind_assoc | rewrite bind_ret | rewrite bind_write
               | rewrite write_write | rewrite bind_Er_assert].
  cbn [fst snd]. fold handle.
  rewrite Message_eshift_ok by (cbn [off len]; lia).
  cbn [buf off len]. fold m2. rewrite bind_Er_assert.
  replace (DataHeader_SIZE <=? len m2) with true
    by (symmetry; apply Z.leb_le; unfold m2; cbn [len]; lia).
  rewrite bind_assert_true.
  unfold Time_currentTimeMilliseconds. rewrite bind_assoc, bind_get, bind_ret.
  cbn [eventBase set_ifaceMap]. fold now.
  change (DataHeader_getContentType
            (Message_struct m2 (off m2 + RouteHeader_SIZE) DataHeader_SIZE)
          =? ContentType_CJDHT) with (isCJDHT m2).
  fold m3.
  assert (Hfin : forall (f : Session -> Session) (o : list Output),
             f s = s4 ->
             Ok (tt, set_ifaceMap (Map_update (ifaceMap sm1) i f) sm1, o)
             = Ok (tt, set_ifaceMap (Map_update (ifaceMap sm1) i (fun _ => s4)) sm1, o)).
  { intros f o Hf.
    replace (Map_update (ifaceMap sm1) i f)
      with (Map_update (ifaceMap sm1) i (fun _ => s4)); [reflexivity|].
    symmetry. apply Map_update_at. intros e He.
    unfold sessionAt in Hs. rewrite He in Hs. injection Hs as ->. exact Hf. }
  destruct (isCJDHT m2) eqn:Hdht; cbn [negb];
    repeat first [rewrite bind_assoc | rewrite bind_ret | rewrite bind_write
                 | rewrite write_write | rewrite bind_assert_true];
    (erewrite bind_read by (rewrite sessionAt_update, Hs; reflexivity));
    cbn [option_map];
    cbn [sendSwitchLabel recvSwitchLabel caSession version bytesIn
         set_timeOfKeepAliveIn set_bytesIn set_caSession set_timeOfLastIn set_sendHandle];
    fold rh; fold out; fold path;
    destruct (sendSwitchLabel s =? 0) eqn:Hsend;
    destruct (path =? recvSwitchLabel s) eqn:Hpath; cbn [negb];
    repeat first [rewrite bind_assoc | rewrite bind_ret | rewrite bind_write
                 | rewrite write_write];
    try match goal with
        | |- context [bind (sendSession i path _ _) _ ?st] =>
            let Hs4 := fresh "Hs4" in
            assert (Hs4 : sessionAt st i = Some s4)
              by (rewrite sessionAt_update, Hs; cbn [option_map]; unfold s4, s3, s2, s1;
                  rewrite ?Hdht, ?Hsend, ?Hpath; reflexivity);
            rewrite (bind_run _ (sendSession_run path 0xffffffff
                                   PFChan_Core_DISCOVERED_PATH Hs4))
        end;
    unfold Iface_send, ret; cbn [prepend app];
    apply Hfin; unfold s4, s3, s2, s1; rewrite ?Hdht, ?Hsend, ?Hpath; reflexivity.
Qed.


(** X26.  A message from the inside for a session that has a version, the
    message naming a path, is handed to [readyToSend] when its content is
    CJDHT, whatever the state of the crypto session, and when the crypto
    session has received the key of the peer; before that the session has
    got the version of the route header, if that is not 0, and its crypto
    session has been reset if it had timed out. *)
Theorem message_for_a_session_is_sent
    (msg : Message) (sm sm1 : SessionManager_pvt) (i : nat) (o1 : list Output)
    (s : Session) :
  0 <= DataHeader_SIZE ->
  RouteHeader_SIZE + DataHeader_SIZE <= len msg ->
  let rh := Message_struct msg (off msg) RouteHeader_SIZE in
  Z.land (RouteHeader_flags rh) RouteHeader_flags_CTRLMSG = 0 ->
  sessionForIp6 (RouteHeader_ip6 rh) sm = Ok (Some i, sm1, o1) ->
  sessionAt sm1 i = Some s ->
  let s1 := if RouteHeader_version_be rh =? 0 then s
            else set_version (RouteHeader_version_be rh) s in
  version s1 <> 0 ->
  SwitchHeader_label_be (Message_struct msg (off msg + RouteHeader_sh) SwitchHeader_SIZE)
  <> 0 ->
  let s2 := set_caSession (CryptoAuth_resetIfTimeout (eventBase sm1) (caSession s1)) s1 in
  isCJDHT msg = true
  \/ CryptoAuth_State_RECEIVED_KEY <= CryptoAuth_getState (caSession s2) ->
  incomingFromInsideIf msg sm
  = prepend o1
      (readyToSend msg i
         (set_ifaceMap (Map_update (ifaceMap sm1) i (fun _ => s2)) sm1)).
Proof.
  intros Hdh Hlen rh Hflag Hfind Hs s1 Hver Hlabel s2 Hcase.
  set (st := set_ifaceMap (Map_update (ifaceMap sm1) i (fun _ => s2)) sm1).
  assert (Hfin : forall f : Session -> Session, f s = s2 ->
             set_ifaceMap (Map_update (ifaceMap sm1) i f) sm1 = st).
  { intros f Hf. unfold st. f_equal. apply Map_update_at. intros e He.
    unfold sessionAt in Hs. rewrite He in Hs. injection Hs as ->. exact Hf. }
  assert (Hcond : negb (isCJDHT msg)
                  && (CryptoAuth_getState (caSession s2) <? CryptoAuth_State_RECEIVED_KEY)
                  = false).
  { destruct Hcase as [H|H].
    - rewrite H. reflexivity.
    - apply Z.ltb_ge in H. rewrite H. apply andb_false_r. }
  unfold incomingFromInsideIf.
  replace (RouteHeader_SIZE <=? len msg) with true by (symmetry; apply Z.leb_le; lia).
  rewrite bind_assert_true. cbv zeta. fold rh.
  rewrite Hflag. cbn [Z.eqb negb].
  replace (RouteHeader_SIZE + DataHeader_SIZE <=? len msg) with true
    by (symmetry; apply Z.leb_le; lia).
  rewrite bind_assert_true.
  rewrite (bind_run _ Hfind). f_equal.
  apply Z.eqb_neq in Hlabel, Hver. rewrite Hlabel. cbn [negb].
  change (DataHeader_getContentType
            (Message_struct msg (off msg + RouteHeader_SIZE) DataHeader_SIZE)
          =? ContentType_CJDHT) with (isCJDHT msg).
  unfold s2, s1 in Hcond, Hver.
  unfold Time_currentTimeMilliseconds.
  destruct (RouteHeader_version_be rh =? 0) eqn:Hv; cbn [negb];
    repeat first [rewrite bind_assoc | rewrite bind_ret | rewrite bind_write
                 | rewrite write_write | rewrite bind_get];
    (erewrite bind_read by (first [exact Hs | rewrite sessionAt_update, Hs; reflexivity]));
    cbn [option_map]; rewrite Hver;
    repeat first [rewrite bind_assoc | rewrite bind_ret | rewrite bind_write
                 | rewrite write_write | rewrite bind_get];
    cbn [eventBase set_ifaceMap];
    (erewrite bind_read by (rewrite sessionAt_update, ?sessionAt_update, Hs; reflexivity));
    cbn [option_map]; cbn [caSession set_caSession set_version] in Hcond |- *;
    rewrite Hcond; (rewrite Hfin; [reflexivity|]); unfold s2, s1; rewrite ?Hv;
    reflexivity.
Qed.

(** X27.  A NODE event for an address that has no session but for which a
    message is buffered, with a metric that is not DEAD_LINK, asks
    [getSession] for a session: the handler ends in a fatal assertion when
    the address does not start with 0xfc, and when the key of the node is
    not zero and does not hash to the address. *)
Theorem node_event_with_a_wrong_key_is_fatal
    (msg : Message) (sm : SessionManager_pvt) (j : nat) :
  len msg = 8 + PFChan_Node_SIZE ->
  be_value (mem_read (buf msg) (off msg) 4) = PFChan_Pathfinder_NODE ->
  PFChan_Pathfinder_NODE <> PFChan_Pathfinder_SESSIONS ->
  let node := PFChan_Node_decode (mem_read (buf msg) (off msg + 8) PFChan_Node_SIZE) in
  Map_indexForKey (node_ip6 node) (ifaceMap sm) = None ->
  Map_indexForKey (node_ip6 node) (bufMap sm) = Some j ->
  Endian_raw32 (metric_be node) <> Metric_DEAD_LINK ->
  (AddressCalc_validAddress (node_ip6 node) = false -> incomingFromEventIf msg sm = Fatal)
  /\ (Bits_isZero (node_publicKey node) = false ->
      AddressCalc_hash (node_publicKey node) <> node_ip6 node ->
      incomingFromEventIf msg sm = Fatal).
Proof.
  intros Hsize Hev Hne node Hnone Hbuf Hmetric.
  pose proof Node_SIZE_nonneg as Hn.
  rewrite incomingFromEventIf_node by (try assumption; lia). cbv zeta. fold node.
  rewrite (bind_run _ (sessionForIp6_none _ _ Hnone)), prepend_nil.
  rewrite Hbuf. apply Z.eqb_neq in Hmetric. rewrite Hmetric.
  split.
  - intros Hinvalid. unfold getSession. rewrite Hinvalid. reflexivity.
  - intros Hkey Hhash. unfold getSession.
    destruct (AddressCalc_validAddress (node_ip6 node)); [|reflexivity].
    rewrite bind_assoc, bind_assert_true.
    rewrite bind_assoc, (bind_run _ (sessionForIp6_none _ _ Hnone)), prepend_nil.
    unfold Allocator_child. mnorm. cbv zeta. rewrite Hkey. cbn [negb].
    unfold AddressCalc_addressForPublicKey. cbn [fst].
    apply bytes_eqb_neq in Hhash. rewrite Hhash. reflexivity.
Qed.

End Events.

End Facts.

End SessionManagerFacts.

(** * Facts about the pathfinder *)

Module PathfinderFacts.

Import Pathfinder.

Section Facts.

Context {E : Externals} {D : Dht}.

Notation "x <- c1 ;; c2" := (pbind c1 (fun x => c2))
  (at level 61, c1 at next level, right associativity).
Notation "c1 ;;; c2" := (pbind c1 (fun _ => c2))
  (at level 61, right associativity).

(** ** The pathfinder while it is INITIALIZING *)

Lemma Message_epop_exact (m : Message) (size : Z) :
  0 <= len m -> len m = size ->
  Message_epop m size
  = Ok (mem_read (buf m) (off m) size, mkMessage (buf m) (off m + size) 0).
Proof.
  intros Hlen Hsize. unfold Message_epop, Message_eshift.
  replace (0 <? - size) with false by (symmetry; apply Z.ltb_ge; lia).
  replace (len m <? - - size) with false by (symmetry; apply Z.ltb_ge; lia).
  cbn. do 3 f_equal; lia.
Qed.

(** C8.  While the pathfinder is INITIALIZING, an event whose kind is not
    CONNECT ends in the fatal assertion: it is neither dispatched nor
    ignored.  A CONNECT event (whose payload is one [PFChan_Core_Connect])
    is handled by [connected] and makes the pathfinder RUNNING: its address
    gets the key of the payload, the prefix computed from it and the path 1;
    the registry, the rumor mill of capacity 64, the node store, the router
    module, the search runner, the janitor and the router are constructed
    for that address, in this order, each in the memory of the DHT that the
    one before has left, with the reply, encoding-scheme and serialization
    modules and the module of the pathfinder put into the registry, and the
    admin functions registered when there is an admin; the pathfinder holds
    the subsystems that were made, and nothing is sent. *)
Theorem initializing_accepts_only_connect
    (msg payload : Message) (ev : Z) (pf : Pathfinder_pvt) :
  state pf = Pathfinder_pvt_state_INITIALIZING ->
  Message_epop32be msg = Ok (ev, payload) ->
  (ev <> PFChan_Core_CONNECT -> incomingFromEventIf msg pf = Fatal)
  /\ (ev = PFChan_Core_CONNECT ->
      0 <= len payload -> len payload = PFChan_Core_Connect_SIZE ->
      let conn := mem_read (buf payload) (off payload) PFChan_Core_Connect_SIZE in
      let a := Address_getPrefix
                 (mkAddress (protocolVersion (myAddr pf)) (padding (myAddr pf))
                    (PFChan_Core_Connect_publicKey conn)
                    (ip6 (myAddr pf)) (path (myAddr pf))) in
      let myAddr' := mkAddress (protocolVersion a) (padding a) (key a) (ip6 a) 1 in
      let r1 := DHTModuleRegistry_new (world pf) in
      let registry' := fst r1 in
      let r2 := RumorMill_new myAddr' RUMORMILL_CAPACITY
                  (ReplyModule_register registry' (snd r1)) in
      let rumorMill' := fst r2 in
      let r3 := NodeStore_new myAddr' rumorMill' (snd r2) in
      let nodeStore' := fst r3 in
      let r4 := RouterModule_register registry' (key myAddr') nodeStore' (snd r3) in
      let routerModule := fst r4 in
      let r5 := SearchRunner_new nodeStore' routerModule (ip6 myAddr') rumorMill'
                  (snd r4) in
      let searchRunner' := fst r5 in
      let r6 := Router_new routerModule nodeStore' searchRunner'
                  (DHTModuleRegistry_register registry'
                     (SerializationModule_register registry'
                        (EncodingSchemeModule_register registry'
                           (Janitor_new LOCAL_MAINTENANCE_SEARCH_MILLISECONDS
                              GLOBAL_MAINTENANCE_SEARCH_MILLISECONDS
                              routerModule nodeStore' searchRunner' rumorMill'
                              (snd r5))))) in
      let router' := fst r6 in
      let w := if admin pf
               then SearchRunner_admin_register searchRunner'
                      (RouterModule_admin_register routerModule router'
                         (NodeStore_admin_register nodeStore' (snd r6)))
               else snd r6 in
      incomingFromEventIf msg pf
      = Ok (tt,
            mkPf (admin pf) Pathfinder_pvt_state_RUNNING myAddr' (Some registry')
                 (Some nodeStore') (Some router') (Some searchRunner')
                 (Some rumorMill') w,
            [])).
Proof.
  intros Hst Hpop.
  assert (Hdispatch : incomingFromEventIf msg pf
                      = (Assert_true (ev =? PFChan_Core_CONNECT) ;;; connected payload) pf).
  { unfold incomingFromEventIf, pbind at 1. unfold orAbort. rewrite Hpop.
    cbn [pret fst snd]. unfold pbind at 1. cbn [pget].
    rewrite Hst. cbn [Z.eqb Pathfinder_pvt_state_INITIALIZING].
    destruct ((Assert_true (ev =? PFChan_Core_CONNECT) ;;; connected payload) pf)
      as [[[u pf'] o]|]; [destruct u|]; reflexivity. }
  split.
  - intros Hne. rewrite Hdispatch. unfold pbind.
    apply Z.eqb_neq in Hne. rewrite Hne. reflexivity.
  - intros Heq Hlen Hsize. rewrite Hdispatch. unfold pbind at 1.
    apply Z.eqb_eq in Heq. rewrite Heq. cbn [Assert_true pret].
    unfold connected, pbind at 1.
    unfold orAbort. rewrite (Message_epop_exact payload Hlen Hsize).
    cbn [pret fst snd len]. cbn [Z.eqb Assert_true].
    unfold pbind, pret, pget, pset, construct, setup; cbn.
    destruct (admin pf) eqn:Hadmin; cbn; rewrite ?Hadmin; reflexivity.
Qed.


(** ** The pathfinder while it is RUNNING *)

Lemma pbind_orAbort A B (a : A) (k : A -> PM B) pf :
  pbind (orAbort (Ok a)) k pf = k a pf.
Proof.
  unfold pbind, orAbort, pret. destruct (k a pf) as [[[b pf'] o]|]; reflexivity.
Qed.

Lemma pbind_pget B (k : Pathfinder_pvt -> PM B) pf : pbind pget k pf = k pf pf.
Proof.
  unfold pbind, pget. destruct (k pf pf) as [[[b pf'] o]|]; reflexivity.
Qed.

Lemma pbind_fatal A B (k : A -> PM B) pf : pbind (orAbort Fatal) k pf = Fatal.
Proof. reflexivity. Qed.

Lemma pbind_assert_false B (k : unit -> PM B) pf :
  pbind (Assert_true false) k pf = Fatal.
Proof. reflexivity. Qed.

(** The dispatch of an event of the kind [ev] by a pathfinder that is not
    INITIALIZING. *)
Lemma incomingFromEventIf_running (msg payload : Message) (ev : Z) (pf : Pathfinder_pvt) :
  state pf <> Pathfinder_pvt_state_INITIALIZING ->
  Message_epop32be msg = Ok (ev, payload) ->
  incomingFromEventIf msg pf
  = (if ev =? PFChan_Core_SWITCH_ERR then switchErr payload
     else if ev =? PFChan_Core_SEARCH_REQ then searchReq payload
     else if ev =? PFChan_Core_PEER then peer payload
     else if ev =? PFChan_Core_PEER_GONE then peerGone payload
     else if ev =? PFChan_Core_SESSION then session payload
     else if ev =? PFChan_Core_SESSION_ENDED then sessionEnded payload
     else if ev =? PFChan_Core_DISCOVERED_PATH then discoveredPath payload
     else if ev =? PFChan_Core_MSG then incomingMsg payload
     else if ev =? PFChan_Core_PING then handlePing payload
     else if ev =? PFChan_Core_PONG then handlePong payload
     else Assert_failure) pf.
Proof.
  intros Hst Hpop. unfold incomingFromEventIf.
  rewrite Hpop, pbind_orAbort, pbind_pget. cbn [fst snd].
  replace (Pathfinder_pvt_state_INITIALIZING =? state pf) with false
    by (symmetry; apply Z.eqb_neq; congruence).
  reflexivity.
Qed.

Lemma NoDup_nth_error_neq A (l : list A) (i j : nat) (x y : A) :
  NoDup l -> nth_error l i = Some x -> nth_error l j = Some y -> i <> j -> x <> y.
Proof.
  intros Hnd Hi Hj Hne Heq. subst y. apply Hne.
  apply (proj1 (NoDup_nth_error l) Hnd).
  - apply nth_error_Some. rewrite Hi. discriminate.
  - rewrite Hi, Hj. reflexivity.
Qed.

(** X9.  A pathfinder that runs answers a PING event with exactly one
    event: PONG followed by the payload of the PING.  Nothing of the
    pathfinder changes. *)
Theorem ping_is_answered_with_pong (msg : Message) (pf : Pathfinder_pvt) :
  NoDup dispatched ->
  state pf <> Pathfinder_pvt_state_INITIALIZING ->
  Message_ok msg -> 4 <= len msg ->
  be_value (mem_read (buf msg) (off msg) 4) = PFChan_Core_PING ->
  exists reply,
    incomingFromEventIf msg pf = Ok (tt, pf, [reply])
    /\ Message_bytes reply
       = be_bytes 4 PFChan_Pathfinder_PONG ++ mem_read (buf msg) (off msg + 4) (len msg - 4).
Proof.
  intros Hnd Hst (Hoff & Hlen0 & Hbuf) Hlen Hev.
  set (payload := mkMessage (buf msg) (off msg + 4) (len msg - 4)).
  assert (Hpop : Message_epop32be msg = Ok (PFChan_Core_PING, payload)).
  { rewrite SessionManagerFacts.Message_epop32be_ok by assumption. rewrite Hev. reflexivity. }
  assert (Hok : Message_ok payload) by (unfold Message_ok, payload; cbn; lia).
  exists (SessionManager.pushed payload (be_bytes 4 PFChan_Pathfinder_PONG)).
  split.
  - rewrite (@incomingFromEventIf_running _ _ _ _ Hst Hpop).
    assert (Hne : forall j y, nth_error dispatched j = Some y -> j <> 8%nat ->
                              (PFChan_Core_PING =? y) = false).
    { intros j y Hj Hj8. apply Z.eqb_neq.
      apply (@NoDup_nth_error_neq _ dispatched 8 j _ _ Hnd eq_refl Hj). congruence. }
    rewrite (Hne 0%nat _ eq_refl), (Hne 1%nat _ eq_refl), (Hne 2%nat _ eq_refl),
      (Hne 3%nat _ eq_refl), (Hne 4%nat _ eq_refl), (Hne 5%nat _ eq_refl),
      (Hne 6%nat _ eq_refl), (Hne 7%nat _ eq_refl) by discriminate.
    rewrite Z.eqb_refl. unfold handlePing, Message_epush32be.
    rewrite SessionManagerFacts.Message_epush_ok
      by (rewrite ?SessionManagerFacts.be_bytes_length; unfold payload; cbn; lia).
    rewrite pbind_orAbort. reflexivity.
  - rewrite SessionManagerFacts.pushed_bytes
      by (try assumption; rewrite SessionManagerFacts.be_bytes_length; unfold payload; cbn; lia).
    reflexivity.
Qed.

(** X10.  A pathfinder that runs ignores a PONG event, and an event of a
    kind that is not one of the ten it dispatches ends in the fatal
    assertion: so does a second CONNECT. *)
Theorem running_rejects_unknown_events
    (msg payload : Message) (ev : Z) (pf : Pathfinder_pvt) :
  state pf <> Pathfinder_pvt_state_INITIALIZING ->
  Message_epop32be msg = Ok (ev, payload) ->
  (~ In ev dispatched -> incomingFromEventIf msg pf = Fatal)
  /\ (NoDup dispatched -> ev = PFChan_Core_PONG ->
      incomingFromEventIf msg pf = Ok (tt, pf, [])).
Proof.
  intros Hst Hpop. rewrite (@incomingFromEventIf_running _ _ _ _ Hst Hpop). split.
  - intros Hnot.
    assert (Hne : forall y, In y dispatched -> (ev =? y) = false).
    { intros y Hy. apply Z.eqb_neq. intros ->. exact (Hnot Hy). }
    unfold dispatched in Hne.
    rewrite !Hne by (cbn; tauto). reflexivity.
  - intros Hnd ->.
    assert (Hne : forall j y, nth_error dispatched j = Some y -> j <> 9%nat ->
                              (PFChan_Core_PONG =? y) = false).
    { intros j y Hj Hj9. apply Z.eqb_neq.
      apply (@NoDup_nth_error_neq _ dispatched 9 j _ _ Hnd eq_refl Hj). congruence. }
    rewrite (Hne 0%nat _ eq_refl), (Hne 1%nat _ eq_refl), (Hne 2%nat _ eq_refl),
      (Hne 3%nat _ eq_refl), (Hne 4%nat _ eq_refl), (Hne 5%nat _ eq_refl),
      (Hne 6%nat _ eq_refl), (Hne 7%nat _ eq_refl), (Hne 8%nat _ eq_refl) by discriminate.
    rewrite Z.eqb_refl. reflexivity.
Qed.


(** X11.  [Pathfinder_register] sends exactly one event, CONNECT followed
    by the [PFChan_Pathfinder_Connect] with superiority 1, the current
    protocol version and the user agent, and leaves the pathfinder
    INITIALIZING with none of its subsystems made. *)
Theorem register_announces_the_pathfinder (admin' : bool) (w : World) :
  exists pf msg,
    Pathfinder_register admin' w = Ok (tt, pf, [msg])
    /\ Message_bytes msg
       = be_bytes 4 PFChan_Pathfinder_CONNECT
           ++ PFChan_Pathfinder_Connect_encode 1 Version_CURRENT_PROTOCOL UserAgent.userAgent
    /\ state pf = Pathfinder_pvt_state_INITIALIZING
    /\ registry pf = None /\ nodeStore pf = None /\ router pf = None
    /\ searchRunner pf = None /\ rumorMill pf = None
    /\ world pf = w.
Proof.
  unfold Pathfinder_register, sendEvent.
  set (data := PFChan_Pathfinder_Connect_encode 1 Version_CURRENT_PROTOCOL UserAgent.userAgent).
  set (pf := mkPf _ _ _ _ _ _ _ _ _).
  set (m0 := Message_new 0 (512 + Z.of_nat (length data))).
  assert (H0 : Message_ok m0) by (apply SessionManagerFacts.Message_new_ok; lia).
  assert (H1 : Message_ok (SessionManager.pushed m0 data))
    by (apply SessionManagerFacts.pushed_ok; [assumption | unfold m0; cbn [off len Message_new SessionManager.pushed]; lia]).
  exists pf, (SessionManager.pushed (SessionManager.pushed m0 data)
                (be_bytes 4 PFChan_Pathfinder_CONNECT)).
  split; [|split].
  - rewrite SessionManagerFacts.Message_epush_ok by (unfold m0; cbn [off len Message_new SessionManager.pushed]; lia).
    rewrite pbind_orAbort. unfold Message_epush32be.
    rewrite SessionManagerFacts.Message_epush_ok
      by (rewrite ?SessionManagerFacts.be_bytes_length; unfold m0; cbn [off len Message_new SessionManager.pushed]; lia).
    rewrite pbind_orAbort. reflexivity.
  - rewrite SessionManagerFacts.pushed_bytes
      by (try assumption; rewrite SessionManagerFacts.be_bytes_length; unfold m0; cbn [off len Message_new SessionManager.pushed]; lia).
    rewrite SessionManagerFacts.pushed_bytes by (try assumption; unfold m0; cbn [off len Message_new SessionManager.pushed]; lia).
    unfold Message_bytes, m0, Message_new, mem_read. cbn [len Z.to_nat firstn].
    rewrite app_nil_r. reflexivity.
  - cbn. repeat split.
Qed.

Lemma Message_epop_exactly (m : Message) (size : Z) :
  0 <= size -> len m <> size ->
  Message_epop m size = Fatal
  \/ exists b m', Message_epop m size = Ok (b, m') /\ (len m' =? 0) = false.
Proof.
  intros Hsize Hne. unfold Message_epop, Message_eshift.
  replace (0 <? - size) with false by (symmetry; apply Z.ltb_ge; lia).
  cbn [andb]. destruct (len m <? - - size) eqn:Hlt.
  - left. reflexivity.
  - right. eexists. eexists. split; [reflexivity|].
    cbn [len]. apply Z.eqb_neq. lia.
Qed.

Lemma addressForNode_fatal (payload : Message) (pf : Pathfinder_pvt) :
  0 <= PFChan_Node_SIZE -> len payload <> PFChan_Node_SIZE ->
  addressForNode payload pf = Fatal.
Proof.
  intros Hsize Hne. unfold addressForNode.
  destruct (Message_epop_exactly payload Hsize Hne) as [H|(b & m' & H & Hlen)]; rewrite H.
  - reflexivity.
  - rewrite pbind_orAbort. cbn [fst snd]. rewrite Hlen. reflexivity.
Qed.

(** X12.  The handlers of a pathfinder that runs abort on a payload of the
    wrong size: the handlers of PEER, PEER_GONE, SESSION, SESSION_ENDED and
    DISCOVERED_PATH when the payload is not exactly one [PFChan_Node], the
    handler of SEARCH_REQ when it is not exactly 16 bytes, and the handler
    of SWITCH_ERR when it is shorter than a [PFChan_Core_SwitchErr]. *)
Theorem payload_of_the_wrong_size_is_fatal (payload : Message) (pf : Pathfinder_pvt) :
  0 <= PFChan_Node_SIZE -> 0 <= PFChan_Core_SwitchErr_MIN_SIZE ->
  (len payload <> PFChan_Node_SIZE ->
   peer payload pf = Fatal /\ peerGone payload pf = Fatal /\ session payload pf = Fatal
   /\ sessionEnded payload pf = Fatal /\ discoveredPath payload pf = Fatal)
  /\ (len payload <> 16 -> searchReq payload pf = Fatal)
  /\ (len payload < PFChan_Core_SwitchErr_MIN_SIZE -> switchErr payload pf = Fatal).
Proof.
  intros Hnode Hmin. split; [|split].
  - intros Hne.
    pose proof (addressForNode_fatal payload pf Hnode Hne) as Hf.
    unfold peer, peerGone, session, sessionEnded, discoveredPath, pbind.
    rewrite Hf. repeat split.
  - intros Hne. unfold searchReq.
    destruct (@Message_epop_exactly payload 16 ltac:(lia) Hne) as [H|(b & m' & H & Hlen)];
      rewrite H.
    + reflexivity.
    + rewrite pbind_orAbort. cbn [fst snd]. rewrite Hlen. reflexivity.
  - intros Hlt. unfold switchErr, Message_epop, Message_eshift.
    replace (0 <? - PFChan_Core_SwitchErr_MIN_SIZE) with false
      by (symmetry; apply Z.ltb_ge; lia).
    replace (len payload <? - - PFChan_Core_SwitchErr_MIN_SIZE) with true
      by (symmetry; apply Z.ltb_lt; lia).
    reflexivity.
Qed.

(** *** What the handlers leave alone *)

Lemma set_world_twice w w' (pf : Pathfinder_pvt) :
  set_world w (set_world w' pf) = set_world w pf.
Proof. reflexivity. Qed.

Lemma worldOnly_bind A B (m : PM A) (k : A -> PM B) :
  worldOnly m -> (forall a, worldOnly (k a)) -> worldOnly (pbind m k).
Proof.
  intros Hm Hk pf b pf' o H. unfold pbind in H.
  destruct (m pf) as [[[a pf1] o1]|] eqn:Hm1; [|discriminate].
  destruct (k a pf1) as [[[b' pf2] o2]|] eqn:Hk1; [|discriminate].
  injection H as -> -> <-.
  pose proof (Hk _ _ _ _ _ Hk1) as H2. pose proof (Hm _ _ _ _ Hm1) as H1.
  rewrite H1 in H2. rewrite set_world_twice in H2. exact H2.
Qed.

Lemma worldOnly_same A (m : PM A) :
  (forall pf a pf' o, m pf = Ok (a, pf', o) -> pf' = pf) -> worldOnly m.
Proof.
  intros H pf a pf' o Hrun. rewrite (H _ _ _ _ Hrun). destruct pf. reflexivity.
Qed.

Lemma worldOnly_pret A (a : A) : worldOnly (pret a).
Proof. apply worldOnly_same. intros pf a' pf' o H. injection H as _ <- _. reflexivity. Qed.

Lemma worldOnly_pget : worldOnly pget.
Proof. apply worldOnly_same. intros pf a' pf' o H. injection H as _ <- _. reflexivity. Qed.

Lemma worldOnly_pabort A : worldOnly (@pabort _ A).
Proof. intros pf a pf' o H. discriminate. Qed.

Lemma worldOnly_Assert (b : bool) : worldOnly (Assert_true b).
Proof. destruct b; [apply worldOnly_pret | apply worldOnly_pabort]. Qed.

Lemma worldOnly_orAbort A (r : res A) : worldOnly (orAbort r).
Proof. destruct r; [apply worldOnly_pret | apply worldOnly_pabort]. Qed.

Lemma worldOnly_deref A (p : option A) : worldOnly (deref p).
Proof. destruct p; [apply worldOnly_pret | apply worldOnly_pabort]. Qed.

Lemma worldOnly_send (msg : Message) : worldOnly (Iface_send msg).
Proof. apply worldOnly_same. intros pf a' pf' o H. injection H as _ <- _. reflexivity. Qed.

Lemma worldOnly_ask A (f : World -> A) : worldOnly (ask f).
Proof. apply worldOnly_same. intros pf a' pf' o H. injection H as _ <- _. reflexivity. Qed.

Lemma worldOnly_external A (f : World -> A * World) :
  worldOnly (fun pf => Ok (fst (f (world pf)), set_world (snd (f (world pf))) pf, [])).
Proof. intros pf a pf' o H. injection H as _ <- _. reflexivity. Qed.

Ltac worldOnly_step :=
  first
    [ apply worldOnly_bind; [|intros]
    | apply worldOnly_pret | apply worldOnly_pget | apply worldOnly_pabort
    | apply worldOnly_Assert | apply worldOnly_orAbort | apply worldOnly_deref
    | apply worldOnly_send | apply worldOnly_ask | apply worldOnly_external
    | match goal with
      | |- worldOnly (match ?x with _ => _ end) => destruct x
      end ].

Ltac worldOnly_auto := repeat worldOnly_step.




Lemma worldOnly_addressForNode msg : worldOnly (addressForNode msg).
Proof. unfold addressForNode. worldOnly_auto. Qed.


(** *** What the handlers send *)

Lemma sends_bind A B (P : Message -> Prop) (m : PM A) (k : A -> PM B) :
  sends P m -> (forall a, sends P (k a)) -> sends P (pbind m k).
Proof.
  intros Hm Hk pf b pf' o H. unfold pbind in H.
  destruct (m pf) as [[[a pf1] o1]|] eqn:Hm1; [|discriminate].
  destruct (k a pf1) as [[[b' pf2] o2]|] eqn:Hk1; [|discriminate].
  injection H as _ _ <-.
  apply Forall_app. split; [exact (Hm _ _ _ _ Hm1) | exact (Hk _ _ _ _ _ Hk1)].
Qed.

Lemma sends_nothing A (P : Message -> Prop) (m : PM A) :
  (forall pf a pf' o, m pf = Ok (a, pf', o) -> o = []) -> sends P m.
Proof. intros H pf a pf' o Hrun. rewrite (H _ _ _ _ Hrun). constructor. Qed.

Lemma sends_pret A (P : Message -> Prop) (a : A) : sends P (pret a).
Proof. apply sends_nothing. intros pf a' pf' o H. injection H as _ _ <-. reflexivity. Qed.

Lemma sends_pget (P : Message -> Prop) : sends P pget.
Proof. apply sends_nothing. intros pf a' pf' o H. injection H as _ _ <-. reflexivity. Qed.

Lemma sends_pabort A (P : Message -> Prop) : sends P (@pabort _ A).
Proof. intros pf a pf' o H. discriminate. Qed.

Lemma sends_Assert (P : Message -> Prop) (b : bool) : sends P (Assert_true b).
Proof. destruct b; [apply sends_pret | apply sends_pabort]. Qed.

Lemma sends_orAbort A (P : Message -> Prop) (r : res A) : sends P (orAbort r).
Proof. destruct r; [apply sends_pret | apply sends_pabort]. Qed.

Lemma sends_deref A (P : Message -> Prop) (p : option A) : sends P (deref p).
Proof. destruct p; [apply sends_pret | apply sends_pabort]. Qed.

Lemma sends_ask A (P : Message -> Prop) (f : World -> A) : sends P (ask f).
Proof. apply sends_nothing. intros pf a' pf' o H. injection H as _ _ <-. reflexivity. Qed.

Lemma sends_external A (P : Message -> Prop) (f : World -> A * World) :
  sends P (fun pf => Ok (fst (f (world pf)), set_world (snd (f (world pf))) pf, [])).
Proof. apply sends_nothing. intros pf a' pf' o H. injection H as _ _ <-. reflexivity. Qed.

(** A run of [incomingFromDHT] that ends normally leaves the pathfinder as
    it is; it sends the message that it has made when the message of the
    DHT is a request, and nothing when it is a reply. *)
Lemma incomingFromDHT_run (dmessage : DHTMessage) (pf pf' : Pathfinder_pvt)
    (r : bool) (o : list Message) :
  incomingFromDHT dmessage pf = Ok (r, pf', o) ->
  pf' = pf
  /\ match replyTo dmessage with
     | replyTo_NULL => r = false /\ exists msg, o = [msg]
     | replyTo_incoming => r = true /\ o = []
     | replyTo_other => r = false /\ o = []
     end.
Proof.
  unfold incomingFromDHT. intros H.
  destruct (nth 0 (ip6 (address dmessage)) 0 =? 252); [|discriminate].
  unfold pbind at 1 in H. cbn [Assert_true pret] in H.
  destruct (Message_eshift (binMessage dmessage) PFChan_Msg_MIN_SIZE) as [m1|];
    [|discriminate].
  rewrite pbind_orAbort in H. cbv zeta in H.
  destruct (Message_epush32be _ PFChan_Pathfinder_SENDMSG) as [m2|]; [|discriminate].
  rewrite pbind_orAbort in H.
  destruct (replyTo dmessage); cbn in H; injection H as <- <- <-; repeat split; eauto.
Qed.

Lemma sends_incomingFromDHT dmessage : sends fromDHT (incomingFromDHT dmessage).
Proof.
  intros pf r pf' o H. pose proof (incomingFromDHT_run _ _ H) as [-> Hcase].
  destruct (replyTo dmessage) eqn:Hreply.
  - destruct Hcase as [-> [msg ->]]. constructor; [|constructor].
    exists dmessage, pf. split; assumption.
  - destruct Hcase as [_ ->]. constructor.
  - destruct Hcase as [_ ->]. constructor.
Qed.

Lemma sends_handleOutgoing out : sends fromDHT (handleOutgoing out).
Proof.
  induction out as [|dmessage out IH]; cbn [handleOutgoing].
  - apply sends_pret.
  - apply sends_bind; [apply sends_incomingFromDHT|]. intros r.
    apply sends_bind; [exact IH|]. intros r'. apply sends_pret.
Qed.

Lemma sends_call (f : World -> list DHTMessage * World) : sends fromDHT (call f).
Proof.
  unfold call. apply sends_bind; [apply sends_external|]. intros out.
  apply sends_bind; [apply sends_handleOutgoing|]. intros r. apply sends_pret.
Qed.

Ltac sends_step :=
  first
    [ apply sends_call
    | apply sends_bind; [|intros]
    | apply sends_pret | apply sends_pget | apply sends_pabort
    | apply sends_Assert | apply sends_orAbort | apply sends_deref
    | apply sends_ask
    | match goal with
      | |- sends _ (match ?x with _ => _ end) => destruct x
      end ].

Ltac sends_auto := repeat sends_step.


(** *** The events made of the messages of the DHT *)

Lemma mem_read_mem_read (b : list Z) (p n q k : Z) :
  0 <= p -> 0 <= q -> 0 <= k -> q + k <= n ->
  mem_read (mem_read b p n) q k = mem_read b (p + q) k.
Proof.
  intros Hp Hq Hk Hn. unfold mem_read.
  rewrite skipn_firstn_comm, firstn_firstn, skipn_skipn.
  f_equal; [lia|]. f_equal. lia.
Qed.

Lemma mem_read_all (b : list Z) : mem_read b 0 (Z.of_nat (length b)) = b.
Proof. unfold mem_read. cbn [Z.to_nat skipn]. rewrite Nat2Z.id. apply firstn_all. Qed.

(** A write inside a region of the buffer is a write into the bytes of the
    region. *)
Lemma mem_read_write_inside (b : list Z) (p n q : Z) (s : list Z) :
  0 <= p -> 0 <= q -> q + Z.of_nat (length s) <= n ->
  p + n <= Z.of_nat (length b) ->
  mem_read (mem_write b (p + q) s) p n = mem_write (mem_read b p n) q s.
Proof.
  intros Hp Hq Hn Hb.
  assert (Hr : Z.of_nat (length (mem_read b p n)) = n)
    by (apply SessionManagerFacts.mem_read_length; lia).
  replace n with (q + (Z.of_nat (length s) + (n - q - Z.of_nat (length s)))) at 1 by lia.
  rewrite SessionManagerFacts.mem_read_app by lia.
  rewrite SessionManagerFacts.mem_read_write_before by lia.
  rewrite SessionManagerFacts.mem_read_write by lia.
  unfold mem_write at 1.
  f_equal; [|f_equal].
  - replace (mem_read b p q) with (mem_read b (p + 0) q) by (f_equal; lia).
    rewrite <- (@mem_read_mem_read b p n 0 q) by lia.
    unfold mem_read at 1. cbn [Z.to_nat skipn]. reflexivity.
  - replace (p + q + Z.of_nat (length s)) with (p + (q + Z.of_nat (length s))) by lia.
    rewrite <- (@mem_read_mem_read b p n (q + Z.of_nat (length s))
                  (n - q - Z.of_nat (length s))) by lia.
    unfold mem_read at 1.
    replace (Z.to_nat (q + Z.of_nat (length s))) with (Z.to_nat q + length s)%nat by lia.
    apply firstn_all2. rewrite length_skipn. lia.
Qed.

Lemma mem_read_zeros (n q k : Z) :
  0 <= q -> 0 <= k -> q + k <= n -> mem_read (zeros n) q k = zeros k.
Proof.
  intros Hq Hk Hn. unfold mem_read, zeros.
  replace (Z.to_nat n) with (Z.to_nat q + (Z.to_nat k + Z.to_nat (n - q - k)))%nat by lia.
  rewrite !repeat_app.
  rewrite skipn_app, repeat_length, Nat.sub_diag. cbn [skipn].
  rewrite skipn_all2 by (rewrite repeat_length; lia). cbn [app].
  rewrite firstn_app, repeat_length, Nat.sub_diag. cbn [firstn].
  rewrite firstn_all2 by (rewrite repeat_length; lia). apply app_nil_r.
Qed.

(** X28.  What [incomingFromDHT] makes of a message of the DHT.  It ends
    in a fatal assertion when the address of the message does not start
    with 0xfc, and when the message has not the head-room for a
    [PFChan_Msg] and four bytes.  Otherwise it puts in front of the
    message a data header with the current version and the content type
    CJDHT, in front of that a route header that is zero but for the address
    (its ip6, its version, its path as the label of the switch header, its
    key), and in front of that the word SENDMSG.  A request, which replies
    to nothing, is sent as this event, once; a reply to the message that
    [incomingMsg] is handling is not sent here but reported to
    [incomingMsg]; the pathfinder is left as it is.  (The setters of the
    headers keep their sizes.) *)
Theorem request_of_the_dht_leaves_as_sendmsg (dmessage : DHTMessage) (pf : Pathfinder_pvt) :
  0 <= RouteHeader_SIZE -> 0 <= DataHeader_SIZE -> 0 <= SwitchHeader_SIZE ->
  0 <= RouteHeader_sh -> RouteHeader_sh + SwitchHeader_SIZE <= RouteHeader_SIZE ->
  (forall h v, Z.of_nat (length h) = DataHeader_SIZE ->
               Z.of_nat (length (DataHeader_setVersion h v)) = DataHeader_SIZE) ->
  (forall h t, Z.of_nat (length h) = DataHeader_SIZE ->
               Z.of_nat (length (DataHeader_setContentType h t)) = DataHeader_SIZE) ->
  (forall a h, Z.of_nat (length h) = RouteHeader_SIZE ->
               Z.of_nat (length (RouteHeader_set_ip6 a h)) = RouteHeader_SIZE) ->
  (forall v h, Z.of_nat (length h) = RouteHeader_SIZE ->
               Z.of_nat (length (RouteHeader_set_version_be v h)) = RouteHeader_SIZE) ->
  (forall k h, Z.of_nat (length h) = RouteHeader_SIZE ->
               Z.of_nat (length (RouteHeader_set_publicKey k h)) = RouteHeader_SIZE) ->
  (forall l h, Z.of_nat (length h) = SwitchHeader_SIZE ->
               Z.of_nat (length (SwitchHeader_set_label_be l h)) = SwitchHeader_SIZE) ->
  let msg := binMessage dmessage in
  let addr := address dmessage in
  Message_ok msg ->
  let data := DataHeader_setContentType
                (DataHeader_setVersion (zeros DataHeader_SIZE) DataHeader_CURRENT_VERSION)
                ContentType_CJDHT in
  let r := RouteHeader_set_version_be (protocolVersion addr)
             (RouteHeader_set_ip6 (ip6 addr) (zeros RouteHeader_SIZE)) in
  let route := RouteHeader_set_publicKey (key addr)
                 (mem_write r RouteHeader_sh
                    (SwitchHeader_set_label_be (path addr)
                       (mem_read r RouteHeader_sh SwitchHeader_SIZE))) in
  (nth 0 (ip6 addr) 0 <> 0xfc -> incomingFromDHT dmessage pf = Fatal)
  /\ (off msg < PFChan_Msg_MIN_SIZE + 4 -> incomingFromDHT dmessage pf = Fatal)
  /\ (nth 0 (ip6 addr) 0 = 0xfc -> PFChan_Msg_MIN_SIZE + 4 <= off msg ->
      exists ev,
        Message_bytes ev
        = be_bytes 4 PFChan_Pathfinder_SENDMSG ++ route ++ data ++ Message_bytes msg
        /\ incomingFromDHT dmessage pf
           = match replyTo dmessage with
             | replyTo_NULL => Ok (false, pf, [ev])
             | replyTo_incoming => Ok (true, pf, [])
             | replyTo_other => Ok (false, pf, [])
             end).
Proof.
  intros Hrh Hdh Hsh Hrsh Hin LsetV LsetC Lip6 Lver Lkey Llabel msg addr
         (Hoff & Hlen & Hbuf) data r route.
  assert (Hmin : PFChan_Msg_MIN_SIZE = RouteHeader_SIZE + DataHeader_SIZE) by reflexivity.
  split; [|split].
  - intros Hfc. unfold incomingFromDHT. fold addr.
    apply Z.eqb_neq in Hfc. rewrite Hfc. reflexivity.
  - intros Hroom. unfold incomingFromDHT. fold addr. fold msg.
    destruct (nth 0 (ip6 addr) 0 =? 252); [|reflexivity].
    unfold pbind at 1. cbn [Assert_true pret].
    destruct (Z_lt_ge_dec (off msg) PFChan_Msg_MIN_SIZE) as [Hshort|Hlong].
    + unfold Message_eshift.
      destruct (Z.eq_dec PFChan_Msg_MIN_SIZE 0) as [H0|H0]; [lia|].
      replace (0 <? PFChan_Msg_MIN_SIZE) with true by (symmetry; apply Z.ltb_lt; lia).
      replace (off msg <? PFChan_Msg_MIN_SIZE) with true by (symmetry; apply Z.ltb_lt; lia).
      reflexivity.
    + rewrite SessionManagerFacts.Message_eshift_ok by lia.
      rewrite pbind_orAbort. cbv zeta.
      unfold Message_epush32be, Message_epush, Message_eshift, Message_setStruct.
      cbn [off len buf]. rewrite SessionManagerFacts.be_bytes_length.
      replace (off msg - PFChan_Msg_MIN_SIZE <? Z.of_nat 4) with true
        by (symmetry; apply Z.ltb_lt; lia).
      reflexivity.
  - intros Hfc Hroom.
    set (p := off msg - PFChan_Msg_MIN_SIZE).
    set (b0 := buf msg).
    set (Inv := fun (b rt dt : list Z) =>
                  length b = length b0
                  /\ mem_read b p RouteHeader_SIZE = rt
                  /\ mem_read b (p + RouteHeader_SIZE) DataHeader_SIZE = dt
                  /\ Z.of_nat (length rt) = RouteHeader_SIZE
                  /\ Z.of_nat (length dt) = DataHeader_SIZE
                  /\ forall q n, p + PFChan_Msg_MIN_SIZE <= q ->
                                 mem_read b q n = mem_read b0 q n).
    assert (Hp : 4 <= p) by (unfold p; lia).
    assert (Hpb : p + PFChan_Msg_MIN_SIZE + len msg <= Z.of_nat (length b0))
      by (unfold p, b0; lia).
    assert (Sdata : forall b rt dt dt', Inv b rt dt ->
                      Z.of_nat (length dt') = DataHeader_SIZE ->
                      Inv (mem_write b (p + RouteHeader_SIZE) dt') rt dt').
    { intros b rt dt dt' (I1 & I2 & I3 & I4 & I5 & I6) Hd. unfold Inv.
      split; [|split; [|split; [|split; [|split]]]]; try assumption.
      - rewrite SessionManagerFacts.mem_write_length by lia. assumption.
      - rewrite SessionManagerFacts.mem_read_write_before by lia. assumption.
      - rewrite <- Hd at 1. apply SessionManagerFacts.mem_read_write_same; lia.
      - intros q n Hq. rewrite SessionManagerFacts.mem_read_write_after by lia.
        apply I6. assumption. }
    assert (Sroute : forall b rt dt rt', Inv b rt dt ->
                       Z.of_nat (length rt') = RouteHeader_SIZE ->
                       Inv (mem_write b p rt') rt' dt).
    { intros b rt dt rt' (I1 & I2 & I3 & I4 & I5 & I6) Hd. unfold Inv.
      split; [|split; [|split; [|split; [|split]]]]; try assumption.
      - rewrite SessionManagerFacts.mem_write_length by lia. assumption.
      - rewrite <- Hd at 1. apply SessionManagerFacts.mem_read_write_same; lia.
      - rewrite SessionManagerFacts.mem_read_write_after by lia. assumption.
      - intros q n Hq. rewrite SessionManagerFacts.mem_read_write_after by lia.
        apply I6. assumption. }
    assert (Ssh : forall b rt dt s', Inv b rt dt ->
                    Z.of_nat (length s') = SwitchHeader_SIZE ->
                    Inv (mem_write b (p + RouteHeader_sh) s')
                        (mem_write rt RouteHeader_sh s') dt).
    { intros b rt dt s' (I1 & I2 & I3 & I4 & I5 & I6) Hd. unfold Inv.
      split; [|split; [|split; [|split; [|split]]]]; try assumption.
      - rewrite SessionManagerFacts.mem_write_length by lia. assumption.
      - rewrite mem_read_write_inside by lia. rewrite I2. reflexivity.
      - rewrite SessionManagerFacts.mem_read_write_after by lia. assumption.
      - rewrite SessionManagerFacts.mem_write_length by lia. lia.
      - intros q n Hq. rewrite SessionManagerFacts.mem_read_write_after by lia.
        apply I6. assumption. }
    assert (Hz : Z.of_nat (length (zeros PFChan_Msg_MIN_SIZE)) = PFChan_Msg_MIN_SIZE)
      by (apply SessionManagerFacts.zeros_length; lia).
    assert (I1 : Inv (mem_write b0 p (zeros PFChan_Msg_MIN_SIZE))
                     (zeros RouteHeader_SIZE) (zeros DataHeader_SIZE)).
    { assert (Hall : mem_read (mem_write b0 p (zeros PFChan_Msg_MIN_SIZE)) p
                       PFChan_Msg_MIN_SIZE = zeros PFChan_Msg_MIN_SIZE).
      { rewrite <- Hz at 2. apply SessionManagerFacts.mem_read_write_same; lia. }
      unfold Inv. split; [|split; [|split; [|split; [|split]]]].
      - apply SessionManagerFacts.mem_write_length; lia.
      - replace p with (p + 0) at 2 by lia.
        rewrite <- (@mem_read_mem_read _ p PFChan_Msg_MIN_SIZE 0 RouteHeader_SIZE) by lia.
        rewrite Hall. apply mem_read_zeros; lia.
      - rewrite <- (@mem_read_mem_read _ p PFChan_Msg_MIN_SIZE RouteHeader_SIZE
                      DataHeader_SIZE) by lia.
        rewrite Hall. apply mem_read_zeros; lia.
      - apply SessionManagerFacts.zeros_length. assumption.
      - apply SessionManagerFacts.zeros_length. assumption.
      - intros q n Hq. apply SessionManagerFacts.mem_read_write_after; lia. }
    set (b1 := mem_write b0 p (zeros PFChan_Msg_MIN_SIZE)) in *.
    set (d1 := DataHeader_setVersion (zeros DataHeader_SIZE) DataHeader_CURRENT_VERSION).
    assert (I2 : Inv (mem_write b1 (p + RouteHeader_SIZE) d1) (zeros RouteHeader_SIZE) d1).
    { apply (Sdata _ _ _ _ I1). apply LsetV. apply SessionManagerFacts.zeros_length. lia. }
    set (b2 := mem_write b1 (p + RouteHeader_SIZE) d1) in *.
    assert (I3 : Inv (mem_write b2 (p + RouteHeader_SIZE) data) (zeros RouteHeader_SIZE) data).
    { apply (Sdata _ _ _ _ I2). apply LsetC. apply I2. }
    set (b3 := mem_write b2 (p + RouteHeader_SIZE) data) in *.
    set (r1 := RouteHeader_set_ip6 (ip6 addr) (zeros RouteHeader_SIZE)).
    assert (I4 : Inv (mem_write b3 p r1) r1 data).
    { apply (Sroute _ _ _ _ I3). apply Lip6. apply I3. }
    set (b4 := mem_write b3 p r1) in *.
    assert (I5 : Inv (mem_write b4 p r) r data).
    { apply (Sroute _ _ _ _ I4). apply Lver. apply I4. }
    set (b5 := mem_write b4 p r) in *.
    set (s' := SwitchHeader_set_label_be (path addr)
                 (mem_read r RouteHeader_sh SwitchHeader_SIZE)).
    assert (Hr : Z.of_nat (length r) = RouteHeader_SIZE) by apply I5.
    assert (Hs' : Z.of_nat (length s') = SwitchHeader_SIZE).
    { apply Llabel. apply SessionManagerFacts.mem_read_length; lia. }
    assert (I6 : Inv (mem_write b5 (p + RouteHeader_sh) s')
                     (mem_write r RouteHeader_sh s') data)
      by (apply (Ssh _ _ _ _ I5); assumption).
    set (b6 := mem_write b5 (p + RouteHeader_sh) s') in *.
    assert (I7 : Inv (mem_write b6 p route) route data).
    { apply (Sroute _ _ _ _ I6). apply Lkey. apply I6. }
    set (b7 := mem_write b6 p route) in *.
    set (m7 := mkMessage b7 p (len msg + PFChan_Msg_MIN_SIZE)).
    destruct I7 as (J1 & J2 & J3 & J4 & J5 & J6).
    assert (Hok7 : Message_ok m7).
    { unfold Message_ok, m7. cbn [buf off len]. rewrite J1. lia. }
    exists (SessionManager.pushed m7 (be_bytes 4 PFChan_Pathfinder_SENDMSG)).
    split.
    + rewrite SessionManagerFacts.pushed_bytes
        by (try assumption; rewrite SessionManagerFacts.be_bytes_length; cbn [m7 off]; lia).
      f_equal. unfold Message_bytes, m7. cbn [buf off len].
      replace (len msg + PFChan_Msg_MIN_SIZE)
        with (RouteHeader_SIZE + (DataHeader_SIZE + len msg)) by lia.
      rewrite SessionManagerFacts.mem_read_app by lia.
      rewrite SessionManagerFacts.mem_read_app by lia.
      rewrite J2, J3. do 2 f_equal.
      rewrite J6 by lia. unfold b0, p. f_equal. lia.
    + assert (Hrun : incomingFromDHT dmessage pf
                     = (msg' <- orAbort (Message_epush32be m7 PFChan_Pathfinder_SENDMSG) ;;
                        match replyTo dmessage with
                        | replyTo_incoming => pret true
                        | replyTo_other => pret false
                        | replyTo_NULL => Iface_send msg' ;;; pret false
                        end) pf).
      { unfold incomingFromDHT. fold addr. fold msg.
        apply Z.eqb_eq in Hfc. rewrite Hfc.
        unfold pbind at 1. cbn [Assert_true pret].
        rewrite SessionManagerFacts.Message_eshift_ok by lia.
        rewrite pbind_orAbort. cbv zeta.
        unfold Message_setStruct, Message_struct. cbn [buf off len].
        fold p. fold b0. fold b1.
        destruct I1 as (_ & _ & K1 & _). rewrite K1. fold d1. fold b2.
        destruct I2 as (_ & _ & K2 & _). rewrite K2. change (DataHeader_setContentType d1 ContentType_CJDHT) with data. fold b3.
        destruct I3 as (_ & K3 & _). rewrite K3. fold r1. fold b4.
        destruct I4 as (_ & K4 & _). rewrite K4. change (RouteHeader_set_version_be (protocolVersion addr) r1) with r. fold b5.
        destruct I5 as (_ & K5 & _).
        rewrite <- (@mem_read_mem_read b5 p RouteHeader_SIZE RouteHeader_sh
                      SwitchHeader_SIZE) by lia.
        rewrite K5. fold s'. fold b6.
        destruct I6 as (_ & K6 & _). rewrite K6.
        change (RouteHeader_set_publicKey (key addr) (mem_write r RouteHeader_sh s'))
          with route.
        fold b7. fold m7.
        match goal with
        | |- match ?x with _ => _ end = _ => destruct x as [[[a1 pf1] o1]|]
        end; reflexivity. }
      rewrite Hrun. unfold Message_epush32be.
      rewrite SessionManagerFacts.Message_epush_ok
        by (rewrite ?SessionManagerFacts.be_bytes_length; cbn [m7 off len]; lia).
      rewrite pbind_orAbort.
      destruct (replyTo dmessage); reflexivity.
Qed.

End Facts.

End PathfinderFacts.

(** * The statements at concrete inputs *)

Module Closed.

Import Example.
Import SessionManager SessionManagerFacts.

(** C1, counterexample.  The session's metric is DEAD_LINK and its send label
    is 0; the caller reports DEAD_LINK for label 5.  The first rule of the
    claim does not apply, the condition of its second rule holds (the
    caller's metric is at most the session's, the label is not 0), yet the
    send label is not replaced by 5. *)
Lemma getSession_dead_link_other_label :
  exists s s' sm',
    sessionForIp6 (E:=E0) (hash exKey) exDead = Ok (Some 0%nat, exDead, [])
    /\ sessionAt exDead 0 = Some s
    /\ getSession (E:=E0) (hash exKey) exKey 0 5 0xffffffff 0 exDead = Ok (0%nat, sm', [])
    /\ sessionAt sm' 0 = Some s'
    /\ ~ (0xffffffff = Metric_DEAD_LINK (Externals:=E0) /\ sendSwitchLabel s = 5)
    /\ 0xffffffff <= metric s /\ 5 <> 0
    /\ sendSwitchLabel s' <> 5 /\ sendSwitchLabel s' = sendSwitchLabel s.
Proof.
  exists exDeadSession. eexists. eexists.
  split; [reflexivity|].
  split; [reflexivity|].
  split; [reflexivity|].
  split; [reflexivity|].
  cbn. repeat split; try discriminate.
  intros [_ H]. discriminate.
Qed.

Lemma getSession_updates_existing_witness :
  exists sm' s',
    getSession (E:=E0) (hash exKey) exKey 0 5 0xfffffff0 0 exDead = Ok (0%nat, sm', [])
    /\ sessionAt sm' 0 = Some s'
    /\ sendSwitchLabel s' = 5 /\ metric s' = 0xfffffff0.
Proof.
  destruct (@getSession_updates_existing E0 (hash exKey) exKey 0 5 0xfffffff0 0
              exDead exDead 0%nat [] exDeadSession)
    as (sm' & s' & Hrun & Hs & _ & _ & Hrule & _).
  - reflexivity.
  - reflexivity.
  - reflexivity.
  - exists sm', s'. split; [exact Hrun|]. split; [exact Hs|].
    destruct Hrule as (Hl & Hm & _).
    + cbn. discriminate.
    + cbn. discriminate.
    + discriminate.
    + split; assumption.
Defined.

(** The handshake [exHandshake], long enough and with the key [exKey],
    reaches [getSession] with the reversed label of its switch header.  The
    frame [exRunt] has nonce 0 and the same key, which is not ours and whose
    address starts with 0xfc, but only 100 bytes after the switch header: it
    is dropped, and the session table stays empty. *)
Lemma handshake_is_dropped_or_gets_session_witness :
  incomingFromSwitchIf (E:=E0) exHandshake exNew
  = (session <- getSession (E:=E0) (hash (claimedKey (E:=E0) exHandshake))
                  (claimedKey (E:=E0) exHandshake) 0 (sourceLabel (E:=E0) exHandshake)
                  (Metric_SM_INCOMING (Externals:=E0)) 0 ;;
     afterGetSession (E:=E0) exHandshake session) exNew
  /\ claimedKey (E:=E0) exRunt = exKey
  /\ incomingFromSwitchIf (E:=E0) exRunt exNew = Ok (tt, exNew, []).
Proof.
  split; [|split; [reflexivity|]].
  - refine (proj2 (proj2 (handshake_is_dropped_or_gets_session (E:=E0) exHandshake exNew
                            _ _ _) _ _) _ _).
    + apply Z.leb_le; reflexivity.
    + apply Z.leb_le; reflexivity.
    + apply Z.leb_le; reflexivity.
    + apply Z.leb_le; reflexivity.
    + apply Z.leb_le; reflexivity.
    + reflexivity.
    + discriminate.
  - refine (proj1 (handshake_is_dropped_or_gets_session (E:=E0) exRunt exNew _ _ _) _).
    + apply Z.leb_le; reflexivity.
    + apply Z.leb_le; reflexivity.
    + apply Z.leb_le; reflexivity.
    + right. apply Z.ltb_lt; reflexivity.
Defined.

(** ** The example instance keeps the layout of the switch header *)

Ltac header h H :=
  change (Z.of_nat (length h) = 12) in H;
  do 12 (destruct h as [|? h]; [discriminate H|]);
  destruct h; [|cbn in H; lia].

Lemma E0_set_label_be_length (l : Z) (h : list Z) :
  Z.of_nat (length h) = SwitchHeader_SIZE (Externals:=E0) ->
  Z.of_nat (length (SwitchHeader_set_label_be (Externals:=E0) l h))
  = SwitchHeader_SIZE (Externals:=E0).
Proof. intros H. header h H. reflexivity. Qed.

Lemma E0_setSuppressErrors_length (h : list Z) (b : bool) :
  Z.of_nat (length h) = SwitchHeader_SIZE (Externals:=E0) ->
  Z.of_nat (length (SwitchHeader_setSuppressErrors (Externals:=E0) h b))
  = SwitchHeader_SIZE (Externals:=E0).
Proof. intros H. header h H. reflexivity. Qed.

Lemma E0_setVersion_length (h : list Z) (v : Z) :
  Z.of_nat (length h) = SwitchHeader_SIZE (Externals:=E0) ->
  Z.of_nat (length (SwitchHeader_setVersion (Externals:=E0) h v))
  = SwitchHeader_SIZE (Externals:=E0).
Proof. intros H. header h H. reflexivity. Qed.

Lemma E0_label_be_set_label_be (l : Z) (h : list Z) :
  Z.of_nat (length h) = SwitchHeader_SIZE (Externals:=E0) -> 0 <= l < 2 ^ 64 ->
  SwitchHeader_label_be (Externals:=E0) (SwitchHeader_set_label_be (Externals:=E0) l h) = l.
Proof.
  intros H Hl. header h H.
  change (be_value (be_bytes 8 l) = l).
  apply be_value_be_bytes. exact Hl.
Qed.

Lemma E0_getSuppressErrors_setSuppressErrors (h : list Z) :
  Z.of_nat (length h) = SwitchHeader_SIZE (Externals:=E0) ->
  SwitchHeader_getSuppressErrors (Externals:=E0)
    (SwitchHeader_setSuppressErrors (Externals:=E0) h true) = true.
Proof.
  intros H. header h H.
  match goal with
  | |- ?g => match eval cbn in g with
             | context [Z.lor ?b 1] => change (Z.testbit (Z.lor b 1) 0 = true)
             end
  end.
  rewrite Z.lor_spec. apply orb_true_r.
Qed.

Lemma E0_getSuppressErrors_setVersion (h : list Z) (v : Z) :
  Z.of_nat (length h) = SwitchHeader_SIZE (Externals:=E0) ->
  SwitchHeader_getSuppressErrors (Externals:=E0)
    (SwitchHeader_setVersion (Externals:=E0) h v)
  = SwitchHeader_getSuppressErrors (Externals:=E0) h.
Proof. intros H. header h H. reflexivity. Qed.

Lemma E0_getSuppressErrors_set_label_be (l : Z) (h : list Z) :
  Z.of_nat (length h) = SwitchHeader_SIZE (Externals:=E0) ->
  SwitchHeader_getSuppressErrors (Externals:=E0)
    (SwitchHeader_set_label_be (Externals:=E0) l h)
  = SwitchHeader_getSuppressErrors (Externals:=E0) h.
Proof. intros H. header h H. reflexivity. Qed.

(** C4, as stated, fails on the label of the reply.  The handshake [exBad]
    comes in with label 1 on the wire and its decryption fails with code 2;
    the switch header of the one frame that goes back to the switch has
    label 2^63, the bit reversal of 1, not the label that was on the wire. *)
Lemma failed_decrypt_reply_label :
  incomingFromSwitchIf (E:=E0) exBad exNew
  = Ok (tt, exBadState, exBadEvents ++ [SwitchIf exBadReply])
  /\ Forall isEvent exBadEvents
  /\ fst (fst (CryptoAuth_decrypt (Externals:=E0) (caSession exBadSession)
                 (reversed (E:=E0) exBad))) = 2
  /\ SwitchHeader_label_be (Externals:=E0)
       (Message_struct exBad (off exBad) (SwitchHeader_SIZE (Externals:=E0))) = 1
  /\ SwitchHeader_label_be (Externals:=E0)
       (Message_struct exBadReply (off exBadReply) (SwitchHeader_SIZE (Externals:=E0)))
     = 2 ^ 63
  /\ 2 ^ 63 <> 1.
Proof.
  split; [reflexivity|].
  split; [repeat constructor|].
  split; [reflexivity|].
  split; [reflexivity|].
  split; [reflexivity|].
  discriminate.
Qed.

(** A forged data frame for the session of [exLater], which was made at the
    time 1000: the reply goes back along the reversed label 2^63 and carries
    the switch header with the label 1 of the wire; the session is as it
    was, at the time 5000 its last keep-alive is still that of the time
    1000. *)
Lemma failed_decrypt_is_answered_witness :
  exists reply sh csum cause sm',
    incomingFromSwitchIf (E:=E0) exForged exLater = Ok (tt, sm', [SwitchIf reply])
    /\ Message_bytes reply
       = sh ++ be_bytes 4 0xffffffff ++ be_bytes 2 csum
            ++ be_bytes 2 (Control_ERROR (Externals:=E0))
            ++ be_bytes 4 (Error_AUTHENTICATION (Externals:=E0))
            ++ cause ++ mem_read (buf exForged) (off exForged + 12) 16
            ++ be_bytes 4 2 ++ be_bytes 4 0
    /\ SwitchHeader_getSuppressErrors (Externals:=E0) sh = true
    /\ SwitchHeader_label_be (Externals:=E0) sh = 2 ^ 63
    /\ SwitchHeader_label_be (Externals:=E0) cause = 1
    /\ sessionAt sm' 0 = Some exBufferedSession
    /\ timeOfKeepAliveIn exBufferedSession = 1000
    /\ eventBase sm' = 5000
    /\ countersKept exLater sm'.
Proof.
  destruct (@failed_decrypt_is_answered E0 ltac:(discriminate)
              E0_set_label_be_length E0_setSuppressErrors_length E0_setVersion_length
              E0_label_be_set_label_be E0_getSuppressErrors_setSuppressErrors
              E0_getSuppressErrors_setVersion E0_getSuppressErrors_set_label_be
              exForged exLater exLater [] 0%nat exForgedX exForgedX
              exBufferedSession 2 (caSession exBufferedSession))
    as (reply & csum & H1 & _ & H3 & _ & _ & H6 & H7 & H8 & H9).
  - unfold Message_ok. repeat split; apply Z.leb_le; reflexivity.
  - apply Z.leb_le; reflexivity.
  - apply Z.leb_le; reflexivity.
  - apply Z.eqb_neq; reflexivity.
  - reflexivity.
  - reflexivity.
  - reflexivity.
  - discriminate.
  - reflexivity.
  - reflexivity.
  - destruct (H7 eq_refl) as (H7a & _ & H7b).
    destruct H7b as (_ & H7c); [split; [apply Z.leb_le|apply Z.ltb_lt]; reflexivity|].
    eexists reply, _, csum, _, _.
    split; [exact H1|]. split; [exact H3|]. split; [exact H6|].
    split; [exact H7a|]. split; [exact H7c|]. split; [exact H8|].
    split; [reflexivity|]. split; [reflexivity|exact H9].
Defined.

(** ** The example instance encodes a node in 64 bytes *)

Lemma fit_length (n : nat) (l : list Z) : length (fit n l) = n.
Proof.
  unfold fit. rewrite length_firstn, length_app, repeat_length. lia.
Qed.

Lemma E0_Node_length (n : PFChan_Node) :
  Z.of_nat (length (PFChan_Node_encode (Externals:=E0) n))
  = PFChan_Node_SIZE (Externals:=E0).
Proof.
  change (Z.of_nat (length (Node_encode n)) = 64). unfold Node_encode.
  rewrite !length_app, !fit_length, !be_bytes_length. reflexivity.
Qed.

Lemma E0_Node_fits : PFChan_Node_SIZE (Externals:=E0) <= 504.
Proof. apply Z.leb_le. reflexivity. Qed.

(** C2, as stated, fails for a session that the session manager does not
    maintain.  The one session of [exUnmaintained] has not timed out, the
    search step does not fire for it (it is not maintained), its crypto
    session is in state 0, before the key of the peer is received, and it
    has a version and a path; the round emits nothing. *)
Lemma unsetup_not_sent_for_unmaintained_session :
  Map_entry (ifaceMap exUnmaintained) 0
  = Some (mkEntry (hash exKey) 0 exUnmaintainedSession)
  /\ eventBase exUnmaintained - timeOfKeepAliveIn exUnmaintainedSession
     <= sessionTimeoutMilliseconds exUnmaintained
  /\ ~ (maintainSession exUnmaintainedSession <> 0
        /\ sessionSearchAfterMilliseconds exUnmaintained
           <= eventBase exUnmaintained - lastSearchTime exUnmaintainedSession)
  /\ CryptoAuth_getState (Externals:=E0) (caSession exUnmaintainedSession)
     < CryptoAuth_State_RECEIVED_KEY (Externals:=E0)
  /\ version exUnmaintainedSession <> 0
  /\ sendSwitchLabel exUnmaintainedSession <> 0
  /\ checkTimedOutSessions (E:=E0) exUnmaintained = Ok (tt, exUnmaintained, []).
Proof.
  split; [reflexivity|].
  split; [apply Z.leb_le; reflexivity|].
  split; [intros [H _]; apply H; reflexivity|].
  split; [apply Z.ltb_lt; reflexivity|].
  split; [discriminate|].
  split; [discriminate|].
  reflexivity.
Qed.

(** The same session, maintained. *)
Lemma unsetup_event_for_maintained_session_witness :
  exists sm' before msg after,
    checkTimedOutSessions (E:=E0) exMaintained
    = Ok (tt, sm', before ++ EventIf msg :: after)
    /\ Message_bytes msg
       = be_bytes 4 (PFChan_Core_UNSETUP_SESSION (Externals:=E0))
           ++ be_bytes 4 0xffffffff
           ++ PFChan_Node_encode (Externals:=E0) (sessionNode exMaintainedSession 19).
Proof.
  apply (@unsetup_event_for_maintained_session E0 E0_Node_length E0_Node_fits
           exMaintained 0%nat (mkEntry (hash exKey) 0 exMaintainedSession)).
  - reflexivity.
  - apply Z.leb_le. reflexivity.
  - apply Z.leb_le. reflexivity.
  - apply Z.ltb_lt. reflexivity.
  - apply Z.ltb_lt. reflexivity.
  - apply Z.leb_le. reflexivity.
  - discriminate.
  - apply Z.ltb_lt. reflexivity.
  - apply Z.ltb_lt. reflexivity.
  - discriminate.
  - left. discriminate.
Defined.

(** The manager after a first message for an unknown node is reachable;
    its one buffered message is within the bound. *)
Lemma buffered_messages_bounded_witness :
  NoDup (Map_keys (bufMap exBuffered))
  /\ (0 <= maxBufferedMessages exBuffered ->
      Map_count (bufMap exBuffered) <= maxBufferedMessages exBuffered).
Proof.
  destruct (@buffered_messages_bounded E0 exBuffered) as (H1 & H2 & _).
  - apply (@reachable_inside E0 exNew exBuffered exInside exBufferedEvents).
    + apply reachable_new.
    + reflexivity.
  - split; assumption.
Defined.

(** The session of [exBuffered] is found by its address and again by its
    receive handle 21. *)
Lemma lookup_by_ip6_then_by_handle_witness :
  sessionForHandle (E:=E0) (receiveHandle exBufferedSession) exBuffered
  = Ok (Some 0%nat, exBuffered, []).
Proof.
  apply (@lookup_by_ip6_then_by_handle E0 exBuffered exBuffered (hash exKey) 0%nat []
           exBufferedSession).
  - apply (@reachable_inside E0 exNew exBuffered exInside exBufferedEvents).
    + apply reachable_new.
    + reflexivity.
  - apply Z.leb_le. reflexivity.
  - reflexivity.
  - reflexivity.
Defined.

(** The buffered message of [exBuffered] is no DHT message. *)
Lemma dht_messages_are_never_buffered_witness :
  Forall (fun e => isCJDHT (E:=E0) (bm_msg (Map_value e)) = false)
         (Map_entries (bufMap exBuffered)).
Proof.
  destruct (@dht_messages_are_never_buffered E0 exBuffered) as (H1 & _).
  - apply (@reachable_inside E0 exNew exBuffered exInside exBufferedEvents).
    + apply reachable_new.
    + reflexivity.
  - exact H1.
Defined.

(** The event SESSIONS with an empty payload on [exBuffered]. *)
Lemma sessions_event_lists_sessions_witness :
  incomingFromEventIf (E:=E0) exSessions exBuffered
  = Ok (tt, exBuffered,
        map (fun e => sessionEvent (Map_value e) (sendSwitchLabel (Map_value e))
                        (be_value (mem_read (buf exSessions) (off exSessions + 4) 4))
                        (PFChan_Core_SESSION (Externals:=E0)))
            (Map_entries (ifaceMap exBuffered))).
Proof.
  apply (@sessions_event_lists_sessions E0 E0_Node_length exSessions exBuffered).
  - apply Z.leb_le. reflexivity.
  - reflexivity.
  - reflexivity.
Defined.

(** The sessions of [exTwo] are in order. *)
Lemma exTwo_sessions_ok : sessions_ok (E:=E0) exTwo.
Proof.
  constructor.
  - repeat constructor; cbn; intuition discriminate.
  - repeat constructor; cbn; intuition discriminate.
  - apply Z.leb_le. reflexivity.
  - repeat constructor; first [apply Z.leb_le | apply Z.ltb_lt]; reflexivity.
  - repeat constructor.
Qed.

(** The session in slot 1 of [exTwo] has timed out: it is ended, and the
    one event after its SESSION_ENDED is that of the session in slot 0,
    another session, which is ended too because its keep-alive is later
    than the clock. *)
Lemma timed_out_session_is_ended_witness :
  exists sm' before,
    checkTimedOutSessions (E:=E0) exTwo
    = Ok (tt, sm',
          before ++ sessionEvent exSecondSession 19 0xffffffff
                      (PFChan_Core_SESSION_ENDED (Externals:=E0))
          :: [sessionEvent exAheadSession 23 0xffffffff
                (PFChan_Core_SESSION_ENDED (Externals:=E0))])
    /\ hash exKey2 <> hash exKey
    /\ receiveHandle exAheadSession <> receiveHandle exSecondSession
    /\ sessionForIp6 (E:=E0) (hash exKey) sm' = Ok (None, sm', [])
    /\ sessionForHandle (E:=E0) 22 sm' = Ok (None, sm', [])
    /\ ~ In 1 (liveAllocs sm').
Proof.
  destruct (@timed_out_session_is_ended E0 E0_Node_length E0_Node_fits exTwo 1%nat
              (mkEntry (hash exKey) 1 exSecondSession))
    as (sm' & before & after & H1 & H2 & H3 & H4 & H5 & H6).
  - exact exTwo_sessions_ok.
  - apply Z.leb_le. reflexivity.
  - reflexivity.
  - apply Z.leb_le. reflexivity.
  - apply Z.ltb_lt. reflexivity.
  - apply Z.ltb_lt. reflexivity.
  - exists sm', before. rewrite H2 in H1.
    destruct (H3 (mkEntry (hash exKey2) 0 exAheadSession)) as [H3a H3b];
      [left; reflexivity|].
    split; [exact H1|]. split; [exact H3a|]. split; [exact H3b|].
    split; [exact H4|]. split; [exact H5 | exact H6].
Defined.

(** The pathfinder [exPathfinder] is initializing: the event CONNECT with
    the key [exKey] makes it run, with the address of that key and the path
    1, and the event SESSIONS is fatal. *)
Lemma initializing_accepts_only_connect_witness :
  (exists pf',
     Pathfinder.incomingFromEventIf (E:=E0) (D:=D0) exConnect exPathfinder = Ok (tt, pf', [])
     /\ Pathfinder.state pf' = Pathfinder.Pathfinder_pvt_state_RUNNING
     /\ Pathfinder.key (Pathfinder.myAddr pf') = exKey
     /\ Pathfinder.ip6 (Pathfinder.myAddr pf') = hash exKey
     /\ Pathfinder.path (Pathfinder.myAddr pf') = 1
     /\ Pathfinder.nodeStore pf' = Some tt)
  /\ Pathfinder.incomingFromEventIf (E:=E0) (D:=D0) exSessions exPathfinder = Fatal.
Proof.
  split.
  - eexists. split.
    + apply (proj2 (@PathfinderFacts.initializing_accepts_only_connect E0 D0 exConnect
                      (mkMessage (buf exConnect) 4 104) 1024 exPathfinder
                      eq_refl eq_refl) eq_refl).
      * apply Z.leb_le. reflexivity.
      * reflexivity.
    + repeat split; reflexivity.
  - apply (proj1 (@PathfinderFacts.initializing_accepts_only_connect E0 D0 exSessions
                    (mkMessage (buf exSessions) 4 4) 518 exPathfinder
                    eq_refl eq_refl)).
    discriminate.
Defined.


(** ** The further properties at concrete inputs *)

(** The session of [exSearchDue] is due for a search. *)
Lemma search_is_requested_when_due_witness :
  exists sm' before msg after,
    checkTimedOutSessions (E:=E0) exSearchDue
    = Ok (tt, sm', before ++ EventIf msg :: after)
    /\ Message_bytes msg
       = be_bytes 4 (PFChan_Core_SEARCH_REQ (Externals:=E0)) ++ be_bytes 4 0xffffffff
           ++ firstn 16 (hash exKey) ++ be_bytes 4 0 ++ be_bytes 4 18
    /\ In (mkEntry (hash exKey) 0 (set_lastSearchTime 30000 exMaintainedSession))
          (Map_entries (ifaceMap sm')).
Proof.
  apply (@search_is_requested_when_due E0 E0_Node_length E0_Node_fits
           exSearchDue 0%nat (mkEntry (hash exKey) 0 exMaintainedSession)).
  - reflexivity.
  - apply Z.leb_le. reflexivity.
  - discriminate.
  - apply Z.leb_le. reflexivity.
Defined.

(** The round on [exTimedOut], whose one session has timed out, leaves no
    session.  Nor does the round on [exEarly], whose clock is behind the
    last keep-alive of the session: the difference wraps around to more
    than the timeout. *)
Lemma round_keeps_the_live_sessions_witness :
  (exists sm' o,
     checkTimedOutSessions (E:=E0) exTimedOut = Ok (tt, sm', o)
     /\ map (fun e => (Map_key e, Map_handle e)) (Map_entries (ifaceMap sm')) = []
     /\ Forall isEvent o
     /\ bufMap sm' = bufMap exTimedOut)
  /\ (exists sm' o,
        checkTimedOutSessions (E:=E0) exEarly = Ok (tt, sm', o)
        /\ eventBase exEarly - timeOfKeepAliveIn exUnmaintainedSession = -500
        /\ map (fun e => (Map_key e, Map_handle e)) (Map_entries (ifaceMap sm')) = []).
Proof.
  split.
  - destruct (@round_keeps_the_live_sessions E0 E0_Node_length E0_Node_fits exTimedOut)
      as (sm' & o & H1 & H2 & _ & H4 & H5).
    exists sm', o. split; [exact H1|]. split; [exact H2|]. split; assumption.
  - destruct (@round_keeps_the_live_sessions E0 E0_Node_length E0_Node_fits exEarly)
      as (sm' & o & H1 & H2 & _).
    exists sm', o. split; [exact H1|]. split; [reflexivity | exact H2].
Defined.

(** The handle list of [exBuffered] is the one handle 21. *)
Lemma handle_list_is_the_receive_handles_witness :
  SessionManager_getHandleList exBuffered = [21]
  /\ Map_indexForHandle ((21 - firstHandle exBuffered) mod 2 ^ 32) (ifaceMap exBuffered)
     = Some 0%nat.
Proof.
  destruct (@handle_list_is_the_receive_handles E0 exBuffered) as (H1 & _ & H3).
  - apply (@reachable_inside E0 exNew exBuffered exInside exBufferedEvents).
    + apply reachable_new.
    + reflexivity.
  - split; [exact H1|].
    destruct H3 as [_ H3].
    + apply Z.leb_le. reflexivity.
    + apply H3. reflexivity.
Defined.

(** Three frames that are dropped: [exShortFrame] on the new manager,
    [exUnknownHandle] on the new manager, which has no session, and
    [exSetupOnHandle] on [exBuffered], whose session has the handle 21. *)
Lemma switch_frames_that_are_dropped_witness :
  incomingFromSwitchIf (E:=E0) exShortFrame exNew = Ok (tt, exNew, [])
  /\ incomingFromSwitchIf (E:=E0) exUnknownHandle exNew = Ok (tt, exNew, [])
  /\ incomingFromSwitchIf (E:=E0) exSetupOnHandle exBuffered = Ok (tt, exBuffered, []).
Proof.
  split; [|split].
  - apply (proj1 (@switch_frames_that_are_dropped E0 exShortFrame exNew
                    ltac:(discriminate))).
    apply Z.ltb_lt. reflexivity.
  - refine (proj1 (proj2 (proj2 (@switch_frames_that_are_dropped E0 exUnknownHandle exNew
                                   ltac:(discriminate)) _ _) _ _) _).
    + apply Z.leb_le. reflexivity.
    + apply Z.eqb_neq. reflexivity.
    + apply Z.leb_le. reflexivity.
    + apply Z.ltb_lt. reflexivity.
    + reflexivity.
  - refine (proj2 (proj2 (proj2 (@switch_frames_that_are_dropped E0 exSetupOnHandle
                                   exBuffered ltac:(discriminate)) _ _) _ _)
              0%nat exBuffered [] _ _).
    + apply Z.leb_le. reflexivity.
    + apply Z.eqb_neq. reflexivity.
    + apply Z.leb_le. reflexivity.
    + apply Z.ltb_lt. reflexivity.
    + reflexivity.
    + apply Z.ltb_lt. reflexivity.
Defined.

(** An event of four bytes and an event of the kind 999 are fatal. *)
Lemma malformed_events_are_fatal_witness :
  incomingFromEventIf (E:=E0) exShortEvent exNew = Fatal
  /\ incomingFromEventIf (E:=E0) exUnknownEvent exNew = Fatal.
Proof.
  split.
  - apply (proj1 (@malformed_events_are_fatal E0 E0_Node_length exShortEvent exNew)).
    apply Z.ltb_lt. reflexivity.
  - refine (proj1 (proj2 (@malformed_events_are_fatal E0 E0_Node_length exUnknownEvent
                            exNew) _ _) _).
    + apply Z.leb_le. reflexivity.
    + apply Z.eqb_neq. reflexivity.
    + apply Z.eqb_neq. reflexivity.
Defined.

(** The new manager has no session for the node of [exNodeEvent]. *)
Lemma node_event_for_unknown_address_is_ignored_witness :
  incomingFromEventIf (E:=E0) exNodeEvent exNew = Ok (tt, exNew, []).
Proof.
  apply (@node_event_for_unknown_address_is_ignored E0 E0_Node_length exNodeEvent exNew).
  - reflexivity.
  - reflexivity.
  - apply Z.eqb_neq. reflexivity.
  - reflexivity.
  - left. reflexivity.
Defined.

(** [exUnmaintained] has a session for the node of [exNodeEvent]; its crypto
    session is in state 0, so the event UNSETUP_SESSION follows. *)
Lemma node_event_updates_the_session_witness :
  exists sm' (s' : Session (E:=E0)),
    incomingFromEventIf (E:=E0) exNodeEvent exUnmaintained
    = Ok (tt, sm', [unsetupEvent s'])
    /\ sendSwitchLabel s' = 0x15.
Proof.
  eexists. exists (updateExisting 18 0x15 0xfffffff0 0 exUnmaintainedSession).
  split.
  - apply (@node_event_updates_the_session E0 E0_Node_length E0_Node_fits exNodeEvent
             exUnmaintained exUnmaintained 0%nat [] exUnmaintainedSession).
    + reflexivity.
    + reflexivity.
    + apply Z.eqb_neq. reflexivity.
    + reflexivity.
    + reflexivity.
    + reflexivity.
    + reflexivity.
  - reflexivity.
Defined.


(** The event kinds of the example instance are distinct. *)
Lemma D0_dispatched : NoDup (Pathfinder.dispatched (E:=E0) (D:=D0)).
Proof.
  change (NoDup [1027; 1028; 1029; 1030; 1031; 1032; 1033; 1034; 1035; 1036]).
  repeat (constructor; [cbn; intuition discriminate|]). constructor.
Qed.

(** The pathfinder [exRunning] answers [exPing] with PONG and the three
    bytes of the payload. *)
Lemma ping_is_answered_with_pong_witness :
  exists reply,
    Pathfinder.incomingFromEventIf (E:=E0) (D:=D0) exPing exRunning
    = Ok (tt, exRunning, [reply])
    /\ Message_bytes reply = be_bytes 4 517 ++ [1; 2; 3].
Proof.
  apply (@PathfinderFacts.ping_is_answered_with_pong E0 D0 exPing exRunning D0_dispatched).
  - discriminate.
  - unfold Message_ok. repeat split; apply Z.leb_le; reflexivity.
  - apply Z.leb_le. reflexivity.
  - reflexivity.
Defined.

(** [exRunning] ignores [exPong]; a second CONNECT is fatal. *)
Lemma running_rejects_unknown_events_witness :
  Pathfinder.incomingFromEventIf (E:=E0) (D:=D0) exPong exRunning = Ok (tt, exRunning, [])
  /\ Pathfinder.incomingFromEventIf (E:=E0) (D:=D0) exConnect exRunning = Fatal.
Proof.
  split.
  - refine (proj2 (@PathfinderFacts.running_rejects_unknown_events E0 D0 exPong
                     (mkMessage (buf exPong) 4 0) 1036 exRunning _ eq_refl)
              D0_dispatched eq_refl).
    discriminate.
  - refine (proj1 (@PathfinderFacts.running_rejects_unknown_events E0 D0 exConnect
                     (mkMessage (buf exConnect) 4 104) 1024 exRunning _ eq_refl) _).
    + discriminate.
    + change (~ In 1024 [1027; 1028; 1029; 1030; 1031; 1032; 1033; 1034; 1035; 1036]).
      cbn. intuition discriminate.
Defined.

(** The payload of [exPong] is empty: no node, no address, no switch error. *)
Lemma payload_of_the_wrong_size_is_fatal_witness :
  Pathfinder.peer (E:=E0) (D:=D0) (mkMessage (buf exPong) 4 0) exRunning = Fatal
  /\ Pathfinder.searchReq (E:=E0) (D:=D0) (mkMessage (buf exPong) 4 0) exRunning = Fatal
  /\ Pathfinder.switchErr (E:=E0) (D:=D0) (mkMessage (buf exPong) 4 0) exRunning = Fatal.
Proof.
  destruct (@PathfinderFacts.payload_of_the_wrong_size_is_fatal E0 D0
              (mkMessage (buf exPong) 4 0) exRunning)
    as (H1 & H2 & H3).
  - apply Z.leb_le. reflexivity.
  - apply Z.leb_le. reflexivity.
  - split; [|split].
    + apply H1. discriminate.
    + apply H2. discriminate.
    + apply H3. apply Z.ltb_lt. reflexivity.
Defined.



(** The first handle of [exBuffered] is 21, and so is the receive handle
    of its session, whose slot has the handle 0. *)
Lemma receive_handles_are_not_nonces_witness :
  MIN_FIRST_HANDLE <= firstHandle exBuffered < MAX_FIRST_HANDLE
  /\ 3 < receiveHandle exBufferedSession.
Proof.
  destruct (@receive_handles_are_not_nonces E0 exBuffered) as [H1 H2].
  - apply (@reachable_inside E0 exNew exBuffered exInside exBufferedEvents).
    + apply reachable_new.
    + reflexivity.
  - split; [exact H1|].
    apply (H2 (mkEntry (hash exKey) 0 exBufferedSession)).
    + left. reflexivity.
    + apply Z.ltb_lt. reflexivity.
Defined.


(** The new manager makes a session for the key [exKey]. *)
Lemma getSession_creates_a_session_witness :
  exists sm' ev,
    getSession (E:=E0) (hash exKey) exKey 18 0x13 0xfffffff1 1 exNew
    = Ok (0%nat, sm', [ev])
    /\ sessionForIp6 (E:=E0) (hash exKey) sm' = Ok (Some 0%nat, sm', []).
Proof.
  destruct (@getSession_creates_a_session E0 E0_Node_length
              (hash exKey) exKey 18 0x13 0xfffffff1 1 exNew
              eq_refl eq_refl (or_intror eq_refl) eq_refl) as [H1 H2].
  eexists. eexists. split; [exact H1 | exact H2].
Defined.


(** [exCtrlOut] goes to the switch: its switch header, 0xffffffff, and its
    four bytes. *)
Lemma inside_control_frame_goes_to_the_switch_witness :
  exists out,
    incomingFromInsideIf (E:=E0) exCtrlOut exNew = Ok (tt, exNew, [SwitchIf out])
    /\ Message_bytes out
       = (be_bytes 8 0x13 ++ [0; 0; 0; 0]) ++ be_bytes 4 0xffffffff ++ [9; 9; 9; 9].
Proof.
  refine (proj2 (@inside_control_frame_goes_to_the_switch E0 exCtrlOut exNew
                   _ _ _ _ _ _ _) eq_refl eq_refl).
  - unfold Message_ok. repeat split; apply Z.leb_le; reflexivity.
  - apply Z.leb_le. reflexivity.
  - apply Z.leb_le. reflexivity.
  - apply Z.leb_le. reflexivity.
  - apply Z.leb_le. reflexivity.
  - apply Z.leb_le. reflexivity.
  - apply Z.eqb_neq. reflexivity.
Defined.

Lemma E0_set_flags_length (f : Z) (h : list Z) :
  Z.of_nat (length h) = RouteHeader_SIZE (Externals:=E0) ->
  Z.of_nat (length (RouteHeader_set_flags (Externals:=E0) f h))
  = RouteHeader_SIZE (Externals:=E0).
Proof.
  intros H. change (Z.of_nat (length h) = 68) in H.
  change (Z.of_nat (length (mem_write h 48 (be_bytes 1 f))) = 68).
  rewrite mem_write_length by (cbn [length be_bytes]; lia). exact H.
Qed.

(** [exCtrlIn] goes to the inside behind a route header that carries its
    switch header with the label reversed, 2^63. *)
Lemma switch_control_frame_goes_inside_witness :
  exists out,
    incomingFromSwitchIf (E:=E0) exCtrlIn exNew = Ok (tt, exNew, [InsideIf out])
    /\ Message_bytes out
       = (zeros 32 ++ (be_bytes 8 (2 ^ 63) ++ [0; 0; 0; 0]) ++ zeros 4
            ++ [3; 0; 0; 0] ++ zeros 16)
         ++ [7; 7; 7; 7].
Proof.
  apply (@switch_control_frame_goes_inside E0 exCtrlIn exNew
           E0_set_label_be_length E0_set_flags_length).
  - apply Z.leb_le. reflexivity.
  - apply Z.leb_le. reflexivity.
  - apply Z.leb_le. reflexivity.
  - unfold Message_ok. repeat split; apply Z.leb_le; reflexivity.
  - apply Z.leb_le. reflexivity.
  - apply Z.leb_le. reflexivity.
  - reflexivity.
Defined.


(** The new manager buffers [exCold] and asks for a search. *)
Lemma message_for_unknown_node_is_buffered_witness :
  exists sm',
    incomingFromInsideIf (E:=E0) exCold exNew
    = Ok (tt, sm', [searchEvent (E:=E0) (hash exKey) 0])
    /\ Map_entries (bufMap sm') = [mkEntry (hash exKey) 0 (mkBuffered exCold 0 1000)]
    /\ liveAllocs sm' = [0]
    /\ ifaceMap sm' = ifaceMap exNew.
Proof.
  refine (proj2 (@message_for_unknown_node_is_buffered E0
                   exCold exNew _ _ eq_refl eq_refl (or_introl eq_refl))
            eq_refl eq_refl _).
  - apply Z.leb_le. reflexivity.
  - apply Z.leb_le. reflexivity.
  - apply Z.ltb_lt. reflexivity.
Defined.


(** The frame [exData] authenticates: the session of [exBuffered] counts its
    76 bytes and the time 1000. *)
Lemma authenticated_frame_reaches_the_inside_witness :
  exists sm' o s',
    incomingFromSwitchIf (E:=E0) exData exBuffered = Ok (tt, sm', o)
    /\ sessionAt sm' 0 = Some s'
    /\ bytesIn s' = 76 /\ timeOfKeepAliveIn s' = 1000 /\ recvSwitchLabel s' = 2 ^ 63.
Proof.
  destruct (@authenticated_frame_reaches_the_inside E0 E0_Node_length
              exData exBuffered exBuffered [] 0%nat exDataX exDataD exBufferedSession
              (mkCa exKey (hash exKey) 100)) as [H1 _].
  - apply Z.leb_le. reflexivity.
  - apply Z.leb_le. reflexivity.
  - apply Z.eqb_neq. reflexivity.
  - apply Z.ltb_lt. reflexivity.
  - reflexivity.
  - reflexivity.
  - reflexivity.
  - reflexivity.
  - apply Z.leb_le. reflexivity.
  - apply Z.leb_le. reflexivity.
  - apply Z.leb_le. reflexivity.
  - eexists. eexists. eexists. split; [exact H1|].
    split; [reflexivity|]. split; [reflexivity|]. split; reflexivity.
Defined.




(** [exInside] for the session of [exEstablished]: one frame goes to the
    switch, and the session counts the eight bytes behind the route header
    and the time 2000. *)
Lemma readyToSend_sends_to_the_switch_witness :
  exists sm' out s',
    readyToSend (E:=E0) exInside 0 exEstablished = Ok (tt, sm', [SwitchIf out])
    /\ sessionAt sm' 0 = Some s'
    /\ bytesOut s' = 8 /\ timeOfLastOut s' = 2000.
Proof.
  eexists. eexists. eexists. split.
  - apply (@readyToSend_sends_to_the_switch E0 exInside exEstablished 0%nat
             exEstablishedSession (mkCa exKey (hash exKey) 100) exInsideE).
    + apply Z.leb_le. reflexivity.
    + apply Z.leb_le. reflexivity.
    + reflexivity.
    + apply Z.leb_le. reflexivity.
    + apply Z.leb_le. reflexivity.
    + reflexivity.
    + apply Z.leb_le. reflexivity.
    + reflexivity.
    + apply Z.leb_le. reflexivity.
    + apply Z.leb_le. reflexivity.
  - split; [reflexivity|]. split; reflexivity.
Defined.


(** The session of [exBuffered] is in state 0: after [exNodeEvent] the
    message still waits. *)
Lemma node_event_sends_the_buffered_message_witness :
  exists sm' o,
    incomingFromEventIf (E:=E0) exNodeEvent exBuffered = Ok (tt, sm', o)
    /\ bufMap sm' = bufMap exBuffered.
Proof.
  eexists. eexists.
  refine (proj1 (@node_event_sends_the_buffered_message E0 E0_Node_length E0_Node_fits
                   exNodeEvent exBuffered exBuffered 0%nat 0%nat [] exBufferedSession
                   exBufferedEntry _ _ _ _ _ _ _ _) _).
  - reflexivity.
  - reflexivity.
  - apply Z.eqb_neq. reflexivity.
  - reflexivity.
  - reflexivity.
  - reflexivity.
  - reflexivity.
  - reflexivity.
  - apply Z.ltb_lt. reflexivity.
Defined.


(** After the handshake [exHello] the new session has the send handle 77. *)
Lemma handshake_sets_the_send_handle_witness :
  exists sm' o s',
    incomingFromSwitchIf (E:=E0) exHello exNew = Ok (tt, sm', o)
    /\ sessionAt sm' 0 = Some s'
    /\ sendHandle s' = 77 /\ bytesIn s' = 168.
Proof.
  destruct (@handshake_sets_the_send_handle E0 E0_Node_length
              exHello exNew exHelloState exHelloEvents 0%nat exHelloX exHelloD
              exHelloSession (mkCa exKey (hash exKey) 100)) as [H1 _].
  - apply Z.leb_le. reflexivity.
  - apply Z.leb_le. reflexivity.
  - apply Z.leb_le. reflexivity.
  - apply Z.leb_le. reflexivity.
  - reflexivity.
  - reflexivity.
  - reflexivity.
  - apply Z.leb_le. reflexivity.
  - apply Z.leb_le. reflexivity.
  - apply Z.leb_le. reflexivity.
  - eexists. eexists. eexists. split; [exact H1|].
    split; [reflexivity|]. split; reflexivity.
Defined.


(** The session of [exBuffered] is in state 0: the CJDHT message [exDht] is
    handed to [readyToSend] all the same. *)
Lemma message_for_a_session_is_sent_witness :
  incomingFromInsideIf (E:=E0) exDht exBuffered
  = readyToSend (E:=E0) exDht 0 exBuffered.
Proof.
  etransitivity.
  - apply (@message_for_a_session_is_sent E0 exDht exBuffered exBuffered 0%nat []
             exBufferedSession).
    + apply Z.leb_le. reflexivity.
    + apply Z.leb_le. reflexivity.
    + reflexivity.
    + reflexivity.
    + reflexivity.
    + apply Z.eqb_neq. reflexivity.
    + apply Z.eqb_neq. reflexivity.
    + left. reflexivity.
  - reflexivity.
Defined.


(** [exWaiting] has a message for the address of [exKey]: the event
    [exWrongNode] ends in a fatal assertion. *)
Lemma node_event_with_a_wrong_key_is_fatal_witness :
  incomingFromEventIf (E:=E0) exWrongNode exWaiting = Fatal.
Proof.
  refine (proj2 (@node_event_with_a_wrong_key_is_fatal E0 E0_Node_length exWrongNode exWaiting 0%nat
                   eq_refl eq_refl _ eq_refl eq_refl _) eq_refl _).
  - discriminate.
  - apply Z.eqb_neq. reflexivity.
  - discriminate.
Defined.


(** The setters of the example instance keep the sizes of the headers. *)
Lemma E0_set_ip6_length (a h : list Z) :
  Z.of_nat (length h) = RouteHeader_SIZE (Externals:=E0) ->
  Z.of_nat (length (RouteHeader_set_ip6 (Externals:=E0) a h))
  = RouteHeader_SIZE (Externals:=E0).
Proof.
  intros H. change (Z.of_nat (length h) = 68) in H.
  change (Z.of_nat (length (mem_write h 52 (fit 16 a))) = 68).
  rewrite mem_write_length by (rewrite ?fit_length; lia). exact H.
Qed.

Lemma E0_set_version_be_length (v : Z) (h : list Z) :
  Z.of_nat (length h) = RouteHeader_SIZE (Externals:=E0) ->
  Z.of_nat (length (RouteHeader_set_version_be (Externals:=E0) v h))
  = RouteHeader_SIZE (Externals:=E0).
Proof.
  intros H. change (Z.of_nat (length h) = 68) in H.
  change (Z.of_nat (length (mem_write h 44 (be_bytes 4 v))) = 68).
  rewrite mem_write_length by (rewrite ?be_bytes_length; lia). exact H.
Qed.

Lemma E0_set_publicKey_length (k h : list Z) :
  Z.of_nat (length h) = RouteHeader_SIZE (Externals:=E0) ->
  Z.of_nat (length (RouteHeader_set_publicKey (Externals:=E0) k h))
  = RouteHeader_SIZE (Externals:=E0).
Proof.
  intros H. change (Z.of_nat (length h) = 68) in H.
  change (Z.of_nat (length (mem_write h 0 (fit 32 k))) = 68).
  rewrite mem_write_length by (rewrite ?fit_length; lia). exact H.
Qed.

Lemma D0_setVersion_length (h : list Z) (v : Z) :
  Z.of_nat (length h) = DataHeader_SIZE (Externals:=E0) ->
  Z.of_nat (length (Pathfinder.DataHeader_setVersion (Dht:=D0) h v))
  = DataHeader_SIZE (Externals:=E0).
Proof.
  intros H. change (Z.of_nat (length h) = 4) in H.
  change (Z.of_nat (length (mem_write h 0
            [Z.lor (Z.shiftl (v mod 16) 4) (Z.land (nth 0 h 0) 15)])) = 4).
  rewrite mem_write_length by (cbn [length]; lia). exact H.
Qed.

Lemma D0_setContentType_length (h : list Z) (t : Z) :
  Z.of_nat (length h) = DataHeader_SIZE (Externals:=E0) ->
  Z.of_nat (length (Pathfinder.DataHeader_setContentType (Dht:=D0) h t))
  = DataHeader_SIZE (Externals:=E0).
Proof.
  intros H. change (Z.of_nat (length h) = 4) in H.
  change (Z.of_nat (length (mem_write h 2 (be_bytes 2 t))) = 4).
  rewrite mem_write_length by (rewrite ?be_bytes_length; lia). exact H.
Qed.

(** The request [exRequest] leaves as the event [exRequestEvent]: SENDMSG,
    a route header with the key, the label 0x15, the version 18 and the
    address of the request, a data header of version 1 and content type
    CJDHT, and the four bytes of the request. *)
Lemma request_of_the_dht_leaves_as_sendmsg_witness :
  Pathfinder.incomingFromDHT (E:=E0) (D:=D0) exRequest exRunning
  = Ok (false, exRunning, [exRequestEvent])
  /\ Message_bytes exRequestEvent
     = be_bytes 4 515
         ++ (repeat 6 32%nat ++ (be_bytes 8 0x15 ++ [0; 0; 0; 0]) ++ be_bytes 4 18
               ++ [0; 0; 0; 0] ++ hash exKey)
         ++ [16; 0; 1; 0] ++ [100; 49; 58; 113].
Proof.
  destruct (@PathfinderFacts.request_of_the_dht_leaves_as_sendmsg E0 D0 exRequest exRunning)
    as (_ & _ & H).
  - apply Z.leb_le. reflexivity.
  - apply Z.leb_le. reflexivity.
  - apply Z.leb_le. reflexivity.
  - apply Z.leb_le. reflexivity.
  - apply Z.leb_le. reflexivity.
  - exact D0_setVersion_length.
  - exact D0_setContentType_length.
  - exact E0_set_ip6_length.
  - exact E0_set_version_be_length.
  - exact E0_set_publicKey_length.
  - exact E0_set_label_be_length.
  - unfold Message_ok. repeat split; apply Z.leb_le; reflexivity.
  - destruct H as (ev & Hbytes & Hrun).
    + reflexivity.
    + apply Z.leb_le. reflexivity.
    + split; [reflexivity | reflexivity].
Defined.

End Closed.
